(** * pgcrtauth: the certificate/key pair engine, embedded in Rocq

    A shallow embedding of the Go packages [crtauth] (pair.go, crtauth.go,
    template.go, util.go) and [cmd] (util.go, init.go, generate.go), and
    the properties of the engine that were checked against it.

    Conventions.
    - Go [int] and [time.Duration] are 64-bit; they are [Z] values, and the
      wrap-around of the arithmetic the code performs is written out
      ([wrap64]).
    - Go strings are [string] (byte strings).
    - A Go [error] is [option error_val]; [None] is [nil].
    - A pointer is an address in a heap kept in the world, or [None] for
      [nil]; a dereference of [nil] is a panic.
    - Code that touches the process environment (the heaps of [Pair] and
      [CA] objects, the file system, [rand.Reader], the clock, external
      commands) is written in the monad [M], a state monad over [World]
      in which [None] stands for a run-time panic.
    - The Go libraries the code calls are modelled by what they are
      documented to do: [crypto/x509] and [encoding/pem] symbolically (an
      encoding is the structure it encodes), package [os] on a map from
      paths to nodes. [net.ParseIP], [strings.ToUpper] and
      [strings.TrimSpace] are parameters ([NetLib], [StringsLib]), and so
      is the error a failed read of [rand.Reader] returns ([w_rand_err]).
    - [pemBlockForKey], [publicKey] and [randSerial] are called by the
      files and defined in none of them: they follow the specification,
      and what [pemBlockForKey] does with a nil key is a parameter
      ([NilKey]). *)

From Stdlib Require Import ZArith Lia Bool Ascii String List.
From stdpp Require Import base option list gmap strings.

Local Open Scope string_scope.
Local Open Scope list_scope.

(** ** Strings: the functions of [strings] and [strconv] the code calls *)

(** [strings.ToUpper] and [strings.TrimSpace] work on Unicode text: the
    first maps every letter that has an upper case, the second trims
    every character [unicode.IsSpace] accepts, and the tables of both are
    those of the Go release at hand. The two functions are left to the
    library ([StringsLib]). What is stated of them is what every release
    does on ASCII text, where they are the functions [ToUpperASCII] and
    [TrimSpaceASCII] below. *)

(** A string of ASCII text: every byte is below [utf8.RuneSelf]. *)
Fixpoint isASCII (s : string) : bool :=
  match s with
  | EmptyString => true
  | String c s' => (N_of_ascii c <? 128)%N && isASCII s'
  end.

(** The upper case of an ASCII letter; other bytes are left as they are. *)
Definition upper_byte (c : ascii) : ascii :=
  let n := N_of_ascii c in
  if ((97 <=? n) && (n <=? 122))%N then ascii_of_N (n - 32) else c.

Fixpoint ToUpperASCII (s : string) : string :=
  match s with
  | EmptyString => EmptyString
  | String c s' => String (upper_byte c) (ToUpperASCII s')
  end.

(** ASCII white space as [unicode.IsSpace] has it: TAB, LF, VT, FF, CR, SPACE. *)
Definition isSpace (c : ascii) : bool :=
  let n := N_of_ascii c in
  (((9 <=? n) && (n <=? 13)) || (n =? 32))%N.

Fixpoint TrimLeft (s : string) : string :=
  match s with
  | EmptyString => EmptyString
  | String c s' => if isSpace c then TrimLeft s' else s
  end.

Fixpoint TrimRight (s : string) : string :=
  match s with
  | EmptyString => EmptyString
  | String c s' =>
      match TrimRight s' with
      | EmptyString => if isSpace c then EmptyString else String c EmptyString
      | t => String c t
      end
  end.

Definition TrimSpaceASCII (s : string) : string := TrimRight (TrimLeft s).

Class StringsLib := {
  strings_ToUpper : string -> string;
  strings_TrimSpace : string -> string;
  strings_ToUpper_ASCII :
    forall s, isASCII s = true -> strings_ToUpper s = ToUpperASCII s;
  strings_TrimSpace_ASCII :
    forall s, isASCII s = true -> strings_TrimSpace s = TrimSpaceASCII s
}.

Definition strings_HasPrefix (s p : string) : bool := String.prefix p s.

(** Range of a Go [int] (64-bit platforms). *)
Definition int_min : Z := (- 2 ^ 63)%Z.
Definition int_max : Z := (2 ^ 63 - 1)%Z.

(** Two's-complement wrap-around of 64-bit signed arithmetic. *)
Definition wrap64 (z : Z) : Z := ((z + 2 ^ 63) mod 2 ^ 64 - 2 ^ 63)%Z.

Definition digit (c : ascii) : option Z :=
  let n := N_of_ascii c in
  if ((48 <=? n) && (n <=? 57))%N then Some (Z.of_N n - 48)%Z else None.

Fixpoint digits (acc : Z) (s : string) : option Z :=
  match s with
  | EmptyString => Some acc
  | String c s' =>
      match digit c with
      | Some d => digits (10 * acc + d)%Z s'
      | None => None
      end
  end.

(** [strconv_Atoi]: optional sign, at least one decimal digit, value in
    the range of [int]; [None] is the error result. *)
Definition strconv_Atoi (s : string) : option Z :=
  let '(neg, body) :=
    match s with
    | String "-"%char s' => (true, s')
    | String "+"%char s' => (false, s')
    | _ => (false, s)
    end in
  match body with
  | EmptyString => None
  | _ =>
      match digits 0 body with
      | Some n =>
          let v := if neg then (- n)%Z else n in
          if ((int_min <=? v) && (v <=? int_max))%Z then Some v else None
      | None => None
      end
  end.

(** ** Errors *)

Inductive Errno := ENOENT | ENOTDIR | EISDIR.

Definition errno_text (e : Errno) : string :=
  match e with
  | ENOENT => "no such file or directory"
  | ENOTDIR => "not a directory"
  | EISDIR => "is a directory"
  end.

(** A cleaned path, as its list of components; [[]] is the directory the
    process starts from. *)
Abbreviation path := (list string).

Definition path_text (p : path) : string := String.concat "/" p.

(** The error values the program can hold: those made by [errors.New] and
    [fmt.Errorf] (a message), and the [*os.PathError] of a failed system call. *)
Inductive error_val :=
| ErrString (msg : string)
| PathError (op : string) (p : path) (e : Errno).

Definition error := option error_val.

(** The [Error()] method, which [%s] prints. *)
Definition Error (e : error_val) : string :=
  match e with
  | ErrString m => m
  | PathError op p e => op +:+ " " +:+ path_text p +:+ ": " +:+ errno_text e
  end.

Definition errors_New (msg : string) : error := Some (ErrString msg).

(** [os.IsNotExist]. *)
Definition os_IsNotExist (e : error) : bool :=
  match e with
  | Some (PathError _ _ ENOENT) => true
  | _ => false
  end.

(** [fmt.Errorf] with a format that ends in [%s] applied to an error. *)
Definition Errorf (prefix : string) (e : error_val) : error :=
  Some (ErrString (prefix +:+ Error e)).

(** ** Keys, certificates, DER and PEM (crypto/..., crypto/x509, encoding/pem)

    The cryptographic libraries are modelled symbolically: a key pair is
    identified by the randomness it was generated from, and a DER encoding
    by the structure it encodes. *)

Inductive Curve := P224 | P256 | P384 | P521.

Inductive PrivateKey :=
| RSAPrivateKey (bits seed : Z)
| ECDSAPrivateKey (curve : Curve) (seed : Z).

Inductive PublicKey :=
| RSAPublicKey (bits seed : Z)
| ECDSAPublicKey (curve : Curve) (seed : Z).

(** Nanoseconds since the Unix epoch. *)
Definition Time := Z.

(** [time.Hour], a [time.Duration] in nanoseconds. *)
Definition time_Hour : Z := (3600 * 10 ^ 9)%Z.

(** The zero [time.Time]: January 1, year 1, 00:00 UTC. *)
Definition zeroTime : Time := (- 62135596800 * 10 ^ 9)%Z.

Definition time_Add (t : Time) (d : Z) : Time := (t + d)%Z.

(** [net.IP], a byte slice. *)
Definition IP := list Z.

(** The fields [Organization] and [CommonName] of [pkix.Name], the ones the
    program sets. *)
Record Name := { pkix_Organization : list string; pkix_CommonName : string }.

Definition emptyName : Name := {| pkix_Organization := []; pkix_CommonName := "" |}.

(** [x509.KeyUsage] bits and the [x509.ExtKeyUsage] value the program uses. *)
Definition KeyUsageDigitalSignature : Z := 1.
Definition KeyUsageKeyEncipherment : Z := 4.
Definition KeyUsageCertSign : Z := 32.
Definition KeyUsageCRLSign : Z := 64.
Definition ExtKeyUsageServerAuth : Z := 1.

(** What a signed certificate encodes (the TBSCertificate of RFC 5280):
    the key-usage extension holds nine bits, the basic-constraints
    extension is present or not and carries the CA flag, and times have
    the precision of a second. *)
Record TBSCertificate := {
  tbs_SerialNumber : Z;
  tbs_Issuer : Name;
  tbs_Subject : Name;
  tbs_NotBefore : Time;
  tbs_NotAfter : Time;
  tbs_PublicKey : PublicKey;
  tbs_KeyUsage : Z;
  tbs_ExtKeyUsage : list Z;
  tbs_BasicConstraints : option bool;
  tbs_DNSNames : list string;
  tbs_IPAddresses : list IP
}.

Inductive DER :=
| DERNone
| DERCertificate (tbs : TBSCertificate) (signer : PublicKey)
| DERPKCS1 (bits seed : Z)
| DERSEC1 (curve : Curve) (seed : Z)
| DEROther (bytes : list Z).

(** The fields of [x509.Certificate] the program reads or writes.
    [SerialNumber] is a [*big.Int]: [None] is [nil]. *)
Record Certificate := {
  Raw : DER;
  SerialNumber : option Z;
  Issuer : Name;
  Subject : Name;
  NotBefore : Time;
  NotAfter : Time;
  KeyUsage : Z;
  ExtKeyUsage : list Z;
  BasicConstraintsValid : bool;
  IsCA : bool;
  DNSNames : list string;
  IPAddresses : list IP;
  CertPublicKey : option PublicKey
}.

(** [x509.Certificate{}]. *)
Definition emptyCertificate : Certificate := {|
  Raw := DERNone; SerialNumber := None; Issuer := emptyName; Subject := emptyName;
  NotBefore := zeroTime; NotAfter := zeroTime; KeyUsage := 0%Z; ExtKeyUsage := [];
  BasicConstraintsValid := false; IsCA := false; DNSNames := []; IPAddresses := [];
  CertPublicKey := None |}.

Definition set_Issuer (n : Name) (c : Certificate) : Certificate := {|
  Raw := Raw c; SerialNumber := SerialNumber c; Issuer := n; Subject := Subject c;
  NotBefore := NotBefore c; NotAfter := NotAfter c; KeyUsage := KeyUsage c;
  ExtKeyUsage := ExtKeyUsage c; BasicConstraintsValid := BasicConstraintsValid c;
  IsCA := IsCA c; DNSNames := DNSNames c; IPAddresses := IPAddresses c;
  CertPublicKey := CertPublicKey c |}.

Definition set_IsCA (b : bool) (c : Certificate) : Certificate := {|
  Raw := Raw c; SerialNumber := SerialNumber c; Issuer := Issuer c; Subject := Subject c;
  NotBefore := NotBefore c; NotAfter := NotAfter c; KeyUsage := KeyUsage c;
  ExtKeyUsage := ExtKeyUsage c; BasicConstraintsValid := BasicConstraintsValid c;
  IsCA := b; DNSNames := DNSNames c; IPAddresses := IPAddresses c;
  CertPublicKey := CertPublicKey c |}.

Definition set_KeyUsage (u : Z) (c : Certificate) : Certificate := {|
  Raw := Raw c; SerialNumber := SerialNumber c; Issuer := Issuer c; Subject := Subject c;
  NotBefore := NotBefore c; NotAfter := NotAfter c; KeyUsage := u;
  ExtKeyUsage := ExtKeyUsage c; BasicConstraintsValid := BasicConstraintsValid c;
  IsCA := IsCA c; DNSNames := DNSNames c; IPAddresses := IPAddresses c;
  CertPublicKey := CertPublicKey c |}.

Definition set_ExtKeyUsage (u : list Z) (c : Certificate) : Certificate := {|
  Raw := Raw c; SerialNumber := SerialNumber c; Issuer := Issuer c; Subject := Subject c;
  NotBefore := NotBefore c; NotAfter := NotAfter c; KeyUsage := KeyUsage c;
  ExtKeyUsage := u; BasicConstraintsValid := BasicConstraintsValid c;
  IsCA := IsCA c; DNSNames := DNSNames c; IPAddresses := IPAddresses c;
  CertPublicKey := CertPublicKey c |}.

Definition set_DNSNames (l : list string) (c : Certificate) : Certificate := {|
  Raw := Raw c; SerialNumber := SerialNumber c; Issuer := Issuer c; Subject := Subject c;
  NotBefore := NotBefore c; NotAfter := NotAfter c; KeyUsage := KeyUsage c;
  ExtKeyUsage := ExtKeyUsage c; BasicConstraintsValid := BasicConstraintsValid c;
  IsCA := IsCA c; DNSNames := l; IPAddresses := IPAddresses c;
  CertPublicKey := CertPublicKey c |}.

Definition set_IPAddresses (l : list IP) (c : Certificate) : Certificate := {|
  Raw := Raw c; SerialNumber := SerialNumber c; Issuer := Issuer c; Subject := Subject c;
  NotBefore := NotBefore c; NotAfter := NotAfter c; KeyUsage := KeyUsage c;
  ExtKeyUsage := ExtKeyUsage c; BasicConstraintsValid := BasicConstraintsValid c;
  IsCA := IsCA c; DNSNames := DNSNames c; IPAddresses := l;
  CertPublicKey := CertPublicKey c |}.

(** [pem.Block], without headers; [Type_] is its field [Type]. *)
Record Block := { Type_ : string; Bytes : DER }.

(** The content of a PEM stream as [pem.Decode] sees it: the well-formed
    blocks it holds, in order. Text between blocks is skipped by
    [pem.Decode] and is left out. *)
Definition PEMStream := list Block.

(** [pem.Decode]: the next block and the rest of the input, or [None]
    (a [nil] block) when no block is left. *)
Definition pem_Decode (data : PEMStream) : option (Block * PEMStream) :=
  match data with
  | [] => None
  | block :: rest => Some (block, rest)
  end.

(** An [io.Reader] as [ioutil.ReadAll] sees it: the data and the error of
    the read. *)
Record Reader := { rd_data : PEMStream; rd_err : error }.

Definition ioutil_ReadAll (r : Reader) : PEMStream * error := (rd_data r, rd_err r).

(** A time with the precision of a second, as ASN.1 encodes it. *)
Definition sec (t : Time) : Time := (t / 10 ^ 9 * 10 ^ 9)%Z.

(** [x509.ParseCertificate]. *)
Definition x509_ParseCertificate (der : DER) : option Certificate * error :=
  match der with
  | DERCertificate tbs signer =>
      (Some {| Raw := der;
               SerialNumber := Some (tbs_SerialNumber tbs);
               Issuer := tbs_Issuer tbs;
               Subject := tbs_Subject tbs;
               NotBefore := tbs_NotBefore tbs;
               NotAfter := tbs_NotAfter tbs;
               KeyUsage := tbs_KeyUsage tbs;
               ExtKeyUsage := tbs_ExtKeyUsage tbs;
               BasicConstraintsValid :=
                 match tbs_BasicConstraints tbs with Some _ => true | None => false end;
               IsCA :=
                 match tbs_BasicConstraints tbs with Some ca => ca | None => false end;
               DNSNames := tbs_DNSNames tbs;
               IPAddresses := tbs_IPAddresses tbs;
               CertPublicKey := Some (tbs_PublicKey tbs) |}, None)
  | _ => (None, errors_New "x509: malformed certificate")
  end.

(** [x509.ParsePKCS1PrivateKey]. *)
Definition x509_ParsePKCS1PrivateKey (der : DER) : option PrivateKey * error :=
  match der with
  | DERPKCS1 bits seed => (Some (RSAPrivateKey bits seed), None)
  | _ => (None, errors_New "x509: failed to parse RSA private key")
  end.

(** [x509.ParseECPrivateKey]. *)
Definition x509_ParseECPrivateKey (der : DER) : option PrivateKey * error :=
  match der with
  | DERSEC1 curve seed => (Some (ECDSAPrivateKey curve seed), None)
  | _ => (None, errors_New "x509: failed to parse EC private key")
  end.

(** ** The process environment *)

(** Pair represents a certificate and private key pair along with the key
    size in bits. [Cert] is a pointer and [Key] an interface: [None] is
    [nil]. The certificate is held by value: no two pairs share one
    [x509.Certificate] object in this model. *)
Record Pair := { Cert : option Certificate; Key : option PrivateKey; KeyBits : Z }.

(** A [*Pair]: [None] is [nil], [Some l] the address of a [Pair] object. *)
Definition ptr := option nat.

(** A directory, or a regular file, with its permission bits; the content
    of a file is the PEM stream it holds. Ownership and access checks are
    not modelled. *)
Inductive Node :=
| DirNode (mode : Z)
| FileNode (mode : Z) (data : PEMStream).

(** The calls the program makes to the operating system. *)
Inductive Syscall :=
| SysStat (p : path)
| SysMkdirAll (p : path) (perm : Z)
| SysOpen (p : path)
| SysOpenFile (p : path) (flag perm : Z)
| SysExec (argv : list string).

(** CA represents a certification authority: the pair of x509 certificate
    and private key ([CA_Pair] is its field [Pair]) and the file names of
    the crt and key files. *)
Record CA := { CA_Pair : ptr; CertFileName : string; KeyFileName : string }.

Record World := {
  w_pairs : list Pair;               (* the heap of Pair objects *)
  w_cas : list CA;                   (* the heap of CA objects *)
  w_fs : gmap path Node;             (* the file system *)
  w_rand : list (option Z);          (* rand.Reader: the reads to come, None a failed read *)
  w_rand_err : error_val;            (* the error a failed read of rand.Reader returns *)
  w_now : Time;                      (* the clock *)
  w_goos : string;                   (* runtime.GOOS *)
  w_exec : list string -> error;     (* the outcome of running a command line *)
  w_trace : list Syscall;            (* the system calls made so far *)
  w_out : list string                (* what the command has printed *)
}.

Definition set_pairs (h : list Pair) (w : World) : World := {|
  w_pairs := h; w_cas := w_cas w; w_fs := w_fs w; w_rand := w_rand w;
  w_rand_err := w_rand_err w; w_now := w_now w;
  w_goos := w_goos w; w_exec := w_exec w; w_trace := w_trace w; w_out := w_out w |}.

Definition set_cas (h : list CA) (w : World) : World := {|
  w_pairs := w_pairs w; w_cas := h; w_fs := w_fs w; w_rand := w_rand w;
  w_rand_err := w_rand_err w; w_now := w_now w;
  w_goos := w_goos w; w_exec := w_exec w; w_trace := w_trace w; w_out := w_out w |}.

Definition set_fs (fs : gmap path Node) (w : World) : World := {|
  w_pairs := w_pairs w; w_cas := w_cas w; w_fs := fs; w_rand := w_rand w;
  w_rand_err := w_rand_err w; w_now := w_now w;
  w_goos := w_goos w; w_exec := w_exec w; w_trace := w_trace w; w_out := w_out w |}.

Definition set_rand (r : list (option Z)) (w : World) : World := {|
  w_pairs := w_pairs w; w_cas := w_cas w; w_fs := w_fs w; w_rand := r;
  w_rand_err := w_rand_err w; w_now := w_now w;
  w_goos := w_goos w; w_exec := w_exec w; w_trace := w_trace w; w_out := w_out w |}.

Definition log (c : Syscall) (w : World) : World := {|
  w_pairs := w_pairs w; w_cas := w_cas w; w_fs := w_fs w; w_rand := w_rand w;
  w_rand_err := w_rand_err w; w_now := w_now w;
  w_goos := w_goos w; w_exec := w_exec w; w_trace := w_trace w ++ [c]; w_out := w_out w |}.

Definition print (line : string) (w : World) : World := {|
  w_pairs := w_pairs w; w_cas := w_cas w; w_fs := w_fs w; w_rand := w_rand w;
  w_rand_err := w_rand_err w; w_now := w_now w;
  w_goos := w_goos w; w_exec := w_exec w; w_trace := w_trace w; w_out := w_out w ++ [line] |}.

(** The monad of the program: state over [World]; [None] is a panic. *)
Definition M (A : Type) : Type := World -> option (A * World).

Definition ret {A : Type} (a : A) : M A := fun w => Some (a, w).

Definition bind {A B : Type} (m : M A) (k : A -> M B) : M B :=
  fun w => match m w with
           | Some (a, w') => k a w'
           | None => None
           end.

Definition panic {A : Type} : M A := fun _ => None.

Definition gets {A : Type} (f : World -> A) : M A := fun w => Some (f w, w).

Definition modify (f : World -> World) : M unit := fun w => Some (tt, f w).

Declare Scope go_scope.
Delimit Scope go_scope with go.
Notation "x <- m ;; k" := (bind m (fun x => k))
  (at level 20, m at level 99, k at level 200, only parsing) : go_scope.
Notation "' pat <- m ;; k" := (bind m (fun x => match x with pat => k end))
  (at level 20, pat pattern, m at level 99, k at level 200, only parsing) : go_scope.
Local Open Scope go_scope.

(** *** The heap of pairs *)

(** [&Pair{...}]. *)
Definition alloc (v : Pair) : M ptr :=
  fun w => Some (Some (length (w_pairs w)), set_pairs (w_pairs w ++ [v]) w).

(** [*p]; a nil or dangling pointer panics. *)
Definition load (p : ptr) : M Pair :=
  fun w => match p with
           | Some l => match w_pairs w !! l with
                       | Some v => Some (v, w)
                       | None => None
                       end
           | None => None
           end.

(** [*p = v]. *)
Definition store (p : ptr) (v : Pair) : M unit :=
  _ <- load p ;;
  match p with
  | Some l => modify (fun w => set_pairs (<[l := v]> (w_pairs w)) w)
  | None => panic
  end.

(** [p.Cert = c], [p.Key = k]. *)
Definition store_Cert (p : ptr) (c : option Certificate) : M unit :=
  v <- load p ;; store p {| Cert := c; Key := Key v; KeyBits := KeyBits v |}.

Definition store_Key (p : ptr) (k : option PrivateKey) : M unit :=
  v <- load p ;; store p {| Cert := Cert v; Key := k; KeyBits := KeyBits v |}.

(** [*p.Cert]: the certificate of the pair; a nil [Cert] panics. *)
Definition load_Cert (p : ptr) : M Certificate :=
  v <- load p ;;
  match Cert v with
  | Some c => ret c
  | None => panic
  end.

(** An assignment to a field of [*p.Cert]. *)
Definition update_Cert (p : ptr) (f : Certificate -> Certificate) : M unit :=
  c <- load_Cert p ;; store_Cert p (Some (f c)).

(** *** The heap of CA objects *)

Definition allocCA (v : CA) : M (option nat) :=
  fun w => Some (Some (length (w_cas w)), set_cas (w_cas w ++ [v]) w).

Definition loadCA (ca : option nat) : M CA :=
  fun w => match ca with
           | Some l => match w_cas w !! l with
                       | Some v => Some (v, w)
                       | None => None
                       end
           | None => None
           end.

Definition storeCA (ca : option nat) (v : CA) : M unit :=
  _ <- loadCA ca ;;
  match ca with
  | Some l => modify (fun w => set_cas (<[l := v]> (w_cas w)) w)
  | None => panic
  end.

(** *** The file system (package os) *)

(** The node at a path; the starting directory always exists. *)
Definition lookupNode (fs : gmap path Node) (p : path) : option Node :=
  match p with
  | [] => Some (DirNode 493)
  | _ => fs !! p
  end.

Definition isFile (fs : gmap path Node) (p : path) : bool :=
  match lookupNode fs p with
  | Some (FileNode _ _) => true
  | _ => false
  end.

Definition isDir (fs : gmap path Node) (p : path) : bool :=
  match lookupNode fs p with
  | Some (DirNode _) => true
  | _ => false
  end.

(** The prefixes of a path, shortest first, the path itself last. *)
Fixpoint prefixes (p : path) : list path :=
  match p with
  | [] => [[]]
  | c :: q => [] :: map (cons c) (prefixes q)
  end.

(** [filepath.Dir] on a cleaned path. *)
Definition filepath_Dir (p : path) : path := removelast p.

(** [filepath.Join(dir, name)] for a cleaned directory and a file name of
    one component; an empty element is ignored. *)
Definition filepath_Join (dir : path) (name : string) : path :=
  if String.eqb name "" then dir else dir ++ [name].

(** The error number of a look-up of a path that does not exist. *)
Definition missing (fs : gmap path Node) (p : path) : Errno :=
  if existsb (isFile fs) (prefixes (filepath_Dir p)) then ENOTDIR else ENOENT.

(** [os.Stat], of which the program uses the error only. *)
Definition os_Stat (p : path) : M error :=
  _ <- modify (log (SysStat p)) ;;
  fs <- gets w_fs ;;
  match lookupNode fs p with
  | Some _ => ret None
  | None => ret (Some (PathError "stat" p (missing fs p)))
  end.

Definition mkdir (perm : Z) (fs : gmap path Node) (p : path) : gmap path Node :=
  match lookupNode fs p with
  | Some _ => fs
  | None => <[p := DirNode perm]> fs
  end.

(** The regular file in the way of a path: the prefix of the path that is
    a regular file (a well-formed file system has one at most), the path
    itself when there is none. *)
Definition fileInWay (fs : gmap path Node) (p : path) : path :=
  default p (List.find (isFile fs) (prefixes p)).

(** [os.MkdirAll]: creates the directory and the parents it lacks; fails
    when a regular file is in the way, with an error that names that
    file. *)
Definition os_MkdirAll (p : path) (perm : Z) : M error :=
  _ <- modify (log (SysMkdirAll p perm)) ;;
  fs <- gets w_fs ;;
  if existsb (isFile fs) (prefixes p)
  then ret (Some (PathError "mkdir" (fileInWay fs p) ENOTDIR))
  else _ <- modify (set_fs (foldl (mkdir perm) fs (prefixes p))) ;; ret None.

(** An open [*os.File], named by its path. *)
Definition File := path.

(** [os.O_RDWR|os.O_CREATE|os.O_TRUNC]. *)
Definition O_RDWR_CREATE_TRUNC : Z := 578.

(** [os.OpenFile] with those flags: an existing file is emptied and keeps
    its permission bits, a new one gets [perm] (the mode asked for: the
    mask of the process is not modelled). *)
Definition os_OpenFile (p : path) (flag perm : Z) : M (option File * error) :=
  _ <- modify (log (SysOpenFile p flag perm)) ;;
  fs <- gets w_fs ;;
  match lookupNode fs p with
  | Some (DirNode _) => ret (None, Some (PathError "open" p EISDIR))
  | Some (FileNode m _) =>
      _ <- modify (set_fs (<[p := FileNode m []]> fs)) ;; ret (Some p, None)
  | None =>
      match lookupNode fs (filepath_Dir p) with
      | Some (DirNode _) =>
          _ <- modify (set_fs (<[p := FileNode perm []]> fs)) ;; ret (Some p, None)
      | Some (FileNode _ _) => ret (None, Some (PathError "open" p ENOTDIR))
      | None => ret (None, Some (PathError "open" p (missing fs p)))
      end
  end.

(** [os.Open]: a directory opens, and fails when it is read. *)
Definition os_Open (p : path) : M (option Reader * error) :=
  _ <- modify (log (SysOpen p)) ;;
  fs <- gets w_fs ;;
  match lookupNode fs p with
  | Some (FileNode _ data) => ret (Some {| rd_data := data; rd_err := None |}, None)
  | Some (DirNode _) =>
      ret (Some {| rd_data := []; rd_err := Some (PathError "read" p EISDIR) |}, None)
  | None => ret (None, Some (PathError "open" p (missing fs p)))
  end.

(** [pem.Encode] to an open file: the block is appended to its content. *)
Definition pem_Encode (f : File) (b : Block) : M error :=
  fs <- gets w_fs ;;
  match lookupNode fs f with
  | Some (FileNode m data) =>
      _ <- modify (set_fs (<[f := FileNode m (data ++ [b])]> fs)) ;; ret None
  | _ => ret (Some (PathError "write" f EISDIR))
  end.

(** *** Randomness, clock, platform, commands *)

(** One read of [rand.Reader]. An exhausted source fails. *)
Definition rand_Read : M (option Z) :=
  r <- gets w_rand ;;
  match r with
  | [] => ret None
  | x :: r' => _ <- modify (set_rand r') ;; ret x
  end.

(** The error of a read that failed: the library hands on the error of
    the operating system, which the environment gives. *)
Definition rand_failure : M error_val := gets w_rand_err.

Definition time_Now : M Time := gets w_now.

Definition runtime_GOOS : M string := gets w_goos.

(** [exec.Command(name, args...).Run()]: the command line is recorded and
    its outcome is the one the environment gives; what the command does
    to the system is outside the model. *)
Definition exec_Run (name : string) (args : list string) : M error :=
  _ <- modify (log (SysExec (name :: args))) ;;
  run <- gets w_exec ;;
  ret (run (name :: args)).

(** *** Key generation and signing (crypto/ecdsa, crypto/rsa, crypto/x509) *)

(** [ecdsa.GenerateKey(c, rand.Reader)]; [c] is an interface, and a nil
    curve panics. *)
Definition ecdsa_GenerateKey (c : option Curve) : M (option PrivateKey * error) :=
  match c with
  | None => panic
  | Some curve =>
      r <- rand_Read ;;
      match r with
      | Some seed => ret (Some (ECDSAPrivateKey curve seed), None)
      | None => e <- rand_failure ;; ret (None, Some e)
      end
  end.

(** [rsa.GenerateKey(rand.Reader, bits)]. *)
Definition rsa_GenerateKey (bits : Z) : M (option PrivateKey * error) :=
  r <- rand_Read ;;
  match r with
  | Some seed => ret (Some (RSAPrivateKey bits seed), None)
  | None => e <- rand_failure ;; ret (None, Some e)
  end.

(** [x509.CreateCertificate(rand.Reader, template, parent, pub, priv)].
    The signer must be a key, the template must have a serial number and
    [pub] must be a public key. The encoding takes the issuer from the
    subject of [parent] (not from the [Issuer] field of the template) and
    the other fields from the template; the basic-constraints extension,
    which carries the CA flag, is encoded only when [BasicConstraintsValid]
    is set ("BasicConstraintsValid indicates whether IsCA, MaxPathLen, and
    MaxPathLenZero are valid"); the key-usage extension holds the nine
    bits of RFC 5280. Signing with an ECDSA key reads [rand.Reader]. *)
Definition x509_CreateCertificate (template parent : Certificate)
    (pub : option PublicKey) (priv : option PrivateKey) : M (DER * error) :=
  match priv, SerialNumber template, pub with
  | None, _, _ =>
      ret (DERNone, errors_New "x509: certificate private key does not implement crypto.Signer")
  | Some _, None, _ => ret (DERNone, errors_New "x509: no SerialNumber given")
  | Some _, Some _, None =>
      ret (DERNone, errors_New "x509: only RSA and ECDSA public keys supported")
  | Some key, Some serial, Some pk =>
      let tbs := {|
        tbs_SerialNumber := serial;
        tbs_Issuer := Subject parent;
        tbs_Subject := Subject template;
        tbs_NotBefore := sec (NotBefore template);
        tbs_NotAfter := sec (NotAfter template);
        tbs_PublicKey := pk;
        tbs_KeyUsage := Z.land (KeyUsage template) 511;
        tbs_ExtKeyUsage := ExtKeyUsage template;
        tbs_BasicConstraints :=
          if BasicConstraintsValid template then Some (IsCA template) else None;
        tbs_DNSNames := DNSNames template;
        tbs_IPAddresses := IPAddresses template |} in
      match key with
      | RSAPrivateKey bits seed => ret (DERCertificate tbs (RSAPublicKey bits seed), None)
      | ECDSAPrivateKey curve seed =>
          r <- rand_Read ;;
          match r with
          | Some _ => ret (DERCertificate tbs (ECDSAPublicKey curve seed), None)
          | None => e <- rand_failure ;; ret (DERNone, Some e)
          end
      end
  end.

(** ** Package crtauth: util.go *)

(** pemBlockForCert creates PEM block for the ASN.1 DER content of a certificate. *)
Definition pemBlockForCert (cert : Certificate) : Block :=
  {| Type_ := "CERTIFICATE"; Bytes := Raw cert |}.

(** Modelled from the spec: pemBlockForKey, which util.go calls and does
    not define here. The private key in its native marshaled form, under
    a block label that reflects the key's algorithm. A nil key has no
    marshaled form and no algorithm, and no block comes of it; whether
    the function then returns an error, returns a nil block without one,
    or panics is not said, and is left open ([NilKey]): [Some err] is the
    error it returns beside the nil block ([err] may be nil), [None] a
    panic. *)
Class NilKey := { pemBlockForKey_nil : option error }.

Definition pemBlockForKey `{NilKey} (key : option PrivateKey) : M (option Block * error) :=
  match key with
  | Some (RSAPrivateKey bits seed) =>
      ret (Some {| Type_ := "RSA PRIVATE KEY"; Bytes := DERPKCS1 bits seed |}, None)
  | Some (ECDSAPrivateKey curve seed) =>
      ret (Some {| Type_ := "EC PRIVATE KEY"; Bytes := DERSEC1 curve seed |}, None)
  | None =>
      match pemBlockForKey_nil with
      | Some err => ret (None, err)
      | None => panic
      end
  end.

(** Modelled from the spec: publicKey, which pair.go calls and does not
    define here. The public key derived from the held private key. *)
Definition publicKey (key : option PrivateKey) : option PublicKey :=
  match key with
  | Some (RSAPrivateKey bits seed) => Some (RSAPublicKey bits seed)
  | Some (ECDSAPrivateKey curve seed) => Some (ECDSAPublicKey curve seed)
  | None => None
  end.

(** Modelled from the spec: randSerial, which template.go calls and does
    not define here. A random non-negative integer of 128 bits, and an
    error when the entropy source fails. *)
Definition randSerial : M (option Z * error) :=
  r <- rand_Read ;;
  match r with
  | Some z => ret (Some (z mod 2 ^ 128)%Z, None)
  | None => e <- rand_failure ;; ret (None, Some e)
  end.

(** The [for] loop of readPEMCert, on the bytes read. *)
Fixpoint readPEMCert_loop `{StringsLib} (pemBytes : PEMStream) : option Certificate * error :=
  match pemBytes with                       (* block, rest := pem.Decode(pemBytes) *)
  | [] => (None, errors_New "CERTIFICATE block not found")
  | block :: rest =>
      let blockType := strings_ToUpper (Type_ block) in
      let blockType := strings_TrimSpace blockType in
      if String.eqb blockType "CERTIFICATE"
      then x509_ParseCertificate (Bytes block)
      else readPEMCert_loop rest
  end.

(** readPEMCert reads, decodes and parses a PEM certificate into a
    x509.Certificate structure. *)
Definition readPEMCert `{StringsLib} (cert : Reader) : option Certificate * error :=
  let '(pemBytes, err) := ioutil_ReadAll cert in
  match err with
  | Some e => (None, Errorf "could not read cert PEM: " e)
  | None => readPEMCert_loop pemBytes
  end.

(** The [for] loop of readPEMKey. *)
Fixpoint readPEMKey_loop `{StringsLib} (pemBytes : PEMStream) : option PrivateKey * error :=
  match pemBytes with                       (* block, rest := pem.Decode(pemBytes) *)
  | [] => (None, errors_New "PRIVATE KEY block not found")
  | block :: rest =>
      let blockType := strings_ToUpper (Type_ block) in
      let blockType := strings_TrimSpace blockType in
      if String.eqb blockType "RSA PRIVATE KEY"
      then x509_ParsePKCS1PrivateKey (Bytes block)
      else if String.eqb blockType "EC PRIVATE KEY"
      then x509_ParseECPrivateKey (Bytes block)
      else readPEMKey_loop rest
  end.

(** readPEMKey reads, decodes and parses a PEM encoded private key (RSA or EC). *)
Definition readPEMKey `{StringsLib} (cert : Reader) : option PrivateKey * error :=
  let '(pemBytes, err) := ioutil_ReadAll cert in
  match err with
  | Some e => (None, Errorf "could not read key PEM: " e)
  | None => readPEMKey_loop pemBytes
  end.

(** daysToDuration converts number of days into time.Duration:
    [time.Duration(days) * 24 * time.Hour], in 64-bit arithmetic. *)
Definition daysToDuration (days : Z) : Z :=
  wrap64 (wrap64 (wrap64 days * 24) * time_Hour).

(** The [switch bits] of genPrivKey: the curve stays nil for other sizes. *)
Definition curveFor (bits : Z) : option Curve :=
  if (bits =? 224)%Z then Some P224
  else if (bits =? 256)%Z then Some P256
  else if (bits =? 384)%Z then Some P384
  else if (bits =? 521)%Z then Some P521
  else None.

(** genPrivKey generates a rsa.PrivateKey or ecdsa.PrivateKey depending on
    the requested key size. *)
Definition genPrivKey (bits : Z) : M (option PrivateKey * error) :=
  '(priv, err) <- (if (bits <? 1024)%Z
                   then ecdsa_GenerateKey (curveFor bits)
                   else rsa_GenerateKey bits) ;;
  match err with
  | Some e => ret (None, Errorf "failed to generate private key: " e)
  | None => ret (priv, None)
  end.

(** ensureDirExists creates a directory and all necessary parent
    directories (with given permissions), unless it already exists. *)
Definition ensureDirExists (dir : path) (perm : Z) : M error :=
  err <- os_Stat dir ;;
  if os_IsNotExist err then
    err <- os_MkdirAll dir perm ;;
    match err with
    | Some e => ret (Errorf ("cannot create directory " +:+ path_text dir +:+ ": ") e)
    | None => ret None
    end
  else ret None.

(** mkdirAndCreateFile creates a new file with the specified permission
    along with all necessary parent directories. *)
Definition mkdirAndCreateFile (name : path) (dirPerm filePerm : Z)
    : M (option File * error) :=
  err <- ensureDirExists (filepath_Dir name) dirPerm ;;
  match err with
  | Some e => ret (None, Errorf ("file " +:+ path_text name +:+ " not created: ") e)
  | None => os_OpenFile name O_RDWR_CREATE_TRUNC filePerm
  end.

(** restrictKeyPermissions removes all permissions from a key file except
    for the owner of the file. *)
Definition restrictKeyPermissions (keyPath : path) : M error :=
  goos <- runtime_GOOS ;;
  if String.eqb goos "windows" then
    err <- exec_Run "icacls" [path_text keyPath; "/reset"] ;;
    match err with
    | Some _ => ret err
    | None =>
        exec_Run "icacls"
          [path_text keyPath; "/inheritance:r"; "/grant:r"; "CREATOR OWNER:F"]
    end
  else ret None.

(** ** Package crtauth: template.go *)

(** [net.ParseIP] is left to the [net] library: the program only asks
    whether a host identifier parses as an IP address, and keeps the
    address when it does. *)
Class NetLib := { net_ParseIP : string -> option IP }.

Module Template.
(** Template contains a subset of the most frequently used certificate
    parameters. *)
Record Template := {
  Organization : string;
  CommonName : string;
  HostNames : list string;
  ValidForDays : Z;
  KeyBits : Z
}.
End Template.
Abbreviation Template := Template.Template.

(** NewTemplate creates a new template with default parameters:
    ValidForDays = 365 days, KeyBits = 256 (ie. EC P256 key). *)
Definition NewTemplate : Template := {|
  Template.Organization := ""; Template.CommonName := ""; Template.HostNames := [];
  Template.ValidForDays := 365; Template.KeyBits := 256 |}.

(** The body of the [for _, h := range t.HostNames] loop of to509. *)
Definition addHost `{NetLib} (cert : Certificate) (h : string) : Certificate :=
  match net_ParseIP h with
  | Some ip => set_IPAddresses (IPAddresses cert ++ [ip]) cert
  | None => set_DNSNames (DNSNames cert ++ [h]) cert
  end.

(** to509 applies the template to an empty x509.Certificate and returns
    that structure. *)
Definition to509 `{NetLib} (t : Template) : M (option Certificate * error) :=
  '(serial, err) <- randSerial ;;
  match err with
  | Some e => ret (None, Errorf "To509() failed: " e)
  | None =>
      let duration := daysToDuration (Template.ValidForDays t) in
      now <- time_Now ;;
      let cert := {|
        Raw := DERNone;
        SerialNumber := serial;
        Issuer := emptyName;
        Subject := {| pkix_Organization := [Template.Organization t];
                      pkix_CommonName := Template.CommonName t |};
        NotBefore := now;
        NotAfter := time_Add now duration;
        KeyUsage := 0;
        ExtKeyUsage := [];
        BasicConstraintsValid := true;
        IsCA := false;
        DNSNames := [];
        IPAddresses := [];
        CertPublicKey := None |} in
      let cert :=
        if (0 <? length (Template.HostNames t))%nat
        then foldl addHost cert (Template.HostNames t)
        else cert in
      ret (Some cert, None)
  end.

(** ** Package crtauth: pair.go *)

(** NewPair creates a new pair of certificate and private key. The
    template is taken by value: the callers pass a template that is not
    nil. *)
Definition NewPair `{NetLib} (template : Template) : M (ptr * error) :=
  '(cert, err) <- to509 template ;;
  let cert := match err with
              | Some _ => Some emptyCertificate
              | None => cert
              end in
  '(key, err) <- genPrivKey (Template.KeyBits template) ;;
  match err with
  | Some e => ret (None, Errorf "failed to generate private key for pair: " e)
  | None =>
      p <- alloc {| Cert := cert; Key := key; KeyBits := Template.KeyBits template |} ;;
      ret (p, None)
  end.

(** The key usages of a CA certificate. *)
Definition caKeyUsage : Z :=
  Z.lor (Z.lor KeyUsageDigitalSignature KeyUsageCertSign) KeyUsageCRLSign.

(** NewCAPair creates a new certificate/key pair with KeyUsage suitable for
    use as root certificate of a certification authority. *)
Definition NewCAPair `{NetLib} (template : Template) : M (ptr * error) :=
  '(pair_, err) <- NewPair template ;;
  match err with
  | Some _ => ret (None, err)
  | None =>
      _ <- update_Cert pair_ (set_IsCA true) ;;
      _ <- update_Cert pair_ (fun c => set_KeyUsage (Z.lor (KeyUsage c) caKeyUsage) c) ;;
      ret (pair_, None)
  end.

(** NewServerPair creates a new certificate/key pair with KeyUsage suitable
    for server authentication. *)
Definition NewServerPair `{NetLib} (template : Template) : M (ptr * error) :=
  '(pair_, err) <- NewPair template ;;
  match err with
  | Some _ => ret (None, err)
  | None =>
      _ <- update_Cert pair_ (fun c =>
             set_KeyUsage
               (Z.lor (KeyUsage c) (Z.lor KeyUsageKeyEncipherment KeyUsageDigitalSignature)) c) ;;
      _ <- update_Cert pair_ (fun c =>
             set_ExtKeyUsage (ExtKeyUsage c ++ [ExtKeyUsageServerAuth]) c) ;;
      ret (pair_, None)
  end.

(** LoadCert reads, decodes and parses the Cert portion of the pair from
    the given reader. *)
Definition LoadCert `{StringsLib} (p : ptr) (reader : Reader) : M error :=
  let '(cert, err) := readPEMCert reader in
  match err with
  | Some e => ret (Errorf "failed reading certificate: " e)
  | None => _ <- store_Cert p cert ;; ret None
  end.

(** LoadKey reads, decodes and parses the Key portion of the pair from the
    given reader. *)
Definition LoadKey `{StringsLib} (p : ptr) (reader : Reader) : M error :=
  let '(key, err) := readPEMKey reader in
  match err with
  | Some e => ret (Errorf "failed reading key: " e)
  | None => _ <- store_Key p key ;; ret None
  end.

(** LoadFiles opens, reads, decodes and parses both the Cert and Key fields
    from the specified files. *)
Definition LoadFiles `{StringsLib} (p : ptr) (certPath keyPath : path) : M error :=
  '(certFile, err) <- os_Open certPath ;;
  match certFile, err with
  | _, Some e =>
      ret (Errorf ("failed opening cert file " +:+ path_text certPath +:+ ": ") e)
  | None, None => panic
  | Some certFile, None =>
      err <- LoadCert p certFile ;;
      match err with
      | Some _ => ret err
      | None =>
          '(keyFile, err) <- os_Open keyPath ;;
          match keyFile, err with
          | _, Some e =>
              ret (Errorf ("failed opening key file " +:+ path_text keyPath +:+ ": ") e)
          | None, None => panic
          | Some keyFile, None =>
              err <- LoadKey p keyFile ;;
              match err with
              | Some _ => ret err
              | None => ret None
              end
          end
      end
  end.

(** WriteCert PEM encodes and writes the Cert portion of the pair to the
    given writer. *)
Definition WriteCert (p : ptr) (writer : File) : M error :=
  cert <- load_Cert p ;;
  let certPem := pemBlockForCert cert in
  err <- pem_Encode writer certPem ;;
  match err with
  | Some e => ret (Errorf "failed to write certificate as PEM: " e)
  | None => ret None
  end.

(** WriteKey PEM encodes and writes the Key portion of the pair to the
    given writer. *)
Definition WriteKey `{NilKey} (p : ptr) (writer : File) : M error :=
  v <- load p ;;
  '(keyPem, err) <- pemBlockForKey (Key v) ;;
  match keyPem, err with
  | _, Some e => ret (Errorf "failed to marshal private key: " e)
  | None, None => panic                    (* pem.Encode reads the nil block *)
  | Some keyPem, None =>
      err <- pem_Encode writer keyPem ;;
      match err with
      | Some e => ret (Errorf "failed to write key: " e)
      | None => ret None
      end
  end.

(** WriteFiles PEM encodes and writes both the Cert and Key fields of the
    pair to the specified files. *)
Definition WriteFiles `{NilKey} (p : ptr) (certPath keyPath : path) : M error :=
  '(certFile, err) <- mkdirAndCreateFile certPath 448 420 ;;      (* 0700, 0644 *)
  match certFile, err with
  | _, Some e =>
      ret (Errorf ("failed to create cert file " +:+ path_text certPath +:+ ": ") e)
  | None, None => panic
  | Some certFile, None =>
      err <- WriteCert p certFile ;;
      match err with
      | Some e =>
          ret (Errorf ("failed to write to cert file " +:+ path_text certPath +:+ ": ") e)
      | None =>
          '(keyFile, err) <- mkdirAndCreateFile keyPath 448 384 ;;  (* 0700, 0600 *)
          match keyFile, err with
          | _, Some e =>
              ret (Errorf ("failed to create key file " +:+ path_text keyPath +:+ ": ") e)
          | None, None => panic
          | Some keyFile, None =>
              err <- WriteKey p keyFile ;;
              match err with
              | Some e =>
                  ret (Errorf ("failed to write to key file "
                               +:+ path_text keyPath +:+ ": ") e)
              | None =>
                  err <- restrictKeyPermissions keyPath ;;
                  match err with
                  | Some e =>
                      ret (Errorf ("failed to restrict permissions to "
                                   +:+ path_text keyPath +:+ " file: ") e)
                  | None => ret None
                  end
              end
          end
      end
  end.

(** PubKey returns the public key of the pair's private key. *)
Definition PubKey (p : ptr) : M (option PublicKey) :=
  v <- load p ;; ret (publicKey (Key v)).

(** SignWith signs the certificate in the receiver with the given parent
    certificate. The Cert field of the receiver is replaced with a new
    instance, containing the updated certificate. [p == parent] compares
    the two pointers. *)
Definition SignWith (p parent : ptr) : M error :=
  par <- load parent ;;
  match Cert par, Key par with
  | Some parentCert, Some _ =>
      _ <- update_Cert p (set_Issuer (Subject parentCert)) ;;
      _ <- (if decide (p = parent) then
              _ <- update_Cert p (set_IsCA true) ;;
              update_Cert p (fun c => set_KeyUsage (Z.lor (KeyUsage c) caKeyUsage) c)
            else ret tt) ;;
      v <- load p ;;
      let pubKey := publicKey (Key v) in
      cert <- load_Cert p ;;
      par <- load parent ;;
      parentCert <- load_Cert parent ;;
      '(derBytes, err) <- x509_CreateCertificate cert parentCert pubKey (Key par) ;;
      match err with
      | Some e => ret (Errorf "failed to create signed certificate: " e)
      | None =>
          let '(cert, err) := x509_ParseCertificate derBytes in
          match err with
          | Some e => ret (Errorf "failed to parse generated certificate: " e)
          | None => _ <- store_Cert p cert ;; ret None
          end
      end
  | _, _ => ret (errors_New "can't sign certificate with incomplete parent pair")
  end.

(** ** Package crtauth: crtauth.go *)

(** Constants for the default certificate filenames used by PostgreSQL. *)
Definition RootCertFileName : string := "root.crt".
Definition RootKeyFileName : string := "root.key".
Definition ServerCertFileName : string := "server.crt".
Definition ServerKeyFileName : string := "server.key".

(** New creates a new CA structure with the default filenames for .crt and
    .key files. *)
Definition New : M (option nat) :=
  pair_ <- alloc {| Cert := None; Key := None; KeyBits := 0 |} ;;
  allocCA {| CA_Pair := pair_;
             CertFileName := RootCertFileName;
             KeyFileName := RootKeyFileName |}.

(** Init creates and initializes a new certification authority by
    generating a new pair of certificate and private key. *)
Definition Init `{NetLib} `{NilKey} (ca : option nat) (template : Template) (dir : path)
    : M error :=
  '(pair_, err) <- NewCAPair template ;;
  match err with
  | Some _ => ret err
  | None =>
      err <- os_MkdirAll dir 448 ;;                                (* 0700 *)
      match err with
      | Some e =>
          ret (Errorf ("failed to create CA directory " +:+ path_text dir +:+ ": ") e)
      | None =>
          err <- SignWith pair_ pair_ ;;
          match err with
          | Some e => ret (Errorf "failed to sign certificate with CA: " e)
          | None =>
              c <- loadCA ca ;;
              let certPath := filepath_Join dir (CertFileName c) in
              let keyPath := filepath_Join dir (KeyFileName c) in
              err <- WriteFiles pair_ certPath keyPath ;;
              match err with
              | Some e => ret (Errorf "failed to write CA pair to files: " e)
              | None =>
                  c <- loadCA ca ;;
                  _ <- storeCA ca {| CA_Pair := pair_;
                                     CertFileName := CertFileName c;
                                     KeyFileName := KeyFileName c |} ;;
                  ret None
              end
          end
      end
  end.

(** Load reads, decodes and parses the CA certificate and key from the
    specified directory and stores them in the CA structure. *)
Definition Load `{StringsLib} (ca : option nat) (dir : path) : M error :=
  c <- loadCA ca ;;
  let certPath := filepath_Join dir (CertFileName c) in
  let keyPath := filepath_Join dir (KeyFileName c) in
  LoadFiles (CA_Pair c) certPath keyPath.

(** ** Package cmd: util.go *)

(** isValidKeySize tests if the provided string for key size is one of
    the supported values. *)
Definition isValidKeySize (keySize : string) : bool :=
  existsb (String.eqb keySize)
    ["P224"; "P256"; "P384"; "P521"; "1024"; "2048"; "3072"; "4096"].

(** parseKeyBits converts the provided key size string to the number of bits. *)
Definition parseKeyBits `{StringsLib} (keySize : string) : Z * error :=
  if negb (isValidKeySize keySize) then
    (0%Z, errors_New ("invalid key size '" +:+ keySize +:+ "'"))
  else
    let keySize :=
      if strings_HasPrefix (strings_ToUpper keySize) "P"
      then match keySize with String _ t => t | EmptyString => EmptyString end
      else keySize in
    match strconv_Atoi keySize with
    | None =>
        (0%Z, errors_New ("key size '" +:+ keySize
                          +:+ "' cannot be converted to integer value"))
    | Some numBits => (numBits, None)
    end.

(** ** Package cmd: init.go *)

(** The flags of the init command; [caDir] is the cleaned path the flag
    names. *)
Record initFlags := {
  organization : string;
  commonName : string;
  validForDays : Z;
  keySize : string;
  caDir : path
}.

Definition Printf (line : string) : M unit := modify (print line).

(** The [Run] function of [initCmd]; the result is the exit status of the
    process ([os.Exit(1)] on failure). *)
Definition initRun `{NetLib} `{StringsLib} `{NilKey} (flags : initFlags) : M Z :=
  let '(keyBits, err) := parseKeyBits (keySize flags) in
  match err with
  | Some e => _ <- Printf ("Bad key size: " +:+ Error e) ;; ret 1%Z
  | None =>
      _ <- Printf ("Creating a new certificate authority at " +:+ path_text (caDir flags)) ;;
      let template := {|
        Template.Organization := organization flags;
        Template.CommonName := commonName flags;
        Template.HostNames := Template.HostNames NewTemplate;
        Template.ValidForDays := validForDays flags;
        Template.KeyBits := keyBits |} in
      ca <- New ;;
      err <- Init ca template (caDir flags) ;;
      match err with
      | Some e =>
          _ <- Printf ("Could not create certification authority: " +:+ Error e) ;;
          ret 1%Z
      | None =>
          _ <- Printf "Successfully created certification authority." ;;
          _ <- Printf "Done" ;;
          ret 0%Z
      end
  end.

(** ** Package cmd: generate.go *)

(** [strings.Split(s, sep)] for a separator of one byte: the pieces
    between the separators, [n + 1] of them for [n] separators. *)
Fixpoint strings_Split (s : string) (sep : ascii) : list string :=
  match s with
  | EmptyString => [EmptyString]
  | String c s' =>
      if Ascii.eqb c sep then EmptyString :: strings_Split s' sep
      else match strings_Split s' sep with
           | piece :: pieces => String c piece :: pieces
           | [] => [String c EmptyString]
           end
  end.

Module Server.
(** The flags of the generate command. [caDir] is the cleaned path the
    flag names, [None] when the flag is the empty string (its default);
    [outDir] is the cleaned path its flag names. *)
Record serverFlags := {
  host : string;
  organization : string;
  commonName : string;
  validForDays : Z;
  keySize : string;
  outDir : path;
  caDir : option path
}.
End Server.
Abbreviation serverFlags := Server.serverFlags.

(** The text of the flag [--ca-dir]. *)
Definition caDir_text (d : option path) : string :=
  match d with
  | Some p => path_text p
  | None => ""
  end.

(** The [Run] function of [genCmd]. [inFlags] is the variable [in] of
    init.go, whose [keySize] the function reads; [selfSigned] is
    [cmd.Flag("self-signed").Changed]. The result is the exit status of
    the process. *)
Definition generateRun `{NetLib} `{StringsLib} `{NilKey} (inFlags : initFlags)
    (server : serverFlags) (selfSigned : bool) : M Z :=
  if match Server.caDir server with None => negb selfSigned | Some _ => false end
  then
    _ <- Printf "At least one of --ca-dir or --self-signed arguments is required" ;;
    ret 1%Z
  else
    let '(keyBits, err) := parseKeyBits (keySize inFlags) in
    match err with
    | Some e => _ <- Printf ("Bad key size: " +:+ Error e) ;; ret 1%Z
    | None =>
        let template := {|
          Template.Organization := Server.organization server;
          Template.CommonName := Server.commonName server;
          Template.HostNames := strings_Split (Server.host server) ","%char;
          Template.ValidForDays := Server.validForDays server;
          Template.KeyBits := keyBits |} in
        '(pair_, err) <- NewServerPair template ;;
        match err with
        | Some e =>
            _ <- Printf ("Could not create cert/key pair: " +:+ Error e) ;; ret 1%Z
        | None =>
            exit <-
              (if selfSigned then
                 _ <- Printf "Creating a self-signed certificate" ;;
                 err <- SignWith pair_ pair_ ;;
                 match err with
                 | Some e =>
                     _ <- Printf ("Could not self-sign certificate: " +:+ Error e) ;;
                     ret (Some 1%Z)
                 | None => ret None
                 end
               else
                 _ <- Printf ("Creating a certificate signed by the CA at "
                              +:+ caDir_text (Server.caDir server)) ;;
                 ca <- New ;;
                 err <- Load ca (default [] (Server.caDir server)) ;;
                 match err with
                 | Some e =>
                     _ <- Printf ("Could not load CA pair from directory '"
                                  +:+ caDir_text (Server.caDir server) +:+ "': "
                                  +:+ Error e) ;;
                     ret (Some 1%Z)
                 | None =>
                     c <- loadCA ca ;;
                     err <- SignWith pair_ (CA_Pair c) ;;
                     match err with
                     | Some e =>
                         _ <- Printf ("Could not sign certificate with CA: "
                                      +:+ Error e) ;;
                         ret (Some 1%Z)
                     | None => ret None
                     end
                 end) ;;
            match exit with
            | Some status => ret status
            | None =>
                let certPath := filepath_Join (Server.outDir server) ServerCertFileName in
                let keyPath := filepath_Join (Server.outDir server) ServerKeyFileName in
                err <- WriteFiles pair_ certPath keyPath ;;
                match err with
                | Some e =>
                    _ <- Printf ("Could not write cert/key pair to files: "
                                 +:+ Error e) ;;
                    ret 1%Z
                | None =>
                    _ <- Printf "Successfully created server pair at:" ;;
                    _ <- Printf ("- Certificate: " +:+ path_text certPath +:+ ":") ;;
                    _ <- Printf ("- Private key: " +:+ path_text keyPath +:+ ":") ;;
                    _ <- Printf "Done" ;;
                    ret 0%Z
                end
            end
        end
    end.

(** ** Vocabulary of the properties *)

(** The key-size tokens of the engine. *)
Definition keySizeTokens : list string :=
  ["P224"; "P256"; "P384"; "P521"; "1024"; "2048"; "3072"; "4096"].

(** The label of a block as the readers compare it: upper-cased and
    trimmed. *)
Definition label `{StringsLib} (b : Block) : string :=
  strings_TrimSpace (strings_ToUpper (Type_ b)).

Definition isCertBlock `{StringsLib} (b : Block) : bool := String.eqb (label b) "CERTIFICATE".

Definition isKeyBlock `{StringsLib} (b : Block) : bool :=
  String.eqb (label b) "RSA PRIVATE KEY" || String.eqb (label b) "EC PRIVATE KEY".

(** The key grammar a matching block is decoded under. *)
Definition parseKeyBlock `{StringsLib} (b : Block) : option PrivateKey * error :=
  if String.eqb (label b) "RSA PRIVATE KEY"
  then x509_ParsePKCS1PrivateKey (Bytes b)
  else x509_ParseECPrivateKey (Bytes b).

Definition noCert `{StringsLib} (b : Block) : Prop := isCertBlock b = false.

Definition noKey `{StringsLib} (b : Block) : Prop := isKeyBlock b = false.

(** A reader that delivers a stream without a read error. *)
Definition readerOf (s : PEMStream) : Reader := {| rd_data := s; rd_err := None |}.

Definition certBlockNotFound : option Certificate * error :=
  (None, errors_New "CERTIFICATE block not found").

Definition keyBlockNotFound : option PrivateKey * error :=
  (None, errors_New "PRIVATE KEY block not found").

(** Whether a host identifier parses as a literal IP address. *)
Definition parsesAsIP `{NetLib} (h : string) : bool :=
  match net_ParseIP h with
  | Some _ => true
  | None => false
  end.

(** The descriptor [to509] holds before its loop over the host
    identifiers, for a serial number and a reading of the clock. *)
Definition descriptor (t : Template) (serial : Z) (now : Time) : Certificate := {|
  Raw := DERNone;
  SerialNumber := Some serial;
  Issuer := emptyName;
  Subject := {| pkix_Organization := [Template.Organization t];
                pkix_CommonName := Template.CommonName t |};
  NotBefore := now;
  NotAfter := time_Add now (daysToDuration (Template.ValidForDays t));
  KeyUsage := 0;
  ExtKeyUsage := [];
  BasicConstraintsValid := true;
  IsCA := false;
  DNSNames := [];
  IPAddresses := [];
  CertPublicKey := None |}.

(** The largest number of days whose duration fits in 64 bits of
    nanoseconds. *)
Definition maxDays : Z := 106751.

(** A [net] library for the examples: it knows two addresses. *)
Definition sampleNet : NetLib := {|
  net_ParseIP := fun h =>
    if String.eqb h "10.0.0.1" then Some [10; 0; 0; 1]%Z
    else if String.eqb h "::1" then Some [0; 0; 0; 0; 0; 0; 0; 0; 0; 0; 0; 0; 0; 0; 0; 1]%Z
    else None |}.

(** A [strings] library for the examples: the library as it is on ASCII
    text, which leaves every other byte alone. *)
Definition sampleStrings : StringsLib := {|
  strings_ToUpper := ToUpperASCII;
  strings_TrimSpace := TrimSpaceASCII;
  strings_ToUpper_ASCII := fun _ _ => eq_refl;
  strings_TrimSpace_ASCII := fun _ _ => eq_refl |}.

(** A [pemBlockForKey] for the examples, which returns an error for a nil
    key. *)
Definition sampleNilKey : NilKey := {|
  pemBlockForKey_nil := Some (errors_New "unsupported private key type") |}.

(** The error of the entropy source in the examples. *)
Definition urandomError : error_val :=
  ErrString "read /dev/urandom: input/output error".

(** A world for the examples: empty heap and file system, a working
    entropy source, a Unix platform. *)
Definition sampleWorld : World := {|
  w_pairs := []; w_cas := []; w_fs := ∅;
  w_rand := [Some 5%Z; Some 7%Z; Some 9%Z; Some 11%Z];
  w_rand_err := urandomError;
  w_now := 1540000000123456789%Z; w_goos := "linux"; w_exec := fun _ => None;
  w_trace := []; w_out := [] |}.

(** A signed certificate and a PEM stream for the examples. *)
Definition sampleName : Name :=
  {| pkix_Organization := ["Acme"]; pkix_CommonName := "ClusterCA" |}.

Definition sampleCertDER : DER :=
  DERCertificate
    {| tbs_SerialNumber := 5; tbs_Issuer := sampleName; tbs_Subject := sampleName;
       tbs_NotBefore := 1540000000000000000%Z; tbs_NotAfter := 1571536000000000000%Z;
       tbs_PublicKey := ECDSAPublicKey P256 7; tbs_KeyUsage := 97; tbs_ExtKeyUsage := [];
       tbs_BasicConstraints := Some true; tbs_DNSNames := []; tbs_IPAddresses := [] |}
    (ECDSAPublicKey P256 7).

Definition sampleStream : PEMStream :=
  [ {| Type_ := "X509 CRL"; Bytes := DEROther [48; 0]%Z |};
    {| Type_ := " certificate"; Bytes := sampleCertDER |};
    {| Type_ := "EC PRIVATE KEY"; Bytes := DERSEC1 P256 7 |} ].

(** [frames R m]: whenever [m] returns, [R] relates the world before the
    call and the world after it. *)
Definition frames {A : Type} (R : relation World) (m : M A) : Prop :=
  forall w a w', m w = Some (a, w') -> R w w'.

(** The component [f] of the world is left as it is. *)
Definition keeps {B : Type} (f : World -> B) : relation World :=
  fun w w' => f w' = f w.

(** No pair object is allocated or freed, the objects other than the one
    at [p] are as before, and the one at [p] is related to its former
    value by [rel]. *)
Definition touches_only (p : ptr) (rel : relation Pair) : relation World :=
  fun w w' =>
    length (w_pairs w') = length (w_pairs w)
    /\ forall l v, w_pairs w !! l = Some v ->
         exists v', w_pairs w' !! l = Some v'
                    /\ (p = Some l -> rel v v') /\ (p <> Some l -> v' = v).

(** What a method may do to the fields of its receiver. *)
Definition same_Key_KeyBits : relation Pair :=
  fun v v' => Key v' = Key v /\ KeyBits v' = KeyBits v.

Definition same_Cert_KeyBits : relation Pair :=
  fun v v' => Cert v' = Cert v /\ KeyBits v' = KeyBits v.

Definition same_KeyBits : relation Pair := fun v v' => KeyBits v' = KeyBits v.

(** A world whose entropy source fails once and then recovers. *)
Definition glitchWorld : World := {|
  w_pairs := []; w_cas := []; w_fs := ∅;
  w_rand := [None; Some 7%Z; Some 9%Z];
  w_rand_err := urandomError;
  w_now := 1540000000123456789%Z; w_goos := "linux"; w_exec := fun _ => None;
  w_trace := []; w_out := [] |}.

(** A world with a CA made by [New] and a CA directory that holds the
    certificate file only. *)
Definition certOnlyWorld : World := {|
  w_pairs := [{| Cert := None; Key := None; KeyBits := 0 |}];
  w_cas := [{| CA_Pair := Some 0; CertFileName := RootCertFileName;
               KeyFileName := RootKeyFileName |}];
  w_fs := <[ ["ca"; "root.crt"] :=
               FileNode 420 [{| Type_ := "CERTIFICATE"; Bytes := sampleCertDER |}] ]>
          (<[ ["ca"] := DirNode 448 ]> ∅);
  w_rand := [Some 5%Z];
  w_rand_err := urandomError;
  w_now := 1540000000123456789%Z; w_goos := "linux"; w_exec := fun _ => None;
  w_trace := []; w_out := [] |}.

(** The pair objects of [w] are found unchanged in [w']. *)
Definition old_pairs_kept (w w' : World) : Prop :=
  forall l v, w_pairs w !! l = Some v -> w_pairs w' !! l = Some v.

(** A world in which the certificate file of the CA directory cannot be
    created: a directory has its name. *)
Definition blockedWorld : World := {|
  w_pairs := [{| Cert := None; Key := None; KeyBits := 0 |}];
  w_cas := [{| CA_Pair := Some 0; CertFileName := RootCertFileName;
               KeyFileName := RootKeyFileName |}];
  w_fs := <[ ["ca"; "root.crt"] := DirNode 448 ]> (<[ ["ca"] := DirNode 448 ]> ∅);
  w_rand := [Some 5%Z; Some 7%Z; Some 9%Z; Some 11%Z];
  w_rand_err := urandomError;
  w_now := 1540000000123456789%Z; w_goos := "linux"; w_exec := fun _ => None;
  w_trace := []; w_out := [] |}.

(** A directory with a certificate that has no basic-constraints
    extension, as other tools issue them, and its key. *)
Definition foreignCertDER : DER :=
  DERCertificate
    {| tbs_SerialNumber := 9; tbs_Issuer := sampleName; tbs_Subject := sampleName;
       tbs_NotBefore := 1540000000000000000%Z; tbs_NotAfter := 1571536000000000000%Z;
       tbs_PublicKey := RSAPublicKey 2048 7; tbs_KeyUsage := 0; tbs_ExtKeyUsage := [];
       tbs_BasicConstraints := None; tbs_DNSNames := ["db.internal"];
       tbs_IPAddresses := [] |}
    (RSAPublicKey 2048 7).

Definition foreignWorld : World := {|
  w_pairs := []; w_cas := [];
  w_fs := <[ ["ca"; "root.key"] :=
               FileNode 384 [{| Type_ := "RSA PRIVATE KEY"; Bytes := DERPKCS1 2048 7 |}] ]>
          (<[ ["ca"; "root.crt"] :=
                FileNode 420 [{| Type_ := "CERTIFICATE"; Bytes := foreignCertDER |}] ]>
             (<[ ["ca"] := DirNode 448 ]> ∅));
  w_rand := [Some 5%Z];
  w_rand_err := urandomError;
  w_now := 1540000000123456789%Z; w_goos := "linux"; w_exec := fun _ => None;
  w_trace := []; w_out := [] |}.

(** The certificate of that directory, decoded, and the pair [Load] makes
    of the directory, alone in a world. *)
Definition foreignCert : Certificate :=
  default emptyCertificate (fst (x509_ParseCertificate foreignCertDER)).

Definition foreignPairWorld : World := {|
  w_pairs := [{| Cert := Some foreignCert; Key := Some (RSAPrivateKey 2048 7);
                 KeyBits := 0 |}];
  w_cas := []; w_fs := ∅; w_rand := [Some 5%Z];
  w_rand_err := urandomError;
  w_now := 1540000000123456789%Z; w_goos := "linux"; w_exec := fun _ => None;
  w_trace := []; w_out := [] |}.

(** A pair with a descriptor as [to509] builds it, alone in a world. *)
Definition constrainedWorld : World := {|
  w_pairs := [{| Cert := Some (descriptor NewTemplate 1 1540000000000000000%Z);
                 Key := Some (RSAPrivateKey 2048 7); KeyBits := 2048 |}];
  w_cas := []; w_fs := ∅; w_rand := [Some 5%Z];
  w_rand_err := urandomError;
  w_now := 1540000000123456789%Z; w_goos := "linux"; w_exec := fun _ => None;
  w_trace := []; w_out := [] |}.

(** A well-formed file system: every node lies in a directory. *)
Definition wf_fs (fs : gmap path Node) : Prop :=
  forall p n, lookupNode fs p = Some n -> isDir fs (filepath_Dir p) = true.

(** Directories stay, and files stay files with the permission bits they
    have. *)
Definition fs_le (fs fs' : gmap path Node) : Prop :=
  forall q,
    match lookupNode fs q with
    | Some (DirNode m) => lookupNode fs' q = Some (DirNode m)
    | Some (FileNode m _) => exists d, lookupNode fs' q = Some (FileNode m d)
    | None => True
    end.

(** The system calls of a trace, by kind. *)
Definition openCalls (tr : list Syscall) : list (path * Z) :=
  omap (fun c => match c with
                 | SysOpenFile p _ perm => Some (p, perm)
                 | _ => None
                 end) tr.

Definition mkdirCalls (tr : list Syscall) : list (path * Z) :=
  omap (fun c => match c with
                 | SysMkdirAll p perm => Some (p, perm)
                 | _ => None
                 end) tr.

Definition execCalls (tr : list Syscall) : list (list string) :=
  omap (fun c => match c with
                 | SysExec argv => Some argv
                 | _ => None
                 end) tr.

(** The two commands that tighten the permissions of a key file on
    Windows. *)
Definition icaclsCalls (keyPath : path) : list (list string) :=
  [ ["icacls"; path_text keyPath; "/reset"];
    ["icacls"; path_text keyPath; "/inheritance:r"; "/grant:r"; "CREATOR OWNER:F"] ].

(** What a step of [WriteFiles] does to the world: it makes the system
    calls [tr], leaves the platform as it is, and lets the file system
    grow. *)
Definition fs_step (w w' : World) (tr : list Syscall) : Prop :=
  w_trace w' = w_trace w ++ tr
  /\ w_goos w' = w_goos w /\ w_exec w' = w_exec w
  /\ fs_le (w_fs w) (w_fs w')
  /\ (wf_fs (w_fs w) -> wf_fs (w_fs w')).

(** A Windows world with an empty file system, and a pair to write in it. *)
Definition windowsWorld : World := {|
  w_pairs := [{| Cert := Some (descriptor NewTemplate 1 1540000000000000000%Z);
                 Key := Some (RSAPrivateKey 2048 7); KeyBits := 2048 |}];
  w_cas := []; w_fs := ∅; w_rand := [];
  w_rand_err := urandomError;
  w_now := 1540000000123456789%Z; w_goos := "windows"; w_exec := fun _ => None;
  w_trace := []; w_out := [] |}.

(** A world whose CA directory holds a certificate and an RSA key of 4096
    bits. *)
Definition loadedWorld : World :=
  set_fs (<[ ["ca"; "root.key"] :=
               FileNode 384 [{| Type_ := "RSA PRIVATE KEY"; Bytes := DERPKCS1 4096 13 |}] ]>
            (w_fs certOnlyWorld))
    (set_cas [] (set_pairs [] certOnlyWorld)).

(** The key a key-size token stands for, made from the randomness [seed]. *)
Definition keyFor (token : string) (seed : Z) : option PrivateKey :=
  if String.eqb token "P224" then Some (ECDSAPrivateKey P224 seed)
  else if String.eqb token "P256" then Some (ECDSAPrivateKey P256 seed)
  else if String.eqb token "P384" then Some (ECDSAPrivateKey P384 seed)
  else if String.eqb token "P521" then Some (ECDSAPrivateKey P521 seed)
  else if String.eqb token "1024" then Some (RSAPrivateKey 1024 seed)
  else if String.eqb token "2048" then Some (RSAPrivateKey 2048 seed)
  else if String.eqb token "3072" then Some (RSAPrivateKey 3072 seed)
  else if String.eqb token "4096" then Some (RSAPrivateKey 4096 seed)
  else None.

(** The key [genPrivKey] makes for a size, from the randomness [seed]:
    below 1024 bits a key on the curve the size names, an RSA key of that
    size otherwise. *)
Definition keyOfSize (bits seed : Z) : option PrivateKey :=
  if (bits <? 1024)%Z
  then match curveFor bits with
       | Some c => Some (ECDSAPrivateKey c seed)
       | None => None
       end
  else Some (RSAPrivateKey bits seed).

(** The sizes that name a curve. *)
Definition curveSizes : list Z := [224; 256; 384; 521]%Z.

(** The number of separators in a string. *)
Fixpoint countSep (s : string) (sep : ascii) : nat :=
  match s with
  | EmptyString => 0
  | String c s' => (if Ascii.eqb c sep then 1 else 0) + countSep s' sep
  end.

(** A descriptor with the host identifiers [hs] added to its two lists of
    hosts, and nothing else changed. *)
Definition withHosts `{NetLib} (hs : list string) (c : Certificate) : Certificate :=
  set_IPAddresses (IPAddresses c ++ omap net_ParseIP hs)
    (set_DNSNames (DNSNames c ++ List.filter (fun h => negb (parsesAsIP h)) hs) c).

(** The public key a private key is verified with. *)
Definition verifyingKey (key : PrivateKey) : PublicKey :=
  match key with
  | RSAPrivateKey bits seed => RSAPublicKey bits seed
  | ECDSAPrivateKey curve seed => ECDSAPublicKey curve seed
  end.

(** What [x509.CreateCertificate] encodes for a template, the subject of
    the parent, and the serial number and public key it has checked. *)
Definition tbsOf (template : Certificate) (issuer : Name) (serial : Z) (pk : PublicKey)
    : TBSCertificate := {|
  tbs_SerialNumber := serial;
  tbs_Issuer := issuer;
  tbs_Subject := Subject template;
  tbs_NotBefore := sec (NotBefore template);
  tbs_NotAfter := sec (NotAfter template);
  tbs_PublicKey := pk;
  tbs_KeyUsage := Z.land (KeyUsage template) 511;
  tbs_ExtKeyUsage := ExtKeyUsage template;
  tbs_BasicConstraints :=
    if BasicConstraintsValid template then Some (IsCA template) else None;
  tbs_DNSNames := DNSNames template;
  tbs_IPAddresses := IPAddresses template |}.

(** The descriptor of the receiver as [SignWith] hands it to
    [x509.CreateCertificate]: the subject of the parent is its issuer,
    and when the pair signs itself the CA flag and the CA key usages are
    set. *)
Definition toSign (self : bool) (parentSubject : Name) (c : Certificate) : Certificate :=
  let c1 := set_Issuer parentSubject c in
  if self
  then let c2 := set_IsCA true c1 in set_KeyUsage (Z.lor (KeyUsage c2) caKeyUsage) c2
  else c1.

(** A certificate that is the decoding of its own encoding, as those
    [x509.ParseCertificate] returns are. *)
Definition encoded (c : Certificate) : Prop :=
  x509_ParseCertificate (Raw c) = (Some c, None).

(** Everything but the heap of pairs and the entropy source is as it was. *)
Definition same_env : relation World :=
  fun w w' =>
    w_cas w' = w_cas w /\ w_fs w' = w_fs w /\ w_now w' = w_now w
    /\ w_goos w' = w_goos w /\ w_exec w' = w_exec w
    /\ w_trace w' = w_trace w /\ w_out w' = w_out w.

(** The errors of [x509.CreateCertificate] as [SignWith] returns them:
    the two of its checks, and the error of the entropy source. *)
Definition signingErrors (w : World) : list error_val :=
  map (fun m => ErrString ("failed to create signed certificate: " +:+ m))
    [ "x509: no SerialNumber given";
      "x509: only RSA and ECDSA public keys supported";
      Error (w_rand_err w) ].

(** The decoding of the sample certificate. *)
Definition sampleCACert : Certificate :=
  default emptyCertificate (fst (x509_ParseCertificate sampleCertDER)).

(** A world with a CA pair (at address 0) and the descriptor of a server
    with its key (at address 1). *)
Definition twoPairsWorld : World := {|
  w_pairs := [ {| Cert := Some sampleCACert;
                  Key := Some (ECDSAPrivateKey P256 7); KeyBits := 256 |};
               {| Cert := Some (descriptor NewTemplate 1 1540000000123456789%Z);
                  Key := Some (RSAPrivateKey 2048 13); KeyBits := 2048 |} ];
  w_cas := []; w_fs := ∅; w_rand := [Some 5%Z];
  w_rand_err := urandomError;
  w_now := 1540000000123456789%Z; w_goos := "linux"; w_exec := fun _ => None;
  w_trace := []; w_out := [] |}.

(** Everything but the file system and the trace of system calls is as it
    was. *)
Definition same_heap : relation World :=
  fun w w' =>
    w_pairs w' = w_pairs w /\ w_cas w' = w_cas w /\ w_rand w' = w_rand w
    /\ w_now w' = w_now w /\ w_goos w' = w_goos w /\ w_exec w' = w_exec w
    /\ w_out w' = w_out w.

(** The world [ensureDirExists] leaves: as it was when the path exists or
    runs through a regular file, and with the directory and the parents
    it lacked otherwise. *)
Definition ensured (dir : path) (perm : Z) (w : World) : World :=
  match lookupNode (w_fs w) dir with
  | Some _ => log (SysStat dir) w
  | None =>
      if existsb (isFile (w_fs w)) (prefixes (filepath_Dir dir))
      then log (SysStat dir) w
      else set_fs (foldl (mkdir perm) (w_fs w) (prefixes dir))
             (log (SysMkdirAll dir perm) (log (SysStat dir) w))
  end.

(** What the creation of the file [name], with the directories it lacks,
    does to the file system: the file is there, empty, and with the mode
    [filePerm] when it is new; every other path holds what it held, or a
    directory made on the way to the file. *)
Definition created (name : path) (dirPerm filePerm : Z) (fs fs' : gmap path Node) : Prop :=
  name <> []
  /\ (exists m, lookupNode fs' name = Some (FileNode m [])
                /\ (lookupNode fs name = None -> m = filePerm)
                /\ (forall m0 d, lookupNode fs name = Some (FileNode m0 d) -> m = m0))
  /\ forall q, q <> name ->
       lookupNode fs' q = lookupNode fs q
       \/ (lookupNode fs q = None /\ q `prefix_of` filepath_Dir name
           /\ lookupNode fs' q = Some (DirNode dirPerm)).

(** The content of a regular file, and its mode. *)
Definition content (fs : gmap path Node) (p : path) : option PEMStream :=
  match lookupNode fs p with
  | Some (FileNode _ data) => Some data
  | _ => None
  end.

Definition mode (fs : gmap path Node) (p : path) : option Z :=
  match lookupNode fs p with
  | Some (FileNode m _) => Some m
  | Some (DirNode m) => Some m
  | None => None
  end.

(** The PEM block [WriteKey] writes for a key. *)
Definition keyBlock (key : PrivateKey) : Block :=
  match key with
  | RSAPrivateKey bits seed => {| Type_ := "RSA PRIVATE KEY"; Bytes := DERPKCS1 bits seed |}
  | ECDSAPrivateKey curve seed => {| Type_ := "EC PRIVATE KEY"; Bytes := DERSEC1 curve seed |}
  end.

(** Nothing is in the way of writing the files [a] and [b] of the
    directory [dir]: no path down to the directory is a regular file, and
    neither name is the name of a directory. *)
Definition writable (fs : gmap path Node) (dir : path) (a b : string) : Prop :=
  existsb (isFile fs) (prefixes dir) = false
  /\ isDir fs (dir ++ [a]) = false /\ isDir fs (dir ++ [b]) = false.

(** The first of the two [icacls] commands. *)
Definition icaclsReset (keyPath : path) : list string :=
  ["icacls"; path_text keyPath; "/reset"].

Definition icaclsGrant (keyPath : path) : list string :=
  ["icacls"; path_text keyPath; "/inheritance:r"; "/grant:r"; "CREATOR OWNER:F"].

(** The tightening of the permissions goes through: the platform is not
    Windows, or both commands succeed. *)
Definition tightens (w : World) (keyPath : path) : Prop :=
  String.eqb (w_goos w) "windows" = true ->
  w_exec w (icaclsReset keyPath) = None /\ w_exec w (icaclsGrant keyPath) = None.

(** A world with the signed pair of a CA, on Windows, where the first
    [icacls] command fails. *)
Definition deniedWorld : World := {|
  w_pairs := [ {| Cert := Some sampleCACert;
                  Key := Some (ECDSAPrivateKey P256 7); KeyBits := 256 |} ];
  w_cas := []; w_fs := ∅; w_rand := [];
  w_rand_err := urandomError;
  w_now := 1540000000123456789%Z; w_goos := "windows";
  w_exec := fun argv => if decide (argv = icaclsReset ["ca"; "root.key"])
                        then Some (ErrString "exit status 5") else None;
  w_trace := []; w_out := [] |}.

(** A signed pair alone in a world, and a directory with a file where the
    pair is to be written. *)
Definition signedWorld : World := {|
  w_pairs := [ {| Cert := Some sampleCACert;
                  Key := Some (ECDSAPrivateKey P256 7); KeyBits := 256 |} ];
  w_cas := []; w_fs := <[ ["ca"; "notes.txt"] := FileNode 420 [] ]> (<[ ["ca"] := DirNode 493 ]> ∅);
  w_rand := [];
  w_rand_err := urandomError;
  w_now := 1540000000123456789%Z; w_goos := "linux"; w_exec := fun _ => None;
  w_trace := []; w_out := [] |}.

(** A signed pair, on a Unix platform, and a directory in which the key
    file is there already, open to everyone (mode 0777). *)
Definition looseKeyWorld : World := {|
  w_pairs := [ {| Cert := Some sampleCACert;
                  Key := Some (ECDSAPrivateKey P256 7); KeyBits := 256 |} ];
  w_cas := [];
  w_fs := <[ ["srv"; "server.key"] := FileNode 511 [] ]> (<[ ["srv"] := DirNode 493 ]> ∅);
  w_rand := [];
  w_rand_err := urandomError;
  w_now := 1540000000123456789%Z; w_goos := "linux"; w_exec := fun _ => None;
  w_trace := []; w_out := [] |}.

(** A pair that has a certificate and no key, as a failed [LoadFiles]
    leaves it, alone in a world with an empty file system. *)
Definition keylessWorld : World := {|
  w_pairs := [ {| Cert := Some sampleCACert; Key := None; KeyBits := 0 |} ];
  w_cas := []; w_fs := ∅; w_rand := [];
  w_rand_err := urandomError;
  w_now := 1540000000123456789%Z; w_goos := "linux"; w_exec := fun _ => None;
  w_trace := []; w_out := [] |}.

(** The reader [os.Open] gives for a path: the content of a file, a
    reader that fails for a directory, none for a missing path. *)
Definition readerAt (fs : gmap path Node) (p : path) : option Reader :=
  match lookupNode fs p with
  | Some (FileNode _ data) => Some {| rd_data := data; rd_err := None |}
  | Some (DirNode _) => Some {| rd_data := []; rd_err := Some (PathError "read" p EISDIR) |}
  | None => None
  end.

(** A world with a pair fresh from [NewPair] (address 0), whose
    certificate has no encoding yet, and an empty pair (address 1). *)
Definition unsignedWorld : World := {|
  w_pairs := [ {| Cert := Some (descriptor NewTemplate 1 1540000000123456789%Z);
                  Key := Some (RSAPrivateKey 2048 13); KeyBits := 2048 |};
               {| Cert := None; Key := None; KeyBits := 0 |} ];
  w_cas := []; w_fs := ∅; w_rand := [];
  w_rand_err := urandomError;
  w_now := 1540000000123456789%Z; w_goos := "linux"; w_exec := fun _ => None;
  w_trace := []; w_out := [] |}.

(** The signed pair of a CA (address 0) and an empty pair (address 1). *)
Definition reloadWorld : World := {|
  w_pairs := [ {| Cert := Some sampleCACert;
                  Key := Some (ECDSAPrivateKey P256 7); KeyBits := 256 |};
               {| Cert := None; Key := None; KeyBits := 0 |} ];
  w_cas := []; w_fs := ∅; w_rand := [];
  w_rand_err := urandomError;
  w_now := 1540000000123456789%Z; w_goos := "linux"; w_exec := fun _ => None;
  w_trace := []; w_out := [] |}.

(** The world of the loaded CA directory with an empty pair in it; the
    two file names swapped make the certificate step fail. *)
Definition loadedWorld_pair : World :=
  set_pairs [{| Cert := None; Key := None; KeyBits := 0 |}] loadedWorld.

(** The changes [NewCAPair] and [NewServerPair] make to the descriptor of
    the pair [NewPair] returns. *)
Definition forCA (c : Certificate) : Certificate :=
  let c1 := set_IsCA true c in
  set_KeyUsage (Z.lor (KeyUsage c1) caKeyUsage) c1.

Definition forServer (c : Certificate) : Certificate :=
  let c1 := set_KeyUsage
              (Z.lor (KeyUsage c) (Z.lor KeyUsageKeyEncipherment KeyUsageDigitalSignature)) c in
  set_ExtKeyUsage (ExtKeyUsage c1 ++ [ExtKeyUsageServerAuth]) c1.

(** The world after the first read of the entropy source. *)
Definition afterRead (w : World) : World :=
  match w_rand w with
  | [] => w
  | _ :: r => set_rand r w
  end.

(** The template the generate command builds from its flags. *)
Definition serverTemplate (server : serverFlags) (keyBits : Z) : Template := {|
  Template.Organization := Server.organization server;
  Template.CommonName := Server.commonName server;
  Template.HostNames := strings_Split (Server.host server) ","%char;
  Template.ValidForDays := Server.validForDays server;
  Template.KeyBits := keyBits |}.

(** The two files the generate command writes. *)
Definition serverCertPath (server : serverFlags) : path :=
  filepath_Join (Server.outDir server) ServerCertFileName.

Definition serverKeyPath (server : serverFlags) : path :=
  filepath_Join (Server.outDir server) ServerKeyFileName.

(** The files a trace opens for reading. *)
Definition reads (tr : list Syscall) : list path :=
  omap (fun c => match c with
                 | SysOpen p => Some p
                 | _ => None
                 end) tr.

(** No CA object is made or changed, and no file is opened for reading. *)
Definition no_new_reads : relation World :=
  fun w w' =>
    w_cas w' = w_cas w
    /\ exists tr, w_trace w' = w_trace w ++ tr /\ reads tr = [].

(** Flags of the generate command for the examples, and a world with the
    directory of a CA in it. *)
Definition sampleServer : serverFlags := {|
  Server.host := "10.0.0.1,db.internal"; Server.organization := "Acme";
  Server.commonName := "db"; Server.validForDays := 365; Server.keySize := "4096";
  Server.outDir := ["srv"]; Server.caDir := Some ["ca"] |}.

Definition sampleInit : initFlags := {|
  organization := ""; commonName := ""; validForDays := 365; keySize := "P256";
  caDir := [] |}.

Definition caWorld : World := {|
  w_pairs := []; w_cas := [];
  w_fs := <[ ["ca"; "root.key"] :=
               FileNode 384 [{| Type_ := "EC PRIVATE KEY"; Bytes := DERSEC1 P256 7 |}] ]>
          (<[ ["ca"; "root.crt"] :=
                FileNode 420 [{| Type_ := "CERTIFICATE"; Bytes := sampleCertDER |}] ]>
             (<[ ["ca"] := DirNode 448 ]> ∅));
  w_rand := [Some 21%Z; Some 23%Z; Some 25%Z];
  w_rand_err := urandomError;
  w_now := 1540000000123456789%Z; w_goos := "linux"; w_exec := fun _ => None;
  w_trace := []; w_out := [] |}.

(** The flags of the generate command with another value of [--key-size]. *)
Definition with_keySize (s : string) (server : serverFlags) : serverFlags := {|
  Server.host := Server.host server;
  Server.organization := Server.organization server;
  Server.commonName := Server.commonName server;
  Server.validForDays := Server.validForDays server;
  Server.keySize := s;
  Server.outDir := Server.outDir server;
  Server.caDir := Server.caDir server |}.

(** The template the init command builds from its flags. *)
Definition initTemplate (flags : initFlags) (keyBits : Z) : Template := {|
  Template.Organization := organization flags;
  Template.CommonName := commonName flags;
  Template.HostNames := [];
  Template.ValidForDays := validForDays flags;
  Template.KeyBits := keyBits |}.

(** The two files the init command writes. *)
Definition rootCertPath (flags : initFlags) : path := caDir flags ++ [RootCertFileName].

Definition rootKeyPath (flags : initFlags) : path := caDir flags ++ [RootKeyFileName].

(** * Properties *)

(** ** Key-size tokens (cmd/util.go, cmd/init.go) *)

Lemma isValidKeySize_tokens (s : string) :
  isValidKeySize s = true <-> In s keySizeTokens.
Proof.
  unfold isValidKeySize, keySizeTokens. rewrite existsb_exists. split.
  - intros (x & Hin & Heq). apply String.eqb_eq in Heq. now subst.
  - intros Hin. exists s. split; [assumption | apply String.eqb_refl].
Qed.

(** C3. A key-size token outside the enumerated set is rejected with the
    invalid-key-size error by [parseKeyBits], and the init command that
    receives it exits with status 1 having only printed the error: the
    entropy source is not read, no pair is allocated, no system call is
    made and the file system is as before. *)
Theorem invalid_token_rejected `{str : StringsLib} `{nk : NilKey} (s : string) :
  ~ In s keySizeTokens ->
  parseKeyBits s = (0%Z, Some (ErrString ("invalid key size '" +:+ s +:+ "'")))
  /\ forall (net : NetLib) (flags : initFlags) (w : World),
       keySize flags = s ->
       exists w',
         initRun flags w = Some (1%Z, w')
         /\ w' = print ("Bad key size: invalid key size '" +:+ s +:+ "'") w
         /\ w_rand w' = w_rand w /\ w_pairs w' = w_pairs w
         /\ w_fs w' = w_fs w /\ w_trace w' = w_trace w.
Proof.
  intros Hnot.
  assert (Hinv : isValidKeySize s = false).
  { destruct (isValidKeySize s) eqn:E; [|reflexivity].
    apply isValidKeySize_tokens in E. contradiction. }
  assert (Hparse : parseKeyBits s
                   = (0%Z, Some (ErrString ("invalid key size '" +:+ s +:+ "'")))).
  { unfold parseKeyBits. now rewrite Hinv. }
  split; [exact Hparse|].
  intros net flags w Hs. eexists. unfold initRun. rewrite Hs, Hparse. cbn.
  repeat split; reflexivity.
Qed.

Section Samples_1.

#[local] Existing Instance sampleNet.
#[local] Existing Instance sampleStrings.
#[local] Existing Instance sampleNilKey.

Lemma invalid_token_rejected_witness :
  parseKeyBits "P512" = (0%Z, Some (ErrString "invalid key size 'P512'"))
  /\ exists w',
       initRun
         {| organization := ""; commonName := ""; validForDays := 365;
            keySize := "P512"; caDir := ["ca"] |} sampleWorld = Some (1%Z, w')
       /\ w_rand w' = w_rand sampleWorld.
Proof.
  assert (Hnot : ~ In "P512" keySizeTokens).
  { unfold keySizeTokens. simpl. intros H.
    repeat (destruct H as [H | H]; [discriminate H|]). exact H. }
  destruct (invalid_token_rejected "P512" Hnot) as [Hp Hrun].
  split; [exact Hp|].
  destruct (Hrun sampleNet
              {| organization := ""; commonName := ""; validForDays := 365;
                 keySize := "P512"; caDir := ["ca"] |} sampleWorld eq_refl)
    as (w' & Hr & _ & Hrand & _).
  exists w'. split; assumption.
Defined.

End Samples_1.

(** ** The PEM readers (crtauth/util.go) *)

(** On ASCII text the two functions of [strings] are the ASCII ones:
    rewrites their calls on the labels the program writes. *)
Ltac ascii_strings :=
  repeat (rewrite strings_ToUpper_ASCII by reflexivity);
  repeat (rewrite strings_TrimSpace_ASCII by reflexivity).

Tactic Notation "ascii_strings" "in" hyp(H) :=
  repeat (rewrite strings_ToUpper_ASCII in H by reflexivity);
  repeat (rewrite strings_TrimSpace_ASCII in H by reflexivity).

Lemma readPEMCert_loop_cons `{str : StringsLib} (b : Block) (rest : PEMStream) :
  readPEMCert_loop (b :: rest)
  = if isCertBlock b then x509_ParseCertificate (Bytes b) else readPEMCert_loop rest.
Proof. reflexivity. Qed.

Lemma readPEMKey_loop_cons `{str : StringsLib} (b : Block) (rest : PEMStream) :
  readPEMKey_loop (b :: rest)
  = if isKeyBlock b then parseKeyBlock b else readPEMKey_loop rest.
Proof.
  unfold isKeyBlock, parseKeyBlock. cbn [readPEMKey_loop]. fold (label b).
  destruct (String.eqb (label b) "RSA PRIVATE KEY"); [reflexivity|].
  destruct (String.eqb (label b) "EC PRIVATE KEY"); reflexivity.
Qed.

Lemma readPEMCert_loop_first `{str : StringsLib} (pre post : PEMStream) (b : Block) :
  Forall noCert pre -> isCertBlock b = true ->
  readPEMCert_loop (pre ++ b :: post) = x509_ParseCertificate (Bytes b).
Proof.
  intros Hpre Hb. induction Hpre as [|x pre Hx _ IH].
  - cbn [app]. rewrite readPEMCert_loop_cons, Hb. reflexivity.
  - cbn [app]. rewrite readPEMCert_loop_cons. unfold noCert in Hx. rewrite Hx. exact IH.
Qed.

Lemma readPEMKey_loop_first `{str : StringsLib} (pre post : PEMStream) (b : Block) :
  Forall noKey pre -> isKeyBlock b = true ->
  readPEMKey_loop (pre ++ b :: post) = parseKeyBlock b.
Proof.
  intros Hpre Hb. induction Hpre as [|x pre Hx _ IH].
  - cbn [app]. rewrite readPEMKey_loop_cons, Hb. reflexivity.
  - cbn [app]. rewrite readPEMKey_loop_cons. unfold noKey in Hx. rewrite Hx. exact IH.
Qed.

(** A parser never answers with the readers' own not-found error. *)
Lemma ParseCertificate_not_notfound (d : DER) :
  x509_ParseCertificate d <> certBlockNotFound.
Proof. destruct d; discriminate. Qed.

Lemma parseKeyBlock_not_notfound `{str : StringsLib} (b : Block) :
  parseKeyBlock b <> keyBlockNotFound.
Proof.
  unfold parseKeyBlock, x509_ParsePKCS1PrivateKey, x509_ParseECPrivateKey.
  destruct (String.eqb (label b) "RSA PRIVATE KEY"); destruct (Bytes b); discriminate.
Qed.

Lemma readPEMCert_loop_notfound `{str : StringsLib} (s : PEMStream) :
  readPEMCert_loop s = certBlockNotFound <-> Forall noCert s.
Proof.
  induction s as [|b s IH].
  - split; [constructor | reflexivity].
  - rewrite readPEMCert_loop_cons. destruct (isCertBlock b) eqn:Hb.
    + split.
      * intros H. now apply ParseCertificate_not_notfound in H.
      * intros H. inversion H as [|? ? Hx _]; subst. unfold noCert in Hx. congruence.
    + rewrite IH. split.
      * intros H. now constructor.
      * intros H. now inversion H.
Qed.

Lemma readPEMKey_loop_notfound `{str : StringsLib} (s : PEMStream) :
  readPEMKey_loop s = keyBlockNotFound <-> Forall noKey s.
Proof.
  induction s as [|b s IH].
  - split; [constructor | reflexivity].
  - rewrite readPEMKey_loop_cons. destruct (isKeyBlock b) eqn:Hb.
    + split.
      * intros H. now apply parseKeyBlock_not_notfound in H.
      * intros H. inversion H as [|? ? Hx _]; subst. unfold noKey in Hx. congruence.
    + rewrite IH. split.
      * intros H. now constructor.
      * intros H. now inversion H.
Qed.

(** C6. On a stream that is read without error, each reader returns what
    the parser makes of the first block whose label matches (blocks with
    other labels before it are skipped); it fails with its
    block-not-found error exactly when no block of the stream matches;
    and when the bytes of the first matching block do not decode, it
    fails with the parser's error, which is not the block-not-found one. *)
Theorem readers_first_matching_block `{str : StringsLib} (s : PEMStream) :
  (forall pre b post,
      s = pre ++ b :: post -> Forall (fun x => isCertBlock x = false) pre ->
      isCertBlock b = true ->
      readPEMCert (readerOf s) = x509_ParseCertificate (Bytes b)
      /\ (fst (x509_ParseCertificate (Bytes b)) = None ->
          exists e, readPEMCert (readerOf s) = (None, Some e)
                    /\ Some e <> snd certBlockNotFound))
  /\ (readPEMCert (readerOf s) = certBlockNotFound
      <-> Forall (fun x => isCertBlock x = false) s)
  /\ (forall pre b post,
      s = pre ++ b :: post -> Forall (fun x => isKeyBlock x = false) pre ->
      isKeyBlock b = true ->
      readPEMKey (readerOf s) = parseKeyBlock b
      /\ (fst (parseKeyBlock b) = None ->
          exists e, readPEMKey (readerOf s) = (None, Some e)
                    /\ Some e <> snd keyBlockNotFound))
  /\ (readPEMKey (readerOf s) = keyBlockNotFound
      <-> Forall (fun x => isKeyBlock x = false) s).
Proof.
  unfold readPEMCert, readPEMKey, readerOf, ioutil_ReadAll. cbn [rd_data rd_err].
  split; [|split; [|split]].
  - intros pre b post -> Hpre Hb.
    rewrite (readPEMCert_loop_first pre post b Hpre Hb). split; [reflexivity|].
    destruct (Bytes b); cbn; intros H; try discriminate H;
      (eexists; split; [reflexivity | discriminate]).
  - apply readPEMCert_loop_notfound.
  - intros pre b post -> Hpre Hb.
    rewrite (readPEMKey_loop_first pre post b Hpre Hb). split; [reflexivity|].
    unfold parseKeyBlock.
    destruct (String.eqb (label b) "RSA PRIVATE KEY"); destruct (Bytes b); cbn;
      intros H; try discriminate H; (eexists; split; [reflexivity | discriminate]).
  - apply readPEMKey_loop_notfound.
Qed.

Section Samples_2.

#[local] Existing Instance sampleNet.
#[local] Existing Instance sampleStrings.
#[local] Existing Instance sampleNilKey.

Lemma readers_first_matching_block_witness :
  readPEMCert (readerOf sampleStream) = x509_ParseCertificate sampleCertDER
  /\ readPEMKey (readerOf sampleStream) = (Some (ECDSAPrivateKey P256 7), None).
Proof.
  destruct (readers_first_matching_block sampleStream) as (Hc & _ & Hk & _).
  split.
  - apply (Hc [{| Type_ := "X509 CRL"; Bytes := DEROther [48; 0]%Z |}]
              {| Type_ := " certificate"; Bytes := sampleCertDER |}
              [{| Type_ := "EC PRIVATE KEY"; Bytes := DERSEC1 P256 7 |}]);
      [reflexivity | repeat constructor | reflexivity].
  - apply (Hk [{| Type_ := "X509 CRL"; Bytes := DEROther [48; 0]%Z |};
               {| Type_ := " certificate"; Bytes := sampleCertDER |}]
              {| Type_ := "EC PRIVATE KEY"; Bytes := DERSEC1 P256 7 |} []);
      [reflexivity | repeat constructor | reflexivity].
Defined.

End Samples_2.

(** ** The certificate descriptor (crtauth/template.go) *)

Section Descriptor.

Context `{net : NetLib} `{str : StringsLib} `{nk : NilKey}.

Lemma addHost_loop (hs : list string) (c : Certificate) :
  IPAddresses (foldl addHost c hs) = IPAddresses c ++ omap net_ParseIP hs
  /\ DNSNames (foldl addHost c hs)
     = DNSNames c ++ List.filter (fun h => negb (parsesAsIP h)) hs
  /\ SerialNumber (foldl addHost c hs) = SerialNumber c
  /\ Subject (foldl addHost c hs) = Subject c
  /\ NotBefore (foldl addHost c hs) = NotBefore c
  /\ NotAfter (foldl addHost c hs) = NotAfter c
  /\ BasicConstraintsValid (foldl addHost c hs) = BasicConstraintsValid c.
Proof.
  revert c. induction hs as [|h hs IH]; intros c.
  - cbn. rewrite !app_nil_r. repeat split; reflexivity.
  - cbn [foldl]. destruct (IH (addHost c h)) as (Hip & Hdns & Hs & Hsub & Hnb & Hna & Hbc).
    rewrite Hip, Hdns, Hs, Hsub, Hnb, Hna, Hbc. clear IH Hip Hdns Hs Hsub Hnb Hna Hbc.
    unfold addHost, parsesAsIP. cbn [omap List.filter list_omap].
    destruct (net_ParseIP h) as [ip|]; cbn; rewrite <- ?app_assoc;
      repeat split; reflexivity.
Qed.

(** When the entropy source delivers, [to509] returns the descriptor with
    the host identifiers classified. *)
Lemma to509_ok (t : Template) (w : World) (z : Z) (r : list (option Z)) :
  w_rand w = Some z :: r ->
  to509 t w
  = Some ((Some (foldl addHost (descriptor t (z mod 2 ^ 128) (w_now w))
                   (Template.HostNames t)), None), set_rand r w).
Proof.
  intros Hr. unfold to509, randSerial, rand_Read, time_Now, bind, gets, modify, ret.
  rewrite Hr. cbn. destruct (Template.HostNames t); reflexivity.
Qed.

(** When the entropy source fails, so does [to509]. *)
Lemma to509_fails (t : Template) (w : World) :
  w_rand w = [] \/ (exists r, w_rand w = None :: r) ->
  exists w',
    to509 t w = Some ((None, Errorf "To509() failed: " (w_rand_err w)), w')
    /\ w_rand w' = tail (w_rand w) /\ w_pairs w' = w_pairs w.
Proof.
  unfold to509, randSerial, rand_Read, bind, gets, modify, ret.
  intros [Hr | [r Hr]]; rewrite Hr; cbn; eexists;
    (split; [reflexivity|]); cbn; rewrite ?Hr; split; reflexivity.
Qed.

(** C7. The descriptor built from a template holds, in its IP-address
    list, the addresses of the host identifiers that parse as IP
    addresses and, in its DNS-name list, the identifiers that do not,
    each list in the order of the input. *)
Theorem hosts_classified (t : Template) (w : World) (z : Z) (r : list (option Z)) :
  w_rand w = Some z :: r ->
  exists c,
    to509 t w = Some ((Some c, None), set_rand r w)
    /\ IPAddresses c = omap net_ParseIP (Template.HostNames t)
    /\ DNSNames c = List.filter (fun h => negb (parsesAsIP h)) (Template.HostNames t).
Proof.
  intros Hr. eexists. split; [apply (to509_ok t w z r Hr)|].
  destruct (addHost_loop (Template.HostNames t) (descriptor t (z mod 2 ^ 128) (w_now w)))
    as (Hip & Hdns & _).
  rewrite Hip, Hdns. split; reflexivity.
Qed.

Lemma wrap64_small (z : Z) : (- 2 ^ 63 <= z < 2 ^ 63)%Z -> wrap64 z = z.
Proof.
  intros H. unfold wrap64. rewrite Z.mod_small; lia.
Qed.

Lemma daysToDuration_exact (days : Z) :
  (- maxDays <= days <= maxDays)%Z ->
  daysToDuration days = (days * 24 * time_Hour)%Z.
Proof.
  unfold maxDays, daysToDuration, time_Hour. intros H.
  rewrite (wrap64_small days) by lia.
  rewrite (wrap64_small (days * 24)) by lia.
  rewrite wrap64_small by lia. reflexivity.
Qed.

(** X4. Within [maxDays] the validity window is the whole-day multiple
    the template asks for, counted from the reading of the clock. *)
Lemma validity_window (t : Template) (w : World) (z : Z) (r : list (option Z)) :
  w_rand w = Some z :: r ->
  (0 <= Template.ValidForDays t <= maxDays)%Z ->
  exists c,
    to509 t w = Some ((Some c, None), set_rand r w)
    /\ NotBefore c = w_now w
    /\ NotAfter c = (NotBefore c + Template.ValidForDays t * 24 * time_Hour)%Z
    /\ ((0 < Template.ValidForDays t)%Z -> (NotBefore c < NotAfter c)%Z).
Proof.
  intros Hr Hd. eexists. split; [apply (to509_ok t w z r Hr)|].
  destruct (addHost_loop (Template.HostNames t) (descriptor t (z mod 2 ^ 128) (w_now w)))
    as (_ & _ & _ & _ & Hnb & Hna & _).
  rewrite Hnb, Hna. cbn [descriptor NotBefore NotAfter]. unfold time_Add.
  rewrite daysToDuration_exact by (unfold maxDays in *; lia).
  unfold time_Hour. repeat split; lia.
Qed.

(** C8, at the input where the code departs from it. A template that asks
    for [maxDays + 1 = 106752] days gets a descriptor whose not-after lies
    before its not-before: the product [days * 24 * time.Hour] wraps
    around in 64 bits. *)
Theorem validity_wraps_around (t : Template) (w : World) (z : Z) (r : list (option Z)) :
  w_rand w = Some z :: r ->
  Template.ValidForDays t = 106752%Z ->
  exists c,
    to509 t w = Some ((Some c, None), set_rand r w)
    /\ NotBefore c = w_now w
    /\ NotAfter c = (NotBefore c - 9223371273709551616)%Z
    /\ (NotAfter c < NotBefore c)%Z
    /\ NotAfter c <> (NotBefore c + Template.ValidForDays t * 24 * time_Hour)%Z.
Proof.
  intros Hr Hd. eexists. split; [apply (to509_ok t w z r Hr)|].
  destruct (addHost_loop (Template.HostNames t) (descriptor t (z mod 2 ^ 128) (w_now w)))
    as (_ & _ & _ & _ & Hnb & Hna & _).
  rewrite Hnb, Hna. cbn [descriptor NotBefore NotAfter]. unfold time_Add.
  rewrite Hd.
  assert (Hw : daysToDuration 106752 = (- 9223371273709551616)%Z) by (vm_compute; reflexivity).
  rewrite Hw. unfold time_Hour. repeat split; lia.
Qed.

End Descriptor.

Section Samples_3.

#[local] Existing Instance sampleNet.
#[local] Existing Instance sampleStrings.
#[local] Existing Instance sampleNilKey.

Lemma hosts_classified_witness :
  exists c,
    to509
      {| Template.Organization := "Acme"; Template.CommonName := "db";
         Template.HostNames := ["10.0.0.1"; "db.internal"; "::1"];
         Template.ValidForDays := 365; Template.KeyBits := 256 |} sampleWorld
    = Some ((Some c, None), set_rand (tail (w_rand sampleWorld)) sampleWorld)
    /\ IPAddresses c = [[10; 0; 0; 1]; [0; 0; 0; 0; 0; 0; 0; 0; 0; 0; 0; 0; 0; 0; 0; 1]]%Z
    /\ DNSNames c = ["db.internal"].
Proof.
  destruct (hosts_classified
              {| Template.Organization := "Acme"; Template.CommonName := "db";
                 Template.HostNames := ["10.0.0.1"; "db.internal"; "::1"];
                 Template.ValidForDays := 365; Template.KeyBits := 256 |}
              sampleWorld 5%Z (tail (w_rand sampleWorld)) eq_refl)
    as (c & Hc & Hip & Hdns).
  exists c. repeat split; assumption.
Defined.

Lemma validity_wraps_around_witness :
  exists c,
    to509
      {| Template.Organization := "Acme"; Template.CommonName := "db";
         Template.HostNames := []; Template.ValidForDays := 106752;
         Template.KeyBits := 256 |} sampleWorld
    = Some ((Some c, None), set_rand (tail (w_rand sampleWorld)) sampleWorld)
    /\ (NotAfter c < NotBefore c)%Z.
Proof.
  destruct (validity_wraps_around
              {| Template.Organization := "Acme"; Template.CommonName := "db";
                 Template.HostNames := []; Template.ValidForDays := 106752;
                 Template.KeyBits := 256 |}
              sampleWorld 5%Z (tail (w_rand sampleWorld)) eq_refl eq_refl)
    as (c & Hc & _ & _ & Hlt & _).
  exists c. split; assumption.
Defined.

End Samples_3.

(** ** The monad and the heap *)

Lemma bind_eq {A B : Type} (m : M A) (k : A -> M B) (w w1 : World) (a : A) :
  m w = Some (a, w1) -> bind m k w = k a w1.
Proof. intros H. unfold bind. now rewrite H. Qed.

Lemma bind_inv {A B : Type} (m : M A) (k : A -> M B) (w w' : World) (b : B) :
  bind m k w = Some (b, w') ->
  exists a w1, m w = Some (a, w1) /\ k a w1 = Some (b, w').
Proof.
  unfold bind. destruct (m w) as [[a w1]|]; [|discriminate].
  intros H. now exists a, w1.
Qed.

#[local] Instance keeps_preorder {B : Type} (f : World -> B) : PreOrder (keeps f).
Proof.
  split.
  - intros w. reflexivity.
  - intros w1 w2 w3 H12 H23. unfold keeps in *. congruence.
Qed.

#[local] Instance touches_only_preorder (p : ptr) (rel : relation Pair) :
  PreOrder rel -> PreOrder (touches_only p rel).
Proof.
  intros Hrel. split.
  - intros w. split; [reflexivity|]. intros l v Hl. exists v.
    split; [assumption|]. split; intros _; reflexivity.
  - intros w1 w2 w3 [Hlen12 H12] [Hlen23 H23]. split; [congruence|].
    intros l v Hl. destruct (H12 l v Hl) as (v2 & Hl2 & Hrel12 & Heq12).
    destruct (H23 l v2 Hl2) as (v3 & Hl3 & Hrel23 & Heq23).
    exists v3. split; [assumption|]. split.
    + intros Hp. etransitivity; eauto.
    + intros Hp. rewrite (Heq23 Hp). auto.
Qed.

#[local] Instance same_Key_KeyBits_preorder : PreOrder same_Key_KeyBits.
Proof.
  split; [intros v; split; reflexivity|].
  intros v1 v2 v3 [H1 H2] [H3 H4]. split; congruence.
Qed.

#[local] Instance same_Cert_KeyBits_preorder : PreOrder same_Cert_KeyBits.
Proof.
  split; [intros v; split; reflexivity|].
  intros v1 v2 v3 [H1 H2] [H3 H4]. split; congruence.
Qed.

#[local] Instance same_KeyBits_preorder : PreOrder same_KeyBits.
Proof.
  split; [intros v; reflexivity|].
  intros v1 v2 v3 H1 H2. unfold same_KeyBits in *. congruence.
Qed.

(** A change of the world outside the heap of pairs touches no pair. *)
Lemma touches_only_same (p : ptr) (rel : relation Pair) (w w' : World) :
  PreOrder rel -> w_pairs w' = w_pairs w -> touches_only p rel w w'.
Proof.
  intros Hrel Hw. split; [now rewrite Hw|]. intros l v Hl. exists v. rewrite Hw.
  split; [assumption|]. split; intros _; reflexivity.
Qed.

Section Frames.

Context (R : relation World) `{!PreOrder R}.

Lemma frames_ret {A : Type} (a : A) : frames R (ret a).
Proof. intros w a' w' H. inversion H; subst. reflexivity. Qed.

Lemma frames_panic {A : Type} : frames R (@panic A).
Proof. intros w a' w' H. discriminate H. Qed.

Lemma frames_gets {A : Type} (g : World -> A) : frames R (gets g).
Proof. intros w a' w' H. inversion H; subst. reflexivity. Qed.

Lemma frames_modify (g : World -> World) :
  (forall w, R w (g w)) -> frames R (modify g).
Proof. intros Hg w a' w' H. inversion H; subst. apply Hg. Qed.

Lemma frames_bind {A C : Type} (m : M A) (k : A -> M C) :
  frames R m -> (forall a, frames R (k a)) -> frames R (bind m k).
Proof.
  intros Hm Hk w c w' H. apply bind_inv in H as (a & w1 & H1 & H2).
  transitivity w1; [exact (Hm _ _ _ H1) | exact (Hk a _ _ _ H2)].
Qed.

End Frames.

Lemma load_Some (l : nat) (v : Pair) (w : World) :
  w_pairs w !! l = Some v -> load (Some l) w = Some (v, w).
Proof. intros H. unfold load. now rewrite H. Qed.

Lemma load_inv (p : ptr) (v : Pair) (w w' : World) :
  load p w = Some (v, w') -> w' = w /\ exists l, p = Some l /\ w_pairs w !! l = Some v.
Proof.
  unfold load. destruct p as [l|]; [|discriminate].
  destruct (w_pairs w !! l) as [v0|] eqn:E; [|discriminate].
  intros H. inversion H; subst. eauto.
Qed.

Lemma store_Some (l : nat) (v0 v : Pair) (w : World) :
  w_pairs w !! l = Some v0 ->
  store (Some l) v w = Some (tt, set_pairs (<[l := v]> (w_pairs w)) w).
Proof. intros H. unfold store. now rewrite (bind_eq _ _ _ _ _ (load_Some l v0 w H)). Qed.

Lemma store_inv (p : ptr) (v : Pair) (w w' : World) (u : unit) :
  store p v w = Some (u, w') ->
  exists l v0, p = Some l /\ w_pairs w !! l = Some v0
               /\ w' = set_pairs (<[l := v]> (w_pairs w)) w.
Proof.
  unfold store. intros H. apply bind_inv in H as (v0 & w1 & H1 & H2).
  apply load_inv in H1 as (-> & l & -> & Hl). inversion H2; subst.
  exists l, v0. repeat split. assumption.
Qed.

Lemma load_frames (R : relation World) `{!PreOrder R} (p : ptr) : frames R (load p).
Proof. intros w v w' H. apply load_inv in H as [-> _]. reflexivity. Qed.

Lemma loadCA_Some (l : nat) (c : CA) (w : World) :
  w_cas w !! l = Some c -> loadCA (Some l) w = Some (c, w).
Proof. intros H. unfold loadCA. now rewrite H. Qed.

Lemma loadCA_inv (ca : option nat) (c : CA) (w w' : World) :
  loadCA ca w = Some (c, w') -> w' = w /\ exists l, ca = Some l /\ w_cas w !! l = Some c.
Proof.
  unfold loadCA. destruct ca as [l|]; [|discriminate].
  destruct (w_cas w !! l) as [c0|] eqn:E; [|discriminate].
  intros H. inversion H; subst. eauto.
Qed.

Lemma loadCA_frames (R : relation World) `{!PreOrder R} (ca : option nat) :
  frames R (loadCA ca).
Proof. intros w v w' H. apply loadCA_inv in H as [-> _]. reflexivity. Qed.

(** Operations on the heap of pairs leave the rest of the world alone. *)
Lemma alloc_keeps {B : Type} (f : World -> B) (v : Pair) :
  (forall h w, f (set_pairs h w) = f w) -> frames (keeps f) (alloc v).
Proof. intros Hf w a w' H. inversion H; subst. apply Hf. Qed.

Lemma store_keeps {B : Type} (f : World -> B) (p : ptr) (v : Pair) :
  (forall h w, f (set_pairs h w) = f w) -> frames (keeps f) (store p v).
Proof.
  intros Hf w a w' H. apply store_inv in H as (l & v0 & _ & _ & ->). apply Hf.
Qed.

(** Proves [frames R m] for a program [m] built from the operations of the
    monad, the heap and the environment. *)
Ltac frames_side :=
  first [ exact eq_refl
        | intros; exact eq_refl
        | apply touches_only_same; [typeclasses eauto | exact eq_refl] ].

Ltac frames_step :=
  lazymatch goal with
  | |- frames _ (bind _ _) => apply frames_bind; [typeclasses eauto | | intros ?]
  | |- frames _ (ret _) => apply frames_ret; typeclasses eauto
  | |- frames _ panic => apply frames_panic
  | |- frames _ (gets _) => apply frames_gets; typeclasses eauto
  | |- frames _ (modify _) => apply frames_modify; intros ?; frames_side
  | |- frames _ (load _) => apply load_frames; typeclasses eauto
  | |- frames _ (loadCA _) => apply loadCA_frames; typeclasses eauto
  | |- frames (keeps _) (alloc _) => apply alloc_keeps; frames_side
  | |- frames (keeps _) (store _ _) => apply store_keeps; frames_side
  | |- frames _ (match ?x with _ => _ end) => destruct x
  end.

Ltac unfold_heap := unfold update_Cert, load_Cert, store_Cert, store_Key.

Ltac unfold_env :=
  unfold exec_Run, runtime_GOOS, time_Now, rand_Read, rand_failure, pem_Encode,
    os_Open, os_OpenFile, os_MkdirAll, os_Stat, Printf.

Ltac unfold_crypto :=
  unfold x509_CreateCertificate, ecdsa_GenerateKey, rsa_GenerateKey.

Ltac unfold_util :=
  unfold restrictKeyPermissions, mkdirAndCreateFile, ensureDirExists, genPrivKey,
    randSerial, pemBlockForKey.

Ltac unfold_pair :=
  unfold SignWith, PubKey, WriteFiles, WriteKey, WriteCert, LoadFiles, LoadKey,
    LoadCert, NewServerPair, NewCAPair, NewPair, to509.

Ltac frames_auto :=
  unfold_pair; unfold_util; unfold_crypto; unfold_env; unfold_heap;
  repeat frames_step.

(** ** What the functions leave alone *)

Section Frame_lemmas.

Context `{net : NetLib} `{str : StringsLib} `{nk : NilKey}.

Lemma to509_keeps_pairs (t : Template) : frames (keeps w_pairs) (to509 t).
Proof. frames_auto. Qed.

Lemma genPrivKey_keeps_pairs (bits : Z) : frames (keeps w_pairs) (genPrivKey bits).
Proof. frames_auto. Qed.

Lemma os_MkdirAll_keeps_pairs (p : path) (perm : Z) :
  frames (keeps w_pairs) (os_MkdirAll p perm).
Proof. frames_auto. Qed.

Lemma os_MkdirAll_keeps_cas (p : path) (perm : Z) :
  frames (keeps w_cas) (os_MkdirAll p perm).
Proof. frames_auto. Qed.

Lemma WriteFiles_keeps_pairs (p : ptr) (certPath keyPath : path) :
  frames (keeps w_pairs) (WriteFiles p certPath keyPath).
Proof. frames_auto. Qed.

Lemma WriteFiles_keeps_cas (p : ptr) (certPath keyPath : path) :
  frames (keeps w_cas) (WriteFiles p certPath keyPath).
Proof. frames_auto. Qed.

Lemma WriteFiles_keeps_rand (p : ptr) (certPath keyPath : path) :
  frames (keeps w_rand) (WriteFiles p certPath keyPath).
Proof. frames_auto. Qed.

Lemma NewCAPair_keeps_cas (t : Template) : frames (keeps w_cas) (NewCAPair t).
Proof. frames_auto. Qed.

Lemma NewCAPair_keeps_fs (t : Template) : frames (keeps w_fs) (NewCAPair t).
Proof. frames_auto. Qed.

Lemma SignWith_keeps_cas (p parent : ptr) : frames (keeps w_cas) (SignWith p parent).
Proof. frames_auto. Qed.

Lemma SignWith_keeps_fs (p parent : ptr) : frames (keeps w_fs) (SignWith p parent).
Proof. frames_auto. Qed.

Lemma LoadFiles_keeps_cas (p : ptr) (certPath keyPath : path) :
  frames (keeps w_cas) (LoadFiles p certPath keyPath).
Proof. frames_auto. Qed.

Lemma LoadFiles_keeps_fs (p : ptr) (certPath keyPath : path) :
  frames (keeps w_fs) (LoadFiles p certPath keyPath).
Proof. frames_auto. Qed.

Lemma LoadFiles_keeps_rand (p : ptr) (certPath keyPath : path) :
  frames (keeps w_rand) (LoadFiles p certPath keyPath).
Proof. frames_auto. Qed.

End Frame_lemmas.

(** ** Creation of a pair (crtauth/pair.go) *)

Section Creation.

Context `{net : NetLib} `{str : StringsLib} `{nk : NilKey}.

Lemma alloc_eq (v : Pair) (w : World) :
  alloc v w = Some (Some (length (w_pairs w)), set_pairs (w_pairs w ++ [v]) w).
Proof. reflexivity. Qed.

(** [NewPair] in terms of the outcomes of its two steps. *)
Lemma NewPair_steps (t : Template) (w w1 w2 : World)
    (c : option Certificate) (e1 : error) (k : option PrivateKey) (e2 : error) :
  to509 t w = Some ((c, e1), w1) ->
  genPrivKey (Template.KeyBits t) w1 = Some ((k, e2), w2) ->
  NewPair t w
  = match e2 with
    | Some e => Some ((None, Errorf "failed to generate private key for pair: " e), w2)
    | None =>
        Some ((Some (length (w_pairs w)), None),
              set_pairs (w_pairs w ++ [{| Cert := match e1 with
                                                  | Some _ => Some emptyCertificate
                                                  | None => c
                                                  end;
                                          Key := k;
                                          KeyBits := Template.KeyBits t |}]) w2)
    end.
Proof.
  intros H1 H2. unfold NewPair.
  rewrite (bind_eq _ _ _ _ _ H1). cbn beta iota.
  rewrite (bind_eq _ _ _ _ _ H2). cbn beta iota.
  destruct e2 as [e|]; [reflexivity|].
  rewrite (bind_eq _ _ _ _ _ (alloc_eq _ _)). unfold ret.
  rewrite (genPrivKey_keeps_pairs _ _ _ _ H2), (to509_keeps_pairs _ _ _ _ H1).
  reflexivity.
Qed.

(** C1, as the code has it. A failure of [to509] is not returned by
    [NewPair]: the pair is built with an empty certificate and the call
    succeeds when key generation does. The only errors [NewPair] returns
    are those of key generation, under a prefix, and then no pair is
    returned and none is allocated. *)
Theorem NewPair_returns_keygen_errors_only (t : Template) (w : World) :
  (forall c e w1 k w2,
      to509 t w = Some ((c, Some e), w1) ->
      genPrivKey (Template.KeyBits t) w1 = Some ((k, None), w2) ->
      exists w',
        NewPair t w = Some ((Some (length (w_pairs w)), None), w')
        /\ w_pairs w' = w_pairs w ++ [{| Cert := Some emptyCertificate; Key := k;
                                         KeyBits := Template.KeyBits t |}])
  /\ (forall p e w',
      NewPair t w = Some ((p, Some e), w') ->
      p = None /\ w_pairs w' = w_pairs w
      /\ exists c e1 w1 k e0,
           to509 t w = Some ((c, e1), w1)
           /\ genPrivKey (Template.KeyBits t) w1 = Some ((k, Some e0), w')
           /\ e = ErrString ("failed to generate private key for pair: " +:+ Error e0)).
Proof.
  split.
  - intros c e w1 k w2 H1 H2. eexists. split.
    + rewrite (NewPair_steps _ _ _ _ _ _ _ _ H1 H2). reflexivity.
    + reflexivity.
  - intros p e w' H. pose proof H as H0. unfold NewPair in H.
    apply bind_inv in H as ([c e1] & w1 & H1 & H). cbn beta iota in H.
    apply bind_inv in H as ([k e2] & w2 & H2 & H). clear H.
    rewrite (NewPair_steps _ _ _ _ _ _ _ _ H1 H2) in H0.
    destruct e2 as [e0|]; [|discriminate H0].
    inversion H0; subst. split; [reflexivity|]. split.
    + rewrite (genPrivKey_keeps_pairs _ _ _ _ H2). apply (to509_keeps_pairs _ _ _ _ H1).
    + exists c, e1, w1, k, e0. repeat split; assumption.
Qed.

End Creation.

Section Samples_4.

#[local] Existing Instance sampleNet.
#[local] Existing Instance sampleStrings.
#[local] Existing Instance sampleNilKey.

(** C1 fails as stated: with an entropy source that fails once, [to509]
    fails, and [NewPair] returns a pair and no error. *)
Lemma NewPair_drops_template_error :
  (exists w1, to509 NewTemplate glitchWorld
              = Some ((None, Some (ErrString ("To509() failed: "
                                              +:+ "read /dev/urandom: input/output error"))),
                      w1))
  /\ (exists w', NewPair NewTemplate glitchWorld = Some ((Some 0, None), w')
                 /\ w_pairs w' = [{| Cert := Some emptyCertificate;
                                     Key := Some (ECDSAPrivateKey P256 7);
                                     KeyBits := 256 |}]).
Proof.
  split.
  - eexists. lazy. reflexivity.
  - eexists. split; [lazy; reflexivity | reflexivity].
Qed.

Lemma NewPair_returns_keygen_errors_only_witness :
  exists w',
    NewPair NewTemplate glitchWorld = Some ((Some 0, None), w')
    /\ w_pairs w' = [{| Cert := Some emptyCertificate;
                        Key := Some (ECDSAPrivateKey P256 7); KeyBits := 256 |}].
Proof.
  destruct (NewPair_returns_keygen_errors_only NewTemplate glitchWorld)
    as [Hdrop _].
  exact (Hdrop None (ErrString ("To509() failed: "
                                +:+ "read /dev/urandom: input/output error"))
           (set_rand [Some 7%Z; Some 9%Z] glitchWorld)
           (Some (ECDSAPrivateKey P256 7))
           (set_rand [Some 9%Z] glitchWorld) eq_refl eq_refl).
Defined.

End Samples_4.

(** ** The file system *)

Lemma lookupNode_insert (fs : gmap path Node) (p q : path) (n : Node) :
  p <> [] ->
  lookupNode (<[p := n]> fs) q = if decide (q = p) then Some n else lookupNode fs q.
Proof.
  intros Hp. destruct q as [|c q].
  - cbn. destruct (decide ([] = p)) as [<-|_]; [contradiction | reflexivity].
  - cbn [lookupNode]. rewrite lookup_insert. repeat case_decide; congruence.
Qed.

Lemma lookupNode_None_ne (fs : gmap path Node) (p : path) :
  lookupNode fs p = None -> p <> [].
Proof. intros H ->. discriminate H. Qed.

#[local] Instance fs_le_preorder : PreOrder fs_le.
Proof.
  split.
  - intros fs q. destruct (lookupNode fs q) as [[m|m d]|]; eauto.
  - intros fs1 fs2 fs3 H12 H23 q. specialize (H12 q).
    destruct (lookupNode fs1 q) as [[m|m d]|]; [| |exact I].
    + specialize (H23 q). now rewrite H12 in H23.
    + destruct H12 as [d2 H12]. specialize (H23 q). now rewrite H12 in H23.
Qed.

Lemma fs_le_isDir (fs fs' : gmap path Node) (q : path) :
  fs_le fs fs' -> isDir fs q = true -> isDir fs' q = true.
Proof.
  intros Hle. specialize (Hle q). unfold isDir.
  destruct (lookupNode fs q) as [[m|m d]|]; try discriminate. now rewrite Hle.
Qed.

(** *** Prefixes of a path *)

Lemma prefixes_spec (p q : path) : q ∈ prefixes p <-> q `prefix_of` p.
Proof.
  revert q. induction p as [|c p IH]; intros q.
  - cbn. rewrite list_elem_of_singleton. split.
    + intros ->. reflexivity.
    + intros H. now apply prefix_nil_inv in H.
  - cbn [prefixes]. rewrite elem_of_cons, list_elem_of_fmap. split.
    + intros [->|(q' & -> & Hq')]; [apply prefix_nil|].
      apply prefix_cons, IH, Hq'.
    + intros H. destruct q as [|c' q]; [now left|]. right.
      pose proof (prefix_cons_inv_1 _ _ _ _ H) as ->.
      apply prefix_cons_inv_2 in H. exists q. split; [reflexivity | now apply IH].
Qed.

Lemma removelast_prefix (q : path) : removelast q `prefix_of` q.
Proof.
  destruct (decide (q = [])) as [->|Hq]; [reflexivity|].
  exists [List.last q ""]. now apply app_removelast_last.
Qed.

Lemma prefixes_parent (p q : path) : q ∈ prefixes p -> filepath_Dir q ∈ prefixes p.
Proof.
  rewrite !prefixes_spec. intros H. etransitivity; [apply removelast_prefix | exact H].
Qed.

(** *** [os.MkdirAll] *)

Lemma mkdir_lookup (perm : Z) (a : path) (fs : gmap path Node) (q : path) :
  lookupNode (mkdir perm fs a) q
  = match lookupNode fs q with
    | Some n => Some n
    | None => if decide (q = a) then Some (DirNode perm) else None
    end.
Proof.
  unfold mkdir. destruct (lookupNode fs a) as [n|] eqn:Ha.
  - destruct (lookupNode fs q) as [n'|] eqn:Hq; [reflexivity|].
    case_decide; [subst; congruence | reflexivity].
  - rewrite (lookupNode_insert fs a q _ (lookupNode_None_ne _ _ Ha)).
    destruct (decide (q = a)) as [->|Hne].
    + rewrite Ha. reflexivity.
    + destruct (lookupNode fs q); reflexivity.
Qed.

Lemma mkdirs_lookup (perm : Z) (ps : list path) (fs : gmap path Node) (q : path) :
  lookupNode (foldl (mkdir perm) fs ps) q
  = match lookupNode fs q with
    | Some n => Some n
    | None => if decide (q ∈ ps) then Some (DirNode perm) else None
    end.
Proof.
  revert fs. induction ps as [|a ps IH]; intros fs.
  - cbn. destruct (lookupNode fs q); [reflexivity|].
    case_decide as H; [now apply elem_of_nil in H | reflexivity].
  - cbn [foldl]. rewrite IH, mkdir_lookup.
    destruct (lookupNode fs q) as [n'|]; [reflexivity|].
    destruct (decide (q = a)) as [->|Hne].
    + rewrite decide_True by (now left). reflexivity.
    + destruct (decide (q ∈ ps)) as [Hin|Hin].
      * rewrite decide_True by (now right). reflexivity.
      * rewrite decide_False; [reflexivity|]. rewrite elem_of_cons. tauto.
Qed.

Lemma mkdirs_le (perm : Z) (ps : list path) (fs : gmap path Node) :
  fs_le fs (foldl (mkdir perm) fs ps).
Proof.
  intros q. rewrite mkdirs_lookup. destruct (lookupNode fs q) as [[m|m d]|]; eauto.
Qed.

Lemma mkdirs_isFile (perm : Z) (ps : list path) (fs : gmap path Node) (q : path) :
  isFile (foldl (mkdir perm) fs ps) q = isFile fs q.
Proof.
  unfold isFile. rewrite mkdirs_lookup. destruct (lookupNode fs q) as [[m|m d]|];
    try reflexivity. case_decide; reflexivity.
Qed.

Lemma mkdirs_wf (perm : Z) (p : path) (fs : gmap path Node) :
  wf_fs fs -> existsb (isFile fs) (prefixes p) = false ->
  wf_fs (foldl (mkdir perm) fs (prefixes p)).
Proof.
  intros Hwf Hnofile q n Hq. rewrite mkdirs_lookup in Hq.
  destruct (lookupNode fs q) as [n0|] eqn:Hq0.
  - eapply fs_le_isDir; [apply mkdirs_le|]. eapply Hwf. exact Hq0.
  - case_decide as Hin; [|discriminate Hq].
    apply prefixes_parent in Hin. unfold isDir. rewrite mkdirs_lookup.
    destruct (lookupNode fs (filepath_Dir q)) as [[m|m d]|] eqn:Hpar.
    + reflexivity.
    + exfalso. apply not_true_iff_false in Hnofile. apply Hnofile.
      apply existsb_exists. exists (filepath_Dir q). split.
      * now apply list_elem_of_In.
      * unfold isFile. now rewrite Hpar.
    + rewrite decide_True by assumption. reflexivity.
Qed.

(** *** Creating and writing a file *)

Lemma insert_file_le (fs : gmap path Node) (p : path) (m : Z) (d : PEMStream) :
  p <> [] ->
  (lookupNode fs p = None \/ exists d0, lookupNode fs p = Some (FileNode m d0)) ->
  fs_le fs (<[p := FileNode m d]> fs).
Proof.
  intros Hp Hold q. rewrite (lookupNode_insert _ _ _ _ Hp).
  destruct (decide (q = p)) as [->|Hne].
  - destruct Hold as [->|[d0 ->]]; eauto.
  - destruct (lookupNode fs q) as [[m'|m' d']|]; eauto.
Qed.

Lemma insert_file_wf (fs : gmap path Node) (p : path) (m : Z) (d : PEMStream) :
  p <> [] -> wf_fs fs -> isDir fs (filepath_Dir p) = true -> isDir fs p = false ->
  wf_fs (<[p := FileNode m d]> fs).
Proof.
  intros Hp Hwf Hpar Hnd q n Hq. rewrite (lookupNode_insert _ _ _ _ Hp) in Hq.
  assert (Hkeep : forall r, isDir fs r = true -> isDir (<[p := FileNode m d]> fs) r = true).
  { intros r Hr. unfold isDir. rewrite (lookupNode_insert _ _ _ _ Hp).
    destruct (decide (r = p)) as [->|_]; [congruence | exact Hr]. }
  apply Hkeep. destruct (decide (q = p)) as [->|Hne]; [exact Hpar|].
  eapply Hwf. exact Hq.
Qed.

Lemma wf_fs_empty : wf_fs ∅.
Proof.
  intros [|c p] n H; [reflexivity|]. cbn in H. rewrite lookup_empty in H. discriminate H.
Qed.

Lemma insert_dir_wf (fs : gmap path Node) (p : path) (m : Z) :
  p <> [] -> wf_fs fs -> isDir fs (filepath_Dir p) = true ->
  wf_fs (<[p := DirNode m]> fs).
Proof.
  intros Hp Hwf Hpar q n Hq. rewrite (lookupNode_insert _ _ _ _ Hp) in Hq.
  assert (Hkeep : forall r, isDir fs r = true -> isDir (<[p := DirNode m]> fs) r = true).
  { intros r Hr. unfold isDir. rewrite (lookupNode_insert _ _ _ _ Hp).
    destruct (decide (r = p)); [reflexivity | exact Hr]. }
  apply Hkeep. destruct (decide (q = p)) as [->|Hne]; [exact Hpar|].
  eapply Hwf. exact Hq.
Qed.

(** ** Loading a pair (crtauth/pair.go, crtauth/crtauth.go) *)

Lemma frames_weaken {A : Type} (R R' : relation World) (m : M A) :
  (forall w w', R w w' -> R' w w') -> frames R m -> frames R' m.
Proof. intros HR Hm w a w' H. apply HR. exact (Hm _ _ _ H). Qed.

Lemma touches_only_mono (p : ptr) (rel rel' : relation Pair) (w w' : World) :
  (forall v v', rel v v' -> rel' v v') ->
  touches_only p rel w w' -> touches_only p rel' w w'.
Proof.
  intros Hrel [Hlen H]. split; [assumption|]. intros l v Hl.
  destruct (H l v Hl) as (v' & Hl' & H1 & H2). exists v'. auto.
Qed.

Lemma set_pairs_insert_touches (p : ptr) (rel : relation Pair) (l : nat)
    (v0 v : Pair) (w : World) :
  p = Some l -> w_pairs w !! l = Some v0 -> rel v0 v ->
  touches_only p rel w (set_pairs (<[l := v]> (w_pairs w)) w).
Proof.
  intros -> Hl Hrel. split; [cbn; apply length_insert|]. intros l' v' Hl'. cbn.
  destruct (decide (l' = l)) as [->|Hne].
  - exists v. rewrite list_lookup_insert_eq by (now apply lookup_lt_Some in Hl).
    split; [reflexivity|]. split; [intros _; congruence | congruence].
  - exists v'. rewrite list_lookup_insert_ne by congruence.
    split; [assumption|]. split; [congruence | reflexivity].
Qed.

Lemma store_Cert_touches (p : ptr) (c : option Certificate) :
  frames (touches_only p same_Key_KeyBits) (store_Cert p c).
Proof.
  intros w a w' H. unfold store_Cert in H.
  apply bind_inv in H as (v & w1 & H1 & H2). apply load_inv in H1 as (-> & l & -> & Hl).
  apply store_inv in H2 as (l' & v0 & Heq & Hl' & ->). inversion Heq; subst l'.
  apply (set_pairs_insert_touches _ _ _ v); [reflexivity | assumption | split; reflexivity].
Qed.

Lemma store_Key_touches (p : ptr) (k : option PrivateKey) :
  frames (touches_only p same_Cert_KeyBits) (store_Key p k).
Proof.
  intros w a w' H. unfold store_Key in H.
  apply bind_inv in H as (v & w1 & H1 & H2). apply load_inv in H1 as (-> & l & -> & Hl).
  apply store_inv in H2 as (l' & v0 & Heq & Hl' & ->). inversion Heq; subst l'.
  apply (set_pairs_insert_touches _ _ _ v); [reflexivity | assumption | split; reflexivity].
Qed.

Lemma LoadCert_touches `{str : StringsLib} (p : ptr) (r : Reader) :
  frames (touches_only p same_Key_KeyBits) (LoadCert p r).
Proof.
  unfold LoadCert. destruct (readPEMCert r) as [c [e|]].
  - frames_step.
  - frames_step; [apply store_Cert_touches | frames_step].
Qed.

Lemma LoadKey_touches `{str : StringsLib} (p : ptr) (r : Reader) :
  frames (touches_only p same_Cert_KeyBits) (LoadKey p r).
Proof.
  unfold LoadKey. destruct (readPEMKey r) as [c [e|]].
  - frames_step.
  - frames_step; [apply store_Key_touches | frames_step].
Qed.

Lemma LoadFiles_touches `{str : StringsLib} (p : ptr) (certPath keyPath : path) :
  frames (touches_only p same_KeyBits) (LoadFiles p certPath keyPath).
Proof.
  assert (HC : forall r, frames (touches_only p same_KeyBits) (LoadCert p r)).
  { intros r. eapply frames_weaken; [|apply LoadCert_touches].
    intros w w'. apply touches_only_mono. now intros v v' [_ H]. }
  assert (HK : forall r, frames (touches_only p same_KeyBits) (LoadKey p r)).
  { intros r. eapply frames_weaken; [|apply LoadKey_touches].
    intros w w'. apply touches_only_mono. now intros v v' [_ H]. }
  unfold LoadFiles. unfold_env.
  repeat first [apply HC | apply HK | frames_step].
Qed.

Lemma os_Open_eq (p : path) (w : World) :
  os_Open p w
  = Some (match lookupNode (w_fs w) p with
          | Some (FileNode _ data) => (Some {| rd_data := data; rd_err := None |}, None)
          | Some (DirNode _) =>
              (Some {| rd_data := []; rd_err := Some (PathError "read" p EISDIR) |}, None)
          | None => (None, Some (PathError "open" p (missing (w_fs w) p)))
          end, log (SysOpen p) w).
Proof.
  unfold os_Open, bind, modify, gets, ret. cbn.
  destruct (lookupNode (w_fs w) p) as [[m|m d]|]; reflexivity.
Qed.

Lemma store_Cert_Some (l : nat) (v : Pair) (c : option Certificate) (w : World) :
  w_pairs w !! l = Some v ->
  store_Cert (Some l) c w
  = Some (tt, set_pairs (<[l := {| Cert := c; Key := Key v; KeyBits := KeyBits v |}]>
                           (w_pairs w)) w).
Proof.
  intros H. unfold store_Cert. rewrite (bind_eq _ _ _ _ _ (load_Some l v w H)).
  apply (store_Some l v). assumption.
Qed.

Lemma store_Key_Some (l : nat) (v : Pair) (k : option PrivateKey) (w : World) :
  w_pairs w !! l = Some v ->
  store_Key (Some l) k w
  = Some (tt, set_pairs (<[l := {| Cert := Cert v; Key := k; KeyBits := KeyBits v |}]>
                           (w_pairs w)) w).
Proof.
  intros H. unfold store_Key. rewrite (bind_eq _ _ _ _ _ (load_Some l v w H)).
  apply (store_Some l v). assumption.
Qed.

(** On a valid receiver the loading methods return: they do not panic. *)
Lemma LoadCert_returns `{str : StringsLib} (l : nat) (r : Reader) (w : World) :
  l < length (w_pairs w) -> exists e w', LoadCert (Some l) r w = Some (e, w').
Proof.
  intros Hl. apply lookup_lt_is_Some_2 in Hl as [v Hv]. unfold LoadCert.
  destruct (readPEMCert r) as [c [e|]]; [eexists _, _; reflexivity|].
  rewrite (bind_eq _ _ _ _ _ (store_Cert_Some l v c w Hv)). eexists _, _; reflexivity.
Qed.

Lemma LoadKey_returns `{str : StringsLib} (l : nat) (r : Reader) (w : World) :
  l < length (w_pairs w) -> exists e w', LoadKey (Some l) r w = Some (e, w').
Proof.
  intros Hl. apply lookup_lt_is_Some_2 in Hl as [v Hv]. unfold LoadKey.
  destruct (readPEMKey r) as [c [e|]]; [eexists _, _; reflexivity|].
  rewrite (bind_eq _ _ _ _ _ (store_Key_Some l v c w Hv)). eexists _, _; reflexivity.
Qed.

Lemma LoadFiles_returns `{str : StringsLib} (l : nat) (certPath keyPath : path) (w : World) :
  l < length (w_pairs w) ->
  exists e w', LoadFiles (Some l) certPath keyPath w = Some (e, w').
Proof.
  intros Hl. unfold LoadFiles.
  rewrite (bind_eq _ _ _ _ _ (os_Open_eq certPath w)).
  destruct (lookupNode (w_fs w) certPath) as [[m|m d]|]; cbn beta iota;
    try (eexists _, _; reflexivity).
  destruct (LoadCert_returns l {| rd_data := d; rd_err := None |}
              (log (SysOpen certPath) w) Hl) as (e & w1 & H1).
  pose proof (LoadCert_touches _ _ _ _ _ H1) as [Hlen _].
  rewrite (bind_eq _ _ _ _ _ H1). destruct e as [e|]; cbn beta iota;
    [eexists _, _; reflexivity|].
  rewrite (bind_eq _ _ _ _ _ (os_Open_eq keyPath w1)).
  destruct (lookupNode (w_fs w1) keyPath) as [[m'|m' d']|]; cbn beta iota;
    try (eexists _, _; reflexivity).
  destruct (LoadKey_returns l {| rd_data := d'; rd_err := None |}
              (log (SysOpen keyPath) w1)) as (e & w2 & H2);
    [cbn in *; lia|].
  rewrite (bind_eq _ _ _ _ _ H2). destruct e; cbn beta iota; eexists _, _; reflexivity.
Qed.

Lemma New_eq (w : World) :
  New w
  = Some (Some (length (w_cas w)),
          set_cas (w_cas w ++ [{| CA_Pair := Some (length (w_pairs w));
                                  CertFileName := RootCertFileName;
                                  KeyFileName := RootKeyFileName |}])
            (set_pairs (w_pairs w ++ [{| Cert := None; Key := None; KeyBits := 0 |}]) w)).
Proof. reflexivity. Qed.

(** C10. [LoadCert] changes at most the [Cert] field of its receiver,
    [LoadKey] at most the [Key] field, and [LoadFiles] leaves [KeyBits] as
    it was; no other pair is touched. So a pair that [New] made and
    [Load] filled has [KeyBits = 0], whatever key was read; and [Load] on
    such a CA does return. *)
Theorem loading_keeps_KeyBits `{str : StringsLib} :
  (forall p r, frames (touches_only p same_Key_KeyBits) (LoadCert p r))
  /\ (forall p r, frames (touches_only p same_Cert_KeyBits) (LoadKey p r))
  /\ (forall p certPath keyPath,
        frames (touches_only p same_KeyBits) (LoadFiles p certPath keyPath))
  /\ (forall w dir,
        exists ca w1 e w2 c l v,
          New w = Some (ca, w1) /\ Load ca dir w1 = Some (e, w2)
          /\ loadCA ca w2 = Some (c, w2) /\ CA_Pair c = Some l
          /\ w_pairs w2 !! l = Some v /\ KeyBits v = 0%Z).
Proof.
  split; [exact LoadCert_touches|]. split; [exact LoadKey_touches|].
  split; [exact LoadFiles_touches|].
  intros w dir. rewrite New_eq.
  set (l := length (w_pairs w)). set (n := length (w_cas w)).
  set (c := {| CA_Pair := Some l; CertFileName := RootCertFileName;
               KeyFileName := RootKeyFileName |}).
  set (w1 := set_cas _ _).
  assert (Hc : w_cas w1 !! n = Some c).
  { subst w1 n. cbn. apply list_lookup_middle. reflexivity. }
  assert (Hv : w_pairs w1 !! l = Some {| Cert := None; Key := None; KeyBits := 0 |}).
  { subst w1 l. cbn. apply list_lookup_middle. reflexivity. }
  destruct (LoadFiles_returns l (filepath_Join dir (CertFileName c))
              (filepath_Join dir (KeyFileName c)) w1) as (e & w2 & HL).
  { now apply lookup_lt_Some in Hv. }
  assert (HLoad : Load (Some n) dir w1 = Some (e, w2)).
  { unfold Load. rewrite (bind_eq _ _ _ _ _ (loadCA_Some n c w1 Hc)). exact HL. }
  destruct (LoadFiles_touches _ _ _ _ _ _ HL) as [_ Ht].
  destruct (Ht l _ Hv) as (v' & Hv' & Hrel & _).
  exists (Some n), w1, e, w2, c, l, v'. repeat split; try assumption; try reflexivity.
  - apply loadCA_Some. rewrite (LoadFiles_keeps_cas _ _ _ _ _ _ HL). exact Hc.
  - rewrite (Hrel eq_refl). reflexivity.
Qed.

(** In a well-formed file system no regular file lies above a directory. *)
Lemma wf_fs_above_dir (fs : gmap path Node) (d : path) :
  wf_fs fs -> isDir fs d = true -> existsb (isFile fs) (prefixes d) = false.
Proof.
  intros Hwf Hd. apply not_true_is_false. intros Hex.
  apply existsb_exists in Hex as (q & Hq & Hfile).
  apply list_elem_of_In, prefixes_spec in Hq as [k ->].
  assert (Hdir : isDir fs q = true).
  { clear Hfile. induction k as [|c k IH] using rev_ind.
    - now rewrite app_nil_r in Hd.
    - apply IH. unfold isDir in Hd.
      destruct (lookupNode fs (q ++ k ++ [c])) as [n|] eqn:Hn; [|discriminate Hd].
      apply Hwf in Hn. unfold filepath_Dir in Hn.
      rewrite app_assoc, removelast_last in Hn. exact Hn. }
  unfold isFile in Hfile. unfold isDir in Hdir.
  destruct (lookupNode fs q) as [[m|m d]|]; discriminate.
Qed.

(** C2, as the code has it. In a CA directory that holds a certificate
    file whose content decodes and no key file, [Load] fails with the
    not-found error of the key file, and by then it has replaced the
    [Cert] field of the CA's pair with the decoded certificate; the [Key]
    and [KeyBits] fields, the other pairs, the CA and the files are as
    before. *)
Theorem Load_without_key_file `{str : StringsLib} (w : World) (ca l : nat) (c : CA) (v : Pair)
    (dir : path) (mode : Z) (s : PEMStream) (cert : Certificate) :
  let certPath := filepath_Join dir (CertFileName c) in
  let keyPath := filepath_Join dir (KeyFileName c) in
  w_cas w !! ca = Some c -> CA_Pair c = Some l -> w_pairs w !! l = Some v ->
  wf_fs (w_fs w) -> isDir (w_fs w) dir = true ->
  lookupNode (w_fs w) certPath = Some (FileNode mode s) ->
  readPEMCert (readerOf s) = (Some cert, None) ->
  lookupNode (w_fs w) keyPath = None ->
  exists w',
    Load (Some ca) dir w
    = Some (Errorf ("failed opening key file " +:+ path_text keyPath +:+ ": ")
              (PathError "open" keyPath ENOENT), w')
    /\ os_IsNotExist (Some (PathError "open" keyPath ENOENT)) = true
    /\ w_pairs w' = <[l := {| Cert := Some cert; Key := Key v; KeyBits := KeyBits v |}]>
                      (w_pairs w)
    /\ w_cas w' = w_cas w /\ w_fs w' = w_fs w.
Proof.
  intros certPath keyPath Hca Hp Hv Hwf Hisdir Hcert Hread Hkey.
  assert (Hdir : existsb (isFile (w_fs w)) (prefixes (filepath_Dir keyPath)) = false).
  { apply wf_fs_above_dir; [assumption|]. subst keyPath. unfold filepath_Join in *.
    destruct (String.eqb (KeyFileName c) "").
    - unfold isDir in Hisdir. now rewrite Hkey in Hisdir.
    - unfold filepath_Dir. now rewrite removelast_last. }
  unfold Load. rewrite (bind_eq _ _ _ _ _ (loadCA_Some ca c w Hca)).
  fold certPath keyPath. rewrite Hp. unfold LoadFiles.
  rewrite (bind_eq _ _ _ _ _ (os_Open_eq certPath w)). rewrite Hcert. cbn beta iota.
  assert (HL : LoadCert (Some l) {| rd_data := s; rd_err := None |} (log (SysOpen certPath) w)
               = Some (None,
                       set_pairs (<[l := {| Cert := Some cert; Key := Key v;
                                            KeyBits := KeyBits v |}]> (w_pairs w))
                         (log (SysOpen certPath) w))).
  { unfold LoadCert. fold (readerOf s). rewrite Hread.
    rewrite (bind_eq _ _ _ _ _
               (store_Cert_Some l v (Some cert) (log (SysOpen certPath) w) Hv)).
    reflexivity. }
  rewrite (bind_eq _ _ _ _ _ HL). cbn beta iota.
  rewrite (bind_eq _ _ _ _ _ (os_Open_eq keyPath _)). cbn [w_fs set_pairs log].
  rewrite Hkey. cbn beta iota. unfold missing. rewrite Hdir.
  eexists. split; [reflexivity|]. repeat split; reflexivity.
Qed.

Section Samples_5.

#[local] Existing Instance sampleNet.
#[local] Existing Instance sampleStrings.
#[local] Existing Instance sampleNilKey.

(** C2 fails as stated: after the failed [Load] the [Cert] field of the
    CA's pair, which was nil, holds the certificate of the file. *)
Lemma Load_populates_Cert :
  exists w' cert,
    Load (Some 0) ["ca"] certOnlyWorld
    = Some (Some (ErrString ("failed opening key file ca/root.key: "
                             +:+ "open ca/root.key: no such file or directory")), w')
    /\ w_pairs certOnlyWorld !! 0 = Some {| Cert := None; Key := None; KeyBits := 0 |}
    /\ w_pairs w' !! 0 = Some {| Cert := Some cert; Key := None; KeyBits := 0 |}
    /\ Subject cert = sampleName.
Proof.
  eexists _, _. split; [vm_compute; reflexivity|].
  split; [reflexivity|]. split; reflexivity.
Qed.

Lemma Load_without_key_file_witness :
  exists w' cert,
    Load (Some 0) ["ca"] certOnlyWorld
    = Some (Some (ErrString ("failed opening key file ca/root.key: "
                             +:+ "open ca/root.key: no such file or directory")), w')
    /\ w_pairs w' = [{| Cert := Some cert; Key := None; KeyBits := 0 |}].
Proof.
  destruct (x509_ParseCertificate sampleCertDER) as [[cert|] e] eqn:Hparse;
    [|discriminate Hparse].
  assert (He : e = None) by (inversion Hparse; reflexivity). subst e.
  destruct (Load_without_key_file certOnlyWorld 0 0
              {| CA_Pair := Some 0; CertFileName := RootCertFileName;
                 KeyFileName := RootKeyFileName |}
              {| Cert := None; Key := None; KeyBits := 0 |}
              ["ca"] 420 [{| Type_ := "CERTIFICATE"; Bytes := sampleCertDER |}] cert)
    as (w' & HL & _ & Hpairs & _); try reflexivity.
  - apply insert_file_wf; [discriminate | | reflexivity | reflexivity].
    apply insert_dir_wf; [discriminate | apply wf_fs_empty | reflexivity].
  - exact Hparse.
  - exists w', cert. split; [exact HL | exact Hpairs].
Defined.

End Samples_5.

(** ** Signing and the CA (crtauth/pair.go, crtauth/crtauth.go) *)

Section Authority.

Context `{net : NetLib} `{str : StringsLib} `{nk : NilKey}.

Lemma update_Cert_touches (p : ptr) (f : Certificate -> Certificate) :
  frames (touches_only p same_Key_KeyBits) (update_Cert p f).
Proof.
  unfold update_Cert, load_Cert. repeat (frames_step || apply store_Cert_touches).
Qed.

(** Signing replaces the certificate of the receiver and nothing else:
    its key and key size stay, and so does every other pair. *)
Lemma SignWith_touches (p parent : ptr) :
  frames (touches_only p same_Key_KeyBits) (SignWith p parent).
Proof.
  unfold SignWith, load_Cert. unfold_crypto. unfold_env.
  repeat first [frames_step | apply store_Cert_touches | apply update_Cert_touches].
Qed.

Lemma NewPair_alloc (t : Template) (w w' : World) (p : ptr) (e : error) :
  NewPair t w = Some ((p, e), w') ->
  match e with
  | Some _ => w_pairs w' = w_pairs w
  | None => p = Some (length (w_pairs w)) /\ exists v, w_pairs w' = w_pairs w ++ [v]
  end.
Proof.
  intros H. pose proof H as H0. unfold NewPair in H.
  apply bind_inv in H as ([c e1] & w1 & H1 & H). cbn beta iota in H.
  apply bind_inv in H as ([k e2] & w2 & H2 & H). clear H.
  rewrite (NewPair_steps _ _ _ _ _ _ _ _ H1 H2) in H0.
  destruct e2 as [e0|]; inversion H0; subst.
  - rewrite (genPrivKey_keeps_pairs _ _ _ _ H2). apply (to509_keeps_pairs _ _ _ _ H1).
  - split; [reflexivity|]. eexists. reflexivity.
Qed.

Lemma touches_only_new (n : nat) (rel : relation Pair) (w w1 w2 : World) :
  n = length (w_pairs w) -> old_pairs_kept w w1 ->
  touches_only (Some n) rel w1 w2 -> old_pairs_kept w w2.
Proof.
  intros Hn H1 [_ H2] l v Hl. destruct (H2 l v (H1 l v Hl)) as (v' & Hl' & _ & Heq).
  rewrite Hl'. f_equal. apply Heq. intros Hp. inversion Hp; subst.
  apply lookup_lt_Some in Hl. lia.
Qed.

Lemma NewCAPair_alloc (t : Template) (w w' : World) (p : ptr) (e : error) :
  NewCAPair t w = Some ((p, e), w') ->
  old_pairs_kept w w'
  /\ (e = None -> p = Some (length (w_pairs w))).
Proof.
  unfold NewCAPair. intros H.
  apply bind_inv in H as ([p0 e0] & w1 & H1 & H). cbn beta iota in H.
  apply NewPair_alloc in H1. destruct e0 as [e0|].
  - inversion H; subst. split; [|discriminate]. intros l v Hl. now rewrite H1.
  - destruct H1 as [-> [v Hv]].
    assert (Hk : old_pairs_kept w w1).
    { intros l v' Hl. rewrite Hv. now apply lookup_app_l_Some. }
    apply bind_inv in H as (u1 & w2 & H2 & H).
    apply bind_inv in H as (u2 & w3 & H3 & H). inversion H; subst.
    split; [|reflexivity].
    apply update_Cert_touches in H2, H3.
    eapply touches_only_new; [reflexivity| |exact H3].
    eapply touches_only_new; [reflexivity| exact Hk |exact H2].
Qed.

Lemma storeCA_inv (ca : option nat) (c : CA) (w w' : World) (u : unit) :
  storeCA ca c w = Some (u, w') ->
  exists n c0, ca = Some n /\ w_cas w !! n = Some c0
               /\ w' = set_cas (<[n := c]> (w_cas w)) w.
Proof.
  unfold storeCA. intros H. apply bind_inv in H as (c0 & w1 & H1 & H2).
  apply loadCA_inv in H1 as (-> & n & -> & Hn). inversion H2; subst.
  exists n, c0. repeat split. assumption.
Qed.

(** C9. When [Init] returns an error, whichever step it comes from, the CA
    object is the one it was, its [Pair] field included, and so are the
    pair objects that existed before the call. When [Init] succeeds, it
    has stored in the [Pair] field of the CA the pair it created, and
    has changed nothing else of the CA. *)
Theorem Init_assigns_pair_last (ca : option nat) (t : Template) (dir : path)
    (w w' : World) (err : error) :
  Init ca t dir w = Some (err, w') ->
  match err with
  | Some _ => w_cas w' = w_cas w /\ old_pairs_kept w w'
  | None =>
      old_pairs_kept w w'
      /\ exists n c,
           ca = Some n /\ w_cas w !! n = Some c
           /\ w_cas w' = <[n := {| CA_Pair := Some (length (w_pairs w));
                                   CertFileName := CertFileName c;
                                   KeyFileName := KeyFileName c |}]> (w_cas w)
           /\ length (w_pairs w) < length (w_pairs w')
  end.
Proof.
  unfold Init. intros H.
  apply bind_inv in H as ([p e1] & w1 & H1 & H). cbn beta iota in H.
  pose proof (NewCAPair_keeps_cas _ _ _ _ H1) as Hc1.
  apply NewCAPair_alloc in H1 as [Hk1 Hp].
  destruct e1 as [e1|]; [inversion H; subst; split; assumption|].
  specialize (Hp eq_refl). subst p.
  apply bind_inv in H as (e2 & w2 & H2 & H).
  pose proof (os_MkdirAll_keeps_cas _ _ _ _ _ H2) as Hc2.
  pose proof (os_MkdirAll_keeps_pairs _ _ _ _ _ H2) as Hp2.
  assert (Hk2 : old_pairs_kept w w2).
  { intros l v Hl. unfold keeps in Hp2. rewrite Hp2. now apply Hk1. }
  destruct e2 as [e2|]; [inversion H; subst; split; [congruence | assumption]|].
  apply bind_inv in H as (e3 & w3 & H3 & H).
  pose proof (SignWith_keeps_cas _ _ _ _ _ H3) as Hc3.
  pose proof (SignWith_touches _ _ _ _ _ H3) as Ht3.
  assert (Hk3 : old_pairs_kept w w3).
  { eapply touches_only_new; [reflexivity | exact Hk2 | exact Ht3]. }
  assert (Hlen : length (w_pairs w) < length (w_pairs w3)).
  { destruct Ht3 as [Hl3 _]. rewrite Hl3. unfold keeps in Hp2. rewrite Hp2.
    clear - H3 Hp2. unfold SignWith in H3.
    apply bind_inv in H3 as (v & w0 & Hv & _). apply load_inv in Hv as (-> & l & Hl & Hv).
    inversion Hl; subst l. apply lookup_lt_Some in Hv. unfold keeps in Hp2. congruence. }
  destruct e3 as [e3|];
    [inversion H; subst; split; [unfold keeps in *; congruence | assumption]|].
  apply bind_inv in H as (c & w4 & H4 & H). apply loadCA_inv in H4 as (-> & n & -> & Hn).
  apply bind_inv in H as (e5 & w5 & H5 & H).
  pose proof (WriteFiles_keeps_cas _ _ _ _ _ _ H5) as Hc5.
  pose proof (WriteFiles_keeps_pairs _ _ _ _ _ _ H5) as Hp5.
  unfold keeps in *.
  assert (Hk5 : old_pairs_kept w w5).
  { intros l v Hl. rewrite Hp5. now apply Hk3. }
  destruct e5 as [e5|]; [inversion H; subst; split; [congruence | assumption]|].
  apply bind_inv in H as (c' & w6 & H6 & H). apply loadCA_inv in H6 as (-> & n' & Hn' & Hc').
  inversion Hn'; subst n'.
  apply bind_inv in H as (u & w7 & H7 & H). inversion H; subst.
  apply storeCA_inv in H7 as (n' & c0 & Hn'' & _ & ->). inversion Hn''; subst n'.
  split; [exact Hk5|]. exists n, c'. cbn.
  assert (Hcas : w_cas w5 = w_cas w) by congruence.
  rewrite Hcas in *. repeat split; try assumption. congruence.
Qed.

End Authority.

Section Samples_6.

#[local] Existing Instance sampleNet.
#[local] Existing Instance sampleStrings.
#[local] Existing Instance sampleNilKey.

Lemma Init_assigns_pair_last_witness :
  exists e w',
    Init (Some 0) NewTemplate ["ca"] blockedWorld = Some (Some e, w')
    /\ w_cas w' = w_cas blockedWorld.
Proof.
  destruct (Init (Some 0) NewTemplate ["ca"] blockedWorld)
    as [[[e|] w']|] eqn:HI; try (vm_compute in HI; discriminate HI).
  exists e, w'. split; [reflexivity|].
  exact (proj1 (Init_assigns_pair_last (Some 0) NewTemplate ["ca"]
                  blockedWorld w' (Some e) HI)).
Defined.

End Samples_6.

(** ** Self-signing (crtauth/pair.go) *)

Lemma load_Cert_Some (l : nat) (v : Pair) (c : Certificate) (w : World) :
  w_pairs w !! l = Some v -> Cert v = Some c -> load_Cert (Some l) w = Some (c, w).
Proof.
  intros Hv Hc. unfold load_Cert. rewrite (bind_eq _ _ _ _ _ (load_Some l v w Hv)).
  rewrite Hc. reflexivity.
Qed.

Lemma update_Cert_Some (l : nat) (v : Pair) (c : Certificate)
    (f : Certificate -> Certificate) (w : World) :
  w_pairs w !! l = Some v -> Cert v = Some c ->
  exists w1,
    update_Cert (Some l) f w = Some (tt, w1)
    /\ w_pairs w1 !! l = Some {| Cert := Some (f c); Key := Key v; KeyBits := KeyBits v |}.
Proof.
  intros Hv Hc. eexists. split.
  - unfold update_Cert. rewrite (bind_eq _ _ _ _ _ (load_Cert_Some l v c w Hv Hc)).
    apply (store_Cert_Some l v). exact Hv.
  - cbn. apply list_lookup_insert_eq. now apply lookup_lt_Some in Hv.
Qed.

(** What [x509.CreateCertificate] encodes when it succeeds. *)
Lemma x509_CreateCertificate_inv (template parent : Certificate)
    (pub : option PublicKey) (priv : option PrivateKey) (w w' : World) (der : DER) :
  x509_CreateCertificate template parent pub priv w = Some ((der, None), w') ->
  w_pairs w' = w_pairs w
  /\ exists tbs signer,
       der = DERCertificate tbs signer
       /\ tbs_Issuer tbs = Subject parent
       /\ tbs_Subject tbs = Subject template
       /\ tbs_KeyUsage tbs = Z.land (KeyUsage template) 511
       /\ tbs_BasicConstraints tbs
          = (if BasicConstraintsValid template then Some (IsCA template) else None).
Proof.
  unfold x509_CreateCertificate.
  destruct priv as [[bits seed|curve seed]|]; [| |intros H; discriminate H];
    (destruct (SerialNumber template) as [serial|]; [|intros H; discriminate H]);
    (destruct pub as [pk|]; [|intros H; discriminate H]).
  - intros H. inversion H; subst. split; [reflexivity|].
    eexists _, _. repeat split; reflexivity.
  - unfold rand_Read, bind, gets, modify, ret. destruct (w_rand w) as [|[z|] r];
      intros H; inversion H; subst. split; [reflexivity|].
    eexists _, _. repeat split; reflexivity.
Qed.

Lemma caKeyUsage_set (u : Z) :
  Z.land (Z.land (Z.lor u caKeyUsage) 511) caKeyUsage = caKeyUsage.
Proof.
  apply Z.bits_inj'. intros n Hn. rewrite !Z.land_spec, Z.lor_spec.
  assert (H : Z.testbit caKeyUsage n = true -> Z.testbit 511 n = true).
  { intros Hb. assert (E : Z.land caKeyUsage 511 = caKeyUsage) by reflexivity.
    rewrite <- E, Z.land_spec in Hb. apply andb_true_iff in Hb. tauto. }
  destruct (Z.testbit caKeyUsage n).
  - rewrite H by reflexivity. rewrite orb_true_r. reflexivity.
  - apply andb_false_r.
Qed.

Lemma flags_set_testbit (x m n : Z) :
  Z.land x m = m -> Z.testbit m n = true -> Z.testbit x n = true.
Proof.
  intros Hm Hb. rewrite <- Hm, Z.land_spec in Hb. apply andb_true_iff in Hb. tauto.
Qed.

(** Self-signing a pair whose certificate has [BasicConstraintsValid]
    set (every descriptor that [to509] builds has) does what is asked of
    it: it yields, when it succeeds, a certificate that is a CA certificate,
    has the three CA key usages and has its own subject as issuer; the
    subject is the one of the descriptor, and the key of the pair is the
    one it had. *)
Theorem SignWith_self (w w' : World) (l : nat) (v : Pair) (c : Certificate) :
  w_pairs w !! l = Some v -> Cert v = Some c ->
  BasicConstraintsValid c = true ->
  SignWith (Some l) (Some l) w = Some (None, w') ->
  exists c',
    w_pairs w' !! l = Some {| Cert := Some c'; Key := Key v; KeyBits := KeyBits v |}
    /\ IsCA c' = true
    /\ Z.land (KeyUsage c') caKeyUsage = caKeyUsage
    /\ Z.testbit (KeyUsage c') 0 = true
    /\ Z.testbit (KeyUsage c') 5 = true
    /\ Z.testbit (KeyUsage c') 6 = true
    /\ Issuer c' = Subject c'
    /\ Subject c' = Subject c.
Proof.
  intros Hv Hc Hbc H. unfold SignWith in H.
  rewrite (bind_eq _ _ _ _ _ (load_Some l v w Hv)) in H. rewrite Hc in H.
  destruct (Key v) as [k|] eqn:Hk; [|discriminate H].
  destruct (update_Cert_Some l v c (set_Issuer (Subject c)) w Hv Hc) as (w1 & E1 & L1).
  rewrite (bind_eq _ _ _ _ _ E1) in H. clear E1.
  rewrite decide_True in H by reflexivity.
  destruct (update_Cert_Some l _ _ (set_IsCA true) w1 L1 eq_refl) as (w2 & E2 & L2).
  destruct (update_Cert_Some l _ _
              (fun c0 => set_KeyUsage (Z.lor (KeyUsage c0) caKeyUsage) c0) w2 L2 eq_refl)
    as (w3 & E3 & L3).
  cbn [Cert Key KeyBits] in L2, L3.
  set (c3 := set_KeyUsage _ _) in L3.
  assert (E23 : bind (update_Cert (Some l) (set_IsCA true))
                  (fun _ => update_Cert (Some l)
                              (fun c0 => set_KeyUsage (Z.lor (KeyUsage c0) caKeyUsage) c0)) w1
                = Some (tt, w3)).
  { rewrite (bind_eq _ _ _ _ _ E2). exact E3. }
  rewrite (bind_eq _ _ _ _ _ E23) in H. clear E2 E3 E23.
  rewrite (bind_eq _ _ _ _ _ (load_Some l _ w3 L3)) in H.
  rewrite (bind_eq _ _ _ _ _ (load_Cert_Some l _ c3 w3 L3 eq_refl)) in H.
  rewrite (bind_eq _ _ _ _ _ (load_Some l _ w3 L3)) in H.
  rewrite (bind_eq _ _ _ _ _ (load_Cert_Some l _ c3 w3 L3 eq_refl)) in H.
  apply bind_inv in H as ([der e] & w4 & HC & H).
  destruct e as [e|]; [discriminate H|].
  apply x509_CreateCertificate_inv in HC
    as (Hp4 & tbs & signer & -> & Hiss & Hsub & Hku & Hbcs).
  cbn [x509_ParseCertificate] in H. cbn beta iota in H.
  assert (L4 : w_pairs w4 !! l = Some {| Cert := Some c3; Key := Key v; KeyBits := KeyBits v |}).
  { rewrite Hp4. exact L3. }
  rewrite (bind_eq _ _ _ _ _ (store_Cert_Some l _ _ w4 L4)) in H.
  inversion H; subst w'. clear H.
  eexists. split.
  { rewrite <- Hk. cbn. apply list_lookup_insert_eq. now apply lookup_lt_Some in L4. }
  cbn [IsCA KeyUsage Issuer Subject].
  assert (Hku' : Z.land (tbs_KeyUsage tbs) caKeyUsage = caKeyUsage).
  { rewrite Hku. subst c3. cbn. apply caKeyUsage_set. }
  repeat split.
  - rewrite Hbcs. subst c3. cbn. rewrite Hbc. reflexivity.
  - exact Hku'.
  - now apply (flags_set_testbit _ _ _ Hku').
  - now apply (flags_set_testbit _ _ _ Hku').
  - now apply (flags_set_testbit _ _ _ Hku').
  - rewrite Hiss, Hsub. reflexivity.
  - rewrite Hsub. subst c3. reflexivity.
Qed.

Section Samples_7.

#[local] Existing Instance sampleNet.
#[local] Existing Instance sampleStrings.
#[local] Existing Instance sampleNilKey.

(** The engine alone reaches a descriptor without
    [BasicConstraintsValid]: a pair that [Load] filled from a certificate
    without basic constraints and its key is signed with itself; the
    signing succeeds, and the certificate it yields is not a CA
    certificate. *)
Lemma self_signed_not_CA :
  exists w1 w2 w3 c',
    New foreignWorld = Some (Some 0, w1)
    /\ CA_Pair <$> w_cas w1 !! 0 = Some (Some 0)
    /\ Load (Some 0) ["ca"] w1 = Some (None, w2)
    /\ SignWith (Some 0) (Some 0) w2 = Some (None, w3)
    /\ w_pairs w3 !! 0 = Some {| Cert := Some c'; Key := Some (RSAPrivateKey 2048 7);
                                 KeyBits := 0 |}
    /\ IsCA c' = false
    /\ Issuer c' = Subject c'.
Proof.
  eexists _, _, _, _. split; [reflexivity|]. split; [reflexivity|].
  split; [vm_compute; reflexivity|]. split; [vm_compute; reflexivity|].
  split; [reflexivity|]. split; reflexivity.
Qed.

Lemma SignWith_self_witness :
  exists w' c',
    SignWith (Some 0) (Some 0) constrainedWorld = Some (None, w')
    /\ w_pairs w' !! 0 = Some {| Cert := Some c'; Key := Some (RSAPrivateKey 2048 7);
                                 KeyBits := 2048 |}
    /\ IsCA c' = true /\ Issuer c' = Subject c'.
Proof.
  destruct (SignWith (Some 0) (Some 0) constrainedWorld) as [[[e|] w']|] eqn:HS;
    try (vm_compute in HS; discriminate HS).
  destruct (SignWith_self constrainedWorld w' 0 _ _ eq_refl eq_refl eq_refl HS)
    as (c' & Hl & Hca & _ & _ & _ & _ & Hiss & _).
  exists w', c'. repeat split; assumption.
Defined.

End Samples_7.

(** ** Writing a pair (crtauth/pair.go, crtauth/util.go) *)

Lemma fs_step_trans (w1 w2 w3 : World) (tr1 tr2 : list Syscall) :
  fs_step w1 w2 tr1 -> fs_step w2 w3 tr2 -> fs_step w1 w3 (tr1 ++ tr2).
Proof.
  intros (Ht1 & Hg1 & He1 & Hle1 & Hwf1) (Ht2 & Hg2 & He2 & Hle2 & Hwf2).
  unfold fs_step. rewrite Ht2, Ht1, app_assoc. repeat split; try congruence.
  - etransitivity; eassumption.
  - auto.
Qed.

Lemma os_Stat_eq (p : path) (w : World) :
  os_Stat p w
  = Some (match lookupNode (w_fs w) p with
          | Some _ => None
          | None => Some (PathError "stat" p (missing (w_fs w) p))
          end, log (SysStat p) w).
Proof.
  unfold os_Stat, bind, modify, gets, ret. cbn.
  destruct (lookupNode (w_fs w) p); reflexivity.
Qed.

Lemma os_MkdirAll_eq (p : path) (perm : Z) (w : World) :
  os_MkdirAll p perm w
  = Some (if existsb (isFile (w_fs w)) (prefixes p)
          then (Some (PathError "mkdir" (fileInWay (w_fs w) p) ENOTDIR),
                log (SysMkdirAll p perm) w)
          else (None, set_fs (foldl (mkdir perm) (w_fs w) (prefixes p))
                        (log (SysMkdirAll p perm) w))).
Proof.
  unfold os_MkdirAll, bind, modify, gets, ret. cbn.
  destruct (existsb (isFile (w_fs w)) (prefixes p)); reflexivity.
Qed.

Lemma os_MkdirAll_step (p : path) (perm : Z) (w w' : World) (e : error) :
  os_MkdirAll p perm w = Some (e, w') ->
  fs_step w w' [SysMkdirAll p perm]
  /\ (forall q, isFile (w_fs w') q = isFile (w_fs w) q).
Proof.
  rewrite os_MkdirAll_eq.
  destruct (existsb (isFile (w_fs w)) (prefixes p)) eqn:Hex; intros H; inversion H; subst.
  - split; [|reflexivity]. unfold fs_step. cbn. repeat split; try reflexivity. auto.
  - split.
    + unfold fs_step. cbn. repeat split.
      * apply mkdirs_le.
      * intros Hwf. now apply mkdirs_wf.
    + intros q. cbn. apply mkdirs_isFile.
Qed.

(** [ensureDirExists] looks the directory up and creates it, with the
    parents it lacks, when it is not there; it creates no file. *)
Lemma ensureDirExists_step (dir : path) (perm : Z) (w w' : World) (e : error) :
  ensureDirExists dir perm w = Some (e, w') ->
  exists tr,
    fs_step w w' tr
    /\ openCalls tr = [] /\ execCalls tr = []
    /\ Forall (fun c => c = (dir, perm)) (mkdirCalls tr)
    /\ (forall q, isFile (w_fs w') q = isFile (w_fs w) q).
Proof.
  unfold ensureDirExists. rewrite (bind_eq _ _ _ _ _ (os_Stat_eq dir w)).
  assert (Hstat : fs_step w (log (SysStat dir) w) [SysStat dir]).
  { unfold fs_step. cbn. repeat split; try reflexivity. auto. }
  destruct (os_IsNotExist _).
  - intros H. apply bind_inv in H as (e1 & w1 & H1 & H).
    apply os_MkdirAll_step in H1 as [Hstep Hfile].
    assert (w' = w1) as -> by (destruct e1; inversion H; reflexivity).
    exists ([SysStat dir] ++ [SysMkdirAll dir perm]). split.
    + eapply fs_step_trans; eassumption.
    + cbn. repeat split; try reflexivity; [repeat constructor | exact Hfile].
  - intros H. inversion H; subst. exists [SysStat dir]. split; [exact Hstat|].
    cbn. repeat split; try reflexivity. constructor.
Qed.

(** A successful [os.OpenFile] (with create and truncate): the file is
    there and empty; it has [perm] when the call created it; in a
    well-formed file system it lies in a directory. *)
Lemma os_OpenFile_step (p : path) (flag perm : Z) (w w' : World) (f : option File) :
  os_OpenFile p flag perm w = Some ((f, None), w') ->
  f = Some p /\ p <> []
  /\ fs_step w w' [SysOpenFile p flag perm]
  /\ (wf_fs (w_fs w) -> isDir (w_fs w') (filepath_Dir p) = true)
  /\ (exists m, lookupNode (w_fs w') p = Some (FileNode m [])
                /\ (isFile (w_fs w) p = false -> m = perm))
  /\ (forall q, q <> p -> isFile (w_fs w') q = isFile (w_fs w) q).
Proof.
  unfold os_OpenFile, bind, modify, gets, ret. cbn.
  destruct (lookupNode (w_fs w) p) as [[m|m d]|] eqn:Hp; [intros H; discriminate H| |].
  - intros H. inversion H; subst. clear H.
    assert (Hne : p <> []) by (intros ->; discriminate Hp).
    assert (Hpar : wf_fs (w_fs w) -> isDir (w_fs w) (filepath_Dir p) = true).
    { intros Hwf. eapply Hwf. exact Hp. }
    assert (Hnd : isDir (w_fs w) p = false) by (unfold isDir; now rewrite Hp).
    assert (Hle : fs_le (w_fs w) (<[p := FileNode m []]> (w_fs w))).
    { apply insert_file_le; [assumption | right; eauto]. }
    split; [reflexivity|]. split; [assumption|]. split; [|split; [|split]].
    + unfold fs_step. cbn. repeat split; [assumption|].
      intros Hwf. apply insert_file_wf; auto.
    + intros Hwf. cbn. eapply fs_le_isDir; [exact Hle | auto].
    + exists m. cbn. rewrite (lookupNode_insert _ _ _ _ Hne), decide_True by reflexivity.
      split; [reflexivity|]. unfold isFile. rewrite Hp. discriminate.
    + intros q Hq. cbn. unfold isFile. rewrite (lookupNode_insert _ _ _ _ Hne).
      now rewrite decide_False.
  - destruct (lookupNode (w_fs w) (filepath_Dir p)) as [[m|m d]|] eqn:Hpar;
      intros H; try discriminate H. inversion H; subst. clear H.
    assert (Hne : p <> []) by (intros ->; discriminate Hp).
    assert (Hpar' : isDir (w_fs w) (filepath_Dir p) = true) by (unfold isDir; now rewrite Hpar).
    assert (Hnd : isDir (w_fs w) p = false) by (unfold isDir; now rewrite Hp).
    assert (Hle : fs_le (w_fs w) (<[p := FileNode perm []]> (w_fs w))).
    { apply insert_file_le; [assumption | now left]. }
    split; [reflexivity|]. split; [assumption|]. split; [|split; [|split]].
    + unfold fs_step. cbn. repeat split; [assumption|].
      intros Hwf. now apply insert_file_wf.
    + intros _. cbn. eapply fs_le_isDir; eassumption.
    + exists perm. cbn. rewrite (lookupNode_insert _ _ _ _ Hne), decide_True by reflexivity.
      split; reflexivity.
    + intros q Hq. cbn. unfold isFile. rewrite (lookupNode_insert _ _ _ _ Hne).
      now rewrite decide_False.
Qed.

(** [pem.Encode] appends to the file and changes nothing else. *)
Lemma pem_Encode_step (f : File) (b : Block) (w w' : World) :
  pem_Encode f b w = Some (None, w') ->
  fs_step w w' [] /\ (forall q, isFile (w_fs w') q = isFile (w_fs w) q).
Proof.
  unfold pem_Encode, bind, modify, gets, ret. cbn.
  destruct (lookupNode (w_fs w) f) as [[m|m d]|] eqn:Hf; intros H; try discriminate H.
  inversion H; subst. clear H.
  assert (Hne : f <> []) by (intros ->; discriminate Hf).
  split.
  - unfold fs_step. cbn. rewrite app_nil_r. repeat split.
    + apply insert_file_le; [assumption | right; eauto].
    + intros Hwf. apply insert_file_wf; try assumption.
      * eapply Hwf. exact Hf.
      * unfold isDir. now rewrite Hf.
  - intros q. cbn. unfold isFile. rewrite (lookupNode_insert _ _ _ _ Hne).
    destruct (decide (q = f)) as [->|_]; [now rewrite Hf | reflexivity].
Qed.

Lemma mkdirAndCreateFile_step (name : path) (dirPerm filePerm : Z)
    (w w' : World) (f : option File) :
  mkdirAndCreateFile name dirPerm filePerm w = Some ((f, None), w') ->
  f = Some name /\ name <> []
  /\ (wf_fs (w_fs w) -> isDir (w_fs w') (filepath_Dir name) = true)
  /\ (exists m, lookupNode (w_fs w') name = Some (FileNode m [])
                /\ (isFile (w_fs w) name = false -> m = filePerm))
  /\ (forall q, q <> name -> isFile (w_fs w') q = isFile (w_fs w) q)
  /\ exists tr,
       fs_step w w' tr
       /\ openCalls tr = [(name, filePerm)] /\ execCalls tr = []
       /\ Forall (fun c => c = (filepath_Dir name, dirPerm)) (mkdirCalls tr).
Proof.
  unfold mkdirAndCreateFile. intros H.
  apply bind_inv in H as (e & w1 & H1 & H).
  apply ensureDirExists_step in H1 as (tr1 & Hstep1 & Ho1 & He1 & Hm1 & Hf1).
  destruct e as [e|]; [discriminate H|].
  pose proof Hstep1 as (_ & _ & _ & _ & Hwf1).
  apply os_OpenFile_step in H
    as (-> & Hne & Hstep2 & Hdir & (m & Hm & Hperm) & Hf2).
  split; [reflexivity|]. split; [assumption|]. split; [auto|].
  split; [|split].
  - exists m. split; [assumption|]. intros Hnf. apply Hperm. now rewrite Hf1.
  - intros q Hq. now rewrite Hf2, Hf1.
  - exists (tr1 ++ [SysOpenFile name O_RDWR_CREATE_TRUNC filePerm]). split.
    + eapply fs_step_trans; eassumption.
    + unfold openCalls, execCalls, mkdirCalls in *. rewrite !omap_app.
      rewrite Ho1, He1. cbn. rewrite app_nil_r. repeat split; assumption.
Qed.

Lemma load_Cert_inv (p : ptr) (c : Certificate) (w w' : World) :
  load_Cert p w = Some (c, w') -> w' = w.
Proof.
  unfold load_Cert. intros H. apply bind_inv in H as (v & w1 & H1 & H).
  apply load_inv in H1 as [-> _]. destruct (Cert v); inversion H. reflexivity.
Qed.

Lemma WriteCert_step (p : ptr) (f : File) (w w' : World) :
  WriteCert p f w = Some (None, w') ->
  fs_step w w' [] /\ (forall q, isFile (w_fs w') q = isFile (w_fs w) q).
Proof.
  unfold WriteCert. intros H. apply bind_inv in H as (c & w1 & H1 & H).
  apply load_Cert_inv in H1 as ->. apply bind_inv in H as (e & w2 & H2 & H).
  destruct e as [e|]; [discriminate H|]. inversion H; subst.
  now apply pem_Encode_step in H2.
Qed.

(** [pemBlockForKey] changes nothing; it returns the block of a key, and
    no block for a nil key. *)
Lemma pemBlockForKey_inv `{nk : NilKey} (key : option PrivateKey) (w w' : World)
    (b : option Block) (e : error) :
  pemBlockForKey key w = Some ((b, e), w') ->
  w' = w
  /\ match key with
     | Some k => b = Some (keyBlock k) /\ e = None
     | None => b = None
     end.
Proof.
  unfold pemBlockForKey. destruct key as [[bits seed|curve seed]|].
  - intros H. inversion H. repeat split.
  - intros H. inversion H. repeat split.
  - destruct pemBlockForKey_nil as [err|]; intros H; inversion H. repeat split.
Qed.

Lemma WriteKey_step `{nk : NilKey} (p : ptr) (f : File) (w w' : World) :
  WriteKey p f w = Some (None, w') ->
  fs_step w w' [] /\ (forall q, isFile (w_fs w') q = isFile (w_fs w) q).
Proof.
  unfold WriteKey. intros H. apply bind_inv in H as (v & w1 & H1 & H).
  apply load_inv in H1 as [-> _].
  apply bind_inv in H as ([b e0] & w1 & Hb & H).
  apply pemBlockForKey_inv in Hb as [-> _].
  destruct b as [b|], e0 as [e0|]; try discriminate H.
  apply bind_inv in H as (e & w2 & H2 & H).
  destruct e as [e|]; [discriminate H|]. inversion H; subst.
  now apply pem_Encode_step in H2.
Qed.

(** The tightening pass runs [icacls] twice on the key file on Windows;
    elsewhere it does nothing at all. *)
Lemma restrictKeyPermissions_step (keyPath : path) (w w' : World) :
  restrictKeyPermissions keyPath w = Some (None, w') ->
  w_fs w' = w_fs w
  /\ exists tr,
       w_trace w' = w_trace w ++ tr
       /\ openCalls tr = [] /\ mkdirCalls tr = []
       /\ execCalls tr = (if String.eqb (w_goos w) "windows"
                          then icaclsCalls keyPath else [])
       /\ (String.eqb (w_goos w) "windows" = false -> w' = w).
Proof.
  unfold restrictKeyPermissions, runtime_GOOS, exec_Run, bind, modify, gets, ret. cbn.
  destruct (String.eqb (w_goos w) "windows").
  - destruct (w_exec w _) as [e|]; [intros H; discriminate H|]. cbn.
    destruct (w_exec w _) as [e|]; intros H; inversion H; subst. cbn.
    split; [reflexivity|]. eexists. split; [rewrite <- app_assoc; reflexivity|].
    repeat split; try reflexivity. discriminate.
  - intros H. inversion H; subst. split; [reflexivity|]. exists [].
    rewrite app_nil_r. repeat split; reflexivity.
Qed.

Lemma restrictKeyPermissions_noop (keyPath : path) (w : World) :
  String.eqb (w_goos w) "windows" = false ->
  restrictKeyPermissions keyPath w = Some (None, w).
Proof.
  intros H. unfold restrictKeyPermissions, runtime_GOOS, bind, gets, ret.
  rewrite H. reflexivity.
Qed.

(** A successful [WriteFiles] opens the certificate file with creation
    mode 0644 and then the key file with creation mode 0600, and a file
    the call creates has that mode; the only directories it asks to
    create are the directories of the two files, with mode 0700, and in a
    well-formed file system these exist afterwards; the only commands it
    runs are the two [icacls] commands on the key file, on Windows, and on
    other platforms the tightening pass changes nothing. Directories and
    files that existed keep their modes. *)
Theorem WriteFiles_effects `{nk : NilKey} (p : ptr) (certPath keyPath : path) (w w' : World) :
  WriteFiles p certPath keyPath w = Some (None, w') ->
  (wf_fs (w_fs w) ->
   isDir (w_fs w') (filepath_Dir certPath) = true
   /\ isDir (w_fs w') (filepath_Dir keyPath) = true
   /\ wf_fs (w_fs w'))
  /\ isFile (w_fs w') certPath = true /\ isFile (w_fs w') keyPath = true
  /\ (isFile (w_fs w) certPath = false ->
      exists d, lookupNode (w_fs w') certPath = Some (FileNode 420 d))
  /\ (isFile (w_fs w) keyPath = false -> keyPath <> certPath ->
      exists d, lookupNode (w_fs w') keyPath = Some (FileNode 384 d))
  /\ fs_le (w_fs w) (w_fs w')
  /\ (String.eqb (w_goos w) "windows" = false ->
      forall w0 q, w_goos w0 = w_goos w -> restrictKeyPermissions q w0 = Some (None, w0))
  /\ exists tr,
       w_trace w' = w_trace w ++ tr
       /\ openCalls tr = [(certPath, 420%Z); (keyPath, 384%Z)]
       /\ Forall (fun c => c = (filepath_Dir certPath, 448%Z)
                           \/ c = (filepath_Dir keyPath, 448%Z)) (mkdirCalls tr)
       /\ execCalls tr = (if String.eqb (w_goos w) "windows"
                          then icaclsCalls keyPath else []).
Proof.
  intros H. unfold WriteFiles in H.
  apply bind_inv in H as ([f1 e1] & w1 & H1 & H).
  destruct e1 as [e1|]; [destruct f1; discriminate H|].
  apply mkdirAndCreateFile_step in H1
    as (-> & Hne1 & Hdir1 & (m1 & Hm1 & Hperm1) & Hf1 & tr1 & Hs1 & Ho1 & He1 & Hmk1).
  apply bind_inv in H as (e2 & w2 & H2 & H).
  destruct e2 as [e2|]; [discriminate H|].
  apply WriteCert_step in H2 as [Hs2 Hf2].
  apply bind_inv in H as ([f3 e3] & w3 & H3 & H).
  destruct e3 as [e3|]; [destruct f3; discriminate H|].
  pose proof (fs_step_trans _ _ _ _ _ Hs1 Hs2) as Hs12.
  pose proof Hs12 as (_ & _ & _ & Hle12 & Hwf12).
  apply mkdirAndCreateFile_step in H3
    as (-> & Hne3 & Hdir3 & (m3 & Hm3 & Hperm3) & Hf3 & tr3 & Hs3 & Ho3 & He3 & Hmk3).
  apply bind_inv in H as (e4 & w4 & H4 & H).
  destruct e4 as [e4|]; [discriminate H|].
  apply WriteKey_step in H4 as [Hs4 Hf4].
  apply bind_inv in H as (e5 & w5 & H5 & H).
  destruct e5 as [e5|]; [discriminate H|]. inversion H; subst w5. clear H.
  apply restrictKeyPermissions_step in H5 as (Hfs5 & tr5 & Ht5 & Ho5 & Hmk5 & He5 & _).
  pose proof (fs_step_trans _ _ _ _ _ Hs12 (fs_step_trans _ _ _ _ _ Hs3 Hs4)) as Hs.
  destruct Hs as (Ht & Hg & Hx & Hle & Hwf').
  pose proof Hs3 as (_ & _ & _ & Hle3 & _). pose proof Hs4 as (_ & _ & _ & Hle4 & _).
  pose proof Hs2 as (_ & _ & _ & Hle2 & _).
  assert (Hle24 : fs_le (w_fs w1) (w_fs w4)).
  { etransitivity; [exact Hle2|]. etransitivity; eassumption. }
  rewrite Hfs5.
  assert (Hcert : exists d, lookupNode (w_fs w4) certPath = Some (FileNode m1 d)).
  { specialize (Hle24 certPath). now rewrite Hm1 in Hle24. }
  assert (Hkey : exists d, lookupNode (w_fs w4) keyPath = Some (FileNode m3 d)).
  { specialize (Hle4 keyPath). now rewrite Hm3 in Hle4. }
  split.
  { intros Hwf. split; [exact (fs_le_isDir _ _ _ Hle24 (Hdir1 Hwf))|].
    split; [exact (fs_le_isDir _ _ _ Hle4 (Hdir3 (Hwf12 Hwf))) | now apply Hwf']. }
  split; [destruct Hcert as [d Hd]; unfold isFile; now rewrite Hd|].
  split; [destruct Hkey as [d Hd]; unfold isFile; now rewrite Hd|].
  split; [intros Hnew; rewrite <- (Hperm1 Hnew); exact Hcert|].
  split.
  { intros Hnew Hdiff. rewrite <- Hperm3; [exact Hkey|]. now rewrite Hf2, Hf1. }
  split; [exact Hle|].
  split.
  { intros Hnw w0 q Hg0. apply restrictKeyPermissions_noop. now rewrite Hg0. }
  exists ((tr1 ++ []) ++ (tr3 ++ []) ++ tr5). split.
  { rewrite Ht5, Ht. now rewrite !app_assoc. }
  unfold openCalls, execCalls, mkdirCalls in *. rewrite !omap_app.
  rewrite Ho1, Ho3, Ho5, He1, He3, He5, Hmk5. cbn. rewrite !app_nil_r.
  split; [reflexivity|]. split.
  - apply Forall_app. split; eapply Forall_impl; try eassumption; cbn; auto.
  - assert (Hgoos : w_goos w4 = w_goos w) by congruence. now rewrite Hgoos.
Qed.

Section Samples_8.

#[local] Existing Instance sampleNet.
#[local] Existing Instance sampleStrings.
#[local] Existing Instance sampleNilKey.

Lemma WriteFiles_effects_witness :
  exists w' d,
    WriteFiles (Some 0) ["srv"; "server.crt"] ["srv"; "server.key"] windowsWorld
    = Some (None, w')
    /\ lookupNode (w_fs w') ["srv"; "server.key"] = Some (FileNode 384 d)
    /\ isDir (w_fs w') ["srv"] = true
    /\ execCalls (w_trace w') = icaclsCalls ["srv"; "server.key"].
Proof.
  assert (Hwf : wf_fs (w_fs windowsWorld)) by apply wf_fs_empty.
  destruct (WriteFiles (Some 0) ["srv"; "server.crt"] ["srv"; "server.key"] windowsWorld)
    as [[[e|] w']|] eqn:HW; try (vm_compute in HW; discriminate HW).
  destruct (WriteFiles_effects _ _ _ _ _ HW)
    as (Hdirs & _ & _ & _ & Hkey & _ & _ & tr & Htr & _ & _ & Hexec).
  destruct (Hdirs Hwf) as (Hdc & Hdk & _).
  destruct Hkey as [d Hd]; [reflexivity | discriminate |].
  exists w', d. split; [reflexivity|]. split; [exact Hd|].
  split; [exact Hdk|]. rewrite Htr. exact Hexec.
Defined.

End Samples_8.

(** ** Further facts about the engine *)

(** The loops of the readers, as the code writes them with [pem.Decode]. *)
Lemma readPEMCert_loop_Decode `{str : StringsLib} (pemBytes : PEMStream) :
  readPEMCert_loop pemBytes
  = match pem_Decode pemBytes with
    | None => certBlockNotFound
    | Some (block, rest) =>
        if String.eqb (strings_TrimSpace (strings_ToUpper (Type_ block))) "CERTIFICATE"
        then x509_ParseCertificate (Bytes block)
        else readPEMCert_loop rest
    end.
Proof. destruct pemBytes; reflexivity. Qed.

Lemma readPEMKey_loop_Decode `{str : StringsLib} (pemBytes : PEMStream) :
  readPEMKey_loop pemBytes
  = match pem_Decode pemBytes with
    | None => keyBlockNotFound
    | Some (block, rest) =>
        if String.eqb (strings_TrimSpace (strings_ToUpper (Type_ block))) "RSA PRIVATE KEY"
        then x509_ParsePKCS1PrivateKey (Bytes block)
        else if String.eqb (strings_TrimSpace (strings_ToUpper (Type_ block)))
                  "EC PRIVATE KEY"
        then x509_ParseECPrivateKey (Bytes block)
        else readPEMKey_loop rest
    end.
Proof. destruct pemBytes; reflexivity. Qed.

(** Every descriptor [to509] builds has [BasicConstraintsValid] set. *)
Lemma to509_constrained `{net : NetLib} (t : Template) (w w' : World)
    (c : Certificate) (e : error) :
  to509 t w = Some ((Some c, e), w') -> BasicConstraintsValid c = true.
Proof.
  destruct (w_rand w) as [|[z|] r] eqn:Hr.
  - destruct (to509_fails t w (or_introl Hr)) as (w1 & H1 & _). rewrite H1. discriminate.
  - rewrite (to509_ok t w z r Hr). intros H. inversion H; subst.
    destruct (addHost_loop (Template.HostNames t) (descriptor t (z mod 2 ^ 128) (w_now w)))
      as (_ & _ & _ & _ & _ & _ & Hbc).
    rewrite Hbc. reflexivity.
  - destruct (to509_fails t w (or_intror (ex_intro _ r Hr))) as (w1 & H1 & _).
    rewrite H1. discriminate.
Qed.

Section Samples_9.

#[local] Existing Instance sampleNet.
#[local] Existing Instance sampleStrings.
#[local] Existing Instance sampleNilKey.

(** The init command on a fresh directory, with the default flags: a CA
    pair is made, self-signed and written, and the CA points to it. *)
Example initRun_default :
  exists w' c,
    initRun
      {| organization := "Acme"; commonName := "ClusterCA"; validForDays := 365;
         keySize := "P256"; caDir := ["certs"; "ca"] |} sampleWorld = Some (0%Z, w')
    /\ w_cas w' = [{| CA_Pair := Some 1; CertFileName := "root.crt";
                      KeyFileName := "root.key" |}]
    /\ w_pairs w' !! 1 = Some {| Cert := Some c; Key := Some (ECDSAPrivateKey P256 7);
                                 KeyBits := 256 |}
    /\ IsCA c = true /\ Issuer c = Subject c /\ KeyUsage c = 97%Z
    /\ openCalls (w_trace w')
       = [(["certs"; "ca"; "root.crt"], 420%Z); (["certs"; "ca"; "root.key"], 384%Z)]
    /\ execCalls (w_trace w') = [].
Proof.
  eexists _, _. split; [vm_compute; reflexivity|].
  repeat split; reflexivity.
Qed.

(** The four steps of [Init] that can fail, each at an input where it
    does: key generation (no entropy), creation of the directory (a file
    is in the way), self-signing (no entropy left for the signature) and
    persistence (a directory has the name of the certificate file). *)
Example Init_fails_in_pair_creation :
  fst <$> Init (Some 0) NewTemplate ["ca"] (set_rand [] blockedWorld)
  = Some (Some (ErrString ("failed to generate private key for pair: "
                           +:+ "failed to generate private key: "
                           +:+ "read /dev/urandom: input/output error"))).
Proof. vm_compute. reflexivity. Qed.

Example Init_fails_in_directory_creation :
  fst <$> Init (Some 0) NewTemplate ["ca"; "root.crt"; "sub"]
            (set_fs (<[ ["ca"; "root.crt"] := FileNode 420 [] ]> (w_fs blockedWorld))
               blockedWorld)
  = Some (Some (ErrString ("failed to create CA directory ca/root.crt/sub: "
                           +:+ "mkdir ca/root.crt: not a directory"))).
Proof. vm_compute. reflexivity. Qed.

Example Init_fails_in_signing :
  fst <$> Init (Some 0) NewTemplate ["ca"]
            (set_rand [Some 5%Z; Some 7%Z] blockedWorld)
  = Some (Some (ErrString ("failed to sign certificate with CA: "
                           +:+ "failed to create signed certificate: "
                           +:+ "read /dev/urandom: input/output error"))).
Proof. vm_compute. reflexivity. Qed.

Example Init_fails_in_persistence :
  fst <$> Init (Some 0) NewTemplate ["ca"] blockedWorld
  = Some (Some (ErrString ("failed to write CA pair to files: "
                           +:+ "failed to create cert file ca/root.crt: "
                           +:+ "open ca/root.crt: is a directory"))).
Proof. vm_compute. reflexivity. Qed.

(** On a platform other than Windows an existing key file keeps the
    permission bits it has: [os.OpenFile] applies its mode to the files it
    creates, and the tightening pass does nothing there. *)
Example WriteFiles_existing_key_file :
  exists w' d,
    WriteFiles (Some 0) ["srv"; "server.crt"] ["srv"; "server.key"]
      (set_fs (<[ ["srv"; "server.key"] := FileNode 420 [] ]> (<[ ["srv"] := DirNode 448 ]> ∅))
         {| w_pairs := w_pairs windowsWorld; w_cas := []; w_fs := ∅; w_rand := [];
            w_rand_err := urandomError;
            w_now := 0%Z; w_goos := "linux"; w_exec := fun _ => None;
            w_trace := []; w_out := [] |})
    = Some (None, w')
    /\ lookupNode (w_fs w') ["srv"; "server.key"] = Some (FileNode 420 d).
Proof.
  eexists _, _. split; [vm_compute; reflexivity | reflexivity].
Qed.

Lemma loading_keeps_KeyBits_witness :
  exists ca w1 e w2 c l v,
    New loadedWorld = Some (ca, w1) /\ Load ca ["ca"] w1 = Some (e, w2)
    /\ loadCA ca w2 = Some (c, w2) /\ CA_Pair c = Some l
    /\ w_pairs w2 !! l = Some v /\ KeyBits v = 0%Z.
Proof.
  exact (proj2 (proj2 (proj2 loading_keeps_KeyBits)) loadedWorld ["ca"]).
Defined.

(** A CA made by [New] and loaded from a directory with a 4096-bit RSA
    key holds that key, and a [KeyBits] of zero. *)
Example Load_RSA_4096 :
  exists w1 w2 c,
    New loadedWorld = Some (Some 0, w1) /\ Load (Some 0) ["ca"] w1 = Some (None, w2)
    /\ w_pairs w2 = [{| Cert := Some c; Key := Some (RSAPrivateKey 4096 13);
                        KeyBits := 0 |}].
Proof.
  eexists _, _, _. split; [reflexivity|]. split; [vm_compute; reflexivity | reflexivity].
Qed.

(** A server pair made for two hosts and signed with itself: the
    certificate has the server usages and the CA usages, and names the
    hosts. *)
Example self_signed_server :
  exists p w1 w2 c,
    NewServerPair
      {| Template.Organization := "Acme"; Template.CommonName := "db";
         Template.HostNames := ["10.0.0.1"; "db.internal"];
         Template.ValidForDays := 365; Template.KeyBits := 2048 |} sampleWorld
    = Some ((p, None), w1)
    /\ SignWith p p w1 = Some (None, w2)
    /\ (w_pairs w2 !! 0 = Some {| Cert := Some c; Key := Some (RSAPrivateKey 2048 7);
                                  KeyBits := 2048 |})
    /\ IsCA c = true /\ KeyUsage c = 101%Z /\ ExtKeyUsage c = [ExtKeyUsageServerAuth]
    /\ Issuer c = Subject c
    /\ DNSNames c = ["db.internal"] /\ IPAddresses c = [[10; 0; 0; 1]%Z]
    /\ PubKey p w2 = Some (CertPublicKey c, w2).
Proof.
  eexists _, _, _, _. split; [vm_compute; reflexivity|].
  split; [vm_compute; reflexivity|]. repeat split; reflexivity.
Qed.

End Samples_9.

(** X1. The tokens of the enumerated set select the curve or the modulus
    size they name, and with them key generation returns a key whenever
    the entropy source delivers. *)
Lemma valid_token_generates `{str : StringsLib} (s : string) (w : World) (z : Z)
    (r : list (option Z)) :
  In s keySizeTokens -> w_rand w = Some z :: r ->
  exists bits k,
    parseKeyBits s = (bits, None) /\ keyFor s z = Some k
    /\ genPrivKey bits w = Some ((Some k, None), set_rand r w).
Proof.
  intros Hin Hr. unfold keySizeTokens in Hin. cbn in Hin.
  assert (Hgen : forall bits k,
             (if (bits <? 1024)%Z
              then match curveFor bits with
                   | Some c => k = ECDSAPrivateKey c z
                   | None => False
                   end
              else k = RSAPrivateKey bits z) ->
             genPrivKey bits w = Some ((Some k, None), set_rand r w)).
  { intros bits k Hk. unfold genPrivKey, ecdsa_GenerateKey, rsa_GenerateKey, rand_Read,
      bind, gets, modify, ret.
    destruct (bits <? 1024)%Z.
    - destruct (curveFor bits) as [c|]; [|contradiction]. subst k. now rewrite Hr.
    - subst k. now rewrite Hr. }
  repeat (destruct Hin as [<-|Hin];
          [eexists _, _; split;
           [unfold parseKeyBits; rewrite strings_ToUpper_ASCII by reflexivity;
            reflexivity|];
           split; [reflexivity|]; apply Hgen; reflexivity|]).
  contradiction.
Qed.

(** The engine itself does not check the size: [genPrivKey] is reached
    with the sizes [parseKeyBits] lets through. Below 1024, a size that
    names no curve leaves the curve nil, and [ecdsa.GenerateKey] panics. *)
Lemma genPrivKey_no_curve (bits : Z) (w : World) :
  (bits < 1024)%Z -> curveFor bits = None -> genPrivKey bits w = None.
Proof.
  intros Hlt Hc. unfold genPrivKey, bind.
  apply Z.ltb_lt in Hlt. now rewrite Hlt, Hc.
Qed.

Section Samples_10.

#[local] Existing Instance sampleNet.
#[local] Existing Instance sampleStrings.
#[local] Existing Instance sampleNilKey.

(** The invalid tokens the specification names. *)
Example invalid_tokens :
  map (fun s => snd (parseKeyBits s)) ["P512"; "abc"; ""; "p256"; "512"]
  = [ Some (ErrString "invalid key size 'P512'");
      Some (ErrString "invalid key size 'abc'");
      Some (ErrString "invalid key size ''");
      Some (ErrString "invalid key size 'p256'");
      Some (ErrString "invalid key size '512'") ].
Proof. reflexivity. Qed.

End Samples_10.

(** * Further properties of the code *)

(** ** Key sizes and key generation (cmd/util.go, crtauth/util.go) *)

Section Samples_11.

#[local] Existing Instance sampleNet.
#[local] Existing Instance sampleStrings.
#[local] Existing Instance sampleNilKey.

Lemma valid_token_generates_witness :
  exists bits k,
    parseKeyBits "P384" = (bits, None) /\ keyFor "P384" 5 = Some k
    /\ genPrivKey bits sampleWorld
       = Some ((Some k, None), set_rand [Some 7%Z; Some 9%Z; Some 11%Z] sampleWorld).
Proof.
  apply (valid_token_generates "P384" sampleWorld 5 [Some 7%Z; Some 9%Z; Some 11%Z]).
  - cbn. tauto.
  - reflexivity.
Defined.

End Samples_11.

Lemma curveFor_None (bits : Z) : curveFor bits = None <-> ~ In bits curveSizes.
Proof.
  unfold curveFor, curveSizes. cbn.
  destruct (Z.eqb_spec bits 224); [subst; split; [discriminate | tauto]|].
  destruct (Z.eqb_spec bits 256); [subst; split; [discriminate | tauto]|].
  destruct (Z.eqb_spec bits 384); [subst; split; [discriminate | tauto]|].
  destruct (Z.eqb_spec bits 521); [subst; split; [discriminate | tauto]|].
  split; [|reflexivity]. intros _ H. intuition congruence.
Qed.

Lemma rand_Read_eq (w : World) :
  rand_Read w
  = Some (match w_rand w with
          | [] => (None, w)
          | x :: r => (x, set_rand r w)
          end).
Proof.
  unfold rand_Read, bind, gets, modify, ret. destruct (w_rand w); reflexivity.
Qed.

Lemma genPrivKey_eq (bits : Z) (w : World) :
  genPrivKey bits w
  = if (bits <? 1024)%Z && negb (bool_decide (is_Some (curveFor bits))) then None
    else Some (match w_rand w with
               | [] => ((None, Errorf "failed to generate private key: " (w_rand_err w)), w)
               | None :: r =>
                   ((None, Errorf "failed to generate private key: " (w_rand_err w)),
                    set_rand r w)
               | Some z :: r => ((keyOfSize bits z, None), set_rand r w)
               end).
Proof.
  unfold genPrivKey, keyOfSize, ecdsa_GenerateKey, rsa_GenerateKey, rand_Read,
    bind, gets, modify, ret, panic.
  destruct (bits <? 1024)%Z; cbn [andb].
  - destruct (curveFor bits) as [c|]; [|reflexivity].
    destruct (w_rand w) as [|[z|] r]; reflexivity.
  - destruct (w_rand w) as [|[z|] r]; reflexivity.
Qed.

(** X2. [genPrivKey] checks no size. It panics exactly when the size is
    below 1024 and is none of 224, 256, 384 and 521: the curve is then nil
    when [ecdsa.GenerateKey] is called. Every size from 1024 on goes to
    [rsa.GenerateKey] as it is. *)
Theorem genPrivKey_panics_iff (bits : Z) (w : World) :
  genPrivKey bits w = None <-> (bits < 1024)%Z /\ ~ In bits curveSizes.
Proof.
  rewrite genPrivKey_eq, <- curveFor_None.
  destruct (Z.ltb_spec bits 1024) as [Hlt|Hge]; cbn [andb].
  - destruct (curveFor bits) as [c|] eqn:Hc; cbn.
    + split; [discriminate | intros [_ H]; discriminate].
    + split; [intros _; split; [exact Hlt | reflexivity] | reflexivity].
  - split; [discriminate | intros [H _]; lia].
Qed.

Lemma genPrivKey_key (bits : Z) (w w' : World) (k : option PrivateKey) :
  genPrivKey bits w = Some ((k, None), w') ->
  exists z key, k = Some key /\ keyOfSize bits z = Some key.
Proof.
  rewrite genPrivKey_eq.
  destruct ((bits <? 1024)%Z && negb (bool_decide (is_Some (curveFor bits)))) eqn:Hp;
    [discriminate|].
  intros H. injection H as H.
  destruct (w_rand w) as [|[z|] r]; inversion H; subst; clear H.
  unfold keyOfSize in *. destruct (bits <? 1024)%Z; cbn in Hp.
  - destruct (curveFor bits) as [c|]; [|discriminate]. eexists _, _. split; reflexivity.
  - eexists _, _. split; reflexivity.
Qed.

(** X3. When [genPrivKey] returns, one of the key and the error is nil
    and the other is not. With a nil error the key is a key of the
    requested size: an RSA key of that many bits from 1024 on, a key on
    the curve the size names below. With an error the key is nil, and
    the message is the one of the generator behind the prefix of
    [genPrivKey]. The heaps, the file system, the system calls made and
    the output are as they were. *)
Theorem genPrivKey_returns (bits : Z) (w w' : World) (k : option PrivateKey) (e : error) :
  genPrivKey bits w = Some ((k, e), w') ->
  w_pairs w' = w_pairs w /\ w_cas w' = w_cas w /\ w_fs w' = w_fs w
  /\ w_trace w' = w_trace w /\ w_out w' = w_out w
  /\ match e with
     | None => exists z key, k = Some key /\ keyOfSize bits z = Some key
     | Some err =>
         k = None
         /\ exists cause, err = ErrString ("failed to generate private key: " +:+ cause)
     end.
Proof.
  rewrite genPrivKey_eq.
  destruct ((bits <? 1024)%Z && negb (bool_decide (is_Some (curveFor bits)))) eqn:Hp;
    [discriminate|].
  intros H. injection H as H.
  destruct (w_rand w) as [|[z|] r] eqn:Hr; inversion H; subst; clear H;
    unfold Errorf; cbn.
  - repeat split; try reflexivity. eexists. reflexivity.
  - repeat split; try reflexivity.
    unfold keyOfSize in *. destruct (bits <? 1024)%Z; cbn in Hp.
    + destruct (curveFor bits) as [c|]; [|discriminate]. eexists _, _. repeat split.
    + eexists _, _. repeat split.
  - repeat split; try reflexivity. eexists. reflexivity.
Qed.

Section Samples_12.

#[local] Existing Instance sampleNet.
#[local] Existing Instance sampleStrings.
#[local] Existing Instance sampleNilKey.

Lemma genPrivKey_returns_witness :
  exists e w',
    genPrivKey 2048 glitchWorld = Some ((None, Some e), w')
    /\ w_pairs w' = w_pairs glitchWorld /\ w_fs w' = w_fs glitchWorld.
Proof.
  destruct (genPrivKey 2048 glitchWorld) as [[[[k|] [e|]] w']|] eqn:HG;
    try (vm_compute in HG; discriminate HG).
  destruct (genPrivKey_returns 2048 glitchWorld w' None (Some e) HG)
    as (Hp & _ & Hfs & _).
  exists e, w'. repeat split; assumption.
Defined.

End Samples_12.

(** ** The descriptor and its validity (crtauth/template.go, crtauth/util.go) *)

Section Samples_13.

#[local] Existing Instance sampleNet.
#[local] Existing Instance sampleStrings.
#[local] Existing Instance sampleNilKey.

Lemma validity_window_witness :
  exists c,
    to509 NewTemplate sampleWorld
    = Some ((Some c, None), set_rand (tail (w_rand sampleWorld)) sampleWorld)
    /\ NotBefore c = w_now sampleWorld
    /\ NotAfter c = (NotBefore c + 365 * 24 * time_Hour)%Z
    /\ ((0 < 365)%Z -> (NotBefore c < NotAfter c)%Z).
Proof.
  apply (validity_window NewTemplate sampleWorld 5
           [Some 7%Z; Some 9%Z; Some 11%Z]).
  - reflexivity.
  - cbn. unfold maxDays. lia.
Defined.

End Samples_13.

Section Descriptor_more.

Context `{net : NetLib} `{str : StringsLib} `{nk : NilKey}.

Lemma addHost_loop_eq (hs : list string) (c : Certificate) :
  foldl addHost c hs = withHosts hs c.
Proof.
  revert c. induction hs as [|h hs IH]; intros c.
  - destruct c. unfold withHosts. cbn. now rewrite !app_nil_r.
  - cbn [foldl]. rewrite IH. unfold withHosts, addHost, parsesAsIP.
    change (omap net_ParseIP (h :: hs))
      with (match net_ParseIP h with
            | Some ip => ip :: omap net_ParseIP hs
            | None => omap net_ParseIP hs
            end).
    cbn [List.filter].
    destruct (net_ParseIP h) as [ip|]; destruct c; cbn.
    + now rewrite <- app_assoc.
    + now rewrite <- app_assoc.
Qed.

(** X5. [to509] checks no number of days. For a count that is zero or
    negative (down to [- maxDays]) it returns a descriptor and no error,
    and the window it gives ends when it starts or before: [NotAfter] is
    [NotBefore] plus the (negative) whole-day duration. *)
Theorem nonpositive_days_accepted (t : Template) (w : World) (z : Z) (r : list (option Z)) :
  w_rand w = Some z :: r ->
  (- maxDays <= Template.ValidForDays t <= 0)%Z ->
  exists c,
    to509 t w = Some ((Some c, None), set_rand r w)
    /\ NotBefore c = w_now w
    /\ NotAfter c = (NotBefore c + Template.ValidForDays t * 24 * time_Hour)%Z
    /\ (NotAfter c <= NotBefore c)%Z.
Proof.
  intros Hr Hd. eexists. split; [apply (to509_ok t w z r Hr)|].
  rewrite addHost_loop_eq. unfold withHosts. cbn.
  rewrite daysToDuration_exact by (unfold maxDays in *; lia).
  unfold time_Add, time_Hour. repeat split; lia.
Qed.

(** X6. When the serial number is drawn, [to509] returns the descriptor
    below and no error: the subject holds one organization (the one of
    the template, also when it is empty) and the common name; the issuer,
    the key usages and the encoding are empty; the CA flag is off and
    [BasicConstraintsValid] is on; and the loop over the host identifiers
    changes the two lists of hosts only. *)
Theorem to509_descriptor (t : Template) (w : World) (z : Z) (r : list (option Z)) :
  w_rand w = Some z :: r ->
  exists c,
    to509 t w = Some ((Some c, None), set_rand r w)
    /\ c = withHosts (Template.HostNames t) (descriptor t (z mod 2 ^ 128) (w_now w))
    /\ Subject c = {| pkix_Organization := [Template.Organization t];
                      pkix_CommonName := Template.CommonName t |}
    /\ Issuer c = emptyName /\ Raw c = DERNone /\ CertPublicKey c = None
    /\ KeyUsage c = 0%Z /\ ExtKeyUsage c = []
    /\ IsCA c = false /\ BasicConstraintsValid c = true
    /\ (exists serial, SerialNumber c = Some serial /\ (0 <= serial < 2 ^ 128)%Z).
Proof.
  intros Hr. eexists. split; [apply (to509_ok t w z r Hr)|].
  rewrite addHost_loop_eq. repeat split.
  exists (z mod 2 ^ 128)%Z. split; [reflexivity|]. apply Z.mod_pos_bound. lia.
Qed.

Lemma strings_Split_nonempty (s : string) (sep : ascii) : strings_Split s sep <> [].
Proof.
  destruct s as [|c s]; cbn; [discriminate|].
  destruct (Ascii.eqb c sep); [discriminate|].
  destruct (strings_Split s sep); discriminate.
Qed.

Lemma strings_Split_length (s : string) (sep : ascii) :
  length (strings_Split s sep) = S (countSep s sep).
Proof.
  induction s as [|c s IH]; cbn; [reflexivity|].
  destruct (Ascii.eqb c sep); cbn; [now rewrite IH|].
  destruct (strings_Split s sep) as [|piece pieces]; cbn in *; [discriminate | exact IH].
Qed.

Lemma strings_Split_concat (s : string) (sep : ascii) :
  String.concat (String sep EmptyString) (strings_Split s sep) = s.
Proof.
  assert (Hcons : forall x y l,
             String.concat (String sep EmptyString) (x :: y :: l)
             = x +:+ String sep EmptyString
                 +:+ String.concat (String sep EmptyString) (y :: l))
    by reflexivity.
  induction s as [|c s IH]; cbn [strings_Split]; [reflexivity|].
  pose proof (strings_Split_nonempty s sep) as Hne.
  destruct (Ascii.eqb_spec c sep) as [->|Hc].
  - destruct (strings_Split s sep) as [|piece pieces]; [contradiction|].
    rewrite Hcons, IH. reflexivity.
  - destruct (strings_Split s sep) as [|piece pieces]; [contradiction|].
    destruct pieces as [|y l].
    + cbn in *. now rewrite IH.
    + rewrite Hcons in *. rewrite <- IH. reflexivity.
Qed.

Lemma classified_length (hs : list string) :
  length (omap net_ParseIP hs)
  + length (List.filter (fun h => negb (parsesAsIP h)) hs) = length hs.
Proof.
  induction hs as [|h hs IH]; [reflexivity|].
  change (omap net_ParseIP (h :: hs))
    with (match net_ParseIP h with
          | Some ip => ip :: omap net_ParseIP hs
          | None => omap net_ParseIP hs
          end).
  cbn [List.filter]. unfold parsesAsIP at 1.
  destruct (net_ParseIP h); cbn [negb length]; lia.
Qed.

(** X7. The generate command splits the flag [--hostnames] at its commas
    and [to509] files every piece, empty ones included, under the IP
    addresses or under the DNS names: the two lists hold one entry more
    than the flag has commas, so an empty flag gives a certificate with
    one (empty) host. Joining the pieces with commas gives the flag back. *)
Theorem split_hosts_all_kept (t : Template) (h : string) (w : World)
    (z : Z) (r : list (option Z)) :
  w_rand w = Some z :: r ->
  Template.HostNames t = strings_Split h ","%char ->
  exists c,
    to509 t w = Some ((Some c, None), set_rand r w)
    /\ length (IPAddresses c) + length (DNSNames c) = S (countSep h ","%char)
    /\ String.concat "," (Template.HostNames t) = h.
Proof.
  intros Hr Hh. eexists. split; [apply (to509_ok t w z r Hr)|].
  rewrite addHost_loop_eq. unfold withHosts. cbn.
  rewrite classified_length, Hh, strings_Split_length. split; [reflexivity|].
  apply strings_Split_concat.
Qed.

End Descriptor_more.

Section Samples_14.

#[local] Existing Instance sampleNet.
#[local] Existing Instance sampleStrings.
#[local] Existing Instance sampleNilKey.

Lemma nonpositive_days_accepted_witness :
  exists c,
    to509
      {| Template.Organization := "Acme"; Template.CommonName := "db";
         Template.HostNames := []; Template.ValidForDays := -30;
         Template.KeyBits := 256 |} sampleWorld
    = Some ((Some c, None), set_rand [Some 7%Z; Some 9%Z; Some 11%Z] sampleWorld)
    /\ NotBefore c = w_now sampleWorld
    /\ NotAfter c = (NotBefore c + -30 * 24 * time_Hour)%Z
    /\ (NotAfter c <= NotBefore c)%Z.
Proof.
  apply (nonpositive_days_accepted
           {| Template.Organization := "Acme"; Template.CommonName := "db";
              Template.HostNames := []; Template.ValidForDays := -30;
              Template.KeyBits := 256 |} sampleWorld 5 [Some 7%Z; Some 9%Z; Some 11%Z]).
  - reflexivity.
  - cbn. unfold maxDays. lia.
Defined.

Lemma to509_descriptor_witness :
  exists c,
    to509
      {| Template.Organization := ""; Template.CommonName := "db";
         Template.HostNames := ["10.0.0.1"; "db.internal"]; Template.ValidForDays := 365;
         Template.KeyBits := 256 |} sampleWorld
    = Some ((Some c, None), set_rand [Some 7%Z; Some 9%Z; Some 11%Z] sampleWorld)
    /\ pkix_Organization (Subject c) = [""]
    /\ BasicConstraintsValid c = true /\ IsCA c = false /\ Raw c = DERNone.
Proof.
  destruct (to509_descriptor
              {| Template.Organization := ""; Template.CommonName := "db";
                 Template.HostNames := ["10.0.0.1"; "db.internal"];
                 Template.ValidForDays := 365; Template.KeyBits := 256 |}
              sampleWorld 5 [Some 7%Z; Some 9%Z; Some 11%Z] eq_refl)
    as (c & Hrun & _ & Hs & _ & Hraw & _ & _ & _ & Hca & Hbc & _).
  exists c. rewrite Hs. repeat split; assumption.
Defined.

Lemma split_hosts_all_kept_witness :
  exists c,
    to509
      {| Template.Organization := "Acme"; Template.CommonName := "db";
         Template.HostNames := ["10.0.0.1"; ""; "db.internal"]; Template.ValidForDays := 365;
         Template.KeyBits := 256 |} sampleWorld
    = Some ((Some c, None), set_rand [Some 7%Z; Some 9%Z; Some 11%Z] sampleWorld)
    /\ length (IPAddresses c) + length (DNSNames c) = 3
    /\ String.concat "," ["10.0.0.1"; ""; "db.internal"] = "10.0.0.1,,db.internal".
Proof.
  apply (split_hosts_all_kept
           {| Template.Organization := "Acme"; Template.CommonName := "db";
              Template.HostNames := ["10.0.0.1"; ""; "db.internal"];
              Template.ValidForDays := 365; Template.KeyBits := 256 |}
           "10.0.0.1,,db.internal" sampleWorld 5 [Some 7%Z; Some 9%Z; Some 11%Z]).
  - reflexivity.
  - reflexivity.
Defined.

End Samples_14.

(** ** Signing (crtauth/pair.go) *)

#[local] Instance same_env_preorder : PreOrder same_env.
Proof.
  split.
  - intros w. repeat split.
  - intros w1 w2 w3 (A1 & A2 & A3 & A4 & A5 & A6 & A7) (B1 & B2 & B3 & B4 & B5 & B6 & B7).
    repeat split; congruence.
Qed.

Lemma update_Cert_eq (l : nat) (v : Pair) (c : Certificate)
    (f : Certificate -> Certificate) (w : World) :
  w_pairs w !! l = Some v -> Cert v = Some c ->
  update_Cert (Some l) f w
  = Some (tt, set_pairs (<[l := {| Cert := Some (f c); Key := Key v; KeyBits := KeyBits v |}]>
                           (w_pairs w)) w).
Proof.
  intros Hv Hc. unfold update_Cert.
  rewrite (bind_eq _ _ _ _ _ (load_Cert_Some l v c w Hv Hc)).
  apply (store_Cert_Some l v). exact Hv.
Qed.

Lemma x509_CreateCertificate_eq (template parent : Certificate)
    (pub : option PublicKey) (priv : option PrivateKey) (w : World) :
  x509_CreateCertificate template parent pub priv w
  = Some
      match priv, SerialNumber template, pub with
      | None, _, _ =>
          ((DERNone,
            errors_New "x509: certificate private key does not implement crypto.Signer"), w)
      | Some _, None, _ => ((DERNone, errors_New "x509: no SerialNumber given"), w)
      | Some _, Some _, None =>
          ((DERNone, errors_New "x509: only RSA and ECDSA public keys supported"), w)
      | Some key, Some serial, Some pk =>
          let der := DERCertificate (tbsOf template (Subject parent) serial pk)
                       (verifyingKey key) in
          match key, w_rand w with
          | RSAPrivateKey _ _, _ => ((der, None), w)
          | ECDSAPrivateKey _ _, Some _ :: r => ((der, None), set_rand r w)
          | ECDSAPrivateKey _ _, None :: r => ((DERNone, Some (w_rand_err w)), set_rand r w)
          | ECDSAPrivateKey _ _, [] => ((DERNone, Some (w_rand_err w)), w)
          end
      end.
Proof.
  unfold x509_CreateCertificate.
  destruct priv as [[bits seed|curve seed]|]; [| |reflexivity];
    (destruct (SerialNumber template) as [serial|]; [|reflexivity]);
    (destruct pub as [pk|]; [|reflexivity]); [reflexivity|].
  unfold bind. rewrite rand_Read_eq. destruct (w_rand w) as [|[z|] r]; reflexivity.
Qed.

(** [SignWith] up to its call of [x509.CreateCertificate]. *)
Lemma SignWith_eq (l lp : nat) (v vp : Pair) (c pc : Certificate) (pk : PrivateKey)
    (w : World) :
  w_pairs w !! l = Some v -> Cert v = Some c ->
  w_pairs w !! lp = Some vp -> Cert vp = Some pc -> Key vp = Some pk ->
  let c1 := toSign (bool_decide (l = lp)) (Subject pc) c in
  let w1 := set_pairs (<[l := {| Cert := Some c1; Key := Key v; KeyBits := KeyBits v |}]>
                         (w_pairs w)) w in
  SignWith (Some l) (Some lp) w
  = bind (x509_CreateCertificate c1 (if bool_decide (l = lp) then c1 else pc)
            (publicKey (Key v)) (Some pk))
      (fun '(derBytes, err) =>
         match err with
         | Some e => ret (Errorf "failed to create signed certificate: " e)
         | None =>
             let '(cert, err) := x509_ParseCertificate derBytes in
             match err with
             | Some e => ret (Errorf "failed to parse generated certificate: " e)
             | None => _ <- store_Cert (Some l) cert ;; ret None
             end
         end) w1.
Proof.
  intros Hv Hc Hvp Hpc Hpk c1 w1. unfold SignWith.
  assert (Hlt : l < length (w_pairs w)) by now apply lookup_lt_Some in Hv.
  rewrite (bind_eq _ _ _ _ _ (load_Some lp vp w Hvp)). rewrite Hpc, Hpk.
  rewrite (bind_eq _ _ _ _ _ (update_Cert_eq l v c (set_Issuer (Subject pc)) w Hv Hc)).
  set (wa := set_pairs _ w).
  assert (La : w_pairs wa !! l
               = Some {| Cert := Some (set_Issuer (Subject pc) c); Key := Key v;
                         KeyBits := KeyBits v |})
    by (apply list_lookup_insert_eq; exact Hlt).
  destruct (decide (l = lp)) as [<-|Hne].
  - rewrite decide_True by reflexivity.
    assert (vp = v) by congruence. subst vp.
    assert (pc = c) by congruence. subst pc.
    assert (Eb : bind (update_Cert (Some l) (set_IsCA true))
                   (fun _ => update_Cert (Some l)
                               (fun c0 => set_KeyUsage (Z.lor (KeyUsage c0) caKeyUsage) c0)) wa
                 = Some (tt, w1)).
    { rewrite (bind_eq _ _ _ _ _ (update_Cert_eq l _ _ (set_IsCA true) wa La eq_refl)).
      set (wb := set_pairs _ wa).
      assert (Lb : w_pairs wb !! l
                   = Some {| Cert := Some (set_IsCA true (set_Issuer (Subject c) c));
                             Key := Key v; KeyBits := KeyBits v |}).
      { apply list_lookup_insert_eq. subst wa. cbn. now rewrite length_insert. }
      rewrite (update_Cert_eq l _ _ _ wb Lb eq_refl). subst wb wa w1 c1. cbn.
      rewrite !list_insert_insert_eq. rewrite bool_decide_eq_true_2 by reflexivity.
      reflexivity. }
    rewrite (bind_eq _ _ _ _ _ Eb).
    assert (L1 : w_pairs w1 !! l
                 = Some {| Cert := Some c1; Key := Key v; KeyBits := KeyBits v |})
      by (apply list_lookup_insert_eq; exact Hlt).
    rewrite (bind_eq _ _ _ _ _ (load_Some l _ w1 L1)).
    rewrite (bind_eq _ _ _ _ _ (load_Cert_Some l _ c1 w1 L1 eq_refl)).
    rewrite (bind_eq _ _ _ _ _ (load_Some l _ w1 L1)).
    rewrite (bind_eq _ _ _ _ _ (load_Cert_Some l _ c1 w1 L1 eq_refl)).
    cbn [Key]. rewrite Hpk. rewrite bool_decide_eq_true_2 by reflexivity. reflexivity.
  - rewrite decide_False by congruence.
    assert (Ew : wa = w1).
    { subst wa w1 c1. rewrite bool_decide_eq_false_2 by exact Hne. reflexivity. }
    assert (Ec : set_Issuer (Subject pc) c = c1).
    { subst c1. rewrite bool_decide_eq_false_2 by exact Hne. reflexivity. }
    rewrite Ec in La. rewrite Ew in *. clear Ew wa.
    assert (Lp : w_pairs w1 !! lp = Some vp).
    { subst w1. cbn. rewrite list_lookup_insert_ne by exact Hne. exact Hvp. }
    change (bind (ret tt) ?k w1) with (k tt w1). cbn beta.
    rewrite (bind_eq _ _ _ _ _ (load_Some l _ w1 La)).
    rewrite (bind_eq _ _ _ _ _ (load_Cert_Some l _ c1 w1 La eq_refl)).
    rewrite (bind_eq _ _ _ _ _ (load_Some lp _ w1 Lp)).
    rewrite (bind_eq _ _ _ _ _ (load_Cert_Some lp _ pc w1 Lp Hpc)).
    cbn [Key]. rewrite Hpk. rewrite bool_decide_eq_false_2 by exact Hne. reflexivity.
Qed.

Lemma toSign_Subject (self : bool) (n : Name) (c : Certificate) :
  Subject (toSign self n c) = Subject c.
Proof. destruct self; reflexivity. Qed.

(** What a call of [SignWith] with a complete parent has done when it
    returns. *)
Lemma SignWith_inv (l lp : nat) (v vp : Pair) (c pc : Certificate) (pk : PrivateKey)
    (w w' : World) (err : error) :
  w_pairs w !! l = Some v -> Cert v = Some c ->
  w_pairs w !! lp = Some vp -> Cert vp = Some pc -> Key vp = Some pk ->
  SignWith (Some l) (Some lp) w = Some (err, w') ->
  let c1 := toSign (bool_decide (l = lp)) (Subject pc) c in
  same_env w w'
  /\ match err with
     | None =>
         exists serial pub c',
           SerialNumber c = Some serial /\ publicKey (Key v) = Some pub
           /\ x509_ParseCertificate
                (DERCertificate (tbsOf c1 (Subject pc) serial pub) (verifyingKey pk))
              = (Some c', None)
           /\ w_pairs w'
              = <[l := {| Cert := Some c'; Key := Key v; KeyBits := KeyBits v |}]> (w_pairs w)
     | Some e =>
         In e (signingErrors w)
         /\ w_pairs w'
            = <[l := {| Cert := Some c1; Key := Key v; KeyBits := KeyBits v |}]> (w_pairs w)
     end.
Proof.
  intros Hv Hc Hvp Hpc Hpk H c1.
  assert (Hlt : l < length (w_pairs w)) by now apply lookup_lt_Some in Hv.
  rewrite (SignWith_eq l lp v vp c pc pk w Hv Hc Hvp Hpc Hpk) in H.
  fold c1 in H. unfold bind at 1 in H. rewrite x509_CreateCertificate_eq in H.
  assert (Hsub : Subject (if bool_decide (l = lp) then c1 else pc) = Subject pc).
  { destruct (bool_decide (l = lp)) eqn:Hb; [|reflexivity].
    apply bool_decide_eq_true_1 in Hb. subst lp.
    assert (vp = v) by congruence. subst vp.
    assert (pc = c) by congruence. subst pc. apply toSign_Subject. }
  rewrite Hsub in H. clear Hsub.
  assert (Hser : SerialNumber c1 = SerialNumber c).
  { subst c1. unfold toSign. destruct (bool_decide (l = lp)); reflexivity. }
  rewrite Hser in H. clear Hser.
  set (w1 := set_pairs _ w) in H.
  assert (L1 : w_pairs w1 !! l
               = Some {| Cert := Some c1; Key := Key v; KeyBits := KeyBits v |})
    by (apply list_lookup_insert_eq; exact Hlt).
  destruct (SerialNumber c) as [serial|].
  2:{ cbn in H. inversion H; subst. split; [repeat split|].
      split; [cbn; tauto | reflexivity]. }
  destruct (publicKey (Key v)) as [pub|].
  2:{ cbn in H. inversion H; subst. split; [repeat split|].
      split; [cbn; tauto | reflexivity]. }
  cbn zeta in H.
  assert (Hok : forall w2, w_pairs w2 = w_pairs w1 -> same_env w w2 ->
            (let '(cert, err0) := x509_ParseCertificate
                  (DERCertificate (tbsOf c1 (Subject pc) serial pub) (verifyingKey pk)) in
             match err0 with
             | Some e => ret (Errorf "failed to parse generated certificate: " e)
             | None => _ <- store_Cert (Some l) cert ;; ret None
             end) w2 = Some (err, w') ->
            same_env w w'
            /\ err = None
            /\ exists c',
                 x509_ParseCertificate
                   (DERCertificate (tbsOf c1 (Subject pc) serial pub) (verifyingKey pk))
                 = (Some c', None)
                 /\ w_pairs w'
                    = <[l := {| Cert := Some c'; Key := Key v; KeyBits := KeyBits v |}]>
                        (w_pairs w)).
  { intros w2 Hp2 Henv H2. cbn [x509_ParseCertificate] in H2. cbn beta iota in H2.
    assert (L2 : w_pairs w2 !! l
                 = Some {| Cert := Some c1; Key := Key v; KeyBits := KeyBits v |})
      by (rewrite Hp2; exact L1).
    rewrite (bind_eq _ _ _ _ _ (store_Cert_Some l _ _ w2 L2)) in H2.
    inversion H2; subst. clear H2. split.
    { destruct Henv as (A1 & A2 & A3 & A4 & A5 & A6 & A7). repeat split; assumption. }
    split; [reflexivity|]. eexists. split; [reflexivity|].
    cbn. rewrite Hp2. subst w1. cbn. apply list_insert_insert_eq. }
  assert (Hfin : forall w2, w_pairs w2 = w_pairs w1 -> same_env w w2 ->
            (let '(cert, err0) := x509_ParseCertificate
                  (DERCertificate (tbsOf c1 (Subject pc) serial pub) (verifyingKey pk)) in
             match err0 with
             | Some e => ret (Errorf "failed to parse generated certificate: " e)
             | None => _ <- store_Cert (Some l) cert ;; ret None
             end) w2 = Some (err, w') ->
            same_env w w'
            /\ match err with
               | None =>
                   exists serial0 pub0 c',
                     Some serial = Some serial0 /\ Some pub = Some pub0
                     /\ x509_ParseCertificate
                          (DERCertificate (tbsOf c1 (Subject pc) serial0 pub0)
                             (verifyingKey pk))
                        = (Some c', None)
                     /\ w_pairs w'
                        = <[l := {| Cert := Some c'; Key := Key v; KeyBits := KeyBits v |}]>
                            (w_pairs w)
               | Some e =>
                   In e (signingErrors w)
                   /\ w_pairs w'
                      = <[l := {| Cert := Some c1; Key := Key v; KeyBits := KeyBits v |}]>
                          (w_pairs w)
               end).
  { intros w2 Hp2 Henv H2. destruct (Hok w2 Hp2 Henv H2) as (He & -> & c' & Hc' & Hp').
    split; [exact He|]. exists serial, pub, c'. repeat split; assumption. }
  destruct pk as [bits seed|curve seed].
  - cbn iota in H. apply (Hfin w1); [reflexivity | repeat split | exact H].
  - destruct (w_rand w1) as [|[z|] r] eqn:Hr.
    + inversion H; subst. split; [repeat split|]. split; [cbn; tauto | reflexivity].
    + apply (Hfin (set_rand r w1)); [reflexivity | repeat split | exact H].
    + inversion H; subst. split; [repeat split|]. split; [cbn; tauto | reflexivity].
Qed.

Lemma SignWith_complete (p : ptr) (lp : nat) (vp : Pair) (w w' : World) :
  w_pairs w !! lp = Some vp ->
  SignWith p (Some lp) w = Some (None, w') ->
  exists pc pk, Cert vp = Some pc /\ Key vp = Some pk.
Proof.
  intros Hvp H. unfold SignWith in H.
  rewrite (bind_eq _ _ _ _ _ (load_Some lp vp w Hvp)) in H.
  destruct (Cert vp) as [pc|]; [|discriminate H].
  destruct (Key vp) as [pk|]; [|discriminate H].
  eexists _, _. split; reflexivity.
Qed.

Lemma parse_encoded (der : DER) (c : Certificate) :
  x509_ParseCertificate der = (Some c, None) -> encoded c /\ Raw c = der.
Proof.
  destruct der; cbn; intros H; inversion H; subst. split; reflexivity.
Qed.

(** C4. [SignWith] sets [IsCA] on the descriptor of a pair that signs
    itself (pair.go, line 189) and leaves [BasicConstraintsValid] as it
    is. When the descriptor has that field unset, as a certificate read
    from a file without the basic-constraints extension has,
    [x509.CreateCertificate] does not encode the flag: the certificate a
    successful call leaves in the pair is not a CA certificate, although
    it has the CA key usages and its own subject as issuer. *)
Theorem SignWith_self_loses_CA_flag (l : nat) (v : Pair) (c : Certificate)
    (w w' : World) :
  w_pairs w !! l = Some v -> Cert v = Some c ->
  BasicConstraintsValid c = false ->
  SignWith (Some l) (Some l) w = Some (None, w') ->
  exists c',
    w_pairs w' !! l = Some {| Cert := Some c'; Key := Key v; KeyBits := KeyBits v |}
    /\ IsCA c' = false /\ BasicConstraintsValid c' = false
    /\ Z.land (KeyUsage c') caKeyUsage = caKeyUsage
    /\ Issuer c' = Subject c' /\ Subject c' = Subject c.
Proof.
  intros Hv Hc Hbc H.
  destruct (SignWith_complete _ _ _ _ _ Hv H) as (pc & pk & Hpc & Hpk).
  assert (pc = c) by congruence. subst pc.
  destruct (SignWith_inv l l v v c c pk w w' None Hv Hc Hv Hc Hpk H)
    as (_ & serial & pub & c' & _ & _ & Hparse & Hp').
  rewrite bool_decide_eq_true_2 in Hparse by reflexivity.
  cbn in Hparse. rewrite Hbc in Hparse. inversion Hparse as [Hc']. clear Hparse.
  exists c'. split.
  { rewrite Hp'. apply list_lookup_insert_eq. now apply lookup_lt_Some in Hv. }
  rewrite <- Hc'. cbn. repeat split. apply caKeyUsage_set.
Qed.

Section Samples_signing.

#[local] Existing Instance sampleNet.
#[local] Existing Instance sampleStrings.
#[local] Existing Instance sampleNilKey.

Lemma SignWith_self_loses_CA_flag_witness :
  exists w' c',
    SignWith (Some 0) (Some 0) foreignPairWorld = Some (None, w')
    /\ w_pairs w' !! 0 = Some {| Cert := Some c'; Key := Some (RSAPrivateKey 2048 7);
                                 KeyBits := 0 |}
    /\ IsCA c' = false /\ Issuer c' = Subject c'.
Proof.
  destruct (SignWith (Some 0) (Some 0) foreignPairWorld) as [[[e|] w']|] eqn:HS;
    try (vm_compute in HS; discriminate HS).
  destruct (SignWith_self_loses_CA_flag 0 _ foreignCert foreignPairWorld w'
              eq_refl eq_refl eq_refl HS)
    as (c' & Hl & Hca & _ & _ & Hiss & _).
  exists w', c'. repeat split; assumption.
Defined.

End Samples_signing.

(** X8. [SignWith] looks at its parent first: when the parent lacks its
    certificate or its key the call returns the error of the incomplete
    parent and changes nothing. The receiver is not looked at by then, so
    this holds for every receiver, a nil one included. *)
Theorem SignWith_incomplete_parent (p : ptr) (lp : nat) (vp : Pair) (w : World) :
  w_pairs w !! lp = Some vp ->
  Cert vp = None \/ Key vp = None ->
  SignWith p (Some lp) w
  = Some (Some (ErrString "can't sign certificate with incomplete parent pair"), w).
Proof.
  intros Hvp Hinc. unfold SignWith.
  rewrite (bind_eq _ _ _ _ _ (load_Some lp vp w Hvp)).
  destruct Hinc as [H|H]; rewrite H; [reflexivity|].
  destruct (Cert vp); reflexivity.
Qed.

Section Samples_15.

#[local] Existing Instance sampleNet.
#[local] Existing Instance sampleStrings.
#[local] Existing Instance sampleNilKey.

Lemma SignWith_incomplete_parent_witness :
  exists w1,
    New twoPairsWorld = Some (Some 0, w1)
    /\ w_pairs w1 !! 2 = Some {| Cert := None; Key := None; KeyBits := 0 |}
    /\ SignWith None (Some 2) w1
       = Some (Some (ErrString "can't sign certificate with incomplete parent pair"), w1).
Proof.
  eexists. split; [reflexivity|]. split; [reflexivity|].
  apply (SignWith_incomplete_parent None 2 {| Cert := None; Key := None; KeyBits := 0 |}).
  - reflexivity.
  - left. reflexivity.
Defined.

End Samples_15.


Section Samples_16.

#[local] Existing Instance sampleNet.
#[local] Existing Instance sampleStrings.
#[local] Existing Instance sampleNilKey.


End Samples_16.

(** X10. No rollback in [SignWith]. When the parent is complete and
    [x509.CreateCertificate] fails (the descriptor has no serial number,
    the receiver has no key, or the entropy source fails under an ECDSA
    signature), [SignWith] returns that error under its prefix, and the
    receiver keeps the descriptor as the call has changed it: the issuer
    is the subject of the parent and, in self-signing, the CA flag and
    the CA key usages are set. *)
Theorem SignWith_failure_keeps_changes (l lp : nat) (v vp : Pair) (c pc : Certificate)
    (pk : PrivateKey) (w w' : World) (e : error_val) :
  w_pairs w !! l = Some v -> Cert v = Some c ->
  w_pairs w !! lp = Some vp -> Cert vp = Some pc -> Key vp = Some pk ->
  SignWith (Some l) (Some lp) w = Some (Some e, w') ->
  In e (signingErrors w)
  /\ exists c1,
       w_pairs w' = <[l := {| Cert := Some c1; Key := Key v; KeyBits := KeyBits v |}]> (w_pairs w)
       /\ Issuer c1 = Subject pc /\ Raw c1 = Raw c
       /\ (l = lp -> IsCA c1 = true /\ KeyUsage c1 = Z.lor (KeyUsage c) caKeyUsage)
       /\ (l <> lp -> IsCA c1 = IsCA c /\ KeyUsage c1 = KeyUsage c).
Proof.
  intros Hv Hc Hvp Hpc Hpk H.
  destruct (SignWith_inv l lp v vp c pc pk w w' (Some e) Hv Hc Hvp Hpc Hpk H)
    as (_ & Hin & Hp').
  split; [exact Hin|]. eexists. split; [exact Hp'|].
  destruct (decide (l = lp)) as [E|E].
  - rewrite bool_decide_eq_true_2 by exact E. cbn.
    repeat split; try reflexivity; contradiction.
  - rewrite bool_decide_eq_false_2 by exact E. cbn.
    repeat split; try reflexivity; contradiction.
Qed.

Section Samples_17.

#[local] Existing Instance sampleNet.
#[local] Existing Instance sampleStrings.
#[local] Existing Instance sampleNilKey.

Lemma SignWith_failure_keeps_changes_witness :
  exists w' e c1,
    SignWith (Some 0) (Some 0) (set_rand [] twoPairsWorld) = Some (Some e, w')
    /\ In e (signingErrors twoPairsWorld)
    /\ w_pairs w' !! 0 = Some {| Cert := Some c1; Key := Some (ECDSAPrivateKey P256 7);
                                 KeyBits := 256 |}
    /\ KeyUsage c1 = 97%Z.
Proof.
  destruct (SignWith (Some 0) (Some 0) (set_rand [] twoPairsWorld)) as [[[e|] w']|] eqn:HS;
    try (vm_compute in HS; discriminate HS).
  destruct (SignWith_failure_keeps_changes 0 0 _ _ sampleCACert sampleCACert
              (ECDSAPrivateKey P256 7) (set_rand [] twoPairsWorld) w' e
              eq_refl eq_refl eq_refl eq_refl eq_refl HS)
    as (Hin & c1 & Hp' & _ & _ & Hself & _).
  exists w', e, c1. split; [reflexivity|]. split; [exact Hin|].
  split; [rewrite Hp'; reflexivity|].
  destruct (Hself eq_refl) as (_ & Hku). rewrite Hku. reflexivity.
Defined.

End Samples_17.

(** X11. Whatever the parent, the certificate a successful [SignWith]
    leaves in the receiver is the decoding of its own encoding (so that
    what [WriteCert] writes decodes to the certificate the pair holds);
    it certifies the public key of the receiver's key, keeps the serial
    number of the descriptor, and its validity bounds are those of the
    descriptor cut to whole seconds. *)
Theorem SignWith_result_encoded `{str : StringsLib} (l lp : nat) (v vp : Pair) (c : Certificate)
    (w w' : World) :
  w_pairs w !! l = Some v -> Cert v = Some c ->
  w_pairs w !! lp = Some vp ->
  SignWith (Some l) (Some lp) w = Some (None, w') ->
  exists c' k,
    w_pairs w' !! l = Some {| Cert := Some c'; Key := Some k; KeyBits := KeyBits v |}
    /\ Key v = Some k
    /\ encoded c'
    /\ readPEMCert (readerOf [pemBlockForCert c']) = (Some c', None)
    /\ CertPublicKey c' = publicKey (Some k)
    /\ SerialNumber c' = SerialNumber c
    /\ NotBefore c' = sec (NotBefore c) /\ NotAfter c' = sec (NotAfter c)
    /\ (NotBefore c - 10 ^ 9 < NotBefore c' <= NotBefore c)%Z.
Proof.
  intros Hv Hc Hvp H.
  destruct (SignWith_complete _ _ _ _ _ Hvp H) as (pc & pk & Hpc & Hpk).
  destruct (SignWith_inv l lp v vp c pc pk w w' None Hv Hc Hvp Hpc Hpk H)
    as (_ & serial & pub & c' & Hser & Hpub & Hparse & Hp').
  destruct (parse_encoded _ _ Hparse) as (Henc & Hraw).
  destruct (Key v) as [k|] eqn:Hk; [|discriminate Hpub].
  exists c', k. split.
  { rewrite Hp'. apply list_lookup_insert_eq. now apply lookup_lt_Some in Hv. }
  split; [reflexivity|]. split; [exact Henc|].
  split. { unfold readPEMCert, readerOf, pemBlockForCert. cbn. ascii_strings. exact Henc. }
  cbn in Hparse. inversion Hparse as [Hc']. clear Hparse. cbn.
  assert (Hnb : forall b : bool,
             NotBefore (toSign b (Subject pc) c) = NotBefore c
             /\ NotAfter (toSign b (Subject pc) c) = NotAfter c)
    by (intros []; split; reflexivity).
  destruct (Hnb (bool_decide (l = lp))) as (-> & ->).
  split; [symmetry; exact Hpub|]. split; [symmetry; exact Hser|].
  split; [reflexivity|]. split; [reflexivity|].
  unfold sec.
  pose proof (Z.mod_pos_bound (NotBefore c) (10 ^ 9) ltac:(lia)) as Hm.
  pose proof (Z.div_mod (NotBefore c) (10 ^ 9) ltac:(lia)) as Hd.
  lia.
Qed.

Section Samples_18.

#[local] Existing Instance sampleNet.
#[local] Existing Instance sampleStrings.
#[local] Existing Instance sampleNilKey.

Lemma SignWith_result_encoded_witness :
  exists w' c',
    SignWith (Some 1) (Some 0) twoPairsWorld = Some (None, w')
    /\ w_pairs w' !! 1 = Some {| Cert := Some c'; Key := Some (RSAPrivateKey 2048 13);
                                 KeyBits := 2048 |}
    /\ encoded c' /\ NotBefore c' = 1540000000000000000%Z.
Proof.
  destruct (SignWith (Some 1) (Some 0) twoPairsWorld) as [[[e|] w']|] eqn:HS;
    try (vm_compute in HS; discriminate HS).
  destruct (SignWith_result_encoded 1 0 _ _ _ twoPairsWorld w' eq_refl eq_refl eq_refl HS)
    as (c' & k & Hl & Hk & Henc & _ & _ & _ & Hnb & _).
  exists w', c'. split; [reflexivity|].
  inversion Hk; subst k.
  split; [exact Hl|]. split; [exact Henc|]. rewrite Hnb. reflexivity.
Defined.

End Samples_18.

(** ** Creating files (crtauth/util.go) *)

#[local] Instance same_heap_preorder : PreOrder same_heap.
Proof.
  split.
  - intros w. repeat split.
  - intros w1 w2 w3 (A1 & A2 & A3 & A4 & A5 & A6 & A7) (B1 & B2 & B3 & B4 & B5 & B6 & B7).
    repeat split; congruence.
Qed.

Lemma alloc_frames (R : relation World) (v : Pair) :
  (forall h w, R w (set_pairs h w)) -> frames R (alloc v).
Proof. intros H w a w' E. inversion E; subst. apply H. Qed.

Ltac frames_step_with side :=
  lazymatch goal with
  | |- frames _ (bind _ _) => apply frames_bind; [typeclasses eauto | | intros ?]
  | |- frames _ (ret _) => apply frames_ret; typeclasses eauto
  | |- frames _ panic => apply frames_panic
  | |- frames _ (gets _) => apply frames_gets; typeclasses eauto
  | |- frames _ (modify _) => apply frames_modify; intros ?; side
  | |- frames _ (load _) => apply load_frames; typeclasses eauto
  | |- frames _ (loadCA _) => apply loadCA_frames; typeclasses eauto
  | |- frames _ (alloc _) => apply alloc_frames; intros ? ?; side
  | |- frames _ (match ?x with _ => _ end) => destruct x
  end.

Ltac frames_with side :=
  unfold_pair; unfold_util; unfold_crypto; unfold_env; unfold_heap; unfold store;
  repeat frames_step_with side.

Lemma WriteFiles_same_heap `{nk : NilKey} (p : ptr) (certPath keyPath : path) :
  frames same_heap (WriteFiles p certPath keyPath).
Proof. frames_with ltac:(repeat split). Qed.

Lemma prefixes_snoc (p : path) (x : string) : prefixes (p ++ [x]) = prefixes p ++ [p ++ [x]].
Proof.
  induction p as [|c p IH]; cbn; [reflexivity|].
  rewrite IH, map_app. reflexivity.
Qed.

Lemma prefixes_Dir (p : path) : p <> [] -> prefixes p = prefixes (filepath_Dir p) ++ [p].
Proof.
  intros Hne. destruct (exists_last Hne) as (q & x & ->).
  unfold filepath_Dir. rewrite removelast_last. apply prefixes_snoc.
Qed.

Lemma in_the_way_parent (fs : gmap path Node) (p : path) :
  isFile fs p = false ->
  existsb (isFile fs) (prefixes p) = existsb (isFile fs) (prefixes (filepath_Dir p)).
Proof.
  intros Hf. destruct p as [|c p]; [reflexivity|].
  rewrite (prefixes_Dir (c :: p)) by discriminate.
  rewrite existsb_app. cbn [existsb]. rewrite Hf. now rewrite !orb_false_r.
Qed.

Lemma self_in_prefixes (p : path) : p ∈ prefixes p.
Proof. apply prefixes_spec. reflexivity. Qed.

Lemma not_in_the_way (fs : gmap path Node) (p q : path) :
  existsb (isFile fs) (prefixes p) = false -> q `prefix_of` p -> isFile fs q = false.
Proof.
  intros Hex Hq. apply not_true_is_false. intros Hf.
  apply not_true_iff_false in Hex. apply Hex. apply existsb_exists.
  exists q. split; [|exact Hf]. apply list_elem_of_In, prefixes_spec. exact Hq.
Qed.

Lemma ensureDirExists_eq (dir : path) (perm : Z) (w : World) :
  ensureDirExists dir perm w = Some (None, ensured dir perm w).
Proof.
  unfold ensureDirExists, ensured. rewrite (bind_eq _ _ _ _ _ (os_Stat_eq dir w)).
  destruct (lookupNode (w_fs w) dir) as [n|] eqn:Hd; [reflexivity|].
  unfold missing.
  destruct (existsb (isFile (w_fs w)) (prefixes (filepath_Dir dir))) eqn:Hex; [reflexivity|].
  cbn [os_IsNotExist]. unfold bind at 1. rewrite os_MkdirAll_eq.
  cbn [w_fs log].
  rewrite in_the_way_parent, Hex; [reflexivity|].
  unfold isFile. now rewrite Hd.
Qed.

Lemma ensured_facts (dir : path) (perm : Z) (w : World) :
  same_heap w (ensured dir perm w)
  /\ (forall q,
        lookupNode (w_fs (ensured dir perm w)) q = lookupNode (w_fs w) q
        \/ (lookupNode (w_fs w) q = None /\ q `prefix_of` dir
            /\ lookupNode (w_fs (ensured dir perm w)) q = Some (DirNode perm)))
  /\ (existsb (isFile (w_fs w)) (prefixes dir) = false ->
      isDir (w_fs (ensured dir perm w)) dir = true).
Proof.
  unfold ensured.
  destruct (lookupNode (w_fs w) dir) as [n|] eqn:Hd.
  - split; [repeat split|]. split; [intros q; now left|].
    intros Hex. cbn. pose proof (not_in_the_way _ _ dir Hex (reflexivity dir)) as Hf.
    unfold isFile in Hf. unfold isDir. rewrite Hd in *. destruct n; [reflexivity | discriminate].
  - destruct (existsb (isFile (w_fs w)) (prefixes (filepath_Dir dir))) eqn:Hex.
    + split; [repeat split|]. split; [intros q; now left|].
      intros Hex'. rewrite in_the_way_parent in Hex' by (unfold isFile; now rewrite Hd).
      congruence.
    + split; [repeat split|]. cbn [w_fs set_fs log]. split.
      * intros q. rewrite mkdirs_lookup.
        destruct (lookupNode (w_fs w) q) as [n|] eqn:Hq; [now left|].
        destruct (decide (q ∈ prefixes dir)) as [Hin|Hin]; [|now left].
        right. split; [reflexivity|]. split; [now apply prefixes_spec | reflexivity].
      * intros _. unfold isDir. rewrite mkdirs_lookup, Hd.
        rewrite decide_True by apply self_in_prefixes. reflexivity.
Qed.

Lemma os_OpenFile_eq (p : path) (flag perm : Z) (w : World) :
  os_OpenFile p flag perm w
  = Some
      match lookupNode (w_fs w) p with
      | Some (DirNode _) =>
          ((None, Some (PathError "open" p EISDIR)), log (SysOpenFile p flag perm) w)
      | Some (FileNode m _) =>
          ((Some p, None),
           set_fs (<[p := FileNode m []]> (w_fs w)) (log (SysOpenFile p flag perm) w))
      | None =>
          match lookupNode (w_fs w) (filepath_Dir p) with
          | Some (DirNode _) =>
              ((Some p, None),
               set_fs (<[p := FileNode perm []]> (w_fs w)) (log (SysOpenFile p flag perm) w))
          | Some (FileNode _ _) =>
              ((None, Some (PathError "open" p ENOTDIR)), log (SysOpenFile p flag perm) w)
          | None =>
              ((None, Some (PathError "open" p (missing (w_fs w) p))),
               log (SysOpenFile p flag perm) w)
          end
      end.
Proof.
  unfold os_OpenFile, bind, modify, gets, ret. cbn [w_fs log].
  destruct (lookupNode (w_fs w) p) as [[m|m d]|]; try reflexivity.
  destruct (lookupNode (w_fs w) (filepath_Dir p)) as [[m|m d]|]; reflexivity.
Qed.

Lemma mkdirAndCreateFile_eq (name : path) (dirPerm filePerm : Z) (w : World) :
  mkdirAndCreateFile name dirPerm filePerm w
  = os_OpenFile name O_RDWR_CREATE_TRUNC filePerm (ensured (filepath_Dir name) dirPerm w).
Proof.
  unfold mkdirAndCreateFile.
  rewrite (bind_eq _ _ _ _ _ (ensureDirExists_eq (filepath_Dir name) dirPerm w)).
  reflexivity.
Qed.

(** What a successful [mkdirAndCreateFile] has done. *)
Lemma mkdirAndCreateFile_created (name : path) (dirPerm filePerm : Z) (w w' : World)
    (f : option File) :
  mkdirAndCreateFile name dirPerm filePerm w = Some ((f, None), w') ->
  f = Some name /\ same_heap w w' /\ created name dirPerm filePerm (w_fs w) (w_fs w').
Proof.
  rewrite mkdirAndCreateFile_eq, os_OpenFile_eq.
  destruct (ensured_facts (filepath_Dir name) dirPerm w) as (Hheap & Hlook & _).
  set (w1 := ensured (filepath_Dir name) dirPerm w) in *.
  assert (Hother : forall (n : Node) q, name <> [] -> q <> name ->
            lookupNode (<[name := n]> (w_fs w1)) q = lookupNode (w_fs w) q
            \/ (lookupNode (w_fs w) q = None /\ q `prefix_of` filepath_Dir name
                /\ lookupNode (<[name := n]> (w_fs w1)) q = Some (DirNode dirPerm))).
  { intros n q Hne Hq. rewrite (lookupNode_insert _ _ _ _ Hne), decide_False by exact Hq.
    apply Hlook. }
  assert (Hself : lookupNode (w_fs w1) name = lookupNode (w_fs w) name).
  { destruct (Hlook name) as [E|(Hnone & Hpre & _)]; [exact E|].
    exfalso. destruct name as [|c name]; [|].
    - discriminate Hnone.
    - apply prefix_length in Hpre. unfold filepath_Dir in Hpre.
      pose proof (removelast_prefix (c :: name)) as Hp.
      assert (Hl : length (removelast (c :: name)) < length (c :: name)).
      { destruct (exists_last (l := c :: name) ltac:(discriminate)) as (q & x & ->).
        rewrite removelast_last, length_app. cbn. lia. }
      lia. }
  destruct (lookupNode (w_fs w1) name) as [[m|m d]|] eqn:Hn; [intros H; discriminate H| |].
  - intros H. inversion H; subst. clear H.
    assert (Hne : name <> []) by (intros ->; discriminate Hn).
    split; [reflexivity|]. split.
    { destruct Hheap as (A1 & A2 & A3 & A4 & A5 & A6 & A7). repeat split; assumption. }
    split; [exact Hne|]. cbn [w_fs set_fs log]. split.
    + exists m. rewrite (lookupNode_insert _ _ _ _ Hne), decide_True by reflexivity.
      split; [reflexivity|]. rewrite <- Hself. split; [discriminate|].
      intros m0 d0 E. now inversion E.
    + intros q Hq. now apply Hother.
  - destruct (lookupNode (w_fs w1) (filepath_Dir name)) as [[m|m d]|] eqn:Hpar;
      intros H; try discriminate H. inversion H; subst. clear H.
    assert (Hne : name <> []) by (intros ->; discriminate Hn).
    split; [reflexivity|]. split.
    { destruct Hheap as (A1 & A2 & A3 & A4 & A5 & A6 & A7). repeat split; assumption. }
    split; [exact Hne|]. cbn [w_fs set_fs log]. split.
    + exists filePerm. rewrite (lookupNode_insert _ _ _ _ Hne), decide_True by reflexivity.
      split; [reflexivity|]. split; [reflexivity|]. rewrite <- Hself. discriminate.
    + intros q Hq. now apply Hother.
Qed.

(** When nothing is in the way, [mkdirAndCreateFile] succeeds. *)
Lemma mkdirAndCreateFile_ok (name : path) (dirPerm filePerm : Z) (w : World) :
  name <> [] -> isDir (w_fs w) name = false ->
  existsb (isFile (w_fs w)) (prefixes (filepath_Dir name)) = false ->
  exists w', mkdirAndCreateFile name dirPerm filePerm w = Some ((Some name, None), w').
Proof.
  intros Hne Hnd Hex. rewrite mkdirAndCreateFile_eq, os_OpenFile_eq.
  destruct (ensured_facts (filepath_Dir name) dirPerm w) as (_ & Hlook & Hdir).
  specialize (Hdir Hex).
  set (w1 := ensured (filepath_Dir name) dirPerm w) in *.
  assert (Hself : lookupNode (w_fs w1) name = lookupNode (w_fs w) name).
  { destruct (Hlook name) as [E|(_ & Hpre & _)]; [exact E|].
    exfalso. apply prefix_length in Hpre. unfold filepath_Dir in Hpre.
    destruct (exists_last Hne) as (q & x & ->).
    rewrite removelast_last, length_app in Hpre. cbn in Hpre. lia. }
  rewrite Hself. unfold isDir in Hnd, Hdir.
  destruct (lookupNode (w_fs w) name) as [[m|m d]|]; [discriminate Hnd | eauto |].
  destruct (lookupNode (w_fs w1) (filepath_Dir name)) as [[m|m d]|]; [eauto | discriminate..].
Qed.

Lemma pem_Encode_eq (f : File) (b : Block) (w : World) :
  pem_Encode f b w
  = Some match lookupNode (w_fs w) f with
         | Some (FileNode m data) =>
             (None, set_fs (<[f := FileNode m (data ++ [b])]> (w_fs w)) w)
         | _ => (Some (PathError "write" f EISDIR), w)
         end.
Proof.
  unfold pem_Encode, bind, gets, modify, ret.
  destruct (lookupNode (w_fs w) f) as [[m|m d]|]; reflexivity.
Qed.

Lemma ensured_blocked (dir : path) (perm : Z) (w : World) :
  existsb (isFile (w_fs w)) (prefixes dir) = true ->
  ensured dir perm w = log (SysStat dir) w.
Proof.
  intros Hex. unfold ensured.
  destruct (lookupNode (w_fs w) dir) as [n|] eqn:Hd; [reflexivity|].
  rewrite <- in_the_way_parent by (unfold isFile; now rewrite Hd).
  now rewrite Hex.
Qed.

(** X12. [ensureDirExists] takes the success of [os.Stat] for the
    existence of the directory, and asks [os.MkdirAll] only when the
    error of [os.Stat] is the one of a missing path. When the path, or a
    path above it, is a regular file, it makes no directory and still
    returns nil: the only system call is the [os.Stat], the file system
    is as it was, and (in a well-formed file system) the directory does
    not exist. *)
Theorem ensureDirExists_file_in_way (dir : path) (perm : Z) (w : World) :
  wf_fs (w_fs w) ->
  existsb (isFile (w_fs w)) (prefixes dir) = true ->
  ensureDirExists dir perm w = Some (None, log (SysStat dir) w)
  /\ isDir (w_fs (log (SysStat dir) w)) dir = false.
Proof.
  intros Hwf Hex. rewrite ensureDirExists_eq, (ensured_blocked _ _ _ Hex).
  split; [reflexivity|].
  cbn [w_fs log]. apply not_true_is_false. intros Hdir.
  rewrite (wf_fs_above_dir _ _ Hwf Hdir) in Hex. discriminate Hex.
Qed.

Section Samples_19.

#[local] Existing Instance sampleNet.
#[local] Existing Instance sampleStrings.
#[local] Existing Instance sampleNilKey.

Lemma ensureDirExists_file_in_way_witness :
  let w := set_fs (<[ ["srv"] := FileNode 420 [] ]> ∅) sampleWorld in
  ensureDirExists ["srv"; "certs"] 448 w = Some (None, log (SysStat ["srv"; "certs"]) w)
  /\ isDir (w_fs (log (SysStat ["srv"; "certs"]) w)) ["srv"; "certs"] = false.
Proof.
  apply (ensureDirExists_file_in_way ["srv"; "certs"] 448
           (set_fs (<[ ["srv"] := FileNode 420 [] ]> ∅) sampleWorld)).
  - cbn. apply insert_file_wf; [discriminate | apply wf_fs_empty | reflexivity | reflexivity].
  - reflexivity.
Defined.

End Samples_19.

(** ** Writing a pair, in detail (crtauth/pair.go) *)

Lemma WriteCert_eq (l : nat) (v : Pair) (c : Certificate) (f : File) (w : World) :
  w_pairs w !! l = Some v -> Cert v = Some c ->
  WriteCert (Some l) f w
  = Some match lookupNode (w_fs w) f with
         | Some (FileNode m data) =>
             (None, set_fs (<[f := FileNode m (data ++ [pemBlockForCert c])]> (w_fs w)) w)
         | _ => (Errorf "failed to write certificate as PEM: " (PathError "write" f EISDIR), w)
         end.
Proof.
  intros Hv Hc. unfold WriteCert.
  rewrite (bind_eq _ _ _ _ _ (load_Cert_Some l v c w Hv Hc)).
  unfold bind at 1. rewrite pem_Encode_eq.
  destruct (lookupNode (w_fs w) f) as [[m|m d]|]; reflexivity.
Qed.

Lemma pemBlockForKey_Some `{nk : NilKey} (k : PrivateKey) :
  pemBlockForKey (Some k) = ret (Some (keyBlock k), None).
Proof. destruct k; reflexivity. Qed.

Lemma WriteKey_eq `{nk : NilKey} (l : nat) (v : Pair) (k : PrivateKey) (f : File) (w : World) :
  w_pairs w !! l = Some v -> Key v = Some k ->
  WriteKey (Some l) f w
  = Some match lookupNode (w_fs w) f with
         | Some (FileNode m data) =>
             (None, set_fs (<[f := FileNode m (data ++ [keyBlock k])]> (w_fs w)) w)
         | _ => (Errorf "failed to write key: " (PathError "write" f EISDIR), w)
         end.
Proof.
  intros Hv Hk. unfold WriteKey.
  rewrite (bind_eq _ _ _ _ _ (load_Some l v w Hv)). rewrite Hk, pemBlockForKey_Some.
  unfold bind at 1, ret at 1. cbn beta iota.
  unfold bind at 1. rewrite pem_Encode_eq.
  destruct (lookupNode (w_fs w) f) as [[m|m d]|]; reflexivity.
Qed.

Lemma restrictKeyPermissions_eq (keyPath : path) (w : World) :
  restrictKeyPermissions keyPath w
  = Some (if String.eqb (w_goos w) "windows"
          then match w_exec w (icaclsReset keyPath) with
               | Some e => (Some e, log (SysExec (icaclsReset keyPath)) w)
               | None =>
                   (w_exec w (icaclsGrant keyPath),
                    log (SysExec (icaclsGrant keyPath)) (log (SysExec (icaclsReset keyPath)) w))
               end
          else (None, w)).
Proof.
  unfold restrictKeyPermissions, runtime_GOOS, exec_Run, bind, gets, modify, ret.
  destruct (String.eqb (w_goos w) "windows"); [|reflexivity].
  cbn [w_exec log]. fold (icaclsReset keyPath). fold (icaclsGrant keyPath).
  destruct (w_exec w (icaclsReset keyPath)); reflexivity.
Qed.

Lemma content_insert (fs : gmap path Node) (p q : path) (m : Z) (d : PEMStream) :
  p <> [] ->
  content (<[p := FileNode m d]> fs) q = if decide (q = p) then Some d else content fs q.
Proof.
  intros Hne. unfold content. rewrite (lookupNode_insert _ _ _ _ Hne).
  destruct (decide (q = p)); reflexivity.
Qed.

Lemma created_other_file (name : path) (dp fp : Z) (fs fs' : gmap path Node) (q : path) :
  created name dp fp fs fs' -> q <> name ->
  isFile fs q = true -> lookupNode fs' q = lookupNode fs q.
Proof.
  intros (_ & _ & Hoth) Hq Hf. destruct (Hoth q Hq) as [E|(Hn & _)]; [exact E|].
  unfold isFile in Hf. rewrite Hn in Hf. discriminate Hf.
Qed.

Lemma created_isFile (name : path) (dp fp : Z) (fs fs' : gmap path Node) (q : path) :
  created name dp fp fs fs' -> q <> name -> isFile fs' q = isFile fs q.
Proof.
  intros (_ & _ & Hoth) Hq. unfold isFile.
  destruct (Hoth q Hq) as [E|(Hn & _ & E)]; rewrite E; [reflexivity|]. now rewrite Hn.
Qed.

Lemma created_isDir (name : path) (dp fp : Z) (fs fs' : gmap path Node) (q : path) :
  created name dp fp fs fs' -> q <> name -> ~ q `prefix_of` filepath_Dir name ->
  isDir fs' q = isDir fs q.
Proof.
  intros (_ & _ & Hoth) Hq Hpre. unfold isDir.
  destruct (Hoth q Hq) as [E|(_ & Hp & _)]; [now rewrite E | contradiction].
Qed.

(** What a successful [WriteFiles] has written. *)
Lemma WriteFiles_inv `{nk : NilKey} (l : nat) (v : Pair) (certPath keyPath : path) (w w' : World) :
  w_pairs w !! l = Some v ->
  WriteFiles (Some l) certPath keyPath w = Some (None, w') ->
  exists c k,
    Cert v = Some c /\ Key v = Some k
    /\ same_heap w w'
    /\ content (w_fs w') keyPath = Some [keyBlock k]
    /\ (certPath <> keyPath -> content (w_fs w') certPath = Some [pemBlockForCert c])
    /\ (forall q, q <> certPath -> q <> keyPath -> isFile (w_fs w) q = true ->
          lookupNode (w_fs w') q = lookupNode (w_fs w) q).
Proof.
  intros Hv H. pose proof (WriteFiles_same_heap _ _ _ _ _ _ H) as Hheap.
  unfold WriteFiles in H.
  apply bind_inv in H as ([certFile e1] & w1 & H1 & H).
  destruct e1 as [e1|]; [destruct certFile; discriminate H|].
  apply mkdirAndCreateFile_created in H1 as (-> & Hh1 & Hc1).
  apply bind_inv in H as (e2 & w2 & H2 & H).
  destruct e2 as [e2|]; [discriminate H|].
  assert (Hv1 : w_pairs w1 !! l = Some v) by (destruct Hh1 as (-> & _); exact Hv).
  destruct (Cert v) as [c|] eqn:Hc.
  2:{ unfold WriteCert, load_Cert, bind in H2. rewrite (load_Some l v w1 Hv1) in H2.
      rewrite Hc in H2. discriminate H2. }
  rewrite (WriteCert_eq l v c _ w1 Hv1 Hc) in H2.
  destruct Hc1 as (Hne1 & (m1 & Hm1 & _) & Hoth1).
  rewrite Hm1 in H2. cbn [app] in H2. inversion H2; subst w2. clear H2.
  apply bind_inv in H as ([keyFile e3] & w3 & H3 & H).
  destruct e3 as [e3|]; [destruct keyFile; discriminate H|].
  apply mkdirAndCreateFile_created in H3 as (-> & Hh3 & Hc3).
  cbn [w_fs set_fs] in Hc3.
  apply bind_inv in H as (e4 & w4 & H4 & H).
  destruct e4 as [e4|]; [discriminate H|].
  assert (Hv3 : w_pairs w3 !! l = Some v) by (destruct Hh3 as (-> & _); exact Hv1).
  destruct (Key v) as [k|] eqn:Hk.
  2:{ unfold WriteKey in H4. rewrite (bind_eq _ _ _ _ _ (load_Some l v w3 Hv3)) in H4.
      rewrite Hk in H4. apply bind_inv in H4 as ([b e0] & w0 & Hb & H4).
      apply pemBlockForKey_inv in Hb as [-> ->]. destruct e0; discriminate H4. }
  rewrite (WriteKey_eq l v k _ w3 Hv3 Hk) in H4.
  pose proof Hc3 as (Hne3 & (m3 & Hm3 & _) & Hoth3).
  rewrite Hm3 in H4. cbn [app] in H4. inversion H4; subst w4. clear H4.
  apply bind_inv in H as (e5 & w5 & H5 & H).
  destruct e5 as [e5|]; [discriminate H|]. inversion H; subst w5. clear H.
  apply restrictKeyPermissions_step in H5 as (Hfs & _).
  exists c, k. split; [reflexivity|]. split; [reflexivity|]. split; [exact Hheap|].
  rewrite Hfs. cbn [w_fs set_fs]. split; [|split].
  - rewrite (content_insert _ _ _ _ _ Hne3), decide_True by reflexivity. reflexivity.
  - intros Hd. rewrite (content_insert _ _ _ _ _ Hne3), decide_False by exact Hd.
    unfold content. destruct (Hoth3 certPath Hd) as [E|(Hn & _)].
    + rewrite E, (lookupNode_insert _ _ _ _ Hne1), decide_True by reflexivity. reflexivity.
    + rewrite (lookupNode_insert _ _ _ _ Hne1), decide_True in Hn by reflexivity.
      discriminate Hn.
  - intros q Hq1 Hq3 Hf.
    rewrite (lookupNode_insert _ _ _ _ Hne3), decide_False by exact Hq3.
    assert (Hf1 : isFile (w_fs w1) q = true).
    { unfold isFile in *. destruct (Hoth1 q Hq1) as [E|(Hn & _)];
        [now rewrite E | now rewrite Hn in Hf]. }
    destruct (Hoth3 q Hq3) as [E|(Hn & _)].
    + rewrite E, (lookupNode_insert _ _ _ _ Hne1), decide_False by exact Hq1.
      destruct (Hoth1 q Hq1) as [E1|(Hn1 & _)]; [exact E1|].
      unfold isFile in Hf. now rewrite Hn1 in Hf.
    + rewrite (lookupNode_insert _ _ _ _ Hne1), decide_False in Hn by exact Hq1.
      unfold isFile in Hf1. now rewrite Hn in Hf1.
Qed.

Lemma existsb_eq_on {A : Type} (f g : A -> bool) (l : list A) :
  (forall x, In x l -> f x = g x) -> existsb f l = existsb g l.
Proof.
  induction l as [|x l IH]; intros H; cbn; [reflexivity|].
  rewrite (H x) by now left. rewrite IH; [reflexivity|]. intros y Hy. apply H. now right.
Qed.

Lemma snoc_not_prefix (dir : path) (a : string) : ~ (dir ++ [a]) `prefix_of` dir.
Proof.
  intros H. apply prefix_length in H. rewrite length_app in H. cbn in H. lia.
Qed.

Lemma prefix_ne_snoc (dir q : path) (a : string) : q `prefix_of` dir -> q <> dir ++ [a].
Proof. intros H ->. now apply snoc_not_prefix in H. Qed.

Lemma Dir_snoc (dir : path) (a : string) : filepath_Dir (dir ++ [a]) = dir.
Proof. apply removelast_last. Qed.

Lemma snoc_ne (dir : path) (a b : string) : a <> b -> dir ++ [a] <> dir ++ [b].
Proof. intros Hab E. apply app_inv_head in E. congruence. Qed.

Lemma mkdirAndCreateFile_dir (name : path) (dirPerm filePerm : Z) (w w' : World)
    (f : option File) :
  mkdirAndCreateFile name dirPerm filePerm w = Some ((f, None), w') ->
  existsb (isFile (w_fs w)) (prefixes (filepath_Dir name)) = false ->
  isDir (w_fs w') (filepath_Dir name) = true.
Proof.
  intros H Hex. pose proof (mkdirAndCreateFile_created _ _ _ _ _ _ H) as (_ & _ & Hne & _).
  rewrite mkdirAndCreateFile_eq, os_OpenFile_eq in H.
  destruct (ensured_facts (filepath_Dir name) dirPerm w) as (_ & _ & Hdir).
  specialize (Hdir Hex).
  assert (Hd : filepath_Dir name <> name).
  { destruct (exists_last Hne) as (q & x & ->). rewrite Dir_snoc.
    intros E. apply (snoc_not_prefix q x). rewrite <- E. reflexivity. }
  set (w1 := ensured (filepath_Dir name) dirPerm w) in *.
  assert (Hins : forall n, isDir (<[name := n]> (w_fs w1)) (filepath_Dir name) = true).
  { intros n. unfold isDir. rewrite (lookupNode_insert _ _ _ _ Hne).
    rewrite decide_False by exact Hd. exact Hdir. }
  destruct (lookupNode (w_fs w1) name) as [[m|m d]|]; [discriminate H| |].
  - inversion H; subst. apply Hins.
  - destruct (lookupNode (w_fs w1) (filepath_Dir name)) as [[m|m d]|];
      try discriminate H. inversion H; subst. apply Hins.
Qed.

Lemma created_isDir_mono (name : path) (dp fp : Z) (fs fs' : gmap path Node) (q : path) :
  created name dp fp fs fs' -> q <> name -> isDir fs q = true -> isDir fs' q = true.
Proof.
  intros (_ & _ & Hoth) Hq Hd. unfold isDir in *.
  destruct (Hoth q Hq) as [E|(_ & _ & E)]; rewrite E; [exact Hd | reflexivity].
Qed.

(** [WriteFiles] up to its call of [WriteKey], for two files of one
    directory with nothing in their way. *)
Lemma WriteFiles_stages `{nk : NilKey} (l : nat) (v : Pair) (c : Certificate) (dir : path)
    (a b : string) (w : World) :
  w_pairs w !! l = Some v -> Cert v = Some c -> a <> b ->
  writable (w_fs w) dir a b ->
  exists w3 mc mk tr,
    same_heap w w3
    /\ w_trace w3 = w_trace w ++ tr /\ execCalls tr = []
    /\ lookupNode (w_fs w3) (dir ++ [a]) = Some (FileNode mc [pemBlockForCert c])
    /\ (lookupNode (w_fs w) (dir ++ [a]) = None -> mc = 420%Z)
    /\ lookupNode (w_fs w3) (dir ++ [b]) = Some (FileNode mk [])
    /\ (lookupNode (w_fs w) (dir ++ [b]) = None -> mk = 384%Z)
    /\ isDir (w_fs w3) dir = true
    /\ WriteFiles (Some l) (dir ++ [a]) (dir ++ [b]) w
       = bind (WriteKey (Some l) (dir ++ [b]))
           (fun err =>
              match err with
              | Some e =>
                  ret (Errorf ("failed to write to key file "
                               +:+ path_text (dir ++ [b]) +:+ ": ") e)
              | None =>
                  err <- restrictKeyPermissions (dir ++ [b]) ;;
                  match err with
                  | Some e =>
                      ret (Errorf ("failed to restrict permissions to "
                                   +:+ path_text (dir ++ [b]) +:+ " file: ") e)
                  | None => ret None
                  end
              end) w3.
Proof.
  intros Hv Hc Hab (Hway & Hda & Hdb).
  set (cp := dir ++ [a]). set (kp := dir ++ [b]).
  assert (Hcp : cp <> []) by (subst cp; now destruct dir).
  assert (Hkp : kp <> []) by (subst kp; now destruct dir).
  assert (Hck : kp <> cp) by (subst cp kp; apply snoc_ne; congruence).
  destruct (mkdirAndCreateFile_ok cp 448 420 w Hcp Hda) as (w1 & H1).
  { subst cp. now rewrite Dir_snoc. }
  pose proof (mkdirAndCreateFile_step _ _ _ _ _ _ H1)
    as (_ & _ & _ & _ & _ & tr1 & (Htr1 & _) & _ & Hex1 & _).
  pose proof (mkdirAndCreateFile_created _ _ _ _ _ _ H1) as (_ & Hh1 & Hc1).
  pose proof Hc1 as (_ & (m1 & Hm1 & Hnew1 & _) & Hoth1).
  assert (Hv1 : w_pairs w1 !! l = Some v) by (destruct Hh1 as (-> & _); exact Hv).
  pose proof (WriteCert_eq l v c cp w1 Hv1 Hc) as H2. rewrite Hm1 in H2. cbn [app] in H2.
  set (w2 := set_fs _ w1) in H2.
  assert (Hl2 : forall q, q <> cp -> lookupNode (w_fs w2) q = lookupNode (w_fs w1) q).
  { intros q Hq. subst w2. cbn [w_fs set_fs].
    now rewrite (lookupNode_insert _ _ _ _ Hcp), decide_False. }
  assert (Hl2c : lookupNode (w_fs w2) cp = Some (FileNode m1 [pemBlockForCert c])).
  { subst w2. cbn [w_fs set_fs].
    now rewrite (lookupNode_insert _ _ _ _ Hcp), decide_True. }
  destruct (mkdirAndCreateFile_ok kp 448 384 w2 Hkp) as (w3 & H3).
  { unfold isDir. rewrite (Hl2 kp Hck). fold (isDir (w_fs w1) kp).
    rewrite (created_isDir _ _ _ _ _ kp Hc1 Hck); [exact Hdb|].
    subst cp kp. rewrite Dir_snoc. apply snoc_not_prefix. }
  { subst kp. rewrite Dir_snoc. rewrite <- Hway. apply existsb_eq_on.
    intros q Hq. apply list_elem_of_In, prefixes_spec in Hq.
    assert (Hqc : q <> cp) by (subst cp; now apply prefix_ne_snoc).
    unfold isFile at 1. rewrite (Hl2 q Hqc). fold (isFile (w_fs w1) q).
    apply (created_isFile _ _ _ _ _ q Hc1 Hqc). }
  pose proof (mkdirAndCreateFile_step _ _ _ _ _ _ H3)
    as (_ & _ & _ & _ & _ & tr3 & (Htr3 & _) & _ & Hex3 & _).
  pose proof (mkdirAndCreateFile_created _ _ _ _ _ _ H3) as (_ & Hh3 & Hc3).
  pose proof Hc3 as (_ & (m3 & Hm3 & Hnew3 & _) & Hoth3).
  exists w3, m1, m3, (tr1 ++ tr3).
  split. { transitivity w1; [exact Hh1|]. transitivity w2; [repeat split | exact Hh3]. }
  split. { rewrite Htr3. subst w2. cbn [w_trace set_fs]. rewrite Htr1. now rewrite app_assoc. }
  split. { unfold execCalls in *. rewrite omap_app, Hex1, Hex3. reflexivity. }
  split.
  { destruct (Hoth3 cp (not_eq_sym Hck)) as [E|(Hn & _)]; [now rewrite E|].
    rewrite Hl2c in Hn. discriminate Hn. }
  split; [exact Hnew1|]. split; [exact Hm3|]. split.
  { intros Hn. apply Hnew3. rewrite (Hl2 kp Hck).
    destruct (Hoth1 kp Hck) as [E|(_ & Hp & _)]; [now rewrite E|].
    exfalso. subst cp kp. rewrite Dir_snoc in Hp. now apply snoc_not_prefix in Hp. }
  split.
  { assert (Hd1 : isDir (w_fs w1) dir = true).
    { pose proof (mkdirAndCreateFile_dir _ _ _ _ _ _ H1) as Hd. subst cp.
      rewrite Dir_snoc in Hd. now apply Hd. }
    apply (created_isDir_mono _ _ _ _ _ dir Hc3).
    - subst kp. apply prefix_ne_snoc. reflexivity.
    - unfold isDir. rewrite Hl2; [exact Hd1|].
      subst cp. apply prefix_ne_snoc. reflexivity. }
  unfold WriteFiles. fold cp kp.
  rewrite (bind_eq _ _ _ _ _ H1). cbn beta iota.
  rewrite (bind_eq _ _ _ _ _ H2). cbn beta iota.
  rewrite (bind_eq _ _ _ _ _ H3). cbn beta iota. reflexivity.
Qed.

(** X13. A regular file on the way to the certificate file stops
    [WriteFiles] at its first step, in a well-formed file system:
    [ensureDirExists] returns nil without making a directory, and the
    error is the one of [os.OpenFile] (not a directory), under the prefix
    of the certificate file. Nothing is written or created, no directory
    is asked for, and the pair is not looked at: the call returns this
    error for every receiver. *)
Theorem WriteFiles_blocked_by_file `{nk : NilKey} (p : ptr) (certPath keyPath : path) (w : World) :
  wf_fs (w_fs w) ->
  existsb (isFile (w_fs w)) (prefixes (filepath_Dir certPath)) = true ->
  exists w',
    WriteFiles p certPath keyPath w
    = Some (Errorf ("failed to create cert file " +:+ path_text certPath +:+ ": ")
              (PathError "open" certPath ENOTDIR), w')
    /\ w_fs w' = w_fs w /\ w_pairs w' = w_pairs w
    /\ w_trace w' = w_trace w ++ [SysStat (filepath_Dir certPath);
                                  SysOpenFile certPath O_RDWR_CREATE_TRUNC 420].
Proof.
  intros Hwf Hex. unfold WriteFiles.
  assert (Hno : lookupNode (w_fs w) certPath = None).
  { destruct (lookupNode (w_fs w) certPath) as [n|] eqn:Hn; [|reflexivity].
    apply Hwf in Hn. rewrite (wf_fs_above_dir _ _ Hwf Hn) in Hex. discriminate Hex. }
  assert (H1 : mkdirAndCreateFile certPath 448 420 w
               = Some ((None, Some (PathError "open" certPath ENOTDIR)),
                       log (SysOpenFile certPath O_RDWR_CREATE_TRUNC 420)
                         (log (SysStat (filepath_Dir certPath)) w))).
  { rewrite mkdirAndCreateFile_eq, (ensured_blocked _ _ _ Hex), os_OpenFile_eq.
    cbn [w_fs log]. rewrite Hno.
    destruct (lookupNode (w_fs w) (filepath_Dir certPath)) as [[m|m d]|] eqn:Hd.
    - assert (Hdir : isDir (w_fs w) (filepath_Dir certPath) = true)
        by (unfold isDir; now rewrite Hd).
      rewrite (wf_fs_above_dir _ _ Hwf Hdir) in Hex. discriminate Hex.
    - reflexivity.
    - unfold missing. rewrite Hex. reflexivity. }
  eexists. rewrite (bind_eq _ _ _ _ _ H1). cbn beta iota.
  split; [reflexivity|]. split; [reflexivity|]. split; [reflexivity|].
  cbn. now rewrite <- app_assoc.
Qed.

Section Samples_20.

#[local] Existing Instance sampleNet.
#[local] Existing Instance sampleStrings.
#[local] Existing Instance sampleNilKey.

Lemma WriteFiles_blocked_by_file_witness :
  exists w',
    WriteFiles (Some 0) ["ca"; "notes.txt"; "root.crt"] ["ca"; "root.key"] signedWorld
    = Some (Some (ErrString ("failed to create cert file ca/notes.txt/root.crt: "
                             +:+ "open ca/notes.txt/root.crt: not a directory")), w')
    /\ w_fs w' = w_fs signedWorld.
Proof.
  destruct (WriteFiles_blocked_by_file (Some 0) ["ca"; "notes.txt"; "root.crt"]
              ["ca"; "root.key"] signedWorld) as (w' & H & Hfs & _).
  - cbn. apply insert_file_wf; [discriminate | | reflexivity | reflexivity].
    apply insert_dir_wf; [discriminate | apply wf_fs_empty | reflexivity].
  - reflexivity.
  - exists w'. split; [exact H | exact Hfs].
Defined.

End Samples_20.

(** C5. [WriteFiles] gives the key file the mode 0600 only when it
    creates it. On a platform other than Windows a key file that is there
    already keeps the permission bits it has, whatever they are:
    [os.OpenFile] applies its mode to the files it creates, and the
    tightening pass does nothing there. The call succeeds, runs no
    command, and leaves the private key of the pair in a file with the
    old mode. *)
Theorem WriteFiles_keeps_key_file_mode `{nk : NilKey} (l : nat) (v : Pair)
    (certPath keyPath : path) (w w' : World) (m : Z) (d : PEMStream) :
  w_pairs w !! l = Some v ->
  String.eqb (w_goos w) "windows" = false ->
  lookupNode (w_fs w) keyPath = Some (FileNode m d) ->
  WriteFiles (Some l) certPath keyPath w = Some (None, w') ->
  exists k,
    Key v = Some k
    /\ lookupNode (w_fs w') keyPath = Some (FileNode m [keyBlock k])
    /\ execCalls (w_trace w') = execCalls (w_trace w).
Proof.
  intros Hv Hg Hm H.
  destruct (WriteFiles_inv l v certPath keyPath w w' Hv H)
    as (c & k & _ & Hk & _ & Hcont & _).
  destruct (WriteFiles_effects _ _ _ _ _ H)
    as (_ & _ & _ & _ & _ & Hle & _ & tr & Htr & _ & _ & Hex).
  specialize (Hle keyPath). rewrite Hm in Hle. destruct Hle as [d' Hd'].
  exists k. split; [exact Hk|]. split.
  - unfold content in Hcont. rewrite Hd' in Hcont. rewrite Hd'. congruence.
  - rewrite Hg in Hex. rewrite Htr. unfold execCalls in *.
    rewrite omap_app, Hex. apply app_nil_r.
Qed.

Section Samples_modes.

#[local] Existing Instance sampleNet.
#[local] Existing Instance sampleStrings.
#[local] Existing Instance sampleNilKey.

Lemma WriteFiles_keeps_key_file_mode_witness :
  exists w',
    WriteFiles (Some 0) ["srv"; "server.crt"] ["srv"; "server.key"] looseKeyWorld
    = Some (None, w')
    /\ lookupNode (w_fs w') ["srv"; "server.key"]
       = Some (FileNode 511 [keyBlock (ECDSAPrivateKey P256 7)])
    /\ execCalls (w_trace w') = [].
Proof.
  destruct (WriteFiles (Some 0) ["srv"; "server.crt"] ["srv"; "server.key"] looseKeyWorld)
    as [[[e|] w']|] eqn:HW; try (vm_compute in HW; discriminate HW).
  destruct (WriteFiles_keeps_key_file_mode 0 _ ["srv"; "server.crt"] ["srv"; "server.key"]
              looseKeyWorld w' 511 [] eq_refl eq_refl eq_refl HW)
    as (k & Hk & Hl & Hex).
  inversion Hk; subst k.
  exists w'. split; [reflexivity|]. split; [exact Hl | exact Hex].
Defined.

End Samples_modes.

(** X14. What a successful [WriteFiles] leaves in the files. The key file
    holds one block, the key of the pair, and nothing of what it held
    before; when the two paths differ the certificate file holds one
    block, the encoding [Raw] of the certificate (when they are the same
    path, the second [os.OpenFile] has emptied the file and the
    certificate is lost). The pair has a certificate and a key, no pair
    is changed, and every other regular file is as it was. *)
Theorem WriteFiles_contents `{nk : NilKey} (l : nat) (v : Pair) (certPath keyPath : path)
    (w w' : World) :
  w_pairs w !! l = Some v ->
  WriteFiles (Some l) certPath keyPath w = Some (None, w') ->
  exists c k,
    Cert v = Some c /\ Key v = Some k
    /\ w_pairs w' = w_pairs w
    /\ content (w_fs w') keyPath = Some [keyBlock k]
    /\ (certPath <> keyPath ->
        content (w_fs w') certPath = Some [{| Type_ := "CERTIFICATE"; Bytes := Raw c |}])
    /\ (forall q, q <> certPath -> q <> keyPath -> isFile (w_fs w) q = true ->
          lookupNode (w_fs w') q = lookupNode (w_fs w) q).
Proof.
  intros Hv H.
  destruct (WriteFiles_inv l v certPath keyPath w w' Hv H)
    as (c & k & Hc & Hk & (Hp & _) & Hkey & Hcert & Hoth).
  exists c, k. repeat split; assumption.
Qed.

Section Samples_21.

#[local] Existing Instance sampleNet.
#[local] Existing Instance sampleStrings.
#[local] Existing Instance sampleNilKey.

Lemma WriteFiles_contents_witness :
  exists w',
    WriteFiles (Some 0) ["ca"; "root.crt"] ["ca"; "root.key"] signedWorld = Some (None, w')
    /\ content (w_fs w') ["ca"; "root.key"]
       = Some [{| Type_ := "EC PRIVATE KEY"; Bytes := DERSEC1 P256 7 |}]
    /\ content (w_fs w') ["ca"; "root.crt"]
       = Some [{| Type_ := "CERTIFICATE"; Bytes := sampleCertDER |}]
    /\ content (w_fs w') ["ca"; "notes.txt"] = Some [].
Proof.
  destruct (WriteFiles (Some 0) ["ca"; "root.crt"] ["ca"; "root.key"] signedWorld)
    as [[[e|] w']|] eqn:HW; try (vm_compute in HW; discriminate HW).
  destruct (WriteFiles_contents 0 _ _ _ signedWorld w' eq_refl HW)
    as (c & k & Hc & Hk & _ & Hkey & Hcert & Hoth).
  inversion Hc; subst c. inversion Hk; subst k.
  exists w'. split; [reflexivity|]. split; [exact Hkey|].
  split; [apply Hcert; discriminate|].
  unfold content. rewrite (Hoth ["ca"; "notes.txt"]); [reflexivity | discriminate.. | reflexivity].
Defined.

End Samples_21.

(** X15. [WriteFiles] succeeds whenever nothing is in its way. For a pair
    with a certificate and a key, and two distinct file names in one
    directory such that no path down to the directory is a regular file
    and neither name is the name of a directory, with a tightening of the
    permissions that goes through, [WriteFiles] returns nil; the files
    then hold the certificate and the key, and a file that did not exist
    has the mode 0644 (certificate) or 0600 (key). *)
Theorem WriteFiles_succeeds `{nk : NilKey} (l : nat) (v : Pair) (c : Certificate) (k : PrivateKey)
    (dir : path) (a b : string) (w : World) :
  w_pairs w !! l = Some v -> Cert v = Some c -> Key v = Some k ->
  a <> b -> writable (w_fs w) dir a b -> tightens w (dir ++ [b]) ->
  exists w' mc mk,
    WriteFiles (Some l) (dir ++ [a]) (dir ++ [b]) w = Some (None, w')
    /\ lookupNode (w_fs w') (dir ++ [a]) = Some (FileNode mc [pemBlockForCert c])
    /\ lookupNode (w_fs w') (dir ++ [b]) = Some (FileNode mk [keyBlock k])
    /\ (lookupNode (w_fs w) (dir ++ [a]) = None -> mc = 420%Z)
    /\ (lookupNode (w_fs w) (dir ++ [b]) = None -> mk = 384%Z)
    /\ isDir (w_fs w') dir = true.
Proof.
  intros Hv Hc Hk Hab Hwr Htight.
  destruct (WriteFiles_stages l v c dir a b w Hv Hc Hab Hwr)
    as (w3 & mc & mk & tr & Hh3 & _ & _ & Hlc & Hmc & Hlk & Hmk & Hdir & ->).
  assert (Hv3 : w_pairs w3 !! l = Some v) by (destruct Hh3 as (-> & _); exact Hv).
  assert (Hkp : dir ++ [b] <> []) by now destruct dir.
  assert (Hck : dir ++ [a] <> dir ++ [b]) by now apply snoc_ne.
  pose proof (WriteKey_eq l v k (dir ++ [b]) w3 Hv3 Hk) as H4.
  rewrite Hlk in H4. cbn [app] in H4.
  rewrite (bind_eq _ _ _ _ _ H4). cbn beta iota.
  set (w4 := set_fs _ w3).
  assert (H5 : restrictKeyPermissions (dir ++ [b]) w4
               = Some (None, if String.eqb (w_goos w) "windows"
                             then log (SysExec (icaclsGrant (dir ++ [b])))
                                    (log (SysExec (icaclsReset (dir ++ [b]))) w4)
                             else w4)).
  { rewrite restrictKeyPermissions_eq.
    destruct Hh3 as (_ & _ & _ & _ & Hg & He & _).
    subst w4. cbn [w_goos w_exec set_fs]. rewrite Hg, He.
    destruct (String.eqb (w_goos w) "windows") eqn:Hw; [|reflexivity].
    destruct (Htight Hw) as (-> & ->). reflexivity. }
  rewrite (bind_eq _ _ _ _ _ H5). cbn beta iota.
  eexists _, mc, mk. split; [reflexivity|].
  assert (Hfs : w_fs (if String.eqb (w_goos w) "windows"
                      then log (SysExec (icaclsGrant (dir ++ [b])))
                             (log (SysExec (icaclsReset (dir ++ [b]))) w4)
                      else w4) = <[dir ++ [b] := FileNode mk [keyBlock k]]> (w_fs w3)).
  { destruct (String.eqb (w_goos w) "windows"); reflexivity. }
  rewrite Hfs. split; [|split; [|split; [exact Hmc|split; [exact Hmk|]]]].
  - rewrite (lookupNode_insert _ _ _ _ Hkp), decide_False by exact Hck. exact Hlc.
  - rewrite (lookupNode_insert _ _ _ _ Hkp), decide_True by reflexivity. reflexivity.
  - unfold isDir. rewrite (lookupNode_insert _ _ _ _ Hkp).
    rewrite decide_False by (apply prefix_ne_snoc; reflexivity).
    exact Hdir.
Qed.

Section Samples_22.

#[local] Existing Instance sampleNet.
#[local] Existing Instance sampleStrings.
#[local] Existing Instance sampleNilKey.

Lemma WriteFiles_succeeds_witness :
  exists w' mc mk,
    WriteFiles (Some 0) (["ca"] ++ ["root.crt"]) (["ca"] ++ ["root.key"]) signedWorld
    = Some (None, w')
    /\ lookupNode (w_fs w') ["ca"; "root.crt"]
       = Some (FileNode mc [pemBlockForCert sampleCACert])
    /\ lookupNode (w_fs w') ["ca"; "root.key"]
       = Some (FileNode mk [keyBlock (ECDSAPrivateKey P256 7)])
    /\ mc = 420%Z /\ mk = 384%Z.
Proof.
  destruct (WriteFiles_succeeds 0 _ sampleCACert (ECDSAPrivateKey P256 7) ["ca"]
              "root.crt" "root.key" signedWorld eq_refl eq_refl eq_refl)
    as (w' & mc & mk & H & Hc & Hk & Hmc & Hmk & _).
  - discriminate.
  - repeat split.
  - intros Hw. discriminate Hw.
  - exists w', mc, mk. split; [exact H|]. split; [exact Hc|]. split; [exact Hk|].
    split; [apply Hmc | apply Hmk]; reflexivity.
Defined.

End Samples_22.

(** X16. No cleanup in [WriteFiles]. On Windows, when the first [icacls]
    command fails, [WriteFiles] returns its error under the prefix of the
    permissions, the second command is not run, and both files stay as
    they have been written: the key file holds the key, with the
    permissions it was created with. *)
Theorem WriteFiles_permission_failure `{nk : NilKey} (l : nat) (v : Pair) (c : Certificate)
    (k : PrivateKey) (dir : path) (a b : string) (w : World) (e : error_val) :
  w_pairs w !! l = Some v -> Cert v = Some c -> Key v = Some k ->
  a <> b -> writable (w_fs w) dir a b ->
  String.eqb (w_goos w) "windows" = true ->
  w_exec w (icaclsReset (dir ++ [b])) = Some e ->
  exists w',
    WriteFiles (Some l) (dir ++ [a]) (dir ++ [b]) w
    = Some (Errorf ("failed to restrict permissions to " +:+ path_text (dir ++ [b])
                    +:+ " file: ") e, w')
    /\ content (w_fs w') (dir ++ [a]) = Some [pemBlockForCert c]
    /\ content (w_fs w') (dir ++ [b]) = Some [keyBlock k]
    /\ execCalls (w_trace w') = execCalls (w_trace w) ++ [icaclsReset (dir ++ [b])].
Proof.
  intros Hv Hc Hk Hab Hwr Hwin Hexec.
  destruct (WriteFiles_stages l v c dir a b w Hv Hc Hab Hwr)
    as (w3 & mc & mk & tr & Hh3 & Htr & Hex & Hlc & _ & Hlk & _ & _ & ->).
  assert (Hv3 : w_pairs w3 !! l = Some v) by (destruct Hh3 as (-> & _); exact Hv).
  assert (Hkp : dir ++ [b] <> []) by now destruct dir.
  assert (Hck : dir ++ [a] <> dir ++ [b]) by now apply snoc_ne.
  pose proof (WriteKey_eq l v k (dir ++ [b]) w3 Hv3 Hk) as H4.
  rewrite Hlk in H4. cbn [app] in H4.
  rewrite (bind_eq _ _ _ _ _ H4). cbn beta iota.
  set (w4 := set_fs _ w3).
  assert (H5 : restrictKeyPermissions (dir ++ [b]) w4
               = Some (Some e, log (SysExec (icaclsReset (dir ++ [b]))) w4)).
  { rewrite restrictKeyPermissions_eq.
    destruct Hh3 as (_ & _ & _ & _ & Hg & He & _).
    subst w4. cbn [w_goos w_exec set_fs]. rewrite Hg, He, Hwin, Hexec. reflexivity. }
  rewrite (bind_eq _ _ _ _ _ H5). cbn beta iota.
  eexists. split; [reflexivity|]. subst w4. cbn [w_fs w_trace log set_fs].
  split; [|split].
  - rewrite (content_insert _ _ _ _ _ Hkp), decide_False by exact Hck.
    unfold content. now rewrite Hlc.
  - rewrite (content_insert _ _ _ _ _ Hkp), decide_True by reflexivity. reflexivity.
  - rewrite Htr. unfold execCalls in *.
    rewrite !omap_app, Hex. cbn. now rewrite app_nil_r.
Qed.

Section Samples_23.

#[local] Existing Instance sampleNet.
#[local] Existing Instance sampleStrings.
#[local] Existing Instance sampleNilKey.

Lemma WriteFiles_permission_failure_witness :
  exists w',
    WriteFiles (Some 0) (["ca"] ++ ["root.crt"]) (["ca"] ++ ["root.key"]) deniedWorld
    = Some (Some (ErrString ("failed to restrict permissions to ca/root.key file: "
                             +:+ "exit status 5")), w')
    /\ content (w_fs w') ["ca"; "root.key"] = Some [keyBlock (ECDSAPrivateKey P256 7)]
    /\ execCalls (w_trace w') = [icaclsReset ["ca"; "root.key"]].
Proof.
  destruct (WriteFiles_permission_failure 0 _ sampleCACert (ECDSAPrivateKey P256 7) ["ca"]
              "root.crt" "root.key" deniedWorld (ErrString "exit status 5")
              eq_refl eq_refl eq_refl)
    as (w' & H & _ & Hk & Hex).
  - discriminate.
  - repeat split.
  - reflexivity.
  - reflexivity.
  - exists w'. split; [exact H|]. split; [exact Hk | exact Hex].
Defined.

End Samples_23.

(** X17. A pair without a key, as a [LoadFiles] that failed at the key
    file leaves it, cannot be written, and the attempt leaves files
    behind. Whatever [pemBlockForKey] does with a nil key (short of making
    a block of it), [WriteFiles] does not return nil: it writes the
    certificate file, creates the key file, and only then panics or fails
    at [WriteKey]. When it returns, its error has the prefix of the key
    file, the certificate file holds the certificate, and the key file is
    there and empty. *)
Theorem WriteFiles_without_key `{nk : NilKey} (l : nat) (v : Pair) (c : Certificate)
    (dir : path) (a b : string) (w w' : World) (err : error) :
  w_pairs w !! l = Some v -> Cert v = Some c -> Key v = None ->
  a <> b -> writable (w_fs w) dir a b ->
  WriteFiles (Some l) (dir ++ [a]) (dir ++ [b]) w = Some (err, w') ->
  (exists e,
     err = Errorf ("failed to write to key file " +:+ path_text (dir ++ [b]) +:+ ": ")
             (ErrString ("failed to marshal private key: " +:+ Error e)))
  /\ content (w_fs w') (dir ++ [a]) = Some [pemBlockForCert c]
  /\ content (w_fs w') (dir ++ [b]) = Some []
  /\ execCalls (w_trace w') = execCalls (w_trace w).
Proof.
  intros Hv Hc Hk Hab Hwr H.
  destruct (WriteFiles_stages l v c dir a b w Hv Hc Hab Hwr)
    as (w3 & mc & mk & tr & Hh3 & Htr & Hex & Hlc & _ & Hlk & _ & _ & Heq).
  rewrite Heq in H. clear Heq.
  assert (Hv3 : w_pairs w3 !! l = Some v) by (destruct Hh3 as (-> & _); exact Hv).
  apply bind_inv in H as (e4 & w4 & H4 & H).
  unfold WriteKey in H4. rewrite (bind_eq _ _ _ _ _ (load_Some l v w3 Hv3)) in H4.
  rewrite Hk in H4. apply bind_inv in H4 as ([blk e0] & w0 & Hb & H4).
  apply pemBlockForKey_inv in Hb as [-> ->].
  destruct e0 as [e0|]; [|discriminate H4].
  inversion H4; subst e4 w4. clear H4. inversion H; subst err w'. clear H.
  split; [exists e0; reflexivity|]. unfold content. rewrite Hlc, Hlk.
  split; [reflexivity|]. split; [reflexivity|].
  rewrite Htr. unfold execCalls in *. rewrite omap_app, Hex. now rewrite app_nil_r.
Qed.

Section Samples_24.

#[local] Existing Instance sampleNet.
#[local] Existing Instance sampleStrings.
#[local] Existing Instance sampleNilKey.

Lemma WriteFiles_without_key_witness :
  exists w' err,
    WriteFiles (Some 0) ([] ++ ["root.crt"]) ([] ++ ["root.key"]) keylessWorld
    = Some (Some err, w')
    /\ content (w_fs w') ["root.crt"] = Some [pemBlockForCert sampleCACert]
    /\ content (w_fs w') ["root.key"] = Some [].
Proof.
  destruct (WriteFiles (Some 0) ([] ++ ["root.crt"]) ([] ++ ["root.key"]) keylessWorld)
    as [[[err|] w']|] eqn:HW; try (vm_compute in HW; discriminate HW).
  destruct (WriteFiles_without_key 0 _ sampleCACert [] "root.crt" "root.key" keylessWorld
              w' (Some err) eq_refl eq_refl eq_refl)
    as (_ & Hc & Hk & _).
  - discriminate.
  - repeat split.
  - exact HW.
  - exists w', err. split; [reflexivity|]. split; [exact Hc | exact Hk].
Defined.

End Samples_24.

(** ** Loading a pair, in detail (crtauth/pair.go, crtauth/util.go) *)

Lemma LoadCert_eq `{str : StringsLib} (l : nat) (v : Pair) (r : Reader) (w : World) :
  w_pairs w !! l = Some v ->
  LoadCert (Some l) r w
  = Some match readPEMCert r with
         | (_, Some e) => (Errorf "failed reading certificate: " e, w)
         | (cert, None) =>
             (None, set_pairs (<[l := {| Cert := cert; Key := Key v; KeyBits := KeyBits v |}]>
                                 (w_pairs w)) w)
         end.
Proof.
  intros Hv. unfold LoadCert. destruct (readPEMCert r) as [cert [e|]]; [reflexivity|].
  rewrite (bind_eq _ _ _ _ _ (store_Cert_Some l v cert w Hv)). reflexivity.
Qed.

Lemma LoadKey_eq `{str : StringsLib} (l : nat) (v : Pair) (r : Reader) (w : World) :
  w_pairs w !! l = Some v ->
  LoadKey (Some l) r w
  = Some match readPEMKey r with
         | (_, Some e) => (Errorf "failed reading key: " e, w)
         | (key, None) =>
             (None, set_pairs (<[l := {| Cert := Cert v; Key := key; KeyBits := KeyBits v |}]>
                                 (w_pairs w)) w)
         end.
Proof.
  intros Hv. unfold LoadKey. destruct (readPEMKey r) as [key [e|]]; [reflexivity|].
  rewrite (bind_eq _ _ _ _ _ (store_Key_Some l v key w Hv)). reflexivity.
Qed.

Lemma LoadFiles_eq `{str : StringsLib} (l : nat) (v : Pair) (certPath keyPath : path) (w : World) :
  w_pairs w !! l = Some v ->
  LoadFiles (Some l) certPath keyPath w
  = Some
      (let w1 := log (SysOpen certPath) w in
       match readerAt (w_fs w) certPath with
       | None =>
           (Errorf ("failed opening cert file " +:+ path_text certPath +:+ ": ")
              (PathError "open" certPath (missing (w_fs w) certPath)), w1)
       | Some r =>
           match readPEMCert r with
           | (_, Some e) => (Errorf "failed reading certificate: " e, w1)
           | (cert, None) =>
               let w2 :=
                 log (SysOpen keyPath)
                   (set_pairs (<[l := {| Cert := cert; Key := Key v; KeyBits := KeyBits v |}]>
                                 (w_pairs w)) w1) in
               match readerAt (w_fs w) keyPath with
               | None =>
                   (Errorf ("failed opening key file " +:+ path_text keyPath +:+ ": ")
                      (PathError "open" keyPath (missing (w_fs w) keyPath)), w2)
               | Some r' =>
                   match readPEMKey r' with
                   | (_, Some e) => (Errorf "failed reading key: " e, w2)
                   | (key, None) =>
                       (None,
                        set_pairs (<[l := {| Cert := cert; Key := key;
                                             KeyBits := KeyBits v |}]> (w_pairs w)) w2)
                   end
               end
           end
       end).
Proof.
  intros Hv. unfold LoadFiles, readerAt.
  assert (Hlt : l < length (w_pairs w)) by now apply lookup_lt_Some in Hv.
  unfold bind at 1. rewrite os_Open_eq.
  assert (Hstep : forall r,
    (let '(certFile, err) := (Some r, @None error_val) in
     match certFile, err with
     | _, Some e =>
         ret (Errorf ("failed opening cert file " +:+ path_text certPath +:+ ": ") e)
     | None, None => panic
     | Some certFile0, None =>
         err0 <- LoadCert (Some l) certFile0 ;;
         match err0 with
         | Some _ => ret err0
         | None =>
             '(keyFile, err1) <- os_Open keyPath ;;
             match keyFile, err1 with
             | _, Some e =>
                 ret (Errorf ("failed opening key file " +:+ path_text keyPath +:+ ": ") e)
             | None, None => panic
             | Some keyFile0, None =>
                 err2 <- LoadKey (Some l) keyFile0 ;;
                 match err2 with
                 | Some _ => ret err2
                 | None => ret None
                 end
             end
         end
     end) (log (SysOpen certPath) w)
    = Some
        match readPEMCert r with
        | (_, Some e) => (Errorf "failed reading certificate: " e, log (SysOpen certPath) w)
        | (cert, None) =>
            let w2 :=
              log (SysOpen keyPath)
                (set_pairs (<[l := {| Cert := cert; Key := Key v; KeyBits := KeyBits v |}]>
                              (w_pairs w)) (log (SysOpen certPath) w)) in
            match match lookupNode (w_fs w) keyPath with
                  | Some (FileNode _ data) => Some {| rd_data := data; rd_err := None |}
                  | Some (DirNode _) =>
                      Some {| rd_data := [];
                              rd_err := Some (PathError "read" keyPath EISDIR) |}
                  | None => None
                  end with
            | None =>
                (Errorf ("failed opening key file " +:+ path_text keyPath +:+ ": ")
                   (PathError "open" keyPath (missing (w_fs w) keyPath)), w2)
            | Some r' =>
                match readPEMKey r' with
                | (_, Some e) => (Errorf "failed reading key: " e, w2)
                | (key, None) =>
                    (None,
                     set_pairs (<[l := {| Cert := cert; Key := key;
                                          KeyBits := KeyBits v |}]> (w_pairs w)) w2)
                end
            end
        end).
  { intros r. cbn beta iota. unfold bind at 1.
    rewrite (LoadCert_eq l v r (log (SysOpen certPath) w) Hv).
    destruct (readPEMCert r) as [cert [e|]]; [reflexivity|]. cbn beta iota zeta.
    unfold bind at 1. rewrite os_Open_eq. cbn [w_fs w_pairs set_pairs log].
    set (wp := set_pairs _ (log (SysOpen certPath) w)).
    assert (Hvp : w_pairs (log (SysOpen keyPath) wp) !! l
                  = Some {| Cert := cert; Key := Key v; KeyBits := KeyBits v |})
      by (apply list_lookup_insert_eq; exact Hlt).
    assert (Hkey : forall r',
      (err1 <- LoadKey (Some l) r' ;;
       match err1 with
       | Some _ => ret err1
       | None => ret None
       end) (log (SysOpen keyPath) wp)
      = Some match readPEMKey r' with
             | (_, Some e) => (Errorf "failed reading key: " e, log (SysOpen keyPath) wp)
             | (key, None) =>
                 (None,
                  set_pairs (<[l := {| Cert := cert; Key := key; KeyBits := KeyBits v |}]>
                               (w_pairs w)) (log (SysOpen keyPath) wp))
             end).
    { intros r'. unfold bind at 1. rewrite (LoadKey_eq l _ r' (log (SysOpen keyPath) wp) Hvp).
      destruct (readPEMKey r') as [key [e|]]; [reflexivity|].
      cbn. rewrite list_insert_insert_eq. reflexivity. }
    destruct (lookupNode (w_fs w) keyPath) as [[m|m d]|]; cbn beta iota;
      [apply Hkey | apply Hkey | reflexivity]. }
  destruct (lookupNode (w_fs w) certPath) as [[m|m d]|]; cbn beta iota zeta.
  - apply Hstep.
  - apply Hstep.
  - reflexivity.
Qed.

Lemma readPEMCert_ok `{str : StringsLib} (r : Reader) (cert : option Certificate) :
  readPEMCert r = (cert, None) ->
  exists c, cert = Some c /\ rd_err r = None /\ encoded c.
Proof.
  unfold readPEMCert, ioutil_ReadAll. destruct (rd_err r) as [e|]; [discriminate|].
  induction (rd_data r) as [|b s IH]; [discriminate|].
  rewrite readPEMCert_loop_cons. destruct (isCertBlock b); [|exact IH].
  intros H. destruct cert as [c|].
  - exists c. split; [reflexivity|]. split; [reflexivity|].
    exact (proj1 (parse_encoded _ _ H)).
  - destruct (Bytes b); discriminate H.
Qed.

Lemma readPEMKey_ok `{str : StringsLib} (r : Reader) (key : option PrivateKey) :
  readPEMKey r = (key, None) -> exists k, key = Some k /\ rd_err r = None.
Proof.
  unfold readPEMKey, ioutil_ReadAll. destruct (rd_err r) as [e|]; [discriminate|].
  induction (rd_data r) as [|b s IH]; [discriminate|].
  rewrite readPEMKey_loop_cons. destruct (isKeyBlock b); [|exact IH].
  unfold parseKeyBlock.
  destruct (String.eqb (label b) "RSA PRIVATE KEY"); destruct (Bytes b); cbn;
    intros H; inversion H; eauto.
Qed.

Lemma readerAt_content (fs : gmap path Node) (p : path) (r : Reader) :
  readerAt fs p = Some r -> rd_err r = None ->
  content fs p = Some (rd_data r) /\ r = readerOf (rd_data r).
Proof.
  unfold readerAt, content. destruct (lookupNode fs p) as [[m|m d]|]; intros H He;
    inversion H; subst; [discriminate He|]. split; reflexivity.
Qed.

(** X18. The outcomes of [LoadFiles]. The files are left as they are.
    Either the step of the certificate fails: then no pair is changed and
    the key file is not opened. Or the certificate file holds a stream
    whose first CERTIFICATE block decodes, the receiver holds that
    certificate, and the key file has been opened; then either the step
    of the key fails, and the receiver keeps the key it had beside the
    new certificate, or the key file holds a stream whose first key block
    decodes, the receiver holds that key, and the error is nil. In all
    cases [KeyBits] is as it was. *)
Theorem LoadFiles_outcomes `{str : StringsLib} (l : nat) (v : Pair) (certPath keyPath : path)
    (w w' : World) (err : error) :
  w_pairs w !! l = Some v ->
  LoadFiles (Some l) certPath keyPath w = Some (err, w') ->
  w_fs w' = w_fs w
  /\ ((err <> None /\ w_pairs w' = w_pairs w
       /\ w_trace w' = w_trace w ++ [SysOpen certPath])
      \/ exists s c,
           content (w_fs w) certPath = Some s
           /\ readPEMCert (readerOf s) = (Some c, None)
           /\ w_trace w' = w_trace w ++ [SysOpen certPath; SysOpen keyPath]
           /\ ((err <> None
                /\ w_pairs w' = <[l := {| Cert := Some c; Key := Key v;
                                          KeyBits := KeyBits v |}]> (w_pairs w))
               \/ (err = None
                   /\ exists s' k,
                        content (w_fs w) keyPath = Some s'
                        /\ readPEMKey (readerOf s') = (Some k, None)
                        /\ w_pairs w' = <[l := {| Cert := Some c; Key := Some k;
                                                  KeyBits := KeyBits v |}]> (w_pairs w)))).
Proof.
  intros Hv H. rewrite (LoadFiles_eq l v _ _ w Hv) in H. cbn zeta in H.
  destruct (readerAt (w_fs w) certPath) as [r|] eqn:Hr.
  2:{ inversion H; subst. split; [reflexivity|]. left. repeat split. discriminate. }
  destruct (readPEMCert r) as [cert [e|]] eqn:Hcert.
  { inversion H; subst. split; [reflexivity|]. left. repeat split. discriminate. }
  destruct (readPEMCert_ok _ _ Hcert) as (c & -> & Hre & _).
  destruct (readerAt_content _ _ _ Hr Hre) as (Hcont & Hrd).
  rewrite Hrd in Hcert.
  assert (Htr : forall wx, w_trace (log (SysOpen keyPath) (set_pairs wx (log (SysOpen certPath) w)))
                           = w_trace w ++ [SysOpen certPath; SysOpen keyPath]).
  { intros wx. cbn. now rewrite <- app_assoc. }
  destruct (readerAt (w_fs w) keyPath) as [r'|] eqn:Hr'.
  2:{ inversion H; subst. split; [reflexivity|]. right. exists (rd_data r), c.
      split; [exact Hcont|]. split; [exact Hcert|]. split; [apply Htr|].
      left. split; [discriminate | reflexivity]. }
  destruct (readPEMKey r') as [key [e|]] eqn:Hkey.
  { inversion H; subst. split; [reflexivity|]. right. exists (rd_data r), c.
    split; [exact Hcont|]. split; [exact Hcert|]. split; [apply Htr|].
    left. split; [discriminate | reflexivity]. }
  destruct (readPEMKey_ok _ _ Hkey) as (k & -> & Hre').
  destruct (readerAt_content _ _ _ Hr' Hre') as (Hcont' & Hrd').
  rewrite Hrd' in Hkey.
  inversion H; subst. split; [reflexivity|]. right. exists (rd_data r), c.
  split; [exact Hcont|]. split; [exact Hcert|]. split; [apply Htr|].
  right. split; [reflexivity|]. exists (rd_data r'), k. repeat split; assumption.
Qed.

Section Samples_25.

#[local] Existing Instance sampleNet.
#[local] Existing Instance sampleStrings.
#[local] Existing Instance sampleNilKey.

Lemma LoadFiles_outcomes_witness :
  exists w' e,
    LoadFiles (Some 0) ["ca"; "root.key"] ["ca"; "root.crt"] loadedWorld_pair = Some (Some e, w')
    /\ w_pairs w' = w_pairs loadedWorld_pair
    /\ w_trace w' = [SysOpen ["ca"; "root.key"]].
Proof.
  destruct (LoadFiles (Some 0) ["ca"; "root.key"] ["ca"; "root.crt"] loadedWorld_pair)
    as [[[e|] w']|] eqn:HL; try (vm_compute in HL; discriminate HL).
  destruct (LoadFiles_outcomes 0 _ _ _ loadedWorld_pair w' (Some e) eq_refl HL)
    as (_ & [(_ & Hp & Htr)|(s & c & Hs & Hc & _)]).
  - exists w', e. split; [reflexivity|]. split; [exact Hp | exact Htr].
  - exfalso. vm_compute in Hs. inversion Hs; subst s. vm_compute in Hc. discriminate Hc.
Defined.

End Samples_25.

(** ** Writing and loading again (crtauth/pair.go) *)

Lemma read_cert_block `{str : StringsLib} (c : Certificate) :
  readPEMCert (readerOf [pemBlockForCert c]) = x509_ParseCertificate (Raw c).
Proof.
  unfold readPEMCert, readerOf, pemBlockForCert. cbn. ascii_strings. reflexivity.
Qed.

Lemma read_key_block `{str : StringsLib} (k : PrivateKey) :
  readPEMKey (readerOf [keyBlock k]) = (Some k, None).
Proof.
  destruct k; unfold readPEMKey, readerOf, keyBlock; cbn; ascii_strings; reflexivity.
Qed.

Lemma content_readerAt (fs : gmap path Node) (p : path) (s : PEMStream) :
  content fs p = Some s -> readerAt fs p = Some (readerOf s).
Proof.
  unfold content, readerAt. destruct (lookupNode fs p) as [[m|m d]|]; intros H;
    inversion H; reflexivity.
Qed.

(** X19. Round trip. When [WriteFiles] has written a pair to two distinct
    paths, and the certificate of the pair is the decoding of its own
    encoding (as it is after [SignWith] or [LoadCert]), then [LoadFiles]
    on the same paths, into any pair, returns nil and leaves in that pair
    the certificate and the key that were written; its [KeyBits] is not
    restored: it stays what the receiving pair had. *)
Theorem write_then_load `{str : StringsLib} `{nk : NilKey} (l l2 : nat) (v v2 : Pair)
    (c : Certificate)
    (certPath keyPath : path) (w w' : World) :
  w_pairs w !! l = Some v -> w_pairs w !! l2 = Some v2 ->
  Cert v = Some c -> encoded c -> certPath <> keyPath ->
  WriteFiles (Some l) certPath keyPath w = Some (None, w') ->
  exists w'',
    LoadFiles (Some l2) certPath keyPath w' = Some (None, w'')
    /\ w_pairs w'' = <[l2 := {| Cert := Cert v; Key := Key v; KeyBits := KeyBits v2 |}]>
                       (w_pairs w)
    /\ w_fs w'' = w_fs w'.
Proof.
  intros Hv Hv2 Hc Henc Hne HW.
  destruct (WriteFiles_inv l v certPath keyPath w w' Hv HW)
    as (c0 & k & Hc0 & Hk & (Hp & _) & Hkey & Hcert & _).
  assert (c0 = c) by congruence. subst c0. specialize (Hcert Hne).
  assert (Hv2' : w_pairs w' !! l2 = Some v2) by (rewrite Hp; exact Hv2).
  rewrite (LoadFiles_eq l2 v2 _ _ w' Hv2'). cbn zeta.
  rewrite (content_readerAt _ _ _ Hcert), read_cert_block, Henc.
  rewrite (content_readerAt _ _ _ Hkey), read_key_block.
  eexists. split; [reflexivity|]. cbn. rewrite Hp, Hc, Hk. split; reflexivity.
Qed.

Section Samples_26.

#[local] Existing Instance sampleNet.
#[local] Existing Instance sampleStrings.
#[local] Existing Instance sampleNilKey.

Lemma write_then_load_witness :
  exists w' w'',
    WriteFiles (Some 0) ["ca"; "root.crt"] ["ca"; "root.key"] reloadWorld = Some (None, w')
    /\ LoadFiles (Some 1) ["ca"; "root.crt"] ["ca"; "root.key"] w' = Some (None, w'')
    /\ w_pairs w'' !! 1 = Some {| Cert := Some sampleCACert;
                                  Key := Some (ECDSAPrivateKey P256 7); KeyBits := 0 |}.
Proof.
  destruct (WriteFiles (Some 0) ["ca"; "root.crt"] ["ca"; "root.key"] reloadWorld)
    as [[[e|] w']|] eqn:HW; try (vm_compute in HW; discriminate HW).
  destruct (write_then_load 0 1 _ _ sampleCACert ["ca"; "root.crt"] ["ca"; "root.key"]
              reloadWorld w' eq_refl eq_refl eq_refl eq_refl)
    as (w'' & HL & Hp & _); [discriminate | exact HW |].
  exists w', w''. split; [reflexivity|]. split; [exact HL|]. rewrite Hp. reflexivity.
Defined.

End Samples_26.

(** X20. [WriteFiles] does not check that the certificate has been
    signed. The descriptor of a pair that was never signed has no
    encoding, and [WriteCert] then writes a CERTIFICATE block with empty
    bytes: [WriteFiles] returns nil, and a [LoadFiles] of what it wrote
    fails at the certificate, leaving the receiving pair as it was. *)
Theorem unsigned_pair_not_loadable `{str : StringsLib} `{nk : NilKey} (l l2 : nat)
    (v v2 : Pair) (c : Certificate)
    (certPath keyPath : path) (w w' : World) :
  w_pairs w !! l = Some v -> w_pairs w !! l2 = Some v2 ->
  Cert v = Some c -> Raw c = DERNone -> certPath <> keyPath ->
  WriteFiles (Some l) certPath keyPath w = Some (None, w') ->
  content (w_fs w') certPath = Some [{| Type_ := "CERTIFICATE"; Bytes := DERNone |}]
  /\ exists e w'',
       LoadFiles (Some l2) certPath keyPath w' = Some (Some e, w'')
       /\ w_pairs w'' = w_pairs w
       /\ w_trace w'' = w_trace w' ++ [SysOpen certPath].
Proof.
  intros Hv Hv2 Hc Hraw Hne HW.
  destruct (WriteFiles_inv l v certPath keyPath w w' Hv HW)
    as (c0 & k & Hc0 & Hk & (Hp & _) & Hkey & Hcert & _).
  assert (c0 = c) by congruence. subst c0. specialize (Hcert Hne).
  split. { rewrite Hcert. unfold pemBlockForCert. now rewrite Hraw. }
  assert (Hv2' : w_pairs w' !! l2 = Some v2) by (rewrite Hp; exact Hv2).
  rewrite (LoadFiles_eq l2 v2 _ _ w' Hv2'). cbn zeta.
  rewrite (content_readerAt _ _ _ Hcert), read_cert_block, Hraw.
  cbn [x509_ParseCertificate errors_New]. eexists _, _. split; [reflexivity|].
  split; [exact Hp | reflexivity].
Qed.

Section Samples_27.

#[local] Existing Instance sampleNet.
#[local] Existing Instance sampleStrings.
#[local] Existing Instance sampleNilKey.

Lemma unsigned_pair_not_loadable_witness :
  exists w' e w'',
    WriteFiles (Some 0) ["srv"; "server.crt"] ["srv"; "server.key"] unsignedWorld
    = Some (None, w')
    /\ LoadFiles (Some 1) ["srv"; "server.crt"] ["srv"; "server.key"] w' = Some (Some e, w'')
    /\ w_pairs w'' = w_pairs unsignedWorld.
Proof.
  destruct (WriteFiles (Some 0) ["srv"; "server.crt"] ["srv"; "server.key"] unsignedWorld)
    as [[[e|] w']|] eqn:HW; try (vm_compute in HW; discriminate HW).
  destruct (unsigned_pair_not_loadable 0 1 _ _ _ ["srv"; "server.crt"] ["srv"; "server.key"]
              unsignedWorld w' eq_refl eq_refl eq_refl eq_refl)
    as (_ & e & w'' & HL & Hp & _); [discriminate | exact HW |].
  exists w', e, w''. split; [reflexivity|]. split; [exact HL | exact Hp].
Defined.

End Samples_27.

(** ** Creation of pairs, in detail (crtauth/pair.go) *)

Section Creation_more.

Context `{net : NetLib} `{str : StringsLib} `{nk : NilKey}.

Lemma to509_eq (t : Template) (w : World) :
  to509 t w
  = Some (match w_rand w with
          | Some z :: _ =>
              (Some (withHosts (Template.HostNames t)
                       (descriptor t (z mod 2 ^ 128) (w_now w))), None)
          | _ => (None, Errorf "To509() failed: " (w_rand_err w))
          end, afterRead w).
Proof.
  unfold afterRead. destruct (w_rand w) as [|[z|] r] eqn:Hr.
  - unfold to509, randSerial, rand_Read, bind, gets, modify, ret. rewrite Hr. reflexivity.
  - rewrite (to509_ok t w z r Hr), addHost_loop_eq. reflexivity.
  - unfold to509, randSerial, rand_Read, bind, gets, modify, ret. rewrite Hr. reflexivity.
Qed.

(** The descriptor [NewPair] puts in the pair. *)
Lemma NewPair_eq (t : Template) (w : World) :
  let cert := match w_rand w with
              | Some z :: _ => withHosts (Template.HostNames t)
                                 (descriptor t (z mod 2 ^ 128) (w_now w))
              | _ => emptyCertificate
              end in
  NewPair t w
  = match genPrivKey (Template.KeyBits t) (afterRead w) with
    | None => None
    | Some ((_, Some e), w2) =>
        Some ((None, Errorf "failed to generate private key for pair: " e), w2)
    | Some ((k, None), w2) =>
        Some ((Some (length (w_pairs w)), None),
              set_pairs (w_pairs w ++ [{| Cert := Some cert; Key := k;
                                          KeyBits := Template.KeyBits t |}]) w2)
    end.
Proof.
  intros cert. pose proof (to509_eq t w) as H1.
  assert (Hpanic : forall c e, to509 t w = Some ((c, e), afterRead w) ->
            genPrivKey (Template.KeyBits t) (afterRead w) = None -> NewPair t w = None).
  { intros c e E1 E2. unfold NewPair. rewrite (bind_eq _ _ _ _ _ E1). cbn beta iota.
    unfold bind. now rewrite E2. }
  destruct (genPrivKey (Template.KeyBits t) (afterRead w)) as [[[k e2] w2]|] eqn:H2.
  - subst cert. destruct (w_rand w) as [|[z|] r];
      rewrite (NewPair_steps t w _ w2 _ _ k e2 H1 H2); destruct e2; reflexivity.
  - destruct (w_rand w) as [|[z|] r]; exact (Hpanic _ _ H1 eq_refl).
Qed.

(** What a successful [NewPair] has made. *)
Lemma NewPair_inv (t : Template) (w w' : World) (p : ptr) :
  NewPair t w = Some ((p, None), w') ->
  exists c k z,
    p = Some (length (w_pairs w))
    /\ w_pairs w' = w_pairs w ++ [{| Cert := Some c; Key := Some k;
                                     KeyBits := Template.KeyBits t |}]
    /\ keyOfSize (Template.KeyBits t) z = Some k
    /\ same_env w w'
    /\ ((c = emptyCertificate)
        \/ exists serial,
             c = withHosts (Template.HostNames t) (descriptor t serial (w_now w))).
Proof.
  rewrite NewPair_eq. cbn zeta.
  destruct (genPrivKey (Template.KeyBits t) (afterRead w)) as [[[k e2] w2]|] eqn:H2;
    [|discriminate].
  destruct e2 as [e|]; [discriminate|]. intros H. inversion H; subst. clear H.
  destruct (genPrivKey_key _ _ _ _ H2) as (z & key & -> & Hkey).
  eexists _, key, z. split; [reflexivity|]. split; [reflexivity|]. split; [exact Hkey|].
  split.
  { rewrite genPrivKey_eq in H2.
    destruct ((Template.KeyBits t <? 1024)%Z && _); [discriminate|].
    assert (Ha : same_env w (afterRead w))
      by (unfold afterRead; destruct (w_rand w); repeat split).
    destruct Ha as (A1 & A2 & A3 & A4 & A5 & A6 & A7).
    injection H2 as H2. destruct (w_rand (afterRead w)) as [|[z0|] r0];
      inversion H2; subst; repeat split; assumption. }
  destruct (w_rand w) as [|[z0|] r]; [now left | right; eauto | now left].
Qed.

Lemma insert_last {A : Type} (xs : list A) (x y : A) :
  <[length xs := y]> (xs ++ [x]) = xs ++ [y].
Proof.
  rewrite insert_app_r_alt by lia. now rewrite Nat.sub_diag.
Qed.

Lemma lookup_last {A : Type} (xs : list A) (x : A) : (xs ++ [x]) !! length xs = Some x.
Proof. apply list_lookup_middle. reflexivity. Qed.

(** What a successful call of one of the two variants of [NewPair] has
    made: the pair of [NewPair], with the descriptor changed twice. *)
Lemma variant_inv (t : Template) (f g : Certificate -> Certificate) (w w' : World)
    (p : ptr) :
  ('(pair_, err) <- NewPair t ;;
   match err with
   | Some _ => ret (None, err)
   | None => _ <- update_Cert pair_ f ;; _ <- update_Cert pair_ g ;; ret (pair_, None)
   end) w = Some ((p, None), w') ->
  exists c k z,
    p = Some (length (w_pairs w))
    /\ w_pairs w' = w_pairs w ++ [{| Cert := Some (g (f c)); Key := Some k;
                                     KeyBits := Template.KeyBits t |}]
    /\ keyOfSize (Template.KeyBits t) z = Some k
    /\ same_env w w'
    /\ ((c = emptyCertificate)
        \/ exists serial,
             c = withHosts (Template.HostNames t) (descriptor t serial (w_now w))).
Proof.
  intros H. apply bind_inv in H as ([p0 [e|]] & w1 & H1 & H); [discriminate H|].
  destruct (NewPair_inv t w w1 p0 H1) as (c & k & z & -> & Hp1 & Hk & Henv & Hc).
  set (n := length (w_pairs w)) in *.
  assert (L1 : w_pairs w1 !! n = Some {| Cert := Some c; Key := Some k;
                                         KeyBits := Template.KeyBits t |})
    by (rewrite Hp1; apply lookup_last).
  rewrite (bind_eq _ _ _ _ _ (update_Cert_eq _ _ _ f w1 L1 eq_refl)) in H.
  set (w2 := set_pairs _ w1) in H.
  assert (L2 : w_pairs w2 !! n = Some {| Cert := Some (f c); Key := Some k;
                                         KeyBits := Template.KeyBits t |}).
  { subst w2 n. cbn. rewrite Hp1, insert_last. apply lookup_last. }
  rewrite (bind_eq _ _ _ _ _ (update_Cert_eq _ _ _ g w2 L2 eq_refl)) in H.
  inversion H; subst p w'. clear H.
  exists c, k, z. split; [reflexivity|]. split.
  { subst w2 n. cbn. rewrite Hp1, !insert_last. reflexivity. }
  split; [exact Hk|]. split; [|exact Hc].
  destruct Henv as (A1 & A2 & A3 & A4 & A5 & A6 & A7). repeat split; assumption.
Qed.

Lemma NewServerPair_inv (t : Template) (w w' : World) (p : ptr) :
  NewServerPair t w = Some ((p, None), w') ->
  exists c k z,
    p = Some (length (w_pairs w))
    /\ w_pairs w' = w_pairs w ++ [{| Cert := Some (forServer c); Key := Some k;
                                     KeyBits := Template.KeyBits t |}]
    /\ keyOfSize (Template.KeyBits t) z = Some k
    /\ same_env w w'
    /\ ((c = emptyCertificate)
        \/ exists serial,
             c = withHosts (Template.HostNames t) (descriptor t serial (w_now w))).
Proof.
  exact (variant_inv t
           (fun c => set_KeyUsage
                       (Z.lor (KeyUsage c)
                          (Z.lor KeyUsageKeyEncipherment KeyUsageDigitalSignature)) c)
           (fun c => set_ExtKeyUsage (ExtKeyUsage c ++ [ExtKeyUsageServerAuth]) c) w w' p).
Qed.

Lemma NewCAPair_inv (t : Template) (w w' : World) (p : ptr) :
  NewCAPair t w = Some ((p, None), w') ->
  exists c k z,
    p = Some (length (w_pairs w))
    /\ w_pairs w' = w_pairs w ++ [{| Cert := Some (forCA c); Key := Some k;
                                     KeyBits := Template.KeyBits t |}]
    /\ keyOfSize (Template.KeyBits t) z = Some k
    /\ same_env w w'
    /\ ((c = emptyCertificate)
        \/ exists serial,
             c = withHosts (Template.HostNames t) (descriptor t serial (w_now w))).
Proof.
  exact (variant_inv t (set_IsCA true)
           (fun c => set_KeyUsage (Z.lor (KeyUsage c) caKeyUsage) c) w w' p).
Qed.

End Creation_more.

Section Creation_spec.

Context `{net : NetLib} `{str : StringsLib} `{nk : NilKey}.

Lemma NewPair_ok (t : Template) (w : World) (z2 : Z) (r : list (option Z))
    (k : PrivateKey) (o : option Z) :
  w_rand w = o :: Some z2 :: r ->
  keyOfSize (Template.KeyBits t) z2 = Some k ->
  NewPair t w
  = Some ((Some (length (w_pairs w)), None),
          set_pairs (w_pairs w ++ [{| Cert := Some match o with
                                                   | Some z =>
                                                       withHosts (Template.HostNames t)
                                                         (descriptor t (z mod 2 ^ 128)
                                                            (w_now w))
                                                   | None => emptyCertificate
                                                   end;
                                      Key := Some k;
                                      KeyBits := Template.KeyBits t |}])
            (set_rand r w)).
Proof.
  intros Hr Hk. rewrite NewPair_eq. cbn zeta. rewrite genPrivKey_eq.
  unfold afterRead. rewrite Hr. cbn [w_rand set_rand].
  assert (Hnp : (Template.KeyBits t <? 1024)%Z
                && negb (bool_decide (is_Some (curveFor (Template.KeyBits t)))) = false).
  { unfold keyOfSize in Hk. destruct (Template.KeyBits t <? 1024)%Z; [|reflexivity].
    destruct (curveFor (Template.KeyBits t)); [reflexivity | discriminate Hk]. }
  rewrite Hnp, Hk. destruct o; reflexivity.
Qed.

Lemma variant_ok (t : Template) (f g : Certificate -> Certificate) (w w2 : World)
    (c : Certificate) (k : option PrivateKey) :
  NewPair t w
  = Some ((Some (length (w_pairs w)), None),
          set_pairs (w_pairs w ++ [{| Cert := Some c; Key := k;
                                      KeyBits := Template.KeyBits t |}]) w2) ->
  ('(pair_, err) <- NewPair t ;;
   match err with
   | Some _ => ret (None, err)
   | None => _ <- update_Cert pair_ f ;; _ <- update_Cert pair_ g ;; ret (pair_, None)
   end) w
  = Some ((Some (length (w_pairs w)), None),
          set_pairs (w_pairs w ++ [{| Cert := Some (g (f c)); Key := k;
                                      KeyBits := Template.KeyBits t |}]) w2).
Proof.
  intros H1. rewrite (bind_eq _ _ _ _ _ H1). cbn beta iota.
  set (n := length (w_pairs w)). set (w1 := set_pairs _ w2).
  assert (L1 : w_pairs w1 !! n = Some {| Cert := Some c; Key := k;
                                         KeyBits := Template.KeyBits t |})
    by apply lookup_last.
  rewrite (bind_eq _ _ _ _ _ (update_Cert_eq _ _ _ f w1 L1 eq_refl)).
  set (w3 := set_pairs _ w1).
  assert (L3 : w_pairs w3 !! n = Some {| Cert := Some (f c); Key := k;
                                         KeyBits := Template.KeyBits t |}).
  { subst w3 w1 n. cbn. rewrite insert_last. apply lookup_last. }
  rewrite (bind_eq _ _ _ _ _ (update_Cert_eq _ _ _ g w3 L3 eq_refl)).
  unfold ret. subst w3 w1 n. cbn. rewrite !insert_last. reflexivity.
Qed.

(** X21. The three constructors of pairs. With a serial number and a key
    drawn from the entropy source, [NewPair], [NewCAPair] and
    [NewServerPair] allocate the same pair but for the descriptor: the one
    of [NewCAPair] has the CA flag and the key usages digital signature,
    certificate signing and CRL signing (97) and no extended key usage;
    the one of [NewServerPair] has the CA flag off, the key usages key
    encipherment and digital signature (5) and the extended key usage
    server authentication. None of them is signed: [Raw] is empty. *)
Theorem pair_constructors (t : Template) (w : World) (z1 z2 : Z) (r : list (option Z))
    (k : PrivateKey) :
  w_rand w = Some z1 :: Some z2 :: r ->
  keyOfSize (Template.KeyBits t) z2 = Some k ->
  let d := withHosts (Template.HostNames t) (descriptor t (z1 mod 2 ^ 128) (w_now w)) in
  let made c :=
    Some ((Some (length (w_pairs w)), @None error_val),
          set_pairs (w_pairs w ++ [{| Cert := Some c; Key := Some k;
                                      KeyBits := Template.KeyBits t |}])
            (set_rand r w)) in
  NewPair t w = made d
  /\ NewCAPair t w = made (forCA d)
  /\ NewServerPair t w = made (forServer d)
  /\ IsCA (forCA d) = true /\ KeyUsage (forCA d) = 97%Z /\ ExtKeyUsage (forCA d) = []
  /\ IsCA (forServer d) = false /\ KeyUsage (forServer d) = 5%Z
  /\ ExtKeyUsage (forServer d) = [ExtKeyUsageServerAuth]
  /\ Raw (forCA d) = DERNone /\ Raw (forServer d) = DERNone.
Proof.
  intros Hr Hk d made.
  pose proof (NewPair_ok t w z2 r k (Some z1) Hr Hk) as HN. fold d in HN.
  split; [exact HN|].
  split. { exact (variant_ok t _ _ w _ d (Some k) HN). }
  split. { exact (variant_ok t _ _ w _ d (Some k) HN). }
  repeat split.
Qed.

(** X22. [Init] makes the CA directory before it signs. When the serial
    number cannot be drawn and the key can, [NewCAPair] still returns a
    pair, whose descriptor is empty but for the CA flag and usages;
    [Init] then creates the directory, and fails at [SignWith] only, with
    the error of the missing serial number: the directory stays, the CA
    is not changed (it is not even looked at), and no file is written. *)
Theorem Init_fails_after_mkdir (ca : option nat) (t : Template) (dir : path) (w : World)
    (z : Z) (r : list (option Z)) (k : PrivateKey) :
  w_rand w = None :: Some z :: r ->
  keyOfSize (Template.KeyBits t) z = Some k ->
  existsb (isFile (w_fs w)) (prefixes dir) = false ->
  exists w',
    Init ca t dir w
    = Some (Some (ErrString ("failed to sign certificate with CA: "
                             +:+ "failed to create signed certificate: "
                             +:+ "x509: no SerialNumber given")), w')
    /\ isDir (w_fs w') dir = true
    /\ w_cas w' = w_cas w
    /\ w_trace w' = w_trace w ++ [SysMkdirAll dir 448]
    /\ exists c, w_pairs w' = w_pairs w ++ [{| Cert := Some c; Key := Some k;
                                              KeyBits := Template.KeyBits t |}]
                 /\ SerialNumber c = None /\ IsCA c = true.
Proof.
  intros Hr Hk Hway.
  pose proof (NewPair_ok t w z r k None Hr Hk) as HN.
  pose proof (variant_ok t (set_IsCA true)
                (fun c => set_KeyUsage (Z.lor (KeyUsage c) caKeyUsage) c)
                w _ emptyCertificate (Some k) HN) as HCA.
  change (NewCAPair t w = Some ((Some (length (w_pairs w)), None),
            set_pairs (w_pairs w ++ [{| Cert := Some (forCA emptyCertificate); Key := Some k;
                                        KeyBits := Template.KeyBits t |}])
              (set_rand r w))) in HCA.
  unfold Init. rewrite (bind_eq _ _ _ _ _ HCA). cbn beta iota.
  set (n := length (w_pairs w)). set (wa := set_pairs _ (set_rand r w)).
  unfold bind at 1. rewrite os_MkdirAll_eq. cbn [w_fs set_pairs set_rand wa].
  rewrite Hway. cbn beta iota.
  set (wb := set_fs _ _).
  assert (Lb : w_pairs wb !! n = Some {| Cert := Some (forCA emptyCertificate);
                                         Key := Some k; KeyBits := Template.KeyBits t |})
    by apply lookup_last.
  unfold bind at 1.
  rewrite (SignWith_eq n n _ _ _ _ k wb Lb eq_refl Lb eq_refl eq_refl).
  unfold bind at 1. rewrite x509_CreateCertificate_eq.
  rewrite bool_decide_eq_true_2 by reflexivity. cbn [SerialNumber toSign forCA
    emptyCertificate set_KeyUsage set_IsCA set_Issuer]. cbn beta iota.
  eexists. split; [reflexivity|]. cbn [w_fs w_cas w_trace w_pairs set_pairs].
  split.
  { subst wb. cbn [w_fs set_fs]. unfold isDir. rewrite mkdirs_lookup.
    pose proof (not_in_the_way _ _ dir Hway (reflexivity dir)) as Hf. unfold isFile in Hf.
    destruct (lookupNode (w_fs w) dir) as [[m|m d]|]; [reflexivity | discriminate Hf |].
    rewrite decide_True by apply self_in_prefixes. reflexivity. }
  split; [reflexivity|]. split; [reflexivity|].
  eexists. split.
  { subst wb wa n. cbn. rewrite insert_last. reflexivity. }
  split; reflexivity.
Qed.

End Creation_spec.

Section Samples_28.

#[local] Existing Instance sampleNet.
#[local] Existing Instance sampleStrings.
#[local] Existing Instance sampleNilKey.

Lemma pair_constructors_witness :
  exists w1 w2 c1 c2,
    NewCAPair NewTemplate sampleWorld = Some ((Some 0, None), w1)
    /\ NewServerPair NewTemplate sampleWorld = Some ((Some 0, None), w2)
    /\ w_pairs w1 = [{| Cert := Some c1; Key := Some (ECDSAPrivateKey P256 7);
                        KeyBits := 256 |}]
    /\ w_pairs w2 = [{| Cert := Some c2; Key := Some (ECDSAPrivateKey P256 7);
                        KeyBits := 256 |}]
    /\ KeyUsage c1 = 97%Z /\ KeyUsage c2 = 5%Z.
Proof.
  destruct (pair_constructors NewTemplate sampleWorld 5 7
              [Some 9%Z; Some 11%Z] (ECDSAPrivateKey P256 7) eq_refl eq_refl)
    as (_ & HCA & HS & _ & Hk1 & _ & _ & Hk2 & _).
  eexists _, _, _, _. split; [exact HCA|]. split; [exact HS|].
  split; [reflexivity|]. split; [reflexivity|]. split; [exact Hk1 | exact Hk2].
Defined.

Lemma Init_fails_after_mkdir_witness :
  exists w',
    Init None NewTemplate ["certs"; "ca"] glitchWorld
    = Some (Some (ErrString ("failed to sign certificate with CA: "
                             +:+ "failed to create signed certificate: "
                             +:+ "x509: no SerialNumber given")), w')
    /\ isDir (w_fs w') ["certs"; "ca"] = true.
Proof.
  destruct (Init_fails_after_mkdir None NewTemplate ["certs"; "ca"] glitchWorld
              7 [Some 9%Z] (ECDSAPrivateKey P256 7) eq_refl eq_refl eq_refl)
    as (w' & H & Hd & _).
  exists w'. split; [exact H | exact Hd].
Defined.

End Samples_28.

(** ** The authority, from [Init] to [Load] (crtauth/crtauth.go) *)

Lemma Join_name (dir : path) (name : string) :
  name <> "" -> filepath_Join dir name = dir ++ [name].
Proof.
  intros Hne. unfold filepath_Join.
  destruct (String.eqb_spec name ""); [contradiction | reflexivity].
Qed.

Lemma WriteFiles_le `{nk : NilKey} (p : ptr) (certPath keyPath : path) (w w' : World) :
  WriteFiles p certPath keyPath w = Some (None, w') -> fs_le (w_fs w) (w_fs w').
Proof.
  intros H. unfold WriteFiles in H.
  apply bind_inv in H as ([certFile e1] & w1 & H1 & H).
  destruct e1 as [e1|]; [destruct certFile; discriminate H|].
  pose proof (mkdirAndCreateFile_step _ _ _ _ _ _ H1)
    as (-> & _ & _ & _ & _ & tr1 & (_ & _ & _ & Hle1 & _) & _).
  apply bind_inv in H as ([e2|] & w2 & H2 & H); [discriminate H|].
  pose proof (WriteCert_step _ _ _ _ H2) as ((_ & _ & _ & Hle2 & _) & _).
  apply bind_inv in H as ([keyFile e3] & w3 & H3 & H).
  destruct e3 as [e3|]; [destruct keyFile; discriminate H|].
  pose proof (mkdirAndCreateFile_step _ _ _ _ _ _ H3)
    as (-> & _ & _ & _ & _ & tr3 & (_ & _ & _ & Hle3 & _) & _).
  apply bind_inv in H as ([e4|] & w4 & H4 & H); [discriminate H|].
  pose proof (WriteKey_step _ _ _ _ H4) as ((_ & _ & _ & Hle4 & _) & _).
  apply bind_inv in H as ([e5|] & w5 & H5 & H); [discriminate H|].
  inversion H; subst w5. clear H.
  apply restrictKeyPermissions_step in H5 as (Hfs & _). rewrite Hfs.
  transitivity (w_fs w1); [exact Hle1|]. transitivity (w_fs w2); [exact Hle2|].
  transitivity (w_fs w3); [exact Hle3 | exact Hle4].
Qed.

Section Authority_more.

Context `{net : NetLib} `{str : StringsLib} `{nk : NilKey}.

(** What a successful [Init] has made. *)
Lemma Init_inv (ca : option nat) (t : Template) (dir : path) (w w' : World) :
  Init ca t dir w = Some (None, w') ->
  exists nca cobj c k,
    ca = Some nca /\ w_cas w !! nca = Some cobj
    /\ w_cas w' = <[nca := {| CA_Pair := Some (length (w_pairs w));
                              CertFileName := CertFileName cobj;
                              KeyFileName := KeyFileName cobj |}]> (w_cas w)
    /\ w_pairs w' = w_pairs w ++ [{| Cert := Some c; Key := Some k;
                                     KeyBits := Template.KeyBits t |}]
    /\ encoded c /\ IsCA c = true /\ Issuer c = Subject c
    /\ CertPublicKey c = Some (verifyingKey k)
    /\ Raw c <> DERNone
    /\ content (w_fs w') (filepath_Join dir (KeyFileName cobj)) = Some [keyBlock k]
    /\ (filepath_Join dir (CertFileName cobj) <> filepath_Join dir (KeyFileName cobj) ->
        content (w_fs w') (filepath_Join dir (CertFileName cobj))
        = Some [pemBlockForCert c])
    /\ isDir (w_fs w') dir = true
    /\ (exists z, keyOfSize (Template.KeyBits t) z = Some k)
    /\ Subject c = {| pkix_Organization := [Template.Organization t];
                      pkix_CommonName := Template.CommonName t |}
    /\ KeyUsage c = 97%Z /\ ExtKeyUsage c = []
    /\ NotBefore c = sec (w_now w)
    /\ NotAfter c = sec (time_Add (w_now w) (daysToDuration (Template.ValidForDays t)))
    /\ IPAddresses c = omap net_ParseIP (Template.HostNames t)
    /\ DNSNames c = List.filter (fun h => negb (parsesAsIP h)) (Template.HostNames t).
Proof.
  intros H. unfold Init in H.
  apply bind_inv in H as ([p [e|]] & wa & HN & H); [discriminate H|].
  pose proof (NewCAPair_keeps_cas _ _ _ _ HN) as Hcas_a.
  destruct (NewCAPair_inv t w wa p HN) as (c0 & k & z & -> & Hpa & Hkz & _ & Hc0).
  set (l := length (w_pairs w)) in *.
  apply bind_inv in H as ([e|] & wb & HM & H); [discriminate H|].
  pose proof (os_MkdirAll_keeps_pairs _ _ _ _ _ HM) as Hpb.
  pose proof (os_MkdirAll_keeps_cas _ _ _ _ _ HM) as Hcas_b.
  assert (Hdir_b : isDir (w_fs wb) dir = true).
  { rewrite os_MkdirAll_eq in HM.
    destruct (existsb (isFile (w_fs wa)) (prefixes dir)) eqn:Hex; inversion HM; subst.
    cbn [w_fs set_fs log]. unfold isDir. rewrite mkdirs_lookup.
    pose proof (not_in_the_way _ _ dir Hex (reflexivity dir)) as Hf. unfold isFile in Hf.
    destruct (lookupNode (w_fs wa) dir) as [[m|m d]|]; [reflexivity | discriminate Hf |].
    rewrite decide_True by apply self_in_prefixes. reflexivity. }
  apply bind_inv in H as ([e|] & wc & HS & H); [discriminate H|].
  pose proof (SignWith_keeps_cas _ _ _ _ _ HS) as Hcas_c.
  pose proof (SignWith_keeps_fs _ _ _ _ _ HS) as Hfs_c.
  assert (Lb : w_pairs wb !! l = Some {| Cert := Some (forCA c0); Key := Some k;
                                         KeyBits := Template.KeyBits t |}).
  { rewrite Hpb, Hpa. apply lookup_last. }
  destruct (SignWith_inv l l _ _ _ _ k wb wc None Lb eq_refl Lb eq_refl eq_refl HS)
    as (_ & serial & pub & c & Hser & Hpub & Hparse & Hpc).
  destruct (parse_encoded _ _ Hparse) as (Henc & Hraw).
  cbn [Key] in Hpub, Hpc.
  assert (Hd0 : exists s0, c0 = withHosts (Template.HostNames t)
                                  (descriptor t s0 (w_now w))).
  { destruct Hc0 as [->|Hd0]; [discriminate Hser | exact Hd0]. }
  destruct Hd0 as (s0 & Hd0).
  assert (Hbc : BasicConstraintsValid c0 = true) by (subst c0; reflexivity).
  apply bind_inv in H as (cobj & wc' & HLc & H).
  apply loadCA_inv in HLc as (-> & nca & -> & Hcobj).
  apply bind_inv in H as ([e|] & wd & HW & H); [discriminate H|].
  assert (Lc : w_pairs wc !! l = Some {| Cert := Some c; Key := Some k;
                                         KeyBits := Template.KeyBits t |}).
  { rewrite Hpc. apply list_lookup_insert_eq. now apply lookup_lt_Some in Lb. }
  destruct (WriteFiles_inv l _ _ _ wc wd Lc HW)
    as (c1 & k1 & Hc1 & Hk1 & (Hpd & Hcas_d & _) & Hkey & Hcert & _).
  cbn in Hc1, Hk1. inversion Hc1; subst c1. inversion Hk1; subst k1. clear Hc1 Hk1.
  apply bind_inv in H as (cobj' & wd' & HLd & H).
  apply loadCA_inv in HLd as (-> & nca' & Hnca' & Hcobj').
  inversion Hnca'; subst nca'. clear Hnca'.
  apply bind_inv in H as ([] & we & HSt & H). inversion H; subst we. clear H.
  apply storeCA_inv in HSt as (n2 & c2 & Hn2 & _ & ->).
  inversion Hn2; subst n2. clear Hn2.
  assert (Hcas_w : w_cas wc = w_cas w) by congruence.
  assert (Hsame : cobj' = cobj) by (rewrite Hcas_d, Hcas_w in Hcobj'; rewrite Hcas_w in Hcobj; congruence).
  subst cobj'.
  exists nca, cobj, c, k. split; [reflexivity|].
  split. { rewrite <- Hcas_w. exact Hcobj. }
  cbn [w_cas w_pairs w_fs set_cas].
  split. { rewrite Hcas_d, Hcas_w. reflexivity. }
  split. { rewrite Hpd, Hpc, Hpb, Hpa. apply insert_last. }
  split; [exact Henc|].
  cbn in Hparse. injection Hparse as Hc'.
  rewrite bool_decide_eq_true_2 in Hc' by reflexivity.
  split. { rewrite <- Hc'. cbn. destruct c0; cbn in *. now rewrite Hbc. }
  split. { rewrite <- Hc'. cbn. destruct c0; reflexivity. }
  split. { rewrite <- Hc'. cbn. unfold verifyingKey. cbn in Hpub.
           destruct k; now inversion Hpub. }
  split. { rewrite <- Hc'. cbn. discriminate. }
  split; [exact Hkey|]. split; [exact Hcert|].
  split.
  { apply (fs_le_isDir (w_fs wb)); [|exact Hdir_b].
    rewrite <- Hfs_c. apply (WriteFiles_le _ _ _ _ _ HW). }
  split; [exists z; exact Hkz|].
  rewrite <- Hc', Hd0. cbn. repeat split.
Qed.

End Authority_more.

Section Authority_roundtrip.

Context `{net : NetLib} `{str : StringsLib} `{nk : NilKey}.

(** X23. From [Init] to [Load]. After a successful [Init] of a CA made by
    [New], a second CA made by [New] loads from the same directory
    without error, and its pair then holds the certificate and the key
    of the pair of the first: a self-signed CA certificate that is the
    decoding of what the certificate file holds. The two pairs are
    distinct objects, and the loaded one has a [KeyBits] of zero, not
    the size the key was made with. *)
Theorem Init_then_Load (t : Template) (dir : path) (w0 w w1 w2 : World)
    (ca ca2 : option nat) :
  New w0 = Some (ca, w) ->
  Init ca t dir w = Some (None, w1) ->
  New w1 = Some (ca2, w2) ->
  exists w3 cobj cobj2 l l2 c k,
    Load ca2 dir w2 = Some (None, w3)
    /\ loadCA ca w3 = Some (cobj, w3) /\ CA_Pair cobj = Some l
    /\ loadCA ca2 w3 = Some (cobj2, w3) /\ CA_Pair cobj2 = Some l2
    /\ l <> l2
    /\ w_pairs w3 !! l = Some {| Cert := Some c; Key := Some k;
                                 KeyBits := Template.KeyBits t |}
    /\ w_pairs w3 !! l2 = Some {| Cert := Some c; Key := Some k; KeyBits := 0 |}
    /\ IsCA c = true /\ Issuer c = Subject c
    /\ content (w_fs w3) (dir ++ [RootCertFileName]) = Some [pemBlockForCert c]
    /\ content (w_fs w3) (dir ++ [RootKeyFileName]) = Some [keyBlock k].
Proof.
  intros HN HI HN2. rewrite New_eq in HN. inversion HN; subst ca w. clear HN.
  destruct (Init_inv _ t dir _ w1 HI)
    as (nca & cobj & c & k & Hnca & Hcobj & Hcas1 & Hp1 & Henc & Hca & Hiss & _ & _
        & Hkey & Hcert & _).
  inversion Hnca; subst nca. clear Hnca.
  cbn [w_cas w_pairs set_cas set_pairs] in *.
  rewrite lookup_last in Hcobj. inversion Hcobj; subst cobj. clear Hcobj.
  cbn [CertFileName KeyFileName] in *.
  rewrite insert_last in Hcas1. rewrite length_app in Hcas1. cbn [length] in Hcas1.
  rewrite !Join_name in Hkey, Hcert by discriminate.
  specialize (Hcert ltac:(intros E; apply app_inv_head in E; discriminate E)).
  rewrite New_eq in HN2. inversion HN2; subst ca2 w2. clear HN2.
  set (l := length (w_pairs w0) + 1) in *.
  set (l2 := length (w_pairs w1)).
  set (cobj2 := {| CA_Pair := Some l2; CertFileName := RootCertFileName;
                   KeyFileName := RootKeyFileName |}).
  set (w2 := set_cas _ _).
  assert (Hl2 : l2 = S l).
  { subst l2 l. rewrite Hp1, !length_app. cbn. lia. }
  assert (HC2 : loadCA (Some (length (w_cas w1))) w2 = Some (cobj2, w2))
    by (apply loadCA_Some, lookup_last).
  unfold Load. rewrite (bind_eq _ _ _ _ _ HC2). cbn [CertFileName KeyFileName CA_Pair cobj2].
  rewrite !Join_name by discriminate.
  assert (Lv2 : w_pairs w2 !! l2 = Some {| Cert := None; Key := None; KeyBits := 0 |})
    by apply lookup_last.
  rewrite (LoadFiles_eq l2 _ _ _ w2 Lv2). cbn zeta. cbn [w_fs w2 set_cas set_pairs].
  rewrite (content_readerAt _ _ _ Hcert), read_cert_block, Henc.
  rewrite (content_readerAt _ _ _ Hkey), read_key_block.
  subst w2. eexists _, _, cobj2, l, l2, c, k. split; [reflexivity|].
  cbn [w_cas w_pairs w_fs set_pairs set_cas log KeyBits].
  split.
  { apply loadCA_Some. cbn [w_cas set_pairs log set_cas].
    rewrite lookup_app_l by (rewrite Hcas1, length_app; cbn; lia).
    rewrite Hcas1. apply lookup_last. }
  split; [cbn; f_equal; subst l; lia|].
  split. { apply loadCA_Some. cbn [w_cas set_pairs log set_cas]. apply lookup_last. }
  split; [reflexivity|]. split; [lia|].
  subst l2. rewrite !insert_last.
  split.
  { rewrite lookup_app_l by (rewrite Hp1, !length_app; cbn; subst l; lia).
    rewrite Hp1. subst l.
    replace (length (w_pairs w0) + 1)
      with (length (w_pairs w0 ++ [{| Cert := None; Key := None; KeyBits := 0 |}]))
      by (rewrite length_app; reflexivity).
    apply lookup_last. }
  split; [apply lookup_last|].
  split; [exact Hca|]. split; [exact Hiss|]. split; [exact Hcert | exact Hkey].
Qed.

End Authority_roundtrip.

Section Samples_29.

#[local] Existing Instance sampleNet.
#[local] Existing Instance sampleStrings.
#[local] Existing Instance sampleNilKey.

Lemma Init_then_Load_witness :
  exists w w1 ca2 w2 w3 l2 c k,
    New sampleWorld = Some (Some 0, w)
    /\ Init (Some 0) NewTemplate ["ca"] w = Some (None, w1)
    /\ New w1 = Some (ca2, w2)
    /\ Load ca2 ["ca"] w2 = Some (None, w3)
    /\ w_pairs w3 !! l2 = Some {| Cert := Some c; Key := Some k; KeyBits := 0 |}
    /\ IsCA c = true.
Proof.
  destruct (New sampleWorld) as [[ca w]|] eqn:HN; [|discriminate HN].
  assert (Eca : ca = Some 0) by (rewrite New_eq in HN; now inversion HN). subst ca.
  destruct (Init (Some 0) NewTemplate ["ca"] w) as [[[e|] w1]|] eqn:HI;
    try (rewrite New_eq in HN; inversion HN; subst; vm_compute in HI; discriminate HI).
  destruct (New w1) as [[ca2 w2]|] eqn:HN2; [|discriminate HN2].
  destruct (Init_then_Load NewTemplate ["ca"] sampleWorld w w1 w2 (Some 0) ca2
              HN HI HN2)
    as (w3 & cobj & cobj2 & l & l2 & c & k & HL & _ & _ & _ & _ & _ & _ & Hp2 & Hca & _).
  exists w, w1, ca2, w2, w3, l2, c, k. repeat split; assumption.
Defined.

End Samples_29.

(** ** The generate command (cmd/generate.go) *)

Lemma bind_Printf {A : Type} (line : string) (k : unit -> M A) (w : World) :
  bind (Printf line) k w = k tt (print line w).
Proof. reflexivity. Qed.

Lemma keyFor_keyOfSize `{str : StringsLib} (s : string) (bits : Z) :
  parseKeyBits s = (bits, None) ->
  In s keySizeTokens /\ forall z, keyOfSize bits z = keyFor s z.
Proof.
  intros H.
  assert (Hin : In s keySizeTokens).
  { apply isValidKeySize_tokens. unfold parseKeyBits in H.
    destruct (isValidKeySize s); [reflexivity | discriminate H]. }
  split; [exact Hin|]. unfold keySizeTokens in Hin. cbn in Hin.
  repeat (destruct Hin as [<-|Hin];
          [unfold parseKeyBits in H; rewrite strings_ToUpper_ASCII in H by reflexivity;
           cbn in H; inversion H; subst bits; intros z; reflexivity|]).
  contradiction.
Qed.

Lemma LoadFiles_success_inv `{str : StringsLib} (l : nat) (v : Pair)
    (certPath keyPath : path) (w w' : World) :
  w_pairs w !! l = Some v ->
  LoadFiles (Some l) certPath keyPath w = Some (None, w') ->
  exists s c s' k,
    content (w_fs w) certPath = Some s /\ readPEMCert (readerOf s) = (Some c, None)
    /\ content (w_fs w) keyPath = Some s' /\ readPEMKey (readerOf s') = (Some k, None)
    /\ encoded c
    /\ w_pairs w' = <[l := {| Cert := Some c; Key := Some k; KeyBits := KeyBits v |}]>
                      (w_pairs w).
Proof.
  intros Hv H. rewrite (LoadFiles_eq l v _ _ w Hv) in H. cbn zeta in H.
  destruct (readerAt (w_fs w) certPath) as [r|] eqn:Hr; [|discriminate H].
  destruct (readPEMCert r) as [cert [e|]] eqn:Hcert; [discriminate H|].
  destruct (readPEMCert_ok _ _ Hcert) as (c & -> & Hre & Henc).
  destruct (readerAt_content _ _ _ Hr Hre) as (Hcont & Hrd). rewrite Hrd in Hcert.
  destruct (readerAt (w_fs w) keyPath) as [r'|] eqn:Hr'; [|discriminate H].
  destruct (readPEMKey r') as [key [e|]] eqn:Hkey; [discriminate H|].
  destruct (readPEMKey_ok _ _ Hkey) as (k & -> & Hre').
  destruct (readerAt_content _ _ _ Hr' Hre') as (Hcont' & Hrd'). rewrite Hrd' in Hkey.
  inversion H; subst. exists (rd_data r), c, (rd_data r'), k. repeat split; assumption.
Qed.

Section Generate.

Context `{net : NetLib} `{str : StringsLib} `{nk : NilKey}.

(** What a run of the generate command with [--self-signed] that exits
    with status 0 has done. *)
Lemma generateRun_self_inv (inFlags : initFlags) (server : serverFlags) (w w' : World) :
  generateRun inFlags server true w = Some (0%Z, w') ->
  exists bits l w1 w2 w3,
    parseKeyBits (keySize inFlags) = (bits, None)
    /\ NewServerPair (serverTemplate server bits) w = Some ((Some l, None), w1)
    /\ SignWith (Some l) (Some l) (print "Creating a self-signed certificate" w1)
       = Some (None, w2)
    /\ WriteFiles (Some l) (serverCertPath server) (serverKeyPath server) w2
       = Some (None, w3)
    /\ w_fs w' = w_fs w3 /\ w_pairs w' = w_pairs w3.
Proof.
  unfold generateRun.
  replace (match Server.caDir server with
           | Some _ => false
           | None => negb true
           end) with false by (destruct (Server.caDir server); reflexivity).
  destruct (parseKeyBits (keySize inFlags)) as [bits [e|]] eqn:Hparse.
  { rewrite bind_Printf. intros H. inversion H. }
  fold (serverTemplate server bits). intros H.
  apply bind_inv in H as ([p [e|]] & w1 & HN & H).
  { rewrite bind_Printf in H. inversion H. }
  destruct (NewServerPair_inv _ _ _ _ HN) as (_ & _ & _ & -> & _).
  apply bind_inv in H as (ex & w2 & HB & H).
  rewrite bind_Printf in HB.
  apply bind_inv in HB as ([e|] & w2' & HS & HB).
  { rewrite bind_Printf in HB. inversion HB; subst. inversion H. }
  inversion HB; subst ex w2'. clear HB.
  fold (serverCertPath server) in H. fold (serverKeyPath server) in H.
  apply bind_inv in H as ([e|] & w3 & HW & H).
  { rewrite bind_Printf in H. inversion H. }
  rewrite !bind_Printf in H. inversion H; subst w'. clear H.
  eexists bits, _, w1, w2, w3. repeat split; eassumption || reflexivity.
Qed.

(** The same for a run without [--self-signed]. *)
Lemma generateRun_ca_inv (inFlags : initFlags) (server : serverFlags) (w w' : World) :
  generateRun inFlags server false w = Some (0%Z, w') ->
  exists d bits l w1 ca wn wl cobj w2 w3,
    Server.caDir server = Some d
    /\ parseKeyBits (keySize inFlags) = (bits, None)
    /\ NewServerPair (serverTemplate server bits) w = Some ((Some l, None), w1)
    /\ New (print ("Creating a certificate signed by the CA at " +:+ path_text d) w1)
       = Some (ca, wn)
    /\ Load ca d wn = Some (None, wl)
    /\ loadCA ca wl = Some (cobj, wl)
    /\ SignWith (Some l) (CA_Pair cobj) wl = Some (None, w2)
    /\ WriteFiles (Some l) (serverCertPath server) (serverKeyPath server) w2
       = Some (None, w3)
    /\ w_fs w' = w_fs w3 /\ w_pairs w' = w_pairs w3.
Proof.
  unfold generateRun.
  destruct (Server.caDir server) as [d|] eqn:Hd; cbn [negb].
  2:{ rewrite bind_Printf. intros H. inversion H. }
  destruct (parseKeyBits (keySize inFlags)) as [bits [e|]] eqn:Hparse.
  { rewrite bind_Printf. intros H. inversion H. }
  fold (serverTemplate server bits). intros H.
  apply bind_inv in H as ([p [e|]] & w1 & HN & H).
  { rewrite bind_Printf in H. inversion H. }
  destruct (NewServerPair_inv _ _ _ _ HN) as (_ & _ & _ & -> & _).
  apply bind_inv in H as (ex & w2 & HB & H).
  rewrite bind_Printf in HB. cbn [caDir_text default] in HB.
  apply bind_inv in HB as (ca & wn & HNew & HB).
  apply bind_inv in HB as ([e|] & wl & HL & HB).
  { rewrite bind_Printf in HB. inversion HB; subst. inversion H. }
  apply bind_inv in HB as (cobj & wl' & HC & HB).
  pose proof (loadCA_inv _ _ _ _ HC) as (-> & _).
  apply bind_inv in HB as ([e|] & w2' & HS & HB).
  { rewrite bind_Printf in HB. inversion HB; subst. inversion H. }
  inversion HB; subst ex w2'. clear HB.
  fold (serverCertPath server) in H. fold (serverKeyPath server) in H.
  apply bind_inv in H as ([e|] & w3 & HW & H).
  { rewrite bind_Printf in H. inversion H. }
  rewrite !bind_Printf in H. inversion H; subst w'. clear H.
  eexists d, bits, _, w1, ca, wn, wl, cobj, w2, w3.
  repeat split; eassumption || reflexivity.
Qed.

End Generate.

Lemma server_paths_differ (server : serverFlags) :
  serverCertPath server <> serverKeyPath server.
Proof.
  unfold serverCertPath, serverKeyPath. rewrite !Join_name by discriminate.
  intros E. apply app_inv_head in E. discriminate E.
Qed.

#[local] Instance no_new_reads_preorder : PreOrder no_new_reads.
Proof.
  split.
  - intros w. split; [reflexivity|]. exists []. split; [now rewrite app_nil_r | reflexivity].
  - intros w1 w2 w3 (A & tr1 & T1 & R1) (B & tr2 & T2 & R2). split; [congruence|].
    exists (tr1 ++ tr2). split; [rewrite T2, T1; now rewrite app_assoc|].
    unfold reads in *. now rewrite omap_app, R1, R2.
Qed.

Ltac no_reads_side :=
  split;
  [ reflexivity
  | first [ exists []; split; [cbn; now rewrite app_nil_r | reflexivity]
          | eexists [_]; split; [reflexivity | reflexivity] ] ].

Section Generate_properties.

Context `{net : NetLib} `{str : StringsLib} `{nk : NilKey}.

(** X24. The generate command stops before it does anything when neither
    [--ca-dir] nor [--self-signed] is given, or when the key size is not
    one of the eight tokens: it prints one line and exits with status 1,
    and the world is otherwise as it was. The key size it checks is the
    one of the init command's flag variable. *)
Theorem generate_early_exit (inFlags : initFlags) (server : serverFlags)
    (selfSigned : bool) (w : World) :
  (Server.caDir server = None /\ selfSigned = false)
  \/ ~ In (keySize inFlags) keySizeTokens ->
  exists line, generateRun inFlags server selfSigned w = Some (1%Z, print line w).
Proof.
  intros Hwhy. unfold generateRun.
  destruct (match Server.caDir server with
            | Some _ => false
            | None => negb selfSigned
            end) eqn:Hmode.
  - eexists. reflexivity.
  - destruct Hwhy as [(Hd & Hs)|Hbad].
    + rewrite Hd, Hs in Hmode. discriminate Hmode.
    + assert (Hv : isValidKeySize (keySize inFlags) = false).
      { apply not_true_is_false. intros Hv. apply Hbad. now apply isValidKeySize_tokens. }
      unfold parseKeyBits. rewrite Hv. cbn [negb]. eexists. reflexivity.
Qed.

(** X25. The key size of the generate command. Whatever the mode, when the
    command exits with status 0 the key it has written to the key file is
    the key of the token in the init command's flag variable
    ([in.keySize], the argument of [parseKeyBits]); the value of its own
    flag [--key-size] is not read, and the run is the same for every value
    of it. *)
Theorem generate_key_size (inFlags : initFlags) (server : serverFlags)
    (selfSigned : bool) (w w' : World) :
  generateRun inFlags server selfSigned w = Some (0%Z, w') ->
  In (keySize inFlags) keySizeTokens
  /\ (exists z k,
        keyFor (keySize inFlags) z = Some k
        /\ content (w_fs w') (serverKeyPath server) = Some [keyBlock k])
  /\ forall s, generateRun inFlags (with_keySize s server) selfSigned w = Some (0%Z, w').
Proof.
  intros H.
  assert (Hfacts : exists bits l w1 w2 w3 (v2 : Pair),
             parseKeyBits (keySize inFlags) = (bits, None)
             /\ NewServerPair (serverTemplate server bits) w = Some ((Some l, None), w1)
             /\ w_pairs w2 !! l = Some v2
             /\ (forall v1, w_pairs w1 !! l = Some v1 -> Key v2 = Key v1)
             /\ WriteFiles (Some l) (serverCertPath server) (serverKeyPath server) w2
                = Some (None, w3)
             /\ w_fs w' = w_fs w3).
  { destruct selfSigned.
    - destruct (generateRun_self_inv _ _ _ _ H)
        as (bits & l & w1 & w2 & w3 & Hp & HN & HS & HW & Hfs & _).
      destruct (NewServerPair_inv _ _ _ _ HN) as (c0 & k & z & Hl & Hp1 & _).
      inversion Hl; subst l. clear Hl.
      pose proof (SignWith_touches _ _ _ _ _ HS) as (_ & Ht).
      assert (L1 : w_pairs (print "Creating a self-signed certificate" w1)
                     !! length (w_pairs w) = Some {| Cert := Some (forServer c0);
                                                     Key := Some k;
                                                     KeyBits := Template.KeyBits
                                                                  (serverTemplate server bits) |})
        by (cbn; rewrite Hp1; apply lookup_last).
      destruct (Ht _ _ L1) as (v' & Hv' & Hsame & _).
      destruct (Hsame eq_refl) as (Hk' & _).
      exists bits, (length (w_pairs w)), w1, w2, w3, v'.
      repeat split; try assumption.
      intros v1 Hv1. cbn in L1. rewrite L1 in Hv1. inversion Hv1; subst v1. exact Hk'.
    - destruct (generateRun_ca_inv _ _ _ _ H)
        as (d & bits & l & w1 & ca & wn & wl & cobj & w2 & w3 & Hd & Hp & HN & HNew & HL
            & HC & HS & HW & Hfs & _).
      destruct (NewServerPair_inv _ _ _ _ HN) as (c0 & k & z & Hl & Hp1 & _).
      inversion Hl; subst l. clear Hl.
      rewrite New_eq in HNew. inversion HNew; subst ca wn. clear HNew.
      unfold Load in HL. apply bind_inv in HL as (cobj0 & wn' & HC0 & HL).
      apply loadCA_inv in HC0 as (-> & n0 & Hn0 & Hc0). inversion Hn0; subst n0. clear Hn0.
      cbn [w_cas set_cas set_pairs print] in Hc0. rewrite lookup_last in Hc0.
      inversion Hc0; subst cobj0. clear Hc0. cbn [CA_Pair CertFileName KeyFileName] in HL.
      pose proof (LoadFiles_touches _ _ _ _ _ _ HL) as (_ & HtL).
      set (wn := set_cas _ _) in *.
      assert (L1 : w_pairs wn !! length (w_pairs w)
                   = Some {| Cert := Some (forServer c0); Key := Some k;
                             KeyBits := Template.KeyBits (serverTemplate server bits) |}).
      { subst wn. cbn. rewrite lookup_app_l by (rewrite Hp1, length_app; cbn; lia).
        rewrite Hp1. apply lookup_last. }
      destruct (HtL _ _ L1) as (vl & Hvl & _ & Hkeep).
      assert (Hvl' : vl = {| Cert := Some (forServer c0); Key := Some k;
                             KeyBits := Template.KeyBits (serverTemplate server bits) |}).
      { apply Hkeep. cbn. rewrite Hp1, length_app. cbn. intros E. inversion E. lia. }
      subst vl.
      pose proof (SignWith_touches _ _ _ _ _ HS) as (_ & Ht).
      destruct (Ht _ _ Hvl) as (v' & Hv' & Hsame & _).
      destruct (Hsame eq_refl) as (Hk' & _).
      exists bits, (length (w_pairs w)), w1, w2, w3, v'.
      repeat split; try assumption.
      intros v1 Hv1. rewrite Hp1, lookup_last in Hv1. inversion Hv1; subst v1. exact Hk'. }
  destruct Hfacts as (bits & l & w1 & w2 & w3 & v2 & Hp & HN & Hv2 & Hkey & HW & Hfs).
  destruct (keyFor_keyOfSize _ _ Hp) as (Hin & Hkf).
  split; [exact Hin|]. split.
  - destruct (NewServerPair_inv _ _ _ _ HN) as (c0 & k & z & Hl & Hp1 & Hk & _).
    inversion Hl; subst l. clear Hl.
    destruct (WriteFiles_inv _ _ _ _ _ _ Hv2 HW) as (c & k2 & _ & Hk2 & _ & Hcont & _).
    rewrite (Hkey _ ltac:(rewrite Hp1; apply lookup_last)) in Hk2. cbn in Hk2.
    inversion Hk2; subst k2.
    exists z, k. split; [rewrite <- Hkf; exact Hk|]. rewrite Hfs. exact Hcont.
  - intros s. exact H.
Qed.

(** X26. With [--self-signed] the generate command needs no CA and reads
    none, whatever [--ca-dir] says: however the run ends, no CA object
    has been made or changed and no file has been opened for reading. *)
Theorem generate_self_signed_reads_nothing (inFlags : initFlags) (server : serverFlags) :
  frames no_new_reads (generateRun inFlags server true).
Proof.
  unfold generateRun.
  replace (match Server.caDir server with
           | Some _ => false
           | None => negb true
           end) with false by (destruct (Server.caDir server); reflexivity).
  destruct (parseKeyBits (keySize inFlags)) as [bits [e|]];
    frames_with no_reads_side.
Qed.

End Generate_properties.

Section Samples_30.

#[local] Existing Instance sampleNet.
#[local] Existing Instance sampleStrings.
#[local] Existing Instance sampleNilKey.

Lemma generate_early_exit_witness :
  exists line,
    generateRun
      {| organization := ""; commonName := ""; validForDays := 365; keySize := "P512";
         caDir := [] |} sampleServer false caWorld = Some (1%Z, print line caWorld).
Proof.
  apply (generate_early_exit).
  right. cbn. intros H. repeat (destruct H as [H|H]; [discriminate H|]). exact H.
Defined.

Lemma generate_key_size_witness :
  exists w' z k,
    generateRun sampleInit sampleServer true caWorld = Some (0%Z, w')
    /\ Server.keySize sampleServer = "4096"
    /\ keyFor "P256" z = Some k
    /\ content (w_fs w') ["srv"; "server.key"] = Some [keyBlock k].
Proof.
  destruct (generateRun sampleInit sampleServer true caWorld)
    as [[st w']|] eqn:HG; [|vm_compute in HG; discriminate HG].
  assert (Hst : st = 0%Z) by (vm_compute in HG; now inversion HG). subst st.
  destruct (generate_key_size sampleInit sampleServer true caWorld w' HG)
    as (_ & (z & k & Hk & Hc) & _).
  exists w', z, k. split; [reflexivity|]. split; [reflexivity|]. split; [exact Hk | exact Hc].
Defined.

Lemma generate_self_signed_reads_nothing_witness :
  exists w',
    generateRun sampleInit sampleServer true caWorld = Some (0%Z, w')
    /\ no_new_reads caWorld w'
    /\ w_cas w' = [] /\ reads (w_trace w') = [].
Proof.
  destruct (generateRun sampleInit sampleServer true caWorld)
    as [[st w']|] eqn:HG; [|vm_compute in HG; discriminate HG].
  assert (Hst : st = 0%Z) by (vm_compute in HG; now inversion HG). subst st.
  pose proof (generate_self_signed_reads_nothing sampleInit sampleServer
                caWorld 0%Z w' HG) as Hn.
  exists w'. split; [reflexivity|]. split; [exact Hn|].
  destruct Hn as (Hcas & tr & Htr & Hr). split; [exact Hcas|].
  rewrite Htr. exact Hr.
Defined.

End Samples_30.

Section Generate_certificates.

Context `{net : NetLib} `{str : StringsLib} `{nk : NilKey}.

Lemma server_descriptor (server : serverFlags) (bits : Z) (c0 : Certificate) (w : World) :
  (c0 = emptyCertificate
   \/ exists serial,
        c0 = withHosts (Template.HostNames (serverTemplate server bits))
               (descriptor (serverTemplate server bits) serial (w_now w))) ->
  SerialNumber (forServer c0) <> None ->
  Subject c0 = {| pkix_Organization := [Server.organization server];
                  pkix_CommonName := Server.commonName server |}
  /\ BasicConstraintsValid c0 = true /\ IsCA c0 = false
  /\ KeyUsage c0 = 0%Z /\ ExtKeyUsage c0 = []
  /\ length (IPAddresses c0) + length (DNSNames c0) = S (countSep (Server.host server) ","%char).
Proof.
  intros [->|(serial & ->)] Hser; [now contradiction Hser|].
  repeat split. unfold withHosts. cbn.
  now rewrite classified_length, strings_Split_length.
Qed.

(** X27. A self-signed server certificate. When the generate command
    exits with status 0 in the mode [--self-signed], the certificate file
    holds one block, the encoding of a certificate with these
    properties, and the key file holds the key it certifies: the issuer
    is the subject, made of the organization and the common name of the
    flags; it is a CA certificate, since [SignWith] sets the CA flag and
    the CA usages of a pair that signs itself: its key usages are those
    of a server (5) and of a CA (97) together, with the extended usage
    server authentication; and it names one host for every piece of
    [--hostnames]. *)
Theorem generate_self_signed (inFlags : initFlags) (server : serverFlags) (w w' : World) :
  generateRun inFlags server true w = Some (0%Z, w') ->
  exists c k,
    content (w_fs w') (serverCertPath server) = Some [pemBlockForCert c]
    /\ content (w_fs w') (serverKeyPath server) = Some [keyBlock k]
    /\ encoded c /\ CertPublicKey c = Some (verifyingKey k)
    /\ Issuer c = Subject c
    /\ Subject c = {| pkix_Organization := [Server.organization server];
                      pkix_CommonName := Server.commonName server |}
    /\ IsCA c = true /\ KeyUsage c = 101%Z /\ ExtKeyUsage c = [ExtKeyUsageServerAuth]
    /\ length (IPAddresses c) + length (DNSNames c)
       = S (countSep (Server.host server) ","%char).
Proof.
  intros H.
  destruct (generateRun_self_inv _ _ _ _ H)
    as (bits & l & w1 & w2 & w3 & Hp & HN & HS & HW & Hfs & _).
  destruct (NewServerPair_inv _ _ _ _ HN) as (c0 & k & z & Hl & Hp1 & _ & _ & Hc0).
  inversion Hl; subst l. clear Hl. set (l := length (w_pairs w)) in *.
  set (wp := print "Creating a self-signed certificate" w1) in *.
  assert (L1 : w_pairs wp !! l = Some {| Cert := Some (forServer c0); Key := Some k;
                                         KeyBits := bits |})
    by (subst wp; cbn; rewrite Hp1; apply lookup_last).
  destruct (SignWith_inv l l _ _ _ _ k wp w2 None L1 eq_refl L1 eq_refl eq_refl HS)
    as (_ & serial & pub & c & Hser & Hpub & Hparse & Hp2).
  destruct (parse_encoded _ _ Hparse) as (Henc & _).
  destruct (server_descriptor server bits c0 w Hc0 ltac:(rewrite Hser; discriminate))
    as (Hsub & Hbc & Hca & Hku & Heku & Hhosts).
  assert (L2 : w_pairs w2 !! l = Some {| Cert := Some c; Key := Some k; KeyBits := bits |}).
  { rewrite Hp2. apply list_lookup_insert_eq. now apply lookup_lt_Some in L1. }
  destruct (WriteFiles_inv _ _ _ _ _ _ L2 HW) as (c1 & k1 & Hc1 & Hk1 & _ & Hkey & Hcert & _).
  cbn in Hc1, Hk1. inversion Hc1; subst c1. inversion Hk1; subst k1. clear Hc1 Hk1.
  specialize (Hcert (server_paths_differ server)).
  exists c, k. rewrite Hfs. split; [exact Hcert|]. split; [exact Hkey|].
  split; [exact Henc|].
  cbn in Hparse. injection Hparse as Hc'.
  rewrite bool_decide_eq_true_2 in Hc' by reflexivity.
  cbn [Key] in Hpub. rewrite <- Hc'. cbn.
  split. { destruct k; cbn in Hpub; now inversion Hpub. }
  split; [reflexivity|]. split; [exact Hsub|].
  rewrite Hbc, Hku, Heku. split; [reflexivity|]. split; [reflexivity|].
  split; [reflexivity|]. exact Hhosts.
Qed.

(** What a run of the generate command that signs with a CA and exits
    with status 0 has read and written. *)
Lemma generateRun_ca_facts (inFlags : initFlags) (server : serverFlags) (w w' : World) :
  generateRun inFlags server false w = Some (0%Z, w') ->
  exists d s caCert s' caKey c k tbs,
    Server.caDir server = Some d
    /\ content (w_fs w) (d ++ [RootCertFileName]) = Some s
    /\ readPEMCert (readerOf s) = (Some caCert, None)
    /\ content (w_fs w) (d ++ [RootKeyFileName]) = Some s'
    /\ readPEMKey (readerOf s') = (Some caKey, None)
    /\ content (w_fs w') (serverCertPath server) = Some [pemBlockForCert c]
    /\ content (w_fs w') (serverKeyPath server) = Some [keyBlock k]
    /\ encoded c /\ CertPublicKey c = Some (verifyingKey k)
    /\ Issuer c = Subject caCert
    /\ Raw c = DERCertificate tbs (verifyingKey caKey)
    /\ Subject c = {| pkix_Organization := [Server.organization server];
                      pkix_CommonName := Server.commonName server |}
    /\ IsCA c = false /\ KeyUsage c = 5%Z /\ ExtKeyUsage c = [ExtKeyUsageServerAuth]
    /\ (forall q, q <> serverCertPath server -> q <> serverKeyPath server ->
          isFile (w_fs w) q = true -> lookupNode (w_fs w') q = lookupNode (w_fs w) q).
Proof.
  intros H.
  destruct (generateRun_ca_inv _ _ _ _ H)
    as (d & bits & l & w1 & ca & wn & wl & cobj & w2 & w3 & Hd & Hp & HN & HNew & HL
        & HC & HS & HW & Hfs & _).
  destruct (NewServerPair_inv _ _ _ _ HN)
    as (c0 & k & z & Hl & Hp1 & _ & (_ & Hfs1 & _) & Hc0).
  inversion Hl; subst l. clear Hl. set (l := length (w_pairs w)) in *.
  rewrite New_eq in HNew. inversion HNew; subst ca wn. clear HNew.
  cbn [w_cas w_pairs print] in *.
  set (wn := set_cas _ _) in *.
  assert (Hcn : w_cas wn !! length (w_cas w1)
                = Some {| CA_Pair := Some (length (w_pairs w1));
                          CertFileName := RootCertFileName;
                          KeyFileName := RootKeyFileName |}) by apply lookup_last.
  unfold Load in HL. rewrite (bind_eq _ _ _ _ _ (loadCA_Some _ _ wn Hcn)) in HL.
  cbn [CA_Pair CertFileName KeyFileName] in HL.
  rewrite !Join_name in HL by discriminate.
  set (lca := length (w_pairs w1)) in *.
  assert (Hlca : lca = S l) by (subst lca l; rewrite Hp1, length_app; cbn; lia).
  assert (Lca : w_pairs wn !! lca = Some {| Cert := None; Key := None; KeyBits := 0 |})
    by apply lookup_last.
  pose proof (LoadFiles_keeps_cas _ _ _ _ _ _ HL) as Hcas_l.
  pose proof (LoadFiles_keeps_fs _ _ _ _ _ _ HL) as Hfs_l.
  destruct (LoadFiles_success_inv lca _ _ _ wn wl Lca HL)
    as (s & caCert & s' & caKey & Hs & Hcc & Hs' & Hck & _ & Hpl).
  cbn [w_fs wn set_cas set_pairs print] in Hs, Hs'. rewrite Hfs1 in Hs, Hs'.
  apply loadCA_inv in HC as (_ & n0 & Hn0 & Hc0').
  inversion Hn0; subst n0. clear Hn0.
  rewrite Hcas_l, Hcn in Hc0'. inversion Hc0'; subst cobj. clear Hc0'.
  cbn [CA_Pair] in HS.
  assert (L1 : w_pairs wl !! l = Some {| Cert := Some (forServer c0); Key := Some k;
                                         KeyBits := bits |}).
  { rewrite Hpl, list_lookup_insert_ne by lia. subst wn. cbn [w_pairs set_cas set_pairs].
    rewrite lookup_app_l by lia. rewrite Hp1. apply lookup_last. }
  assert (Lp : w_pairs wl !! lca = Some {| Cert := Some caCert; Key := Some caKey;
                                           KeyBits := 0 |}).
  { rewrite Hpl. apply list_lookup_insert_eq. now apply lookup_lt_Some in Lca. }
  assert (Hne : l <> lca) by lia.
  destruct (SignWith_inv l lca _ _ _ _ caKey wl w2 None L1 eq_refl Lp eq_refl eq_refl HS)
    as ((_ & Hfs2 & _) & serial & pub & c & Hser & Hpub & Hparse & Hp2).
  destruct (parse_encoded _ _ Hparse) as (Henc & Hraw).
  destruct (server_descriptor server bits c0 w Hc0 ltac:(rewrite Hser; discriminate))
    as (Hsub & Hbc & Hca & Hku & Heku & _).
  assert (L2 : w_pairs w2 !! l = Some {| Cert := Some c; Key := Some k; KeyBits := bits |}).
  { rewrite Hp2. apply list_lookup_insert_eq. now apply lookup_lt_Some in L1. }
  destruct (WriteFiles_inv _ _ _ _ _ _ L2 HW)
    as (c1 & k1 & Hc1 & Hk1 & _ & Hkey & Hcert & Hoth).
  cbn in Hc1, Hk1. inversion Hc1; subst c1. inversion Hk1; subst k1. clear Hc1 Hk1.
  specialize (Hcert (server_paths_differ server)).
  rewrite bool_decide_eq_false_2 in Hparse, Hraw by exact Hne.
  exists d, s, caCert, s', caKey, c, k, (tbsOf (toSign false (Subject caCert) (forServer c0))
                                           (Subject caCert) serial pub).
  split; [exact Hd|]. split; [exact Hs|]. split; [exact Hcc|].
  split; [exact Hs'|]. split; [exact Hck|].
  rewrite Hfs. split; [exact Hcert|]. split; [exact Hkey|]. split; [exact Henc|].
  cbn in Hparse. injection Hparse as Hc'.
  cbn [Key] in Hpub. rewrite <- Hc'. cbn.
  split. { destruct k; cbn in Hpub; now inversion Hpub. }
  split; [reflexivity|]. split; [reflexivity|]. split; [exact Hsub|].
  rewrite Hbc, Hca, Hku, Heku. split; [reflexivity|]. split; [reflexivity|].
  split; [reflexivity|].
  intros q Hq1 Hq2 Hf. rewrite (Hoth q Hq1 Hq2).
  - rewrite Hfs2, Hfs_l. subst wn. cbn [w_fs set_cas set_pairs print]. now rewrite Hfs1.
  - rewrite Hfs2, Hfs_l. subst wn. cbn [w_fs set_cas set_pairs print]. now rewrite Hfs1.
Qed.

(** X28. A server certificate signed by a CA. When the generate command
    exits with status 0 without [--self-signed], the directory of
    [--ca-dir] held a certificate file and a key file that decode, and
    the certificate file of the server holds the encoding of a
    certificate whose issuer is the subject of that CA certificate,
    signed with that CA key, over the public key of the server's own new
    key, which the key file holds. It is not a CA certificate, and it has
    the usages of a server: key encipherment and digital signature (5),
    server authentication. Nothing checks that the certificate and the
    key of the CA belong together. The files of the CA are as they were,
    unless they are the two files written. *)
Theorem generate_ca_signed (inFlags : initFlags) (server : serverFlags) (w w' : World) :
  generateRun inFlags server false w = Some (0%Z, w') ->
  exists d s caCert s' caKey c k,
    Server.caDir server = Some d
    /\ content (w_fs w) (d ++ [RootCertFileName]) = Some s
    /\ readPEMCert (readerOf s) = (Some caCert, None)
    /\ content (w_fs w) (d ++ [RootKeyFileName]) = Some s'
    /\ readPEMKey (readerOf s') = (Some caKey, None)
    /\ content (w_fs w') (serverCertPath server)
       = Some [{| Type_ := "CERTIFICATE"; Bytes := Raw c |}]
    /\ content (w_fs w') (serverKeyPath server) = Some [keyBlock k]
    /\ x509_ParseCertificate (Raw c) = (Some c, None)
    /\ CertPublicKey c = Some (verifyingKey k)
    /\ Issuer c = Subject caCert
    /\ (exists tbs, Raw c = DERCertificate tbs (verifyingKey caKey))
    /\ Subject c = {| pkix_Organization := [Server.organization server];
                      pkix_CommonName := Server.commonName server |}
    /\ IsCA c = false /\ KeyUsage c = 5%Z /\ ExtKeyUsage c = [ExtKeyUsageServerAuth]
    /\ (forall q, q <> serverCertPath server -> q <> serverKeyPath server ->
          isFile (w_fs w) q = true -> content (w_fs w') q = content (w_fs w) q).
Proof.
  intros H.
  destruct (generateRun_ca_facts inFlags server w w' H)
    as (d & s & caCert & s' & caKey & c & k & tbs & Hd & Hs & Hcc & Hs' & Hck & Hc & Hk
        & Henc & Hpub & Hiss & Hraw & Hsub & Hca & Hku & Heku & Hoth).
  exists d, s, caCert, s', caKey, c, k.
  split; [exact Hd|]. split; [exact Hs|]. split; [exact Hcc|]. split; [exact Hs'|].
  split; [exact Hck|]. split; [exact Hc|]. split; [exact Hk|]. split; [exact Henc|].
  split; [exact Hpub|]. split; [exact Hiss|]. split; [exists tbs; exact Hraw|].
  split; [exact Hsub|]. split; [exact Hca|]. split; [exact Hku|]. split; [exact Heku|].
  intros q Hq1 Hq2 Hf. unfold content. now rewrite (Hoth q Hq1 Hq2 Hf).
Qed.

End Generate_certificates.

Section Samples_31.

#[local] Existing Instance sampleNet.
#[local] Existing Instance sampleStrings.
#[local] Existing Instance sampleNilKey.

Lemma generate_self_signed_witness :
  exists w' c k,
    generateRun sampleInit sampleServer true caWorld = Some (0%Z, w')
    /\ content (w_fs w') ["srv"; "server.crt"] = Some [pemBlockForCert c]
    /\ content (w_fs w') ["srv"; "server.key"] = Some [keyBlock k]
    /\ IsCA c = true /\ KeyUsage c = 101%Z
    /\ length (IPAddresses c) + length (DNSNames c) = 2.
Proof.
  destruct (generateRun sampleInit sampleServer true caWorld)
    as [[st w']|] eqn:HG; [|vm_compute in HG; discriminate HG].
  assert (Hst : st = 0%Z) by (vm_compute in HG; now inversion HG). subst st.
  destruct (generate_self_signed sampleInit sampleServer caWorld w' HG)
    as (c & k & Hc & Hk & _ & _ & _ & _ & Hca & Hku & _ & Hh).
  exists w', c, k. repeat split; assumption.
Defined.

Lemma generate_ca_signed_witness :
  exists w' c k,
    generateRun sampleInit sampleServer false caWorld = Some (0%Z, w')
    /\ content (w_fs w') ["srv"; "server.crt"] = Some [pemBlockForCert c]
    /\ content (w_fs w') ["srv"; "server.key"] = Some [keyBlock k]
    /\ Issuer c = sampleName /\ IsCA c = false /\ KeyUsage c = 5%Z
    /\ content (w_fs w') ["ca"; "root.key"] = content (w_fs caWorld) ["ca"; "root.key"].
Proof.
  destruct (generateRun sampleInit sampleServer false caWorld)
    as [[st w']|] eqn:HG; [|vm_compute in HG; discriminate HG].
  assert (Hst : st = 0%Z) by (vm_compute in HG; now inversion HG). subst st.
  destruct (generate_ca_signed sampleInit sampleServer caWorld w' HG)
    as (d & s & caCert & s' & caKey & c & k & Hd & Hs & Hcc & _ & _ & Hc & Hk & _ & _
        & Hiss & _ & _ & Hca & Hku & _ & Hoth).
  exists w', c, k. split; [reflexivity|]. split; [exact Hc|]. split; [exact Hk|].
  inversion Hd; subst d. vm_compute in Hs. inversion Hs; subst s.
  vm_compute in Hcc. inversion Hcc; subst caCert.
  split; [exact Hiss|]. split; [exact Hca|]. split; [exact Hku|].
  apply (Hoth ["ca"; "root.key"]); [discriminate.. | reflexivity].
Defined.

End Samples_31.

(** ** The init command, and the two commands in a row (cmd/init.go) *)

Section Commands.

Context `{net : NetLib} `{str : StringsLib} `{nk : NilKey}.

(** What a run of the init command that exits with status 0 has done. *)
Lemma initRun_inv (flags : initFlags) (w w' : World) :
  initRun flags w = Some (0%Z, w') ->
  exists bits wn w1,
    parseKeyBits (keySize flags) = (bits, None)
    /\ New (print ("Creating a new certificate authority at " +:+ path_text (caDir flags)) w)
       = Some (Some (length (w_cas w)), wn)
    /\ Init (Some (length (w_cas w))) (initTemplate flags bits) (caDir flags) wn
       = Some (None, w1)
    /\ w_fs w' = w_fs w1 /\ w_pairs w' = w_pairs w1 /\ w_cas w' = w_cas w1
    /\ w_out w' = w_out w1 ++ ["Successfully created certification authority."; "Done"].
Proof.
  unfold initRun.
  destruct (parseKeyBits (keySize flags)) as [bits [e|]] eqn:Hp.
  { rewrite bind_Printf. intros H. inversion H. }
  rewrite bind_Printf. fold (initTemplate flags bits). intros H.
  apply bind_inv in H as (ca & wn & HN & H).
  pose proof HN as HN'. rewrite New_eq in HN'. inversion HN'; subst ca. clear HN'.
  apply bind_inv in H as ([e|] & w1 & HI & H).
  { rewrite bind_Printf in H. inversion H. }
  rewrite !bind_Printf in H. inversion H; subst w'. clear H.
  exists bits, wn, w1. cbn [w_cas print] in *.
  split; [reflexivity|]. split; [exact HN|]. split; [exact HI|].
  split; [reflexivity|]. split; [reflexivity|]. split; [reflexivity|].
  cbn. now rewrite <- app_assoc.
Qed.

(** The authority the init command leaves in its directory. *)
Lemma initRun_facts (flags : initFlags) (w w' : World) :
  initRun flags w = Some (0%Z, w') ->
  exists c k z,
    content (w_fs w') (rootCertPath flags) = Some [pemBlockForCert c]
    /\ content (w_fs w') (rootKeyPath flags) = Some [keyBlock k]
    /\ keyFor (keySize flags) z = Some k
    /\ encoded c /\ CertPublicKey c = Some (verifyingKey k)
    /\ Issuer c = Subject c
    /\ Subject c = {| pkix_Organization := [organization flags];
                      pkix_CommonName := commonName flags |}
    /\ IsCA c = true /\ KeyUsage c = 97%Z /\ ExtKeyUsage c = []
    /\ DNSNames c = [] /\ IPAddresses c = []
    /\ NotBefore c = sec (w_now w)
    /\ NotAfter c = sec (time_Add (w_now w) (daysToDuration (validForDays flags)))
    /\ isDir (w_fs w') (caDir flags) = true
    /\ last (w_out w') = Some "Done".
Proof.
  intros H.
  destruct (initRun_inv flags w w' H) as (bits & wn & w1 & Hp & HN & HI & Hfs & _ & _ & Hout).
  rewrite New_eq in HN. inversion HN; subst wn. clear HN.
  destruct (Init_inv _ _ _ _ _ HI)
    as (nca & cobj & c & k & Hnca & Hcobj & _ & _ & Henc & Hca & Hiss & Hpub & _ & Hkey
        & Hcert & Hdir & (z & Hz) & Hsub & Hku & Heku & Hnb & Hna & Hip & Hdns).
  inversion Hnca; subst nca. clear Hnca.
  cbn [w_cas w_now set_cas set_pairs print] in Hcobj, Hnb, Hna.
  rewrite lookup_last in Hcobj. inversion Hcobj; subst cobj. clear Hcobj.
  cbn [CertFileName KeyFileName] in Hkey, Hcert.
  rewrite !Join_name in Hkey, Hcert by discriminate.
  specialize (Hcert ltac:(intros E; apply app_inv_head in E; discriminate E)).
  destruct (keyFor_keyOfSize _ _ Hp) as (_ & Hkf).
  exists c, k, z. rewrite Hfs. unfold rootCertPath, rootKeyPath.
  split; [exact Hcert|]. split; [exact Hkey|].
  split; [rewrite <- Hkf; exact Hz|]. split; [exact Henc|]. split; [exact Hpub|].
  split; [exact Hiss|]. split; [exact Hsub|]. split; [exact Hca|]. split; [exact Hku|].
  split; [exact Heku|]. split; [exact Hdns|]. split; [exact Hip|].
  split; [exact Hnb|]. split; [exact Hna|]. split; [exact Hdir|].
  rewrite Hout.
  change ["Successfully created certification authority."; "Done"]
    with (["Successfully created certification authority."] ++ ["Done"]).
  rewrite app_assoc. apply last_snoc.
Qed.

(** X29. The init command. When it exits with status 0 the directory of
    [--ca-dir] exists and holds, in [root.crt] and [root.key], a
    certificate and the key it certifies: the key of the token
    [--key-size]; a self-signed CA certificate for the organization and
    the common name of the flags, with the key usages digital signature,
    certificate signing and CRL signing (97), no extended usage and no
    host; valid from the reading of the clock, cut to the second, for the
    duration of [--valid-for]. The last line printed is [Done]. *)
Theorem init_creates_authority (flags : initFlags) (w w' : World) :
  initRun flags w = Some (0%Z, w') ->
  exists c k z,
    isDir (w_fs w') (caDir flags) = true
    /\ content (w_fs w') (caDir flags ++ ["root.crt"])
       = Some [{| Type_ := "CERTIFICATE"; Bytes := Raw c |}]
    /\ content (w_fs w') (caDir flags ++ ["root.key"]) = Some [keyBlock k]
    /\ keyFor (keySize flags) z = Some k
    /\ x509_ParseCertificate (Raw c) = (Some c, None)
    /\ CertPublicKey c = Some (verifyingKey k)
    /\ Issuer c = Subject c
    /\ Subject c = {| pkix_Organization := [organization flags];
                      pkix_CommonName := commonName flags |}
    /\ IsCA c = true /\ KeyUsage c = 97%Z /\ ExtKeyUsage c = []
    /\ DNSNames c = [] /\ IPAddresses c = []
    /\ NotBefore c = sec (w_now w)
    /\ NotAfter c = sec (w_now w + daysToDuration (validForDays flags))%Z
    /\ last (w_out w') = Some "Done".
Proof.
  intros H.
  destruct (initRun_facts flags w w' H)
    as (c & k & z & Hc & Hk & Hz & Henc & Hpub & Hiss & Hsub & Hca & Hku & Heku & Hdns
        & Hip & Hnb & Hna & Hdir & Hout).
  exists c, k, z. split; [exact Hdir|]. split; [exact Hc|]. split; [exact Hk|].
  split; [exact Hz|]. split; [exact Henc|]. split; [exact Hpub|]. split; [exact Hiss|].
  split; [exact Hsub|]. split; [exact Hca|]. split; [exact Hku|]. split; [exact Heku|].
  split; [exact Hdns|]. split; [exact Hip|]. split; [exact Hnb|].
  split; [exact Hna | exact Hout].
Qed.

(** X30. The two commands in a row. When the init command has exited
    with status 0 and the generate command, given the same directory as
    [--ca-dir], exits with status 0, the server certificate it writes
    chains to the CA certificate of the directory: its issuer is the
    subject of the CA certificate, and it is signed with the key whose
    public key the CA certificate certifies. The CA certificate is a CA
    certificate, the server certificate is not, and the generate command
    leaves the certificate file of the CA as it was. *)
Theorem init_then_generate_chain (flags inFlags : initFlags) (server : serverFlags)
    (w w1 w2 : World) :
  initRun flags w = Some (0%Z, w1) ->
  Server.caDir server = Some (caDir flags) ->
  generateRun inFlags server false w1 = Some (0%Z, w2) ->
  exists caCert c tbs signer,
    content (w_fs w2) (rootCertPath flags) = Some [pemBlockForCert caCert]
    /\ content (w_fs w2) (serverCertPath server) = Some [pemBlockForCert c]
    /\ IsCA caCert = true /\ Issuer caCert = Subject caCert
    /\ CertPublicKey caCert = Some signer
    /\ Raw c = DERCertificate tbs signer
    /\ Issuer c = Subject caCert
    /\ IsCA c = false.
Proof.
  intros HI Hd HG.
  destruct (initRun_facts flags w w1 HI)
    as (caCert & caKey & z & Hcc & Hck & _ & Henc & Hpub & Hiss & _ & Hca & _).
  destruct (generateRun_ca_facts inFlags server w1 w2 HG)
    as (d & s & caCert' & s' & caKey' & c & k & tbs & Hd' & Hs & Hrc & Hs' & Hrk & Hc & _
        & _ & _ & Hiss' & Hraw & _ & Hca' & _ & _ & Hoth).
  rewrite Hd in Hd'. inversion Hd'; subst d. clear Hd'.
  unfold rootCertPath, rootKeyPath in *.
  rewrite Hcc in Hs. inversion Hs; subst s. clear Hs.
  rewrite read_cert_block, Henc in Hrc. inversion Hrc; subst caCert'. clear Hrc.
  rewrite Hck in Hs'. inversion Hs'; subst s'. clear Hs'.
  rewrite read_key_block in Hrk. inversion Hrk; subst caKey'. clear Hrk.
  exists caCert, c, tbs, (verifyingKey caKey).
  split.
  { unfold content. rewrite (Hoth (caDir flags ++ [RootCertFileName])).
    - exact Hcc.
    - unfold serverCertPath. rewrite Join_name by discriminate.
      intros E. apply (f_equal (fun p => last p)) in E. rewrite !last_snoc in E.
      discriminate E.
    - unfold serverKeyPath. rewrite Join_name by discriminate.
      intros E. apply (f_equal (fun p => last p)) in E. rewrite !last_snoc in E.
      discriminate E.
    - unfold content in Hcc. unfold isFile.
      destruct (lookupNode (w_fs w1) (caDir flags ++ [RootCertFileName])) as [[m|m dd]|];
        [discriminate Hcc | reflexivity | discriminate Hcc]. }
  split; [exact Hc|]. split; [exact Hca|]. split; [exact Hiss|]. split; [exact Hpub|].
  split; [exact Hraw|]. split; [exact Hiss' | exact Hca'].
Qed.

End Commands.

Section Samples_32.

#[local] Existing Instance sampleNet.
#[local] Existing Instance sampleStrings.
#[local] Existing Instance sampleNilKey.

Lemma init_creates_authority_witness :
  exists w' c k,
    initRun
      {| organization := "Acme"; commonName := "ClusterCA"; validForDays := 365;
         keySize := "2048"; caDir := ["certs"; "ca"] |} sampleWorld = Some (0%Z, w')
    /\ content (w_fs w') ["certs"; "ca"; "root.key"] = Some [keyBlock k]
    /\ k = RSAPrivateKey 2048 7
    /\ content (w_fs w') ["certs"; "ca"; "root.crt"]
       = Some [{| Type_ := "CERTIFICATE"; Bytes := Raw c |}]
    /\ IsCA c = true /\ KeyUsage c = 97%Z.
Proof.
  destruct (initRun
              {| organization := "Acme"; commonName := "ClusterCA"; validForDays := 365;
                 keySize := "2048"; caDir := ["certs"; "ca"] |} sampleWorld)
    as [[st w']|] eqn:HR; [|vm_compute in HR; discriminate HR].
  assert (Hst : st = 0%Z) by (vm_compute in HR; now inversion HR). subst st.
  pose proof HR as HR'.
  destruct (init_creates_authority _ sampleWorld w' HR)
    as (c & k & z & _ & Hc & Hk & Hz & _ & _ & _ & _ & Hca & Hku & _).
  exists w', c, k. split; [reflexivity|]. split; [exact Hk|].
  split.
  { vm_compute in HR'. inversion HR'; subst w'. vm_compute in Hk.
    inversion Hk as [E]. destruct k; inversion E; reflexivity. }
  split; [exact Hc|]. split; [exact Hca | exact Hku].
Defined.

Lemma init_then_generate_chain_witness :
  exists w1 w2 caCert c tbs signer,
    initRun
      {| organization := "Acme"; commonName := "ClusterCA"; validForDays := 365;
         keySize := "P384"; caDir := ["ca"] |}
      (set_rand [Some 5; Some 7; Some 9; Some 11; Some 13; Some 15]%Z sampleWorld)
    = Some (0%Z, w1)
    /\ generateRun sampleInit sampleServer false w1 = Some (0%Z, w2)
    /\ content (w_fs w2) ["ca"; "root.crt"] = Some [pemBlockForCert caCert]
    /\ content (w_fs w2) ["srv"; "server.crt"] = Some [pemBlockForCert c]
    /\ CertPublicKey caCert = Some signer
    /\ Raw c = DERCertificate tbs signer
    /\ Issuer c = Subject caCert.
Proof.
  destruct (initRun
              {| organization := "Acme"; commonName := "ClusterCA"; validForDays := 365;
                 keySize := "P384"; caDir := ["ca"] |}
              (set_rand [Some 5; Some 7; Some 9; Some 11; Some 13; Some 15]%Z sampleWorld))
    as [[st w1]|] eqn:HR; [|vm_compute in HR; discriminate HR].
  assert (Hst : st = 0%Z) by (vm_compute in HR; now inversion HR). subst st.
  destruct (generateRun sampleInit sampleServer false w1)
    as [[st w2]|] eqn:HG;
    [|vm_compute in HR; inversion HR; subst w1; vm_compute in HG; discriminate HG].
  assert (Hst : st = 0%Z).
  { pose proof HR as HR'. vm_compute in HR'. inversion HR'; subst w1.
    vm_compute in HG. now inversion HG. }
  subst st.
  destruct (init_then_generate_chain _ sampleInit sampleServer _ w1 w2 HR eq_refl HG)
    as (caCert & c & tbs & signer & Hcc & Hc & _ & _ & Hpub & Hraw & Hiss & _).
  exists w1, w2, caCert, c, tbs, signer. repeat split; assumption.
Defined.

End Samples_32.
